(** * macD: a process supervisor (src/macD.c)

    A shallow embedding of the supervisor's C code and the proofs of the
    properties its specification states, and of further properties of the
    functions of macD.c.

    Conventions of the embedding
    - [int] values are [Z] with 32-bit two's-complement wrap-around written
      out ([wrap]); [/] and [%] truncate toward zero ([Z.quot], [Z.rem]).
    - C strings are [list ascii]: the characters before the terminating NUL.
    - A [malloc]ed array is a list of optional cells, [None] for a cell that
      was never written; reading such a cell where the outcome depends on
      it, and any access out of bounds, counts as undefined behaviour.
    - The operating system is an interface ([OS]): every call the program
      makes (fork, waitpid, kill, time, the /proc files, SIGINT delivery)
      is answered by a world the theorems quantify over.
    - The input file is a stream ([FILE]) over the bytes on disk: the
      buffer of bytes read ahead and the offset of the descriptor, which a
      child of [fork] shares with its parent.
    - Effects are threaded through a small monad whose results say whether
      the C code returned, called [exit], ran into undefined behaviour, or is
      still looping when the fuel of a loop model runs out. *)

From Stdlib Require Import ZArith List Ascii String Lia Bool.
From stdpp Require Import base numbers list.
Import ListNotations.

Local Open Scope Z_scope.
Local Open Scope list_scope.

(** ** C integers *)

Module CInt.

Definition INT_MIN : Z := -2147483648.
Definition INT_MAX : Z := 2147483647.
Definition LONG_MIN : Z := -9223372036854775808.
Definition LONG_MAX : Z := 9223372036854775807.

(** The value a 32-bit [int] holds after an operation whose mathematical
    result is [z]. *)
Definition wrap (z : Z) : Z := (z + 2147483648) mod 4294967296 - 2147483648.

Definition in_int (z : Z) : Prop := INT_MIN <= z <= INT_MAX.

Definition add (a b : Z) : Z := wrap (a + b).
Definition sub (a b : Z) : Z := wrap (a - b).
Definition mul (a b : Z) : Z := wrap (a * b).
(** [a / b] of C99: the quotient truncated toward zero.  [b = 0] is a trap
    in C; callers of [div] in this file guard it. *)
Definition div (a b : Z) : Z := wrap (Z.quot a b).
(** [a % b] of C99: the remainder has the sign of [a]. *)
Definition rem (a b : Z) : Z := Z.rem a b.

(** [(int) x] for a [double] [x] that holds the integer [z]: exact in range;
    out of range the x86-64 conversion yields [INT_MIN]. *)
Definition of_double (z : Z) : Z :=
  if (INT_MIN <=? z) && (z <=? INT_MAX) then z else INT_MIN.

(** [(int) x] for a [long] [x]. *)
Definition of_long (z : Z) : Z := wrap z.

End CInt.

(** ** C strings *)

Abbreviation cstring := (list ascii).

(** A [malloc]ed array of [char]: [None] is a byte never written. *)
Abbreviation buffer := (list (option ascii)).

(** A string literal of the source. *)
Definition lit (s : string) : cstring := list_ascii_of_string s.

Definition NUL : ascii := Ascii.zero.
Definition SPACE : ascii := " "%char.
Definition NEWLINE : ascii := ascii_of_nat 10.

(** ** String and number utilities *)

(** The [switch] of [convert_str_to_int] (macD.c:214-247): [add] stays [-1]
    unless [c] is a decimal digit. *)
Definition switch_digit (c : ascii) : Z :=
  match c with
  | "0"%char => 0
  | "1"%char => 1
  | "2"%char => 2
  | "3"%char => 3
  | "4"%char => 4
  | "5"%char => 5
  | "6"%char => 6
  | "7"%char => 7
  | "8"%char => 8
  | "9"%char => 9
  | _ => -1
  end.

(** The [while (c != '\0')] loop of [convert_str_to_int] (macD.c:213-254);
    the end of the list is the terminating NUL. *)
Fixpoint convert_loop (str : cstring) (total : Z) : Z :=
  match str with
  | [] => total
  | c :: rest =>
      if Ascii.eqb c NUL then total
      else
        let add := switch_digit c in
        if add =? -1 then -1
        else convert_loop rest (CInt.add (CInt.mul total 10) add)
  end.

(** [convert_str_to_int] (macD.c:207-256). *)
Definition convert_str_to_int (str : cstring) : Z := convert_loop str 0.

(** The [while (i >= 1)] loop of [get_num_digits] (macD.c:507-510). *)
Fixpoint count_digits (fuel : nat) (i digits : Z) : Z :=
  match fuel with
  | O => digits
  | S fuel' =>
      if 1 <=? i then count_digits fuel' (CInt.div i 10) (CInt.add digits 1)
      else digits
  end.

(** Iterations that exhaust any [i]: each one divides by ten, so the binary
    length of [i] bounds them. *)
Definition digit_fuel (i : Z) : nat := S (Z.to_nat (Z.log2 i)).

(** [get_num_digits] (macD.c:499-512). *)
Definition get_num_digits (i : Z) : Z :=
  let i := if i <? 0 then CInt.mul i (-1) else i in
  if i =? 0 then 1 else count_digits (digit_fuel i) i 0.

(** The digit loop of [convert_int_to_string] (macD.c:532-539): the
    characters stored at [str[0]], [str[1]], ..., least significant first. *)
Fixpoint digits_loop (fuel : nat) (i : Z) : cstring :=
  match fuel with
  | O => []
  | S fuel' =>
      if 0 <? i then
        let d := CInt.rem i 10 in
        ascii_of_nat (Z.to_nat (48 + d))
          :: digits_loop fuel' (CInt.div (CInt.sub i d) 10)
      else []
  end.

(** One pass of the in-place reversal (macD.c:544-551): swap [str[lptr]]
    and [str[rptr]], then move both pointers inward. *)
Fixpoint reverse_loop (fuel : nat) (str : cstring) (lptr rptr : nat) : cstring :=
  match fuel with
  | O => str
  | S fuel' =>
      if (lptr <? rptr)%nat then
        match str !! rptr, str !! lptr with
        | Some temp, Some l =>
            reverse_loop fuel' (<[lptr := temp]> (<[rptr := l]> str))
              (S lptr) (pred rptr)
        | _, _ => str
        end
      else str
  end.

(** The characters [convert_int_to_string] (macD.c:525-553) leaves in
    [str[0]], ..., [str[index-1]] when it returns: the digits of [i], the
    most significant first.  For [i < 0] (outside the documented
    pre-condition) the loops write nothing. *)
Definition int_digits (i : Z) : cstring :=
  if i =? 0 then lit "0"
  else
    let str := digits_loop (digit_fuel i) i in
    let index := length str in
    reverse_loop index str 0 (pred index).

(** [convert_int_to_string] (macD.c:525-553): the array it returns.  For
    [i == 0] that is the string literal ["0"].  Otherwise it is a [malloc]
    of [get_num_digits(i)] bytes in which the digits stand ([int_digits]);
    no terminating NUL is stored and there is no byte for one.  For [i < 0]
    every byte of the array is left as [malloc] returned it. *)
Definition convert_int_to_string (i : Z) : buffer :=
  if i =? 0 then Some <$> (lit "0" ++ [NUL])
  else
    let str := replicate (Z.to_nat (get_num_digits i)) None in
    let written := int_digits i in
    (Some <$> written) ++ drop (length written) str.

(** [convert_str_to_int] (macD.c:207-256) on a [malloc]ed array: [None]
    when the loop reads a byte that was never written or one behind the
    end of the array. *)
Fixpoint convert_loop_buffer (str : buffer) (total : Z) : option Z :=
  match str with
  | Some c :: rest =>
      if Ascii.eqb c NUL then Some total
      else
        let add := switch_digit c in
        if add =? -1 then Some (-1)
        else convert_loop_buffer rest (CInt.add (CInt.mul total 10) add)
  | _ => None
  end.

Definition convert_str_to_int_buffer (str : buffer) : option Z :=
  convert_loop_buffer str 0.


(** ** The C library functions the program calls *)

Module Libc.

(** [strlen]: the characters before the first NUL. *)
Fixpoint strlen (s : cstring) : nat :=
  match s with
  | [] => O
  | c :: rest => if Ascii.eqb c NUL then O else S (strlen rest)
  end.

(** [isspace] in the C locale. *)
Definition isspace (c : ascii) : bool :=
  let n := nat_of_ascii c in
  (n =? 32)%nat || ((9 <=? n)%nat && (n <=? 13)%nat).

(** The value of a decimal digit, [None] for any other character. *)
Definition digit (c : ascii) : option Z :=
  let n := nat_of_ascii c in
  if (48 <=? n)%nat && (n <=? 57)%nat then Some (Z.of_nat n - 48) else None.

Fixpoint skip_spaces (s : cstring) : cstring :=
  match s with
  | c :: rest => if isspace c then skip_spaces rest else s
  | [] => []
  end.

(** The digits at the head of [s], accumulated onto [acc]. *)
Fixpoint digits_value (s : cstring) (acc : Z) : Z :=
  match s with
  | c :: rest =>
      match digit c with
      | Some d => digits_value rest (acc * 10 + d)
      | None => acc
      end
  | [] => acc
  end.

(** [strtol(s, NULL, 10)]: white space, an optional sign, digits; the
    result saturates at the bounds of [long]. *)
Definition strtol (s : cstring) : Z :=
  let clamp z := Z.max CInt.LONG_MIN (Z.min CInt.LONG_MAX z) in
  match skip_spaces s with
  | "-"%char :: rest => clamp (- digits_value rest 0)
  | "+"%char :: rest => clamp (digits_value rest 0)
  | rest => clamp (digits_value rest 0)
  end.

(** [atoi], which glibc defines as [(int) strtol(s, NULL, 10)]. *)
Definition atoi (s : cstring) : Z := CInt.of_long (strtol s).

(** [strtok] with the delimiter string [" "]. *)

Fixpoint skip_delims (s : cstring) : cstring :=
  match s with
  | c :: rest => if Ascii.eqb c SPACE then skip_delims rest else s
  | [] => []
  end.

(** The token at the head of [s] and what follows the delimiter that ends
    it (nothing, when the token runs to the end of the string). *)
Fixpoint scan_token (s : cstring) : cstring * cstring :=
  match s with
  | [] => ([], [])
  | c :: rest =>
      if Ascii.eqb c SPACE then ([], rest)
      else let (tok, after) := scan_token rest in (c :: tok, after)
  end.

(** [strtok(s, " ")], and [strtok(NULL, " ")] when [s] is what the previous
    call left: [None] is the NULL pointer, otherwise the token and the
    position the next call resumes from. *)
Definition strtok (s : cstring) : option (cstring * cstring) :=
  match skip_delims s with
  | [] => None
  | s' => Some (scan_token s')
  end.

(** [strtok] writes a NUL over the delimiter that ends the token: the C
    string that starts at [s] afterwards. *)
Fixpoint strtok_buffer (s : cstring) : cstring :=
  match s with
  | [] => []
  | c :: rest =>
      if Ascii.eqb c SPACE then c :: strtok_buffer rest
      else fst (scan_token s)
  end.

(** [strcmp(a, b) == 0]. *)
Fixpoint streq (a b : cstring) : bool :=
  match a, b with
  | [], [] => true
  | x :: a', y :: b' => Ascii.eqb x y && streq a' b'
  | _, _ => false
  end.

(** [s[0] == '\0']. *)
Definition empty (s : cstring) : bool :=
  match s with
  | [] => true
  | c :: _ => Ascii.eqb c NUL
  end.

(** [strncat(dest, src, n)] on a [dest] with room: at most [n] characters of
    [src] are appended. *)
Definition strncat (dest src : cstring) (n : Z) : cstring :=
  dest ++ take (Z.to_nat n) (take (strlen src) src).

(** The characters [strncat(dest, src, n)] takes from a [malloc]ed [src]:
    at most [n], fewer when a NUL comes first; [None] when it reads a byte
    that was never written or one behind the end of the array. *)
Fixpoint strncat_reads (n : nat) (src : buffer) : option cstring :=
  match n with
  | O => Some []
  | S n' =>
      match src with
      | Some c :: rest =>
          if Ascii.eqb c NUL then Some []
          else match strncat_reads n' rest with
               | Some s => Some (c :: s)
               | None => None
               end
      | _ => None
      end
  end.

(** [strncat(dest, src, n)] on a [dest] with room, for such a [src]. *)
Definition strncat_buffer (dest : cstring) (src : buffer) (n : Z)
  : option cstring :=
  match strncat_reads (Z.to_nat n) src with
  | Some s => Some (dest ++ s)
  | None => None
  end.

(** The padding of [strncpy]: [n] NULs from [dest[i]] on. *)
Fixpoint pad (n i : nat) (dest : buffer) : buffer :=
  match n with
  | O => dest
  | S n' => pad n' (S i) (<[i := Some NUL]> dest)
  end.

(** [strncpy(dest, src, n)], from index [i] on: characters of [src] are
    copied up to and including its NUL, and [dest] is padded with NULs to
    [n] bytes.  [None] when a byte of [src] that was never written is read
    (what is copied then depends on it) or [dest] is too short. *)
Fixpoint strncpy (n i : nat) (dest src : buffer) : option buffer :=
  match n with
  | O => Some dest
  | S n' =>
      match src !! i with
      | Some (Some c) =>
          if (i + n <=? length dest)%nat then
            if Ascii.eqb c NUL then Some (pad n i dest)
            else strncpy n' (S i) (<[i := Some c]> dest) src
          else None
      | _ => None
      end
  end.

End Libc.

(** ** Command lines *)

(** The [for] loop of [get_num_args] (macD.c:84-87), over the [strlen(line)]
    characters of the line. *)
Fixpoint count_loop (line : cstring) (count : Z) : Z :=
  match line with
  | [] => count
  | c :: rest =>
      count_loop rest (if Ascii.eqb c SPACE then CInt.add count 1 else count)
  end.

(** [get_num_args] (macD.c:79-89). *)
Definition get_num_args (line : cstring) : Z :=
  let len := Libc.strlen line in
  let count := count_loop (take len line) 0 in
  CInt.add count 1.

(** ** Reading the input file *)

(** [PATH_MAX] of <limits.h> on Linux, and macD.c:27. *)
Definition PATH_MAX : nat := 4096.
Definition MAX_ARG_LENGTH : nat := 1000.

Definition malloc_chars (n : nat) : buffer := replicate n None.

(** The size of the line buffer of [read_next_line] after [extensions]
    extensions: [PATH_MAX + (MAX_ARG_LENGTH * (extensions+1))]. *)
Definition line_size (extensions : nat) : nat :=
  PATH_MAX + MAX_ARG_LENGTH * (extensions + 1).

(** The [while] loop of [read_next_line] (macD.c:176-189), which runs
    until the byte read is a newline or [fread] delivers nothing.  [f] is
    what the stream still holds and [scanner] the byte the last [fread]
    delivered.  The result is the buffer, [index] and the rest of the
    stream; [None] when a byte that was never written is read or a write
    falls outside the buffer. *)
Fixpoint line_loop (f : list ascii) (scanner : ascii) (line : buffer)
    (index extensions : nat) : option (buffer * nat * list ascii) :=
  if Ascii.eqb scanner NEWLINE then Some (line, index, f)
  else if negb (index <? length line)%nat then None
  else
    let line := <[index := Some scanner]> line in
    let index := S index in
    let grown :=
      if (line_size extensions <=? index)%nat then
        let extensions := S extensions in
        let temp := line in
        match Libc.strncpy (PATH_MAX + MAX_ARG_LENGTH * extensions - 1) 0
                (malloc_chars (line_size extensions)) temp with
        | Some line => Some (line, extensions)
        | None => None
        end
      else Some (line, extensions) in
    match grown with
    | None => None
    | Some (line, extensions) =>
        match f with
        | [] => Some (line, index, [])           (* [fread] returned 0 *)
        | c :: f' => line_loop f' c line index extensions
        end
    end.

(** [read_next_line] (macD.c:163-193) on what the stream still holds.  The
    inner [None] is the NULL pointer returned at the end of the file;
    otherwise the line buffer and the rest of the stream. *)
Definition read_next_line (fptr : list ascii)
  : option (option buffer * list ascii) :=
  match fptr with
  | [] => Some (None, [])
  | c :: f =>
      match line_loop f c (malloc_chars (PATH_MAX + MAX_ARG_LENGTH)) 0 0 with
      | Some (line, index, f') =>
          if (index <? length line)%nat
          then Some (Some (<[index := Some NUL]> line), f')
          else None
      | None => None
      end
  end.

(** The C string a buffer holds: the characters before its first NUL;
    [None] when a byte never written comes first. *)
Fixpoint c_str (b : buffer) : option cstring :=
  match b with
  | Some c :: rest =>
      if Ascii.eqb c NUL then Some []
      else match c_str rest with
           | Some s => Some (c :: s)
           | None => None
           end
  | _ => None
  end.

(** Successive calls of [read_next_line], until one returns NULL, on a
    stream that nothing else moves. *)
Fixpoint read_lines (fuel : nat) (fptr : list ascii) : option (list buffer) :=
  match fuel with
  | O => None
  | S fuel' =>
      match read_next_line fptr with
      | None => None
      | Some (None, _) => Some []
      | Some (Some line, f) =>
          match read_lines fuel' f with
          | Some lines => Some (line :: lines)
          | None => None
          end
      end
  end.

(** The C strings in the buffers of the lines. *)
Fixpoint strings (lines : list buffer) : option (list cstring) :=
  match lines with
  | [] => Some []
  | b :: rest =>
      match c_str b, strings rest with
      | Some s, Some ss => Some (s :: ss)
      | _, _ => None
      end
  end.

(** The lines such calls return from a stream that holds [content]: every
    call consumes a byte, so the length of the content bounds the calls. *)
Definition file_lines (content : list ascii) : option (list cstring) :=
  match read_lines (S (length content)) content with
  | Some lines => strings lines
  | None => None
  end.

(** ** The stream of the input file *)

(** The input file as [fopen(file_path, "r")] finds it: its bytes, and the
    size of the blocks in which the C library reads it (st_blksize). *)
Record disk := {
  d_bytes : list ascii;
  d_blksize : positive;
}.

(** A text file: each line followed by a newline. *)
Fixpoint text (lines : list cstring) : list ascii :=
  match lines with
  | [] => []
  | l :: rest => l ++ NEWLINE :: text rest
  end.

(** The [FILE] the program reads it through: the bytes read ahead and not
    yet handed out, and the offset of the file descriptor.  A child of
    [fork] starts with a copy of the first and shares the second. *)
Record FILE := {
  unread : list ascii;
  offset : nat;
}.

(** The stream [fopen] returns: nothing is read yet. *)
Definition opened : FILE := {| unread := []; offset := 0 |}.

(** [fread(scanner, 1, 1, fptr)]: the byte, or [None] at the end of the
    file, and the stream afterwards.  An empty buffer is first filled with
    the block that starts at the offset. *)
Definition fread (d : disk) (fptr : FILE) : option ascii * FILE :=
  match unread fptr with
  | c :: rest => (Some c, {| unread := rest; offset := offset fptr |})
  | [] =>
      match take (Pos.to_nat (d_blksize d)) (drop (offset fptr) (d_bytes d)) with
      | c :: rest =>
          (Some c, {| unread := rest; offset := offset fptr + S (length rest) |})
      | [] => (None, fptr)
      end
  end.

(** The stream after [n] calls of [fread]. *)
Fixpoint freads (n : nat) (d : disk) (fptr : FILE) : FILE :=
  match n with
  | O => fptr
  | S n' => freads n' d (snd (fread d fptr))
  end.

(** The bytes the coming calls of [fread] deliver, as long as no other
    process moves the offset. *)
Definition pending (d : disk) (fptr : FILE) : list ascii :=
  unread fptr ++ drop (offset fptr) (d_bytes d).

(** What [exit] in a child does to the stream the child inherited: the C
    library gives the unread bytes back, moving the offset back by their
    number ([lseek(fd, -unread, SEEK_CUR)]; the call fails and changes
    nothing where the result would be negative).  The offset is the
    parent's too, and the parent's buffer stays as it is. *)
Definition child_exit (fptr : FILE) : FILE :=
  if (length (unread fptr) <=? offset fptr)%nat
  then {| unread := unread fptr;
          offset := offset fptr - length (unread fptr) |}
  else fptr.

(** The buffer holds the bytes of the file that come before the offset:
    so it is as long as only the reader has moved the offset. *)
Definition in_step (d : disk) (fptr : FILE) : Prop :=
  (length (unread fptr) <= offset fptr)%nat
  /\ unread fptr
     = take (length (unread fptr))
         (drop (offset fptr - length (unread fptr)) (d_bytes d)).

(** [read_next_line] (macD.c:163-193) on the [FILE]: the C string in the
    line buffer, [None] for the NULL pointer, and the stream after the
    [fread]s that delivered the bytes.  The outer [None] is undefined
    behaviour: [read_next_line] is undefined, or the line buffer holds a
    byte never written before its NUL. *)
Definition next_line (d : disk) (fptr : FILE)
  : option (option cstring * FILE) :=
  let f := pending d fptr in
  match read_next_line f with
  | Some (line, f') =>
      let fptr := freads (length f - length f') d fptr in
      match line with
      | None => Some (None, fptr)
      | Some line =>
          match c_str line with
          | Some l => Some (Some l, fptr)
          | None => None
          end
      end
  | None => None
  end.

(** ** Reading the /proc files *)

(** [read_until_space] (macD.c:571-580) on the unread part of a stream: the
    value returned and what is left to read. *)
Fixpoint read_until_space (f : list ascii) : Z * list ascii :=
  match f with
  | [] => (0, [])
  | c :: rest => if Ascii.eqb c SPACE then (1, rest) else read_until_space rest
  end.

(** [get_next_segment] (macD.c:597-623): the characters before the next
    space or the end of the stream.  The segment buffer grows by
    [MAX_SEGMENT_LENGTH] whenever it is full, so a list stands for it. *)
Fixpoint get_next_segment (f : list ascii) : cstring * list ascii :=
  match f with
  | [] => ([], [])
  | c :: rest =>
      if Ascii.eqb c SPACE then ([], rest)
      else let (segment, f') := get_next_segment rest in (c :: segment, f')
  end.

(** The [for] loop of [get_cpu_usage] (macD.c:660-667): skip [n] spaces;
    [None] when the file is not long enough. *)
Fixpoint skip_segments (n : nat) (f : list ascii) : option (list ascii) :=
  match n with
  | O => Some f
  | S n' =>
      let (r, f') := read_until_space f in
      if r =? 0 then None else skip_segments n' f'
  end.

(** The summing loop of [get_mem_usage] (macD.c:716-720). *)
Fixpoint sum_loop (fuel : nat) (segment : cstring) (f : list ascii) (sum : Z)
  : option Z :=
  match fuel with
  | O => None
  | S fuel' =>
      if (Libc.strlen segment =? 0)%nat then Some sum
      else
        let sum := CInt.add sum (Libc.atoi segment) in
        let (segment', f') := get_next_segment f in
        sum_loop fuel' segment' f' sum
  end.

(** What [get_mem_usage] computes from the content of the statm file
    (macD.c:713-723): every non-empty segment consumes a character, so the
    length of the file bounds the loop. *)
Definition mem_of_statm (content : list ascii) : option Z :=
  let (segment, f) := get_next_segment content in
  match sum_loop (S (length content)) segment f 0 with
  | Some sum => Some (CInt.div sum 1024)
  | None => None
  end.

(** What [get_cpu_usage] computes from the content of the stat file
    (macD.c:660-678). *)
Definition cpu_of_stat (content : list ascii) : Z :=
  match skip_segments 13 content with
  | None => -1
  | Some f =>
      let (s_user, f1) := get_next_segment f in
      let user_time := Libc.atoi s_user in
      let (s_kernal, _) := get_next_segment f1 in
      let kernal_time := Libc.atoi s_kernal in
      CInt.add user_time kernal_time
  end.

(** The path both samplers build (macD.c:639-650, 693-704): [part2] is
    ["/stat"] or ["/statm"] and [n] the count its [strncat] is given.
    [None] when the [strncat] of [str_pid] reads a byte that was never
    written, as it does for a negative [pid]. *)
Definition proc_path (pid : Z) (part2 : cstring) (n : Z) : option cstring :=
  let path := [] in
  let part1 := lit "/proc/" in
  let path := Libc.strncat path part1 6 in
  let str_pid := convert_int_to_string pid in
  match Libc.strncat_buffer path str_pid (get_num_digits pid) with
  | Some path => Some (Libc.strncat path part2 n)
  | None => None
  end.

(** ** The segment buffer *)

(** macD.c:29. *)
Definition MAX_SEGMENT_LENGTH : nat := 100.

(** The [for] loop that copies [temp] into the grown segment
    (macD.c:614-615). *)
Fixpoint copy_chars (count i : nat) (temp segment : buffer) : option buffer :=
  match count with
  | O => Some segment
  | S count' =>
      match temp !! i with
      | Some (Some c) =>
          if (i <? length segment)%nat
          then copy_chars count' (S i) temp (<[i := Some c]> segment)
          else None
      | _ => None
      end
  end.

(** The [while] loop of [get_next_segment] (macD.c:605-619) with its
    buffer: [c] is the byte the last [fread] delivered and [f] what the
    stream still holds.  [None] when a byte that was never written is read
    or a write falls outside the buffer. *)
Fixpoint segment_loop (f : list ascii) (c : ascii) (segment : buffer)
    (seg_size index : nat) : option (buffer * nat * list ascii) :=
  if Ascii.eqb c SPACE then Some (segment, index, f)
  else if negb (index <? length segment)%nat then None
  else
    let segment := <[index := Some c]> segment in
    let index := S index in
    let grown :=
      if (seg_size <=? index)%nat then
        let temp := segment in
        match copy_chars index 0 temp
                (malloc_chars (seg_size + MAX_SEGMENT_LENGTH)) with
        | Some segment => Some (segment, (seg_size + MAX_SEGMENT_LENGTH)%nat)
        | None => None
        end
      else Some (segment, seg_size) in
    match grown with
    | None => None
    | Some (segment, seg_size) =>
        match f with
        | [] => Some (segment, index, [])         (* [fread] returned 0 *)
        | c' :: f' => segment_loop f' c' segment seg_size index
        end
    end.

(** [get_next_segment] (macD.c:597-623) with the buffer it returns; the
    function of that name above gives the C string in it. *)
Definition get_next_segment_buffer (fptr : list ascii)
  : option (buffer * list ascii) :=
  let segment := malloc_chars MAX_SEGMENT_LENGTH in
  let seg_size := MAX_SEGMENT_LENGTH in
  let index := O in
  let looped :=
    match fptr with
    | [] => Some (segment, index, [])             (* [fread] returned 0 *)
    | c :: f => segment_loop f c segment seg_size index
    end in
  match looped with
  | Some (segment, index, f') =>
      if (index <? length segment)%nat
      then Some (<[index := Some NUL]> segment, f')
      else None
  | None => None
  end.

(** ** The format of /proc/[pid]/statm

    proc(5): the page counts (size, resident, shared, text, lib, data, dt)
    in decimal, separated by single spaces and ended by a newline. *)

Module Statm.

Definition digit_of (d : Z) : ascii := ascii_of_nat (Z.to_nat (48 + d)).

Fixpoint numeral_loop (fuel : nat) (n : Z) (acc : cstring) : cstring :=
  match fuel with
  | O => acc
  | S fuel' =>
      let acc := digit_of (n mod 10) :: acc in
      if n <? 10 then acc else numeral_loop fuel' (n / 10) acc
  end.

(** The decimal numeral of [n >= 0]. *)
Definition numeral (n : Z) : cstring := numeral_loop (digit_fuel n) n [].

Fixpoint fields (ns : list Z) : list ascii :=
  match ns with
  | [] => []
  | [n] => numeral n
  | n :: ns' => numeral n ++ SPACE :: fields ns'
  end.

(** The file whose fields are [ns]. *)
Definition file (ns : list Z) : list ascii := fields ns ++ [NEWLINE].


End Statm.

(** ** The format of /proc/[pid]/stat

    proc(5): one line of fields separated by single spaces; the user time
    and the kernel time, in clock ticks, are the 14th and the 15th. *)

Module Stat.

(** Fields, each followed by a space. *)
Fixpoint fields (segments : list cstring) : list ascii :=
  match segments with
  | [] => []
  | s :: rest => s ++ SPACE :: fields rest
  end.

(** A file whose first fields are [before], followed by the two times and
    whatever comes [after] them. *)
Definition file (before : list cstring) (utime stime : Z) (after : list ascii)
  : list ascii :=
  fields before
    ++ Statm.numeral utime ++ SPACE :: Statm.numeral stime ++ SPACE :: after.

End Stat.

(** ** The date line *)

(** The fields of [struct tm] that [display_date] reads. *)
Record tm := {
  tm_sec : Z;
  tm_min : Z;
  tm_hour : Z;
  tm_mday : Z;
  tm_mon : Z;
  tm_year : Z;
  tm_wday : Z;
}.

(** [get_month] (macD.c:299-343); the empty string is the initial value of
    [month]. *)
Definition get_month (current_time : tm) : cstring :=
  let month_num := tm_mon current_time in
  match month_num with
  | 0 => lit "Jan"
  | 1 => lit "Feb"
  | 2 => lit "Mar"
  | 3 => lit "Apr"
  | 4 => lit "May"
  | 5 => lit "June"
  | 6 => lit "July"
  | 7 => lit "Aug"
  | 8 => lit "Sept"
  | 9 => lit "Oct"
  | 10 => lit "Nov"
  | 11 => lit "Dec"
  | _ => []
  end.

(** [get_day_of_week] (macD.c:355-384). *)
Definition get_day_of_week (current_time : tm) : cstring :=
  let day := tm_wday current_time in
  match day with
  | 0 => lit "Sun"
  | 1 => lit "Mon"
  | 2 => lit "Tue"
  | 3 => lit "Wed"
  | 4 => lit "Thu"
  | 5 => lit "Fri"
  | 6 => lit "Sat"
  | _ => []
  end.

(** The arguments [display_date] (macD.c:392-413) hands to its [printf] for
    the broken-down time [localtime] returned: week day, month, day of the
    month, year, hour, minute, second and AM or PM. *)
Definition date_fields (current_time : tm)
  : cstring * cstring * Z * Z * Z * Z * Z * cstring :=
  let wkday := get_day_of_week current_time in
  let month := get_month current_time in
  let date := tm_mday current_time in
  let year := CInt.add 1900 (tm_year current_time) in
  let hour := tm_hour current_time in
  let xm := lit "AM" in
  let '(xm, hour) :=
    if 12 <=? hour then (lit "PM", CInt.sub hour 12) else (xm, hour) in
  let hour := if hour =? 0 then 12 else hour in
  let min := tm_min current_time in
  let sec := tm_sec current_time in
  (wkday, month, date, year, hour, min, sec, xm).

(** ** The operating system *)

(** What the program asks of its host.  Every operation is a function of
    the world; the theorems hold for every instance. *)
Class OS := {
  world : Type;
  (** [fork()] as the calling process sees it: [-1], [0] in the child, or the
      child's pid in the parent.  The argument is the command line the child
      goes on to execute. *)
  sys_fork : cstring -> world -> Z * world;
  (** [execvp(args[0], args)] in a child: [None] when the new image took
      over, otherwise the [errno] of the failure. *)
  sys_execvp : list cstring -> world -> option Z;
  sys_usleep : Z -> world -> world;
  (** [waitpid(pid, NULL, WNOHANG)]: [0] while the child runs. *)
  sys_waitpid : Z -> world -> Z * world;
  (** [kill(pid, SIGKILL)]. *)
  sys_kill : Z -> world -> world;
  (** [time(NULL)]. *)
  sys_time : world -> Z * world;
  (** [sysconf(_SC_CLK_TCK)]. *)
  sys_clk_tck : world -> Z;
  (** [fopen(path, "r")]: [None] for the NULL stream, otherwise the bytes
      the stream delivers. *)
  sys_fopen : cstring -> world -> option (list ascii);
  (** Whether a SIGINT is delivered at this point. *)
  sys_sigint : world -> bool * world;
  (** [fclose(NULL)] is undefined; some C libraries return from it, others
      (glibc) crash. *)
  fclose_null_returns : bool;
}.

(** ** What the program prints *)

(** One [printf] of the source each; the fields are its arguments. *)
Inductive out_line :=
| OStartingReport                                  (* "Starting report, " *)
| ODate (t : Z)                                    (* display_date at time t *)
| OStarted (line_number : Z) (path : option cstring) (pid : Z)
    (* "[%d] %s, started successfully (pid: %d)\n" *)
| OBadEmpty (line_number : Z)                      (* "[%d] badprogram , failed to start\n" *)
| OBad (line_number : Z) (path : option cstring)   (* "[%d] badprogram %s, failed to start\n" *)
| ODots                                            (* "...\n" *)
| ONormalReport                                    (* "Normal report, " *)
| ORunning (index cpu mem : Z)
    (* "[%d] Running, cpu usage: %d%c, mem usage: %d MB\n" *)
| OExited (index : Z)                              (* "[%d] Exited\n" *)
| OTerminating                                     (* "Terminating, " *)
| OTerminated (index : Z)                          (* "[%d] Terminated\n" *)
| OExiting (seconds : Z)                           (* "Exiting (total time: %d seconds)\n" *)
| OExitingDots (seconds : Z)                       (* "Exiting (total time: %d seconds)\n...\n" *)
| OSignal                                          (* "Signal Received - " *)
| ONotFound (file_path : cstring).                 (* stderr: "macD: %s not found" *)

(** What a run leaves behind, in order: the calls that act on children and
    the lines printed.  The lines are the [printf] calls of the process
    that is followed, the parent; when the C library writes them out, and
    what a child flushes of the output it inherited, is not recorded. *)
Inductive event :=
| EFork (line : cstring) (ret : Z)
| EUsleep (usec : Z)
| EWaitpid (pid ret : Z)
| EKill (pid : Z)
| EPrint (o : out_line).

(** A [malloc]ed array of [int]: [None] is a cell never written. *)
Abbreviation table := (list (option Z)).

Section Program.

Context {os : OS}.

(** The globals of macD.c (lines 27-32) that change, the world, and the
    trace so far. *)
Record state := {
  st_world : world;
  st_trace : list event;
  TARGET_TIME : Z;
  KILL_STATE : Z;
  START_TIME : Z;
  (** set by [register_handler] *)
  handler_registered : bool;
}.

Definition MAX_PROCESSES : nat := 10.

Definition initial_state (w : world) : state :=
  {| st_world := w; st_trace := []; TARGET_TIME := -1; KILL_STATE := -1;
     START_TIME := -1; handler_registered := false |}.

(** How a piece of the program ends. *)
Inductive res (A : Type) :=
| Ret (a : A) (s : state)          (* it returned [a] *)
| Exited (code : Z) (s : state)    (* it called [exit(code)] *)
| Exec (s : state)                 (* [execvp] replaced the process image *)
| Fault (s : state)                (* undefined behaviour or a trap *)
| Spin (s : state).                (* the fuel of a loop model ran out *)

Arguments Ret {A}.
Arguments Exited {A}.
Arguments Exec {A}.
Arguments Fault {A}.
Arguments Spin {A}.

Definition M (A : Type) := state -> res A.

Definition ret {A} (a : A) : M A := fun s => Ret a s.

Definition bind {A B} (m : M A) (k : A -> M B) : M B :=
  fun s =>
    match m s with
    | Ret a s' => k a s'
    | Exited c s' => Exited c s'
    | Exec s' => Exec s'
    | Fault s' => Fault s'
    | Spin s' => Spin s'
    end.

Notation "x <- m ;; k" := (bind m (fun x => k))
  (at level 100, m at next level, right associativity).
Notation "m ;;; k" := (bind m (fun _ => k))
  (at level 100, right associativity).

Definition exit_ {A} (code : Z) : M A := fun s => Exited code s.
Definition fault {A} : M A := fun s => Fault s.
Definition spin {A} : M A := fun s => Spin s.

Definition get {A} (f : state -> A) : M A := fun s => Ret (f s) s.

Definition set_world (w : world) (s : state) : state :=
  {| st_world := w; st_trace := st_trace s; TARGET_TIME := TARGET_TIME s;
     KILL_STATE := KILL_STATE s; START_TIME := START_TIME s;
     handler_registered := handler_registered s |}.

Definition log (e : event) : M unit :=
  fun s =>
    Ret tt {| st_world := st_world s; st_trace := st_trace s ++ [e];
              TARGET_TIME := TARGET_TIME s; KILL_STATE := KILL_STATE s;
              START_TIME := START_TIME s;
              handler_registered := handler_registered s |}.

Definition print (o : out_line) : M unit := log (EPrint o).

Definition set_TARGET_TIME (v : Z) : M unit :=
  fun s =>
    Ret tt {| st_world := st_world s; st_trace := st_trace s;
              TARGET_TIME := v; KILL_STATE := KILL_STATE s;
              START_TIME := START_TIME s;
              handler_registered := handler_registered s |}.

Definition set_KILL_STATE (v : Z) : M unit :=
  fun s =>
    Ret tt {| st_world := st_world s; st_trace := st_trace s;
              TARGET_TIME := TARGET_TIME s; KILL_STATE := v;
              START_TIME := START_TIME s;
              handler_registered := handler_registered s |}.

Definition set_START_TIME (v : Z) : M unit :=
  fun s =>
    Ret tt {| st_world := st_world s; st_trace := st_trace s;
              TARGET_TIME := TARGET_TIME s; KILL_STATE := KILL_STATE s;
              START_TIME := v;
              handler_registered := handler_registered s |}.

(** [sig_handler] (macD.c:925-929). *)
Definition sig_handler : M unit :=
  print OSignal ;;;
  set_KILL_STATE 1.

(** [register_handler] (macD.c:936-945), [sigaction] succeeding. *)
Definition register_handler : M unit :=
  fun s =>
    Ret tt {| st_world := st_world s; st_trace := st_trace s;
              TARGET_TIME := TARGET_TIME s; KILL_STATE := KILL_STATE s;
              START_TIME := START_TIME s; handler_registered := true |}.

(** A point at which the world may deliver SIGINT: once the handler is
    registered it runs there.  (Before that SIGINT would end the process;
    such worlds are outside the model.) *)
Definition interrupts : M unit :=
  fun s =>
    if handler_registered s then
      let (pending, w) := sys_sigint (st_world s) in
      if pending then sig_handler (set_world w s) else Ret tt (set_world w s)
    else Ret tt s.

(** The system calls, each followed by a delivery point. *)

Definition fork_ (line : cstring) : M Z :=
  fun s =>
    let (pid, w) := sys_fork line (st_world s) in
    (log (EFork line pid) ;;; interrupts ;;; ret pid) (set_world w s).

Definition usleep_ (usec : Z) : M unit :=
  fun s =>
    (log (EUsleep usec) ;;; interrupts) (set_world (sys_usleep usec (st_world s)) s).

Definition waitpid_ (pid : Z) : M Z :=
  fun s =>
    let (r, w) := sys_waitpid pid (st_world s) in
    (log (EWaitpid pid r) ;;; interrupts ;;; ret r) (set_world w s).

Definition kill_ (pid : Z) : M unit :=
  fun s =>
    (log (EKill pid) ;;; interrupts) (set_world (sys_kill pid (st_world s)) s).

Definition time_ : M Z :=
  fun s =>
    let (t, w) := sys_time (st_world s) in
    (interrupts ;;; ret t) (set_world w s).

Definition fopen_ (path : cstring) : M (option (list ascii)) :=
  fun s => (interrupts ;;; ret (sys_fopen path (st_world s))) s.

Definition execvp_ {A} (args : list cstring) : M A :=
  fun s =>
    match sys_execvp args (st_world s) with
    | None => Exec s
    | Some errno => Exited errno s     (* macD.c:141-142 *)
    end.

(** Undefined behaviour of a pure helper, as a fault of the program. *)
Definition defined {A} (o : option A) : M A :=
  match o with
  | Some a => ret a
  | None => fault
  end.

(** ** Arrays of [int] *)


Definition malloc_ints (n : nat) : table := replicate n None.

(** [a[i]], in bounds and initialised, or a fault. *)
Definition load (a : table) (i : nat) : M Z :=
  match a !! i with
  | Some (Some v) => ret v
  | _ => fault
  end.

(** [a[i] = v], in bounds, or a fault. *)
Definition store (a : table) (i : nat) (v : Z) : M table :=
  if (i <? length a)%nat then ret (<[i := Some v]> a) else fault.

(** ** The usage samplers *)

(** [fclose(fptr)] with [fptr == NULL] (macD.c:655, 709). *)
Definition fclose_null : M unit :=
  if fclose_null_returns then ret tt else fault.

(** [get_cpu_usage] (macD.c:637-679).  [free(str_pid)] frees the string
    literal ["0"] when [pid] is [0]: a fault. *)
Definition get_cpu_usage (pid : Z) : M Z :=
  path <- defined (proc_path pid (lit "/stat") 5) ;;
  (if pid =? 0 then fault else ret tt) ;;;
  fptr <- fopen_ path ;;
  match fptr with
  | None => fclose_null ;;; ret (-1)
  | Some content => ret (cpu_of_stat content)
  end.

(** [get_mem_usage] (macD.c:691-724). *)
Definition get_mem_usage (pid : Z) : M Z :=
  path <- defined (proc_path pid (lit "/statm") 6) ;;
  (if pid =? 0 then fault else ret tt) ;;;
  fptr <- fopen_ path ;;
  match fptr with
  | None => fclose_null ;;; ret (-1)
  | Some content => defined (mem_of_statm content)
  end.

(** ** The process launcher *)

(** [display_date] (macD.c:392-413): the local time of [time(NULL)]. *)
Definition display_date : M unit :=
  t <- time_ ;;
  print (ODate t).

(** The [while (token != NULL)] loop of [get_args] (macD.c:110-114). *)
Fixpoint get_args_loop (fuel : nat) (token : option (cstring * cstring))
  : list cstring :=
  match fuel with
  | O => []
  | S fuel' =>
      match token with
      | None => []
      | Some (tok, rest) => tok :: get_args_loop fuel' (Libc.strtok rest)
      end
  end.

(** [get_args] (macD.c:103-116): the tokens stored in [return_array].  The
    array has [get_num_args line] cells; the cells after the tokens are
    never written, and no NULL pointer is stored after the last token. *)
Definition get_args (line : cstring) : list cstring :=
  get_args_loop (S (length line)) (Libc.strtok line).

(** [create_process] (macD.c:129-150).  [out_pid] is the value of
    [*out_pid] on entry and the result is its value on return.  In the
    child ([pid == 0]) [args[0]] is read; with no token it is a cell that
    was never written. *)
Definition create_process (process_line : cstring) (out_pid : Z) : M Z :=
  pid <- fork_ process_line ;;
  if pid =? -1 then exit_ 1
  else if pid =? 0 then
    match get_args process_line with
    | [] => fault
    | args => execvp_ args
    end
  else
    usleep_ 100000 ;;;
    result <- waitpid_ pid ;;
    if negb (out_pid =? -1) && (result =? 0) then ret pid else ret out_pid.

(** [read_timer] (macD.c:270-287): the value returned and the line buffer
    as [strtok] leaves it; [None] when [strcmp] receives the NULL token of
    a line of spaces. *)
Definition read_timer (line : option cstring) : option (Z * option cstring) :=
  match line with
  | None => Some (-1, None)
  | Some l =>
      if Libc.empty l then Some (-1, Some l) else
      match Libc.strtok l with
      | None => None
      | Some (token, rest) =>
          let timer :=
            if Libc.streq token (lit "timelimit") then
              match Libc.strtok rest with
              | None => -1
              | Some (token, _) => convert_str_to_int token
              end
            else -1 in
          Some (timer, Some (Libc.strtok_buffer l))
      end
  end.

(** The [for] loop that copies [temp] into the grown array
    (macD.c:475-476). *)
Fixpoint copy_loop (count i : nat) (temp pids : table) : M table :=
  match count with
  | O => ret pids
  | S count' =>
      v <- load temp i ;;
      pids <- store pids i v ;;
      copy_loop count' (S i) temp pids
  end.

(** One turn of the [while (line != NULL)] loop of [read_file] up to the
    growth of the array (macD.c:451-479): the array, [index] and [len_pids]
    after it. *)
Definition read_turn (line : cstring) (pids : table)
    (index line_number len_pids : nat) : M (table * nat * nat) :=
  let out_pid := -2 in
  out_pid <- (if negb (Libc.empty line) then create_process line out_pid
              else ret out_pid) ;;
  r <- (if 0 <=? out_pid then
          pids <- store pids index out_pid ;;
          let path := fst <$> Libc.strtok line in
          print (OStarted (Z.of_nat line_number) path out_pid) ;;;
          ret (pids, S index)
        else
          (if Libc.empty line then
             print (OBadEmpty (Z.of_nat line_number))
           else
             let path := fst <$> Libc.strtok line in
             print (OBad (Z.of_nat line_number) path)) ;;;
          ret (pids, index)) ;;
  let '(pids, index) := r in
  r <- (if (len_pids - 1 <=? index)%nat then
          let len_pids := (len_pids + MAX_PROCESSES)%nat in
          let temp := pids in
          pids <- copy_loop index 0 temp (malloc_ints len_pids) ;;
          ret (pids, len_pids)
        else ret (pids, len_pids)) ;;
  let '(pids, len_pids) := r in
  ret (pids, index, len_pids).

(** What the child that [create_process] forks from the world [w] for
    [process_line] does to the stream it shares with the parent.  When its
    [execvp] succeeds the new image knows nothing of the stream.  When it
    fails the child calls [exit] (macD.c:142), which gives the buffer back.
    [None] when the line holds no token: the child then reads [args[0]], a
    cell never written (macD.c:138).  The parent sleeps 100 ms before it
    goes on; the child is taken to be through by then. *)
Definition child_effect (process_line : cstring) (w : world) (fptr : FILE)
  : option FILE :=
  match get_args process_line with
  | [] => None
  | args =>
      match sys_execvp args (snd (sys_fork process_line w)) with
      | None => Some fptr
      | Some _ => Some (child_exit fptr)
      end
  end.

(** The [while (line != NULL)] loop of [read_file] (macD.c:450-482), for
    at most [turns] turns: [line] is the line at hand and [fptr] the stream
    the next one is read from. *)
Fixpoint read_loop (turns : nat) (d : disk) (fptr : FILE)
    (line : option cstring) (pids : table)
    (index line_number len_pids : nat) {struct turns} : M (table * nat) :=
  match line with
  | None => ret (pids, index)
  | Some line =>
      match turns with
      | O => spin
      | S turns' =>
          w <- get st_world ;;
          r <- read_turn line pids index line_number len_pids ;;
          let '(pids, index, len_pids) := r in
          fptr <- (if Libc.empty line then ret fptr
                   else defined (child_effect line w fptr)) ;;
          r <- defined (next_line d fptr) ;;
          let '(line, fptr) := r in
          read_loop turns' d fptr line pids index (S line_number) len_pids
      end
  end.

(** [read_file] (macD.c:426-488).  [file] is what [fopen] finds: [None]
    when the file cannot be opened. *)
Definition read_file (turns : nat) (file_path : cstring) (file : option disk)
  : M (option table) :=
  match file with
  | None => print (ONotFound file_path) ;;; ret None
  | Some d =>
      let fptr := opened in
      print OStartingReport ;;;
      display_date ;;;
      r <- defined (next_line d fptr) ;;
      let '(line, fptr) := r in
      r <- defined (read_timer line) ;;
      let '(timer, line) := r in
      set_TARGET_TIME timer ;;;
      r <- (if negb (timer =? -1) then defined (next_line d fptr)
            else ret (line, fptr)) ;;
      let '(line, fptr) := r in
      let pids := malloc_ints MAX_PROCESSES in
      r <- read_loop turns d fptr line pids 0 0 MAX_PROCESSES ;;
      let '(pids, index) := r in
      pids <- store pids index (-1) ;;
      ret (Some pids)
  end.

(** ** Termination *)

(** The [while (pid != -1)] loop of [terminate_program] (macD.c:802-814);
    [rest] is the array from [pids[index]] on. *)
Fixpoint terminate_loop (rest : table) (index : nat) : M unit :=
  match rest with
  | Some pid :: rest' =>
      if pid =? -1 then ret tt
      else
        result <- waitpid_ pid ;;
        (if result =? 0 then
           print (OTerminated (Z.of_nat index)) ;;;
           kill_ pid
         else print (OExited (Z.of_nat index))) ;;;
        terminate_loop rest' (S index)
  | _ => fault
  end.

(** [terminate_program] (macD.c:795-818). *)
Definition terminate_program {A} (pids : table) (elapsed_time : Z) : M A :=
  print OTerminating ;;;
  display_date ;;;
  terminate_loop pids 0 ;;;
  print (OExiting (CInt.of_double elapsed_time)) ;;;
  exit_ 0.

(** The value [check_timer] returns in a given state. *)
Definition stop_condition (s : state) (current_time : Z) : Z :=
  if (TARGET_TIME s <=? current_time - START_TIME s)
     && negb (TARGET_TIME s =? -1) then 1
  else if KILL_STATE s =? 1 then 1
  else 0.

(** [check_timer] (macD.c:832-839).  The [double]s hold integers, so the
    comparison is exact. *)
Definition check_timer (current_time : Z) : M Z :=
  get (fun s => stop_condition s current_time).

(** ** The supervision loop *)

(** The [while (pids[len] != -1)] loop of [len_pids] (macD.c:775-776). *)
Fixpoint len_loop (rest : table) (len : nat) : M nat :=
  match rest with
  | Some pid :: rest' => if pid =? -1 then ret len else len_loop rest' (S len)
  | _ => fault
  end.

(** [len_pids] (macD.c:769-778) for a non-NULL [pids]. *)
Definition len_pids (pids : table) : M nat := len_loop pids 0.

(** The [for] loop of [initialize_cpu_counters] (macD.c:747-752). *)
Fixpoint init_loop (count i : nat) (pids counters : table) : M table :=
  match count with
  | O => ret counters
  | S count' =>
      pid <- load pids i ;;
      cpu <- get_cpu_usage pid ;;
      counters <- store counters i cpu ;;
      counters <- (if cpu <? 0 then store counters i 0 else ret counters) ;;
      init_loop count' (S i) pids counters
  end.

(** [initialize_cpu_counters] (macD.c:743-754). *)
Definition initialize_cpu_counters (pids : table) (num_processes : nat)
  : M table :=
  init_loop num_processes 0 pids (malloc_ints num_processes).

(** [display_proc_state] (macD.c:850-856). *)
Definition display_proc_state (index : nat) (cpu mem : Z) : M unit :=
  print (ORunning (Z.of_nat index) cpu mem).

(** [a / b] on [int]s where the divisor is not a constant: a zero divisor
    and [INT_MIN / -1] trap. *)
Definition int_divide (a b : Z) : M Z :=
  if b =? 0 then fault
  else if (a =? CInt.INT_MIN) && (b =? -1) then fault
  else ret (Z.quot a b).

(** The body of the inner loop of [periodic_reports] for one process
    (macD.c:881-894): the counters and [done] afterwards. *)
Definition poll_process (pid : Z) (index : nat) (counters : table)
    (full_cpu_increase done : Z) : M (table * Z) :=
  result <- waitpid_ pid ;;
  if result =? 0 then
    cpu <- get_cpu_usage pid ;;
    previous <- load counters index ;;
    let cpu_percent := CInt.mul (CInt.sub cpu previous) 100 in
    mem <- get_mem_usage pid ;;
    cpu_percent <- int_divide cpu_percent full_cpu_increase ;;
    counters <- store counters index cpu ;;
    let done := 0 in
    display_proc_state index cpu_percent mem ;;;
    ret (counters, done)
  else
    print (OExited (Z.of_nat index)) ;;;
    ret (counters, done).

(** The [while (pids[index] != -1)] loop of [periodic_reports]
    (macD.c:880-896); [rest] is the array from [pids[index]] on. *)
Fixpoint pass_loop (rest : table) (index : nat) (counters : table)
    (full_cpu_increase done : Z) : M (table * Z) :=
  match rest with
  | Some pid :: rest' =>
      if pid =? -1 then ret (counters, done)
      else
        r <- poll_process pid index counters full_cpu_increase done ;;
        let '(counters, done) := r in
        pass_loop rest' (S index) counters full_cpu_increase done
  | _ => fault
  end.

(** The [while (current_time - t < 5)] loop of [periodic_reports]
    (macD.c:908-912). *)
Fixpoint wait_loop (polls : nat) (pids : table) (t current_time : Z) : M unit :=
  match polls with
  | O => spin
  | S polls' =>
      if current_time - t <? 5 then
        current_time <- time_ ;;
        stop <- check_timer current_time ;;
        (if stop =? 1 then
           start <- get START_TIME ;;
           terminate_program pids (current_time - start)
         else ret tt) ;;;
        wait_loop polls' pids t current_time
      else ret tt
  end.

(** One turn of the [while (1)] loop of [periodic_reports]
    (macD.c:874-912): the counters it leaves for the next turn, unless the
    program ends in it. *)
Definition interval (polls : nat) (pids counters : table)
    (full_cpu_increase : Z) : M table :=
  let done := 1 in
  let index := O in
  print ODots ;;;
  print ONormalReport ;;;
  display_date ;;;
  r <- pass_loop pids index counters full_cpu_increase done ;;
  let '(counters, done) := r in
  (if done =? 1 then
     current_time <- time_ ;;
     start <- get START_TIME ;;
     let total_time := CInt.of_double (current_time - start) in
     print (OExitingDots total_time) ;;;
     exit_ 0
   else ret tt) ;;;
  print ODots ;;;
  t <- time_ ;;
  wait_loop polls pids t t ;;;
  ret counters.

(** The [while (1)] loop, for at most [intervals] turns. *)
Fixpoint report_loop (intervals polls : nat) (pids counters : table)
    (full_cpu_increase : Z) : M unit :=
  match intervals with
  | O => spin
  | S intervals' =>
      counters <- interval polls pids counters full_cpu_increase ;;
      report_loop intervals' polls pids counters full_cpu_increase
  end.

(** [periodic_reports] (macD.c:868-914). *)
Definition periodic_reports (intervals polls : nat) (pids : table) : M unit :=
  num_processes <- len_pids pids ;;
  counters <- initialize_cpu_counters pids num_processes ;;
  clk <- get (fun s => sys_clk_tck (st_world s)) ;;
  let full_cpu_increase := CInt.of_long (5 * clk) in
  report_loop intervals polls pids counters full_cpu_increase.

(** [main] (macD.c:43-63) for the arguments [-i file_path]. *)
Definition main (turns intervals polls : nat) (file_path : cstring)
    (file : option disk) : M Z :=
  set_START_TIME 0 ;;;
  pids <- read_file turns file_path file ;;
  match pids with
  | None => ret 1
  | Some pids =>
      t <- time_ ;;
      set_START_TIME t ;;;
      register_handler ;;;
      periodic_reports intervals polls pids ;;;
      ret 0
  end.

End Program.

Arguments Ret {os A}.
Arguments Exited {os A}.
Arguments Exec {os A}.
Arguments Fault {os A}.
Arguments Spin {os A}.

(** ** Reading off a result *)

Definition final_state {os : OS} {A} (r : res A) : state :=
  match r with
  | Ret _ s | Exited _ s | Exec s | Fault s | Spin s => s
  end.

Inductive ending :=
| Returned
| ExitedWith (code : Z)
| Replaced
| Faulted
| StillRunning.

Definition ending_of {os : OS} {A} (r : res A) : ending :=
  match r with
  | Ret _ _ => Returned
  | Exited code _ => ExitedWith code
  | Exec _ => Replaced
  | Fault _ => Faulted
  | Spin _ => StillRunning
  end.

(** How a result ended and the trace it left. *)
Definition observe {os : OS} {A} (r : res A) : ending * list event :=
  (ending_of r, st_trace (final_state r)).

(** ** A simulated host

    A small deterministic world to run the program in: [sleep N] lives for
    [N] seconds and [yes] runs until it is killed; with other arguments
    they exit at once.  No other program is found: in its child [execvp]
    fails and the child exits.  The clock advances by one second at every
    [time(NULL)]. *)

Module Sim.

Record child := {
  c_pid : Z;
  c_start : Z;
  c_death : option Z;      (* when it exits, if ever *)
  c_reaped : bool;
}.

Record sim := {
  clock : Z;
  children : list child;
  sigint_at : option Z;    (* when SIGINT arrives, if ever *)
}.

Definition boot (sigint : option Z) : sim :=
  {| clock := 1000; children := []; sigint_at := sigint |}.

(** How long the command of [line] runs: [None] for ever. *)
Definition lifetime (line : cstring) : option Z :=
  match get_args line with
  | [prog; n] =>
      if Libc.streq prog (lit "sleep") then Some (Libc.atoi n) else Some 0
  | [prog] => if Libc.streq prog (lit "yes") then None else Some 0
  | _ => Some 0
  end.

(** [execvp]: [sleep] and [yes] are on the path, nothing else is
    ([ENOENT]). *)
Definition execvp (args : list cstring) : option Z :=
  match args with
  | prog :: _ =>
      if Libc.streq prog (lit "sleep") || Libc.streq prog (lit "yes")
      then None else Some 2
  | [] => Some 2
  end.

Definition fork (line : cstring) (w : sim) : Z * sim :=
  let pid := 100 + Z.of_nat (length (children w)) in
  let c := {| c_pid := pid; c_start := clock w;
              c_death := (fun n => clock w + n) <$> lifetime line;
              c_reaped := false |} in
  (pid, {| clock := clock w; children := children w ++ [c];
           sigint_at := sigint_at w |}).

Definition dead (now : Z) (c : child) : bool :=
  match c_death c with
  | Some d => d <=? now
  | None => false
  end.

Fixpoint reap (pid now : Z) (cs : list child) : Z * list child :=
  match cs with
  | [] => (-1, [])
  | c :: cs' =>
      if c_pid c =? pid then
        if c_reaped c then (-1, cs)
        else if dead now c then
          (pid, {| c_pid := pid; c_start := c_start c; c_death := c_death c;
                   c_reaped := true |} :: cs')
        else (0, cs)
      else let (r, cs'') := reap pid now cs' in (r, c :: cs'')
  end.

Definition waitpid (pid : Z) (w : sim) : Z * sim :=
  let (r, cs) := reap pid (clock w) (children w) in
  (r, {| clock := clock w; children := cs; sigint_at := sigint_at w |}).

Definition kill (pid : Z) (w : sim) : sim :=
  {| clock := clock w;
     children :=
       map (fun c =>
              if (c_pid c =? pid) && negb (dead (clock w) c) then
                {| c_pid := pid; c_start := c_start c;
                   c_death := Some (clock w); c_reaped := c_reaped c |}
              else c) (children w);
     sigint_at := sigint_at w |}.

Definition time (w : sim) : Z * sim :=
  (clock w, {| clock := clock w + 1; children := children w;
               sigint_at := sigint_at w |}).

(** The stat file of a child that has run for [age] seconds: eight ticks
    of user time and two of kernel time a second. *)
Definition stat_file (c : child) (now : Z) : list ascii :=
  let age := Z.min now (default now (c_death c)) - c_start c in
  int_digits (c_pid c) ++ lit " (cmd) S 1 1 1 0 -1 0 0 0 0 0 "
    ++ int_digits (8 * age) ++ lit " "
    ++ int_digits (2 * age) ++ lit " 0 0 20 0 1 0 5 0 0".

Definition statm_file : list ascii :=
  lit "2048 1024 512 100 0 400 0" ++ [NEWLINE].

Fixpoint lookup_proc (path : cstring) (now : Z) (cs : list child)
  : option (list ascii) :=
  match cs with
  | [] => None
  | c :: cs' =>
      let dir := lit "/proc/" ++ int_digits (c_pid c) in
      if c_reaped c then lookup_proc path now cs'
      else if Libc.streq path (dir ++ lit "/stat") then Some (stat_file c now)
      else if Libc.streq path (dir ++ lit "/statm") then Some statm_file
      else lookup_proc path now cs'
  end.

Definition fopen (path : cstring) (w : sim) : option (list ascii) :=
  lookup_proc path (clock w) (children w).

Definition sigint (w : sim) : bool * sim :=
  match sigint_at w with
  | Some t =>
      if t <=? clock w then
        (true, {| clock := clock w; children := children w; sigint_at := None |})
      else (false, w)
  | None => (false, w)
  end.

(** The host: [lenient] says whether [fclose(NULL)] returns (it crashes in
    glibc), [procfs] whether /proc is mounted. *)
Definition host (lenient procfs : bool) : OS :=
  {| world := sim;
     sys_fork := fork;
     sys_execvp := fun args _ => execvp args;
     sys_usleep := fun _ w => w;
     sys_waitpid := waitpid;
     sys_kill := kill;
     sys_time := time;
     sys_clk_tck := fun _ => 100;
     sys_fopen := fun path w => if procfs then fopen path w else None;
     sys_sigint := sigint;
     fclose_null_returns := lenient |}.

(** The usual host: glibc, /proc mounted. *)
Definition linux : OS := host false true.

(** A world in which [yes] (pid 100) has run for 15 seconds and [sleep 3]
    (pid 101) ended 12 seconds ago without having been waited for. *)
Definition busy : sim :=
  {| clock := 1015;
     children :=
       [ {| c_pid := 100; c_start := 1000; c_death := None;
            c_reaped := false |};
         {| c_pid := 101; c_start := 1000; c_death := Some 1003;
            c_reaped := false |} ];
     sigint_at := None |}.

(** The program in that world, started at 1000, with a time limit of 7
    seconds, the handler registered and the stop flag as given. *)
Definition supervising (os : OS) (w : @world os) (kill_state : Z) : state :=
  {| st_world := w; st_trace := []; TARGET_TIME := 7;
     KILL_STATE := kill_state; START_TIME := 1000;
     handler_registered := true |}.

(** Every child runs and none has been waited for. *)
Definition all_alive (w : sim) : Prop :=
  Forall (fun c => c_death c = None /\ c_reaped c = false) (children w).

(** The child [pid] has not been waited for. *)
Definition unreaped (pid : Z) (w : sim) : Prop :=
  exists c, In c (children w) /\ c_pid c = pid /\ c_reaped c = false.

(** The pids are those [fork] has handed out, and [n] more are left among
    the [int]s. *)
Definition room (n : nat) (w : sim) : Prop :=
  Forall (fun p => 100 <= p < 100 + Z.of_nat (length (children w)))
    (map c_pid (children w))
  /\ 100 + Z.of_nat (length (children w)) + Z.of_nat n <= CInt.INT_MAX + 1.

(** The file that holds [lines], each followed by a newline, read in
    blocks of 4096 bytes. *)
Definition file_of (lines : list string) : disk :=
  {| d_bytes := text (map lit lines); d_blksize := 4096 |}.

(** A run of [main] on such a file, from boot; it reads at most 100
    lines. *)
Definition run (os : OS) (w : @world os) (intervals polls : nat)
    (lines : list string) : res Z :=
  main 100 intervals polls (lit "procs.txt") (Some (file_of lines))
    (initial_state w).

End Sim.

(** A host without processes whose every file holds [content]: a place to
    look at a sampler alone. *)
Definition file_host (content : list ascii) : OS :=
  {| world := unit;
     sys_fork := fun _ w => (-1, w);
     sys_execvp := fun _ _ => Some 2;
     sys_usleep := fun _ w => w;
     sys_waitpid := fun _ w => (-1, w);
     sys_kill := fun _ w => w;
     sys_time := fun w => (0, w);
     sys_clk_tck := fun _ => 100;
     sys_fopen := fun _ _ => Some content;
     sys_sigint := fun w => (false, w);
     fclose_null_returns := false |}.

(** The file [bad], [bad], [yes], and its stream with the first [bad], the
    second [bad] and [yes] at hand. *)
Definition bad_bad_yes : disk := Sim.file_of ["bad"; "bad"; "yes"]%string.

Definition at_first_bad : FILE :=
  {| unread := lit "bad" ++ NEWLINE :: lit "yes" ++ [NEWLINE]; offset := 12 |}.

Definition at_second_bad : FILE :=
  {| unread := lit "yes" ++ [NEWLINE]; offset := 4 |}.

Definition at_yes : FILE := {| unread := []; offset := 0 |}.

(** ** Describing runs *)

(** The notice [sig_handler] prints can land anywhere after the handler is
    registered; [quiet] leaves it out of a trace. *)
Definition is_notice (e : event) : bool :=
  match e with
  | EPrint OSignal => true
  | _ => false
  end.

Definition quiet (tr : list event) : list event :=
  List.filter (fun e => negb (is_notice e)) tr.

(** [runs s s' X]: from [s] the program reached [s'], leaving the events [X]
    (and, once the handler is registered, possibly notices between them);
    the time limit and the start time are as before and a stop request
    stays. *)
Definition runs {os : OS} (s s' : state) (X : list event) : Prop :=
  (exists evs, st_trace s' = st_trace s ++ evs /\ quiet evs = X
               /\ (handler_registered s = false -> evs = X))
  /\ TARGET_TIME s' = TARGET_TIME s
  /\ START_TIME s' = START_TIME s
  /\ handler_registered s' = handler_registered s
  /\ (KILL_STATE s = 1 -> KILL_STATE s' = 1)
  /\ (handler_registered s = false -> KILL_STATE s' = KILL_STATE s).

(** What the Termination Handler is to do for the process at [index],
    whose liveness check answered [r]: kill and report a running child,
    report one that has exited. *)
Definition termination_block (index : nat) (pid r : Z) : list event :=
  EWaitpid pid r
    :: (if r =? 0 then [EPrint (OTerminated (Z.of_nat index)); EKill pid]
        else [EPrint (OExited (Z.of_nat index))]).

(** The same for the processes of a table from [index] on, each with the
    answer of its liveness check. *)
Fixpoint termination_blocks (index : nat) (polls : list (Z * Z)) : list event :=
  match polls with
  | [] => []
  | (pid, r) :: polls' =>
      termination_block index pid r ++ termination_blocks (S index) polls'
  end.

(** A process table as [read_file] hands it over: the pids [ps], the [-1]
    that ends them, and whatever the rest of the allocation holds. *)
Definition table_of (ps : list Z) (junk : table) : table :=
  (Some <$> ps) ++ Some (-1) :: junk.

(** What one process contributes to a report: its liveness check answered
    [r <> 0] ([Gone]), or [0] and the samplers were read ([Running]). *)
Inductive polled :=
| Gone (r : Z)
| Running (cpu_percent mem : Z).

Definition report_block (index : nat) (pid : Z) (o : polled) : list event :=
  match o with
  | Gone r => [EWaitpid pid r; EPrint (OExited (Z.of_nat index))]
  | Running cpu_percent mem =>
      [EWaitpid pid 0; EPrint (ORunning (Z.of_nat index) cpu_percent mem)]
  end.

Fixpoint report_blocks (index : nat) (polls : list (Z * polled)) : list event :=
  match polls with
  | [] => []
  | (pid, o) :: polls' =>
      report_block index pid o ++ report_blocks (S index) polls'
  end.

(** What a pass has done about the process [pid] at [index], given the
    ticks stored before it ([counters]) and after it ([c']).  A process
    reported as gone keeps its stored ticks.  A process reported as running
    was sampled after its liveness check answered [0]: the percentage
    printed is the one of the ticks just read against the ticks stored, and
    the ticks just read are stored. *)
Definition accounted {os : OS} (pid : Z) (index : nat) (counters c' : table)
    (full : Z) (o : polled) : Prop :=
  match o with
  | Gone r => r <> 0 /\ c' !! index = counters !! index
  | Running cpu_percent mem =>
      exists previous cpu s0 s1 s2 s3,
        counters !! index = Some (Some previous)
        /\ waitpid_ pid s0 = Ret 0 s1
        /\ get_cpu_usage pid s1 = Ret cpu s2
        /\ get_mem_usage pid s2 = Ret mem s3
        /\ cpu_percent = Z.quot (CInt.mul (CInt.sub cpu previous) 100) full
        /\ c' !! index = Some (Some cpu)
  end.

Definition is_gone (o : polled) : bool :=
  match o with
  | Gone _ => true
  | Running _ _ => false
  end.

(** An event that is no part of a termination: no kill, no "Terminated"
    line, no "Terminating" banner. *)
Definition calm (e : event) : bool :=
  match e with
  | EKill _ | EPrint (OTerminated _) | EPrint OTerminating => false
  | _ => true
  end.

(** The events of a run that the Termination Handler ended: its banner is
    among them and the last line is the handler's elapsed time. *)
Definition ended_by_handler (X : list event) : Prop :=
  In (EPrint OTerminating) X
  /\ exists secs, last X = Some (EPrint (OExiting secs)).

(** The events of a run that ended because every child had exited: the last
    line is the elapsed time the supervision loop prints itself. *)
Definition ended_all_exited (X : list event) : Prop :=
  exists secs, last X = Some (EPrint (OExitingDots secs)).

(** What became of one line of the input. *)
Inductive launch :=
| NotLaunched                 (* an empty line: no process was created *)
| Failed (pid r : Z)          (* created, but not taken into the table *)
| Started (pid : Z).          (* created and taken into the table *)

(** The path [read_file] prints for a line: its first token. *)
Definition path_of (line : cstring) : option cstring :=
  fst <$> Libc.strtok line.

(** The events of the launch of the line numbered [line_number]. *)
Definition launch_block (line_number : nat) (line : cstring) (l : launch)
  : list event :=
  match l with
  | NotLaunched => [EPrint (OBadEmpty (Z.of_nat line_number))]
  | Failed pid r =>
      [EFork line pid; EUsleep 100000; EWaitpid pid r;
       EPrint (OBad (Z.of_nat line_number) (path_of line))]
  | Started pid =>
      [EFork line pid; EUsleep 100000; EWaitpid pid 0;
       EPrint (OStarted (Z.of_nat line_number) (path_of line) pid)]
  end.

Fixpoint launch_blocks (line_number : nat) (ls : list (cstring * launch))
  : list event :=
  match ls with
  | [] => []
  | (line, l) :: ls' =>
      launch_block line_number line l ++ launch_blocks (S line_number) ls'
  end.

(** The pids of the lines that started, in line order. *)
Fixpoint started (ls : list launch) : list Z :=
  match ls with
  | [] => []
  | Started pid :: ls' => pid :: started ls'
  | _ :: ls' => started ls'
  end.

Definition is_started (l : launch) : bool :=
  match l with
  | Started _ => true
  | _ => false
  end.

(** The lines [read_file] hands to the launcher: the first line is a time
    limit and is dropped, or it is a command and [read_timer] has cut it
    after its first word. *)
Definition command_lines (lines : list cstring) : list cstring :=
  match read_timer (head lines) with
  | Some (timer, line) =>
      if negb (timer =? -1) then tail lines
      else match line with
           | Some l => l :: tail lines
           | None => []
           end
  | None => []
  end.

(** [traces s s' X]: the trace part of [runs], for steps that set a
    global. *)
Definition traces {os : OS} (s s' : state) (X : list event) : Prop :=
  (exists evs, st_trace s' = st_trace s ++ evs /\ quiet evs = X
               /\ (handler_registered s = false -> evs = X))
  /\ handler_registered s' = handler_registered s.

(** What the loop of [read_file] keeps true of its array: [len_pids] cells,
    of which the first [index] hold the pids [ps], and room for one more pid
    and the final [-1]. *)
Definition table_ok (pids : table) (index len_pids : nat) (ps : list Z) : Prop :=
  length pids = len_pids /\ (index < len_pids - 1)%nat
  /\ take index pids = Some <$> ps /\ length ps = index.

(** A world in which the launch of [line] succeeds: the line names a
    program that [execvp] finds, the child has a positive pid and is running
    at the wait that follows the grace period; [Inv] is what such launches
    keep true of the world. *)
Definition launches {os : OS} (Inv : world -> Prop) (line : cstring) (w : world) : Prop :=
  let (pid, w1) := sys_fork line w in
  let (r, w3) := sys_waitpid pid (sys_usleep 100000 w1) in
  get_args line <> [] /\ sys_execvp (get_args line) w1 = None
  /\ 0 < pid /\ r = 0 /\ Inv w3.

(** ** Describing inputs *)

(** A command line: words separated by single spaces. *)
Fixpoint command_line (words : list cstring) : cstring :=
  match words with
  | [] => []
  | [w] => w
  | w :: ws => w ++ SPACE :: command_line ws
  end.

(** The number of spaces in a string. *)
Definition spaces (s : cstring) : nat :=
  length (List.filter (fun c => Ascii.eqb c SPACE) s).

(** What the loop of [read_next_line] does with what is left of the stream
    after a byte. *)
Definition feed (t : list ascii) (line : buffer) (index extensions : nat)
  : option (buffer * nat * list ascii) :=
  match t with
  | [] => Some (line, index, [])
  | c :: f => line_loop f c line index extensions
  end.

(** A broken-down time as [localtime] fills it in. *)
Definition calendar (t : tm) : Prop :=
  0 <= tm_mon t <= 11 /\ 0 <= tm_wday t <= 6 /\ 0 <= tm_hour t <= 23
  /\ CInt.in_int (1900 + tm_year t).

(** A counter array that is ready for a pass: every cell was written. *)
Definition written (counters : table) : Prop :=
  Forall (fun c : option Z => c <> None) counters.

(** What the loop of [get_next_segment] does with what is left of the
    stream after a byte. *)
Definition feed_segment (t : list ascii) (segment : buffer)
    (seg_size index : nat) : option (buffer * nat * list ascii) :=
  match t with
  | [] => Some (segment, index, [])
  | c :: f => segment_loop f c segment seg_size index
  end.

(** ** Describing the host *)

(** What the program relies on when it reads /proc.  [live pid w] says
    that in the world [w] the child [pid] has not been waited for.  A child
    [pid > 0] for which [waitpid(pid, NULL, WNOHANG)] answers [0] is such a
    child, the delivery of a signal changes nothing about it, and its files
    /proc/[pid]/stat and /proc/[pid]/statm can be opened. *)
Definition procfs_tracks {os : OS} (live : Z -> world -> Prop) : Prop :=
  (forall pid w,
      0 < pid ->
      fst (sys_waitpid pid w) = 0 -> live pid (snd (sys_waitpid pid w)))
  /\ (forall pid w, live pid w -> live pid (snd (sys_sigint w)))
  /\ (forall pid w,
        live pid w ->
        sys_fopen (lit "/proc/" ++ int_digits pid ++ lit "/stat") w <> None
        /\ sys_fopen (lit "/proc/" ++ int_digits pid ++ lit "/statm") w
           <> None).

(** A property of the world that [usleep], [time] and the delivery of a
    signal leave as it is. *)
Definition steady {os : OS} (P : world -> Prop) : Prop :=
  (forall usec w, P w -> P (sys_usleep usec w))
  /\ (forall w, P w -> P (snd (sys_time w)))
  /\ (forall w, P w -> P (snd (sys_sigint w))).

(** What the program relies on when it launches.  [room n w] says that in
    the world [w] the host can take [n] more children.  While it can take
    one, [fork] succeeds in the parent, with a pid that is an [int] and is
    not the pid of a child not waited for; and the children not waited for
    stay so through [fork], [usleep], [time] and the wait for another
    child. *)
Definition launch_tracks {os : OS} (live : Z -> world -> Prop)
    (room : nat -> world -> Prop) : Prop :=
  (forall p, steady (live p))
  /\ (forall n, steady (room n))
  /\ (forall n w, room (S n) w -> room n w)
  /\ (forall n line w,
        room (S n) w ->
        0 < fst (sys_fork line w) <= CInt.INT_MAX
        /\ room n (snd (sys_fork line w)))
  /\ (forall n p line w,
        room (S n) w -> live p w ->
        fst (sys_fork line w) <> p /\ live p (snd (sys_fork line w)))
  /\ (forall n q w, room n w -> room n (snd (sys_waitpid q w)))
  /\ (forall p q w, live p w -> q <> p -> live p (snd (sys_waitpid q w))).

(** A line of a text file that the line buffer holds without growing. *)
Definition plain (l : cstring) : Prop :=
  ~ In NEWLINE l /\ ~ In NUL l /\ (length l < PATH_MAX + MAX_ARG_LENGTH)%nat.

(** A line whose child does not come back from [execvp]: the line is empty
    (no child), or it names a program the host finds. *)
Definition found {os : OS} (line : cstring) : Prop :=
  Libc.empty line = true
  \/ (get_args line <> [] /\ forall w, sys_execvp (get_args line) w = None).

(** [keeps live s s']: the children not waited for in [s] are so in [s']. *)
Definition keeps {os : OS} (live : Z -> world -> Prop) (s s' : state) : Prop :=
  forall p, live p (st_world s) -> live p (st_world s').

(** ** Describing the dates of reports *)

(** The dates of the normal reports among the events of a run, in order:
    each is the date printed right behind the words "Normal report, ". *)
Fixpoint report_dates (X : list event) : list Z :=
  match X with
  | EPrint ONormalReport :: rest =>
      match rest with
      | EPrint (ODate t) :: _ => t :: report_dates rest
      | _ => report_dates rest
      end
  | _ :: rest => report_dates rest
  | [] => []
  end.

(** Dates of which the first is not before [lo] and each of the others at
    least five seconds after the one before it. *)
Fixpoint spaced (lo : Z) (dates : list Z) : Prop :=
  match dates with
  | [] => True
  | d :: rest => lo <= d /\ spaced (d + 5) rest
  end.

(** Events among which no report begins. *)
Definition no_report (X : list event) : Prop :=
  ~ In (EPrint ONormalReport) X.

(** [later clock s s']: the clock of [s'] is not behind that of [s]. *)
Definition later {os : OS} (clock : world -> Z) (s s' : state) : Prop :=
  clock (st_world s) <= clock (st_world s').

(** A world in which [sleep 25] (pid 100) has run for 15 seconds and
    [sleep 3] (pid 101) ended 12 seconds ago. *)
Definition napping : Sim.sim :=
  {| Sim.clock := 1015;
     Sim.children :=
       [ {| Sim.c_pid := 100; Sim.c_start := 1000; Sim.c_death := Some 1025;
            Sim.c_reaped := false |};
         {| Sim.c_pid := 101; Sim.c_start := 1000; Sim.c_death := Some 1003;
            Sim.c_reaped := false |} ];
     Sim.sigint_at := None |}.

(** * Proofs *)

(** ** Integers in range *)

Ltac int_range :=
  unfold CInt.in_int, CInt.INT_MIN, CInt.INT_MAX, CInt.LONG_MIN,
    CInt.LONG_MAX in *; lia.

Lemma wrap_small z : CInt.in_int z -> CInt.wrap z = z.
Proof.
  unfold CInt.in_int, CInt.INT_MIN, CInt.INT_MAX, CInt.wrap. intros H.
  rewrite Z.mod_small by lia. lia.
Qed.

Lemma wrap_in_int z : CInt.in_int (CInt.wrap z).
Proof.
  unfold CInt.in_int, CInt.INT_MIN, CInt.INT_MAX, CInt.wrap.
  pose proof (Z.mod_pos_bound (z + 2147483648) 4294967296). lia.
Qed.

Lemma div_small a b :
  0 <= a <= CInt.INT_MAX -> 0 < b -> CInt.div a b = a / b.
Proof.
  intros Ha Hb. unfold CInt.div. rewrite Z.quot_div_nonneg by lia.
  apply wrap_small. unfold CInt.in_int, CInt.INT_MIN, CInt.INT_MAX in *.
  assert (0 <= a / b) by (apply Z.div_pos; lia).
  assert (a / b <= a) by (apply Z.div_le_upper_bound; nia).
  lia.
Qed.

(** ** Decimal digits *)

Lemma digit_char d :
  0 <= d <= 9 ->
  let c := ascii_of_nat (Z.to_nat (48 + d)) in
  switch_digit c = d /\ Ascii.eqb c NUL = false /\ Libc.digit c = Some d
  /\ Ascii.eqb c SPACE = false.
Proof.
  intros H.
  assert (d = 0 \/ d = 1 \/ d = 2 \/ d = 3 \/ d = 4 \/ d = 5 \/ d = 6
          \/ d = 7 \/ d = 8 \/ d = 9) as Hd by lia.
  repeat (destruct Hd as [-> | Hd]; [vm_compute; auto |]).
  subst d. vm_compute. auto.
Qed.

(** One turn of the digit loop on a positive [int]. *)
Lemma digits_loop_step fuel i :
  0 < i <= CInt.INT_MAX ->
  digits_loop (S fuel) i =
    ascii_of_nat (Z.to_nat (48 + i mod 10)) :: digits_loop fuel (i / 10).
Proof.
  intros Hi. simpl. destruct (Z.ltb_spec 0 i); [| lia].
  unfold CInt.rem. rewrite Z.rem_mod_nonneg by lia.
  pose proof (Z.mod_pos_bound i 10 ltac:(lia)).
  pose proof (Z.mod_le i 10 ltac:(lia) ltac:(lia)).
  unfold CInt.sub. rewrite wrap_small
    by int_range.
  rewrite div_small by int_range.
  replace ((i - i mod 10) / 10) with (i / 10); [reflexivity |].
  rewrite (Z.div_mod i 10) at 2 by lia.
  replace (10 * (i / 10) + i mod 10 - i mod 10) with ((i / 10) * 10) by lia.
  now rewrite Z.div_mul by lia.
Qed.

Lemma tenth_bound fuel i :
  0 <= i < 2 ^ Z.of_nat (S fuel) -> 0 <= i / 10 < 2 ^ Z.of_nat fuel.
Proof.
  intros [H0 H]. rewrite Nat2Z.inj_succ, Z.pow_succ_r in H by lia.
  split; [apply Z.div_pos; lia |].
  apply Z.div_lt_upper_bound; lia.
Qed.

Lemma digit_fuel_enough i : 0 < i -> i < 2 ^ Z.of_nat (digit_fuel i).
Proof.
  intros Hi. unfold digit_fuel. rewrite Nat2Z.inj_succ.
  rewrite Z2Nat.id by apply Z.log2_nonneg.
  apply Z.log2_spec. lia.
Qed.

(** Parsing the digits of [i], most significant first, reaches the total
    [i]. *)
Lemma convert_loop_digits fuel : forall i rest,
  0 <= i <= CInt.INT_MAX -> i < 2 ^ Z.of_nat fuel ->
  convert_loop (rev (digits_loop fuel i) ++ rest) 0 = convert_loop rest i.
Proof.
  induction fuel as [| fuel IH]; intros i rest Hi Hf.
  - simpl in *. assert (i = 0) by lia. now subst.
  - destruct (Z.eq_dec i 0) as [-> | Hne]; [reflexivity |].
    rewrite digits_loop_step by lia. simpl rev. rewrite <- app_assoc. simpl.
    assert (0 <= i / 10 < 2 ^ Z.of_nat fuel) by (apply tenth_bound; lia).
    assert (i / 10 <= i) by (apply Z.div_le_upper_bound; lia).
    rewrite IH by lia. simpl.
    pose proof (Z.mod_pos_bound i 10 ltac:(lia)) as Hm.
    destruct (digit_char (i mod 10) ltac:(lia)) as (Hs & Hn & _).
    rewrite Hn, Hs.
    destruct (Z.eqb_spec (i mod 10) (-1)); [lia |].
    f_equal. pose proof (Z.div_mod i 10 ltac:(lia)).
    unfold CInt.add, CInt.mul.
    rewrite (wrap_small (i / 10 * 10))
      by int_range.
    rewrite wrap_small
      by int_range.
    lia.
Qed.

(** ** The in-place reversal *)

Lemma reverse_loop_middle fuel : forall (a m b : cstring),
  (length m <= 2 * fuel)%nat ->
  reverse_loop fuel (a ++ m ++ b) (length a) (pred (length a + length m))
  = a ++ rev m ++ b.
Proof.
  induction fuel as [| fuel IH]; intros a m b Hlen.
  - destruct m; [reflexivity | simpl in Hlen; lia].
  - destruct m as [| x m1].
    { simpl. destruct (Nat.ltb_spec (length a) (pred (length a + 0))); [lia |].
      reflexivity. }
    induction m1 as [| y m' _] using rev_ind.
    { simpl. destruct (Nat.ltb_spec (length a) (pred (length a + 1))); [lia |].
      reflexivity. }
    assert (E : a ++ (x :: m' ++ [y]) ++ b = a ++ x :: m' ++ y :: b)
      by (simpl; now rewrite <- app_assoc).
    assert (Hm : length (x :: m' ++ [y]) = S (S (length m')))
      by (simpl; rewrite length_app; simpl; lia).
    rewrite Hm in *. rewrite E.
    cbn [reverse_loop].
    replace (pred (length a + S (S (length m'))))
      with (length a + S (length m'))%nat by lia.
    destruct (Nat.ltb_spec (length a) (length a + S (length m'))); [| lia].
    assert (Hr : (a ++ x :: m' ++ y :: b) !! (length a + S (length m'))%nat
                 = Some y).
    { rewrite lookup_app_r by lia.
      replace (length a + S (length m') - length a)%nat
        with (length (x :: m')) by (simpl; lia).
      now apply (list_lookup_middle (x :: m')). }
    assert (Hl : (a ++ x :: m' ++ y :: b) !! length a = Some x)
      by now apply list_lookup_middle.
    rewrite Hr, Hl.
    assert (<[length a := y]>
              (<[(length a + S (length m'))%nat := x]>
                 (a ++ x :: m' ++ y :: b))
            = (a ++ [y]) ++ m' ++ ([x] ++ b)) as ->.
    { rewrite insert_app_r. simpl.
      rewrite (insert_app_r_alt m') by lia. rewrite Nat.sub_diag. simpl.
      rewrite (insert_app_r_alt a) by lia. rewrite Nat.sub_diag. simpl.
      now rewrite <- !app_assoc. }
    replace (S (length a)) with (length (a ++ [y]))
      by (rewrite length_app; simpl; lia).
    replace (pred (length a + S (length m')))
      with (pred (length (a ++ [y]) + length m'))
      by (rewrite length_app; simpl; lia).
    rewrite IH by lia.
    simpl. rewrite rev_app_distr. simpl. now rewrite <- !app_assoc.
Qed.

Lemma reverse_loop_rev (str : cstring) :
  reverse_loop (length str) str 0 (pred (length str)) = rev str.
Proof.
  pose proof (reverse_loop_middle (length str) [] str []) as H.
  simpl in H. rewrite !app_nil_r in H. apply H. lia.
Qed.

(** The string of a positive [int]: its digits, most significant first. *)
Lemma int_digits_pos i :
  0 < i ->
  int_digits i = rev (digits_loop (digit_fuel i) i).
Proof.
  intros Hi. unfold int_digits.
  destruct (Z.eqb_spec i 0); [lia |]. apply reverse_loop_rev.
Qed.

(** ** Characters that are not digits *)

Lemma switch_digit_other c :
  ~ In c (lit "0123456789") -> switch_digit c = -1.
Proof.
  intros H.
  destruct c as [[] [] [] [] [] [] [] []]; try reflexivity;
    exfalso; apply H; vm_compute; tauto.
Qed.

Lemma convert_loop_non_digit str : forall c total,
  In c str -> ~ In c (lit "0123456789") -> ~ In NUL str ->
  convert_loop str total = -1.
Proof.
  induction str as [| x str IH]; intros c total Hin Hc Hnul; [easy |].
  simpl. destruct (Ascii.eqb_spec x NUL) as [-> | _].
  { exfalso. apply Hnul. now left. }
  destruct (Z.eqb_spec (switch_digit x) (-1)); [reflexivity |].
  destruct Hin as [-> | Hin].
  { now rewrite switch_digit_other in *. }
  apply (IH c); auto. intros F. apply Hnul. now right.
Qed.

(** Parsing the decimal digits of a non-negative [int], as a C string,
    yields the integer again; parsing yields [-1] for every C string that
    contains a character other than a decimal digit. *)
Lemma digits_round_trip :
  (forall i, 0 <= i <= CInt.INT_MAX ->
     convert_str_to_int (int_digits i) = i)
  /\ (forall str c, In c str -> ~ In c (lit "0123456789") -> ~ In NUL str ->
        convert_str_to_int str = -1).
Proof.
  split.
  - intros i Hi. destruct (Z.eq_dec i 0) as [-> | Hne]; [reflexivity |].
    rewrite int_digits_pos by lia.
    unfold convert_str_to_int.
    rewrite <- (app_nil_r (rev _)).
    rewrite convert_loop_digits; [reflexivity | lia |].
    apply digit_fuel_enough. lia.
  - intros str c Hin Hc Hnul. unfold convert_str_to_int.
    now apply (convert_loop_non_digit str c).
Qed.

(** ** Reading the statm file *)

Lemma digit_of_spec d :
  0 <= d <= 9 ->
  Libc.digit (Statm.digit_of d) = Some d
  /\ Ascii.eqb (Statm.digit_of d) SPACE = false
  /\ Ascii.eqb (Statm.digit_of d) NUL = false.
Proof.
  intros H. destruct (digit_char d H) as (_ & ? & ? & ?). auto.
Qed.

(** A string that starts with a digit is read by [strtol] as its digits. *)
Lemma atoi_digits c d (s : cstring) :
  Libc.digit c = Some d ->
  Libc.atoi (c :: s) =
    CInt.of_long
      (Z.max CInt.LONG_MIN (Z.min CInt.LONG_MAX (Libc.digits_value (c :: s) 0))).
Proof.
  intros H. unfold Libc.atoi, Libc.strtol.
  destruct c as [[] [] [] [] [] [] [] []]; try discriminate H; reflexivity.
Qed.

Lemma numeral_loop_value fuel : forall n acc,
  0 <= n < 2 ^ Z.of_nat fuel ->
  Libc.digits_value (Statm.numeral_loop fuel n acc) 0 = Libc.digits_value acc n.
Proof.
  induction fuel as [| fuel IH]; intros n acc Hn.
  - simpl in *. now replace n with 0 by lia.
  - pose proof (Z.mod_pos_bound n 10 ltac:(lia)) as Hm.
    destruct (digit_of_spec (n mod 10) ltac:(lia)) as (Hd & _).
    simpl. destruct (Z.ltb_spec n 10).
    + simpl. rewrite Hd. simpl. now rewrite Z.mod_small by lia.
    + rewrite IH by (apply tenth_bound; lia). simpl. rewrite Hd.
      f_equal. pose proof (Z.div_mod n 10 ltac:(lia)). lia.
Qed.

(** A numeral starts with a digit and holds no space. *)
Lemma numeral_loop_shape fuel : forall n acc,
  0 <= n ->
  (forall c, In c acc -> Ascii.eqb c SPACE = false) ->
  (exists d c t, Statm.numeral_loop (S fuel) n acc = c :: t
                 /\ Libc.digit c = Some d /\ Ascii.eqb c NUL = false)
  /\ (forall c, In c (Statm.numeral_loop (S fuel) n acc) ->
        Ascii.eqb c SPACE = false).
Proof.
  induction fuel as [| fuel IH]; intros n acc Hn Hacc;
    pose proof (Z.mod_pos_bound n 10 ltac:(lia)) as Hm;
    destruct (digit_of_spec (n mod 10) ltac:(lia)) as (Hd & Hs & Hz).
  - assert (Statm.numeral_loop 1 n acc = Statm.digit_of (n mod 10) :: acc)
      as -> by (simpl; now destruct (n <? 10)).
    split; [eauto 10 |]. intros c [<- | Hin]; auto.
  - cbn [Statm.numeral_loop]. destruct (Z.ltb_spec n 10).
    + split; [eauto 10 |]. intros c [<- | Hin]; auto.
    + apply IH; [apply Z.div_pos; lia |].
      intros c [<- | Hin]; auto.
Qed.

Lemma numeral_shape n :
  0 <= n ->
  (exists d c t, Statm.numeral n = c :: t /\ Libc.digit c = Some d
                 /\ Ascii.eqb c NUL = false)
  /\ (forall c, In c (Statm.numeral n) -> Ascii.eqb c SPACE = false).
Proof.
  intros Hn. unfold Statm.numeral, digit_fuel.
  apply numeral_loop_shape; [lia | intros c []].
Qed.

Lemma numeral_loop_app fuel : forall n acc tail,
  Statm.numeral_loop fuel n (acc ++ tail)
  = Statm.numeral_loop fuel n acc ++ tail.
Proof.
  induction fuel as [| fuel IH]; intros n acc tail; [reflexivity |].
  simpl. destruct (n <? 10); [reflexivity |].
  now rewrite <- IH.
Qed.

(** [atoi] reads a numeral back, whatever non-digit follows it. *)
Lemma atoi_numeral n (tail : cstring) :
  0 <= n <= CInt.INT_MAX ->
  Libc.digits_value tail n = n ->
  Libc.atoi (Statm.numeral n ++ tail) = n.
Proof.
  intros Hn Htail.
  destruct (numeral_shape n ltac:(lia)) as ((d & c & t & E & Hd & _) & _).
  assert (V : Libc.digits_value (Statm.numeral n ++ tail) 0 = n).
  { unfold Statm.numeral. rewrite <- numeral_loop_app.
    change ([] ++ tail) with tail.
    rewrite numeral_loop_value; [exact Htail |].
    destruct (Z.eq_dec n 0) as [-> | Hne]; [now vm_compute |].
    split; [lia | apply digit_fuel_enough; lia]. }
  rewrite E in *. simpl app in *. rewrite (atoi_digits c d) by exact Hd.
  rewrite V. unfold CInt.of_long. rewrite Z.min_r, Z.max_r by int_range.
  apply wrap_small. int_range.
Qed.


Lemma get_next_segment_space (s rest : cstring) :
  (forall c, In c s -> Ascii.eqb c SPACE = false) ->
  get_next_segment (s ++ SPACE :: rest) = (s, rest).
Proof.
  induction s as [| c s IH]; intros H; [reflexivity |].
  simpl. rewrite (H c) by now left.
  rewrite IH; [reflexivity |]. intros c' Hc'. apply H. now right.
Qed.





(** ** Runs and their events *)

Section Runs.

Context {os : OS}.

Lemma quiet_app a b : quiet (a ++ b) = quiet a ++ quiet b.
Proof. apply List.filter_app. Qed.

Lemma runs_refl s : runs s s [].
Proof.
  repeat split; auto. exists []. now rewrite app_nil_r.
Qed.

Lemma runs_trans s s1 s2 X Y :
  runs s s1 X -> runs s1 s2 Y -> runs s s2 (X ++ Y).
Proof.
  intros ((e1 & T1 & Q1 & N1) & A1 & B1 & C1 & D1 & F1)
         ((e2 & T2 & Q2 & N2) & A2 & B2 & C2 & D2 & F2).
  repeat split; try congruence; auto.
  - exists (e1 ++ e2). rewrite T2, T1, quiet_app, Q1, Q2, app_assoc.
    repeat split; auto. intros H. rewrite N1, N2 by congruence. reflexivity.
  - intros H. rewrite F2, F1 by congruence. reflexivity.
Qed.

Lemma runs_quiet s s' X :
  runs s s' X -> quiet (st_trace s') = quiet (st_trace s) ++ X.
Proof.
  intros ((e & T & Q & _) & _). now rewrite T, quiet_app, Q.
Qed.

Lemma runs_exact s s' X :
  runs s s' X -> handler_registered s = false ->
  st_trace s' = st_trace s ++ X.
Proof.
  intros ((e & T & _ & N) & _) H. now rewrite T, N.
Qed.

Lemma log_runs e s :
  is_notice e = false ->
  exists s', log e s = Ret tt s' /\ runs s s' [e]
             /\ st_world s' = st_world s /\ KILL_STATE s' = KILL_STATE s.
Proof.
  intros H. eexists. split; [reflexivity |]. simpl.
  repeat split; auto. exists [e]. simpl. rewrite H. auto.
Qed.

Lemma print_runs o s :
  o <> OSignal ->
  exists s', print o s = Ret tt s' /\ runs s s' [EPrint o]
             /\ st_world s' = st_world s /\ KILL_STATE s' = KILL_STATE s.
Proof.
  intros H. apply log_runs. destruct o; auto. congruence.
Qed.

Lemma set_world_runs w s : runs s (set_world w s) [].
Proof.
  repeat split; auto. exists []. simpl. now rewrite app_nil_r.
Qed.

Lemma interrupts_runs s :
  exists s', interrupts s = Ret tt s' /\ runs s s' [].
Proof.
  unfold interrupts. destruct (handler_registered s) eqn:Hh.
  - destruct (sys_sigint (st_world s)) as [[] w].
    + eexists. split; [reflexivity |]. simpl.
      repeat split; auto; try congruence.
      exists [EPrint OSignal]. simpl. repeat split; auto. congruence.
    + eexists. split; [reflexivity |]. apply set_world_runs.
  - eexists. split; [reflexivity |]. apply runs_refl.
Qed.

Lemma waitpid_runs pid s :
  exists r s', waitpid_ pid s = Ret r s' /\ runs s s' [EWaitpid pid r].
Proof.
  unfold waitpid_. destruct (sys_waitpid pid (st_world s)) as [r w].
  unfold bind.
  destruct (log_runs (EWaitpid pid r) (set_world w s) eq_refl)
    as (s1 & -> & R1 & _).
  destruct (interrupts_runs s1) as (s2 & -> & R2).
  exists r, s2. split; [reflexivity |].
  change [EWaitpid pid r] with ([] ++ [EWaitpid pid r] ++ []).
  eauto using runs_trans, set_world_runs.
Qed.

Lemma kill_runs pid s :
  exists s', kill_ pid s = Ret tt s' /\ runs s s' [EKill pid].
Proof.
  unfold kill_, bind.
  destruct (log_runs (EKill pid) (set_world (sys_kill pid (st_world s)) s)
              eq_refl) as (s1 & -> & R1 & _).
  destruct (interrupts_runs s1) as (s2 & -> & R2).
  exists s2. split; [reflexivity |].
  change [EKill pid] with ([] ++ [EKill pid] ++ []).
  eauto using runs_trans, set_world_runs.
Qed.

Lemma usleep_runs usec s :
  exists s', usleep_ usec s = Ret tt s' /\ runs s s' [EUsleep usec].
Proof.
  unfold usleep_, bind.
  destruct (log_runs (EUsleep usec)
              (set_world (sys_usleep usec (st_world s)) s) eq_refl)
    as (s1 & -> & R1 & _).
  destruct (interrupts_runs s1) as (s2 & -> & R2).
  exists s2. split; [reflexivity |].
  change [EUsleep usec] with ([] ++ [EUsleep usec] ++ []).
  eauto using runs_trans, set_world_runs.
Qed.

Lemma fork_runs line s :
  exists s', fork_ line s = Ret (fst (sys_fork line (st_world s))) s'
             /\ runs s s' [EFork line (fst (sys_fork line (st_world s)))].
Proof.
  unfold fork_. destruct (sys_fork line (st_world s)) as [pid w].
  unfold bind. simpl fst.
  destruct (log_runs (EFork line pid) (set_world w s) eq_refl)
    as (s1 & -> & R1 & _).
  destruct (interrupts_runs s1) as (s2 & -> & R2).
  exists s2. split; [reflexivity |].
  change [EFork line pid] with ([] ++ [EFork line pid] ++ []).
  eauto using runs_trans, set_world_runs.
Qed.

Lemma time_runs s :
  exists t s', time_ s = Ret t s' /\ runs s s' [].
Proof.
  unfold time_. destruct (sys_time (st_world s)) as [t w]. unfold bind.
  destruct (interrupts_runs (set_world w s)) as (s2 & -> & R2).
  exists t, s2. split; [reflexivity |].
  change (@nil event) with (@nil event ++ []).
  eauto using runs_trans, set_world_runs.
Qed.

Lemma fopen_runs path s :
  exists s', fopen_ path s = Ret (sys_fopen path (st_world s)) s'
             /\ runs s s' [].
Proof.
  unfold fopen_, bind.
  destruct (interrupts_runs s) as (s2 & -> & R2). eauto.
Qed.

Lemma display_date_runs s :
  exists t s', display_date s = Ret tt s' /\ runs s s' [EPrint (ODate t)].
Proof.
  unfold display_date, bind.
  destruct (time_runs s) as (t & s1 & -> & R1).
  destruct (print_runs (ODate t) s1 ltac:(discriminate)) as (s2 & -> & R2 & _).
  exists t, s2. split; [reflexivity |].
  change [EPrint (ODate t)] with ([] ++ [EPrint (ODate t)]).
  eauto using runs_trans.
Qed.

(** A sampler returns a value or faults; it leaves no event. *)
Lemma get_cpu_usage_runs pid s :
  (exists v s', get_cpu_usage pid s = Ret v s' /\ runs s s' [])
  \/ (exists s', get_cpu_usage pid s = Fault s').
Proof.
  unfold get_cpu_usage, bind.
  destruct (proc_path pid (lit "/stat") 5) as [path |];
    [| right; eexists; reflexivity]. cbn [defined ret].
  destruct (pid =? 0); [right; eexists; reflexivity |]. cbn [ret].
  destruct (fopen_runs path s) as (s1 & -> & R1).
  destruct (sys_fopen _ _); [left; eexists _, _; split; [reflexivity | easy] |].
  unfold fclose_null. destruct fclose_null_returns; simpl.
  - left. eexists _, _. split; [reflexivity | easy].
  - right. eexists; reflexivity.
Qed.

Lemma get_mem_usage_runs pid s :
  (exists v s', get_mem_usage pid s = Ret v s' /\ runs s s' [])
  \/ (exists s', get_mem_usage pid s = Fault s').
Proof.
  unfold get_mem_usage, bind.
  destruct (proc_path pid (lit "/statm") 6) as [path |];
    [| right; eexists; reflexivity]. cbn [defined ret].
  destruct (pid =? 0); [right; eexists; reflexivity |]. cbn [ret].
  destruct (fopen_runs path s) as (s1 & -> & R1).
  destruct (sys_fopen _ _) as [content |].
  - destruct (mem_of_statm content); simpl.
    + left. eexists _, _. split; [reflexivity | easy].
    + right. eexists; reflexivity.
  - unfold fclose_null. destruct fclose_null_returns; simpl.
    + left. eexists _, _. split; [reflexivity | easy].
    + right. eexists; reflexivity.
Qed.

Lemma runs_traces s s' X : runs s s' X -> traces s s' X.
Proof. intros (T & _ & _ & H & _). split; assumption. Qed.

Lemma traces_trans s s1 s2 X Y :
  traces s s1 X -> traces s1 s2 Y -> traces s s2 (X ++ Y).
Proof.
  intros ((e1 & T1 & Q1 & N1) & C1) ((e2 & T2 & Q2 & N2) & C2).
  split; [| congruence].
  exists (e1 ++ e2). rewrite T2, T1, quiet_app, Q1, Q2, app_assoc.
  repeat split; auto. intros H. rewrite N1, N2 by congruence. reflexivity.
Qed.

Lemma traces_quiet s s' X :
  traces s s' X -> quiet (st_trace s') = quiet (st_trace s) ++ X.
Proof.
  intros ((e & T & Q & _) & _). now rewrite T, quiet_app, Q.
Qed.

Lemma traces_exact s s' X :
  traces s s' X -> handler_registered s = false ->
  st_trace s' = st_trace s ++ X.
Proof.
  intros ((e & T & _ & N) & _) H. now rewrite T, N.
Qed.

Lemma set_TARGET_TIME_traces v s :
  exists s', set_TARGET_TIME v s = Ret tt s' /\ traces s s' []
             /\ TARGET_TIME s' = v.
Proof.
  eexists. split; [reflexivity |]. split; [| reflexivity].
  split; [| reflexivity]. exists []. simpl. rewrite app_nil_r. auto.
Qed.

End Runs.

(** ** The stop condition *)

Section Supervision.

Context {os : OS}.

Lemma sig_handler_sets s :
  exists s', sig_handler s = Ret tt s' /\ KILL_STATE s' = 1
             /\ TARGET_TIME s' = TARGET_TIME s /\ START_TIME s' = START_TIME s.
Proof. eexists. split; [reflexivity |]. simpl. auto. Qed.

(** [terminate_program] does not return: what follows it never runs. *)
Lemma terminate_program_ends {A B} (k : A -> M B) pids elapsed s :
  bind (terminate_program pids elapsed) k s
  = terminate_program pids elapsed s.
Proof.
  unfold terminate_program, bind, exit_.
  repeat (match goal with
          | |- context [match ?x with Ret _ _ => _ | _ => _ end] =>
              lazymatch x with
              | context [match _ with Ret _ _ => _ | _ => _ end] => fail
              | _ => destruct x
              end
          end; try reflexivity).
Qed.

(** C6.  [check_timer] answers [1] exactly when a time limit is configured
    ([TARGET_TIME] is not the sentinel [-1]) and the time elapsed since the
    start has reached it, or the interrupt handler has set [KILL_STATE];
    without a time limit only the flag stops the program.  The waiting loop
    of [periodic_reports] evaluates just this condition at every poll and
    hands over to [terminate_program] when it holds. *)
Theorem stop_condition_spec (s : state) (current_time : Z) :
  (stop_condition s current_time = 1 <->
     (TARGET_TIME s <> -1 /\ current_time - START_TIME s >= TARGET_TIME s)
     \/ KILL_STATE s = 1)
  /\ (stop_condition s current_time = 1 \/ stop_condition s current_time = 0)
  /\ check_timer current_time s = Ret (stop_condition s current_time) s
  /\ (TARGET_TIME s = -1 ->
      (stop_condition s current_time = 1 <-> KILL_STATE s = 1))
  /\ (forall s', sig_handler s = Ret tt s' -> stop_condition s' current_time = 1)
  /\ (forall polls pids t previous now s1,
        previous - t < 5 -> time_ s = Ret now s1 ->
        wait_loop (S polls) pids t previous s =
          if stop_condition s1 now =? 1
          then terminate_program pids (now - START_TIME s1) s1
          else wait_loop polls pids t now s1).
Proof.
  assert (E : stop_condition s current_time = 1 <->
     (TARGET_TIME s <> -1 /\ current_time - START_TIME s >= TARGET_TIME s)
     \/ KILL_STATE s = 1).
  { unfold stop_condition.
    destruct (Z.leb_spec (TARGET_TIME s) (current_time - START_TIME s));
      destruct (Z.eqb_spec (TARGET_TIME s) (-1));
      destruct (Z.eqb_spec (KILL_STATE s) 1); simpl; split; intros;
      try discriminate; try lia; auto; try tauto;
      intuition (try lia; auto). }
  split; [exact E |]. split; [| split; [reflexivity |]; split; [| split]].
  - unfold stop_condition.
    destruct (_ && _); auto. destruct (_ =? 1); auto.
  - intros Hno. rewrite E. intuition congruence.
  - intros s' H. destruct (sig_handler_sets s) as (s'' & H' & K & _).
    rewrite H in H'. injection H' as <-.
    unfold stop_condition. rewrite K.
    destruct (_ && _); reflexivity.
  - intros polls pids t previous now s1 Hlt Ht. cbn [wait_loop].
    destruct (Z.ltb_spec (previous - t) 5); [| lia].
    unfold bind. rewrite Ht. unfold check_timer, get.
    destruct (stop_condition s1 now =? 1); [| reflexivity].
    fold (bind (terminate_program (A := unit) pids (now - START_TIME s1))
            (fun _ => wait_loop polls pids t now) s1).
    apply terminate_program_ends.
Qed.

(** ** Stepping through the monad *)

Lemma bind_Ret {A B} (m : M A) (k : A -> M B) s a s' :
  m s = Ret a s' -> bind m k s = k a s'.
Proof. unfold bind. now intros ->. Qed.

Lemma bind_Fault {A B} (m : M A) (k : A -> M B) s s' :
  m s = Fault s' -> bind m k s = Fault s'.
Proof. unfold bind. now intros ->. Qed.

Lemma bind_Exited {A B} (m : M A) (k : A -> M B) s c s' :
  m s = Exited c s' -> bind m k s = Exited c s'.
Proof. unfold bind. now intros ->. Qed.

Lemma bind_congr {A B} (m m' : M A) (k : A -> M B) s :
  m s = m' s -> bind m k s = bind m' k s.
Proof. unfold bind. now intros ->. Qed.

Lemma store_in_range (a : table) i v s :
  (i < length a)%nat -> store a i v s = Ret (<[i := Some v]> a) s.
Proof.
  intros H. unfold store. now destruct (Nat.ltb_spec i (length a)); [| lia].
Qed.

Lemma load_Some (a : table) i v s :
  a !! i = Some (Some v) -> load a i s = Ret v s.
Proof. unfold load. now intros ->. Qed.

Lemma int_divide_ok a b s :
  b <> 0 -> (a <> CInt.INT_MIN \/ b <> -1) ->
  int_divide a b s = Ret (Z.quot a b) s.
Proof.
  intros Hb Hm. unfold int_divide.
  destruct (Z.eqb_spec b 0); [lia |].
  destruct (Z.eqb_spec a CInt.INT_MIN), (Z.eqb_spec b (-1)); simpl;
    try reflexivity. lia.
Qed.

(** ** One process of a report *)

(** A process whose liveness check answers [0] is sampled and reported as
    running; its counter becomes the ticks just read. *)
Lemma poll_process_alive s s1 s2 s3 pid index counters full done cpu mem
    previous :
  waitpid_ pid s = Ret 0 s1 ->
  get_cpu_usage pid s1 = Ret cpu s2 ->
  get_mem_usage pid s2 = Ret mem s3 ->
  counters !! index = Some (Some previous) ->
  full <> 0 ->
  (CInt.mul (CInt.sub cpu previous) 100 <> CInt.INT_MIN \/ full <> -1) ->
  exists s4,
    poll_process pid index counters full done s
    = Ret (<[index := Some cpu]> counters, 0) s4
    /\ print (ORunning (Z.of_nat index)
                (Z.quot (CInt.mul (CInt.sub cpu previous) 100) full) mem) s3
       = Ret tt s4.
Proof.
  intros Hw Hc Hm Hl Hf Hd. unfold poll_process.
  rewrite (bind_Ret _ _ _ _ _ Hw). simpl.
  rewrite (bind_Ret _ _ _ _ _ Hc).
  rewrite (bind_Ret _ _ _ _ _ (load_Some _ _ _ _ Hl)).
  rewrite (bind_Ret _ _ _ _ _ Hm).
  rewrite (bind_Ret _ _ _ _ _ (int_divide_ok _ _ _ Hf Hd)).
  rewrite (bind_Ret _ _ _ _ _ (store_in_range _ _ _ _ (lookup_lt_Some _ _ _ Hl))).
  unfold display_proc_state.
  eexists. split; [| reflexivity]. reflexivity.
Qed.

(** A process whose liveness check answers anything else is reported as
    exited; the samplers are not consulted. *)
Lemma poll_process_gone s s1 pid index counters full done r :
  waitpid_ pid s = Ret r s1 -> r <> 0 ->
  exists s2,
    poll_process pid index counters full done s = Ret (counters, done) s2
    /\ print (OExited (Z.of_nat index)) s1 = Ret tt s2.
Proof.
  intros Hw Hr. unfold poll_process.
  rewrite (bind_Ret _ _ _ _ _ Hw).
  destruct (Z.eqb_spec r 0); [lia |].
  eexists. split; reflexivity.
Qed.

(** For a tracked process whose liveness check answers [0] the line
    printed carries (currentTicks - previousTicks) * 100 / (5 *
    clockTicksPerSecond), computed on [int]s with a division that truncates;
    where the product does not overflow this is the exact integer quotient.
    Nothing clamps it to [0, 100]: twice the interval's ticks give 200 or
    more, a falling counter gives a negative value.  The stored previous
    ticks become currentTicks. *)
Lemma poll_process_percent s s1 s2 s3 pid index (counters : table) done clk
    cpu mem previous :
  waitpid_ pid s = Ret 0 s1 ->
  get_cpu_usage pid s1 = Ret cpu s2 ->
  get_mem_usage pid s2 = Ret mem s3 ->
  counters !! index = Some (Some previous) ->
  0 < 5 * clk <= CInt.INT_MAX ->
  exists s4 cpu_percent,
    poll_process pid index counters (CInt.of_long (5 * clk)) done s
    = Ret (<[index := Some cpu]> counters, 0) s4
    /\ st_trace s4
       = st_trace s3 ++ [EPrint (ORunning (Z.of_nat index) cpu_percent mem)]
    /\ cpu_percent = Z.quot (CInt.mul (CInt.sub cpu previous) 100) (5 * clk)
    /\ (CInt.in_int ((cpu - previous) * 100) ->
        cpu_percent = Z.quot ((cpu - previous) * 100) (5 * clk)
        /\ (2 * (5 * clk) <= cpu - previous -> 200 <= cpu_percent)
        /\ (cpu - previous <= - (5 * clk) -> cpu_percent <= -100)).
Proof.
  intros Hw Hc Hm Hl Hclk.
  assert (Hfull : CInt.of_long (5 * clk) = 5 * clk)
    by (apply wrap_small; int_range).
  rewrite Hfull.
  destruct (poll_process_alive s s1 s2 s3 pid index counters (5 * clk) done
              cpu mem previous Hw Hc Hm Hl ltac:(lia) ltac:(right; lia))
    as (s4 & Hp & Hs).
  exists s4, (Z.quot (CInt.mul (CInt.sub cpu previous) 100) (5 * clk)).
  split; [exact Hp |]. split; [| split; [reflexivity |]].
  - unfold print, log in Hs. injection Hs as <-. reflexivity.
  - intros Hr.
    assert (Hsub : CInt.in_int (cpu - previous)) by int_range.
    unfold CInt.mul, CInt.sub. rewrite (wrap_small (cpu - previous)) by exact Hsub.
    rewrite wrap_small by exact Hr.
    split; [reflexivity |]. split; intros Hd.
    + rewrite Z.quot_div_nonneg by lia.
      apply Z.div_le_lower_bound; nia.
    + replace ((cpu - previous) * 100) with (- ((previous - cpu) * 100)) by lia.
      rewrite Z.quot_opp_l by lia.
      rewrite Z.quot_div_nonneg by lia.
      assert (100 <= (previous - cpu) * 100 / (5 * clk))
        by (apply Z.div_le_lower_bound; nia).
      lia.
Qed.

(** ** Termination *)

Lemma terminate_loop_runs ps : forall junk index s,
  ~ In (-1) ps ->
  exists rs s',
    length rs = length ps
    /\ terminate_loop (table_of ps junk) index s = Ret tt s'
    /\ runs s s' (termination_blocks index (zip ps rs)).
Proof.
  induction ps as [| pid ps IH]; intros junk index s Hno.
  - exists [], s. repeat split; auto. apply runs_refl.
  - assert (Hpid : pid <> -1) by (intros ->; apply Hno; now left).
    assert (Hno' : ~ In (-1) ps) by (intros F; apply Hno; now right).
    unfold table_of. cbn [fmap list_fmap app terminate_loop].
    destruct (Z.eqb_spec pid (-1)); [lia |].
    destruct (waitpid_runs pid s) as (r & s1 & Hw & R1).
    rewrite (bind_Ret _ _ _ _ _ Hw).
    assert (exists s2,
      (if r =? 0
       then bind (print (OTerminated (Z.of_nat index))) (fun _ => kill_ pid)
       else print (OExited (Z.of_nat index))) s1 = Ret tt s2
      /\ runs s s2 (termination_block index pid r)) as (s2 & Hb & R2).
    { unfold termination_block. destruct (r =? 0).
      - destruct (print_runs (OTerminated (Z.of_nat index)) s1
                    ltac:(discriminate)) as (sa & Ha & Ra & _).
        destruct (kill_runs pid sa) as (sb & Hb & Rb).
        exists sb. rewrite (bind_Ret _ _ _ _ _ Ha). split; [exact Hb |].
        change (EWaitpid pid r :: [EPrint (OTerminated (Z.of_nat index)); EKill pid])
          with ([EWaitpid pid r] ++ [EPrint (OTerminated (Z.of_nat index))]
                  ++ [EKill pid]).
        eauto using runs_trans.
      - destruct (print_runs (OExited (Z.of_nat index)) s1
                    ltac:(discriminate)) as (sa & Ha & Ra & _).
        exists sa. split; [exact Ha |].
        change (EWaitpid pid r :: [EPrint (OExited (Z.of_nat index))])
          with ([EWaitpid pid r] ++ [EPrint (OExited (Z.of_nat index))]).
        eauto using runs_trans. }
    rewrite (bind_Ret _ _ _ _ _ Hb).
    destruct (IH junk (S index) s2 Hno') as (rs & s3 & Hlen & Ht & R3).
    exists (r :: rs), s3. split; [simpl; lia |].
    split; [exact Ht |]. exact (runs_trans _ _ _ _ _ R2 R3).
Qed.

(** C4.  On a process table the Termination Handler prints its banner;
    then, for each tracked identifier in index order, it makes one
    non-blocking liveness check and either prints "[index] Terminated" and
    sends SIGKILL (the check answered [0]: still running) or prints "[index]
    Exited"; then it prints the elapsed time and ends the program with exit
    code [0].  It returns to no caller: whatever result its caller expects,
    the outcome is the exit. *)
Theorem terminate_program_spec (A : Type) ps junk elapsed s :
  ~ In (-1) ps ->
  exists rs t s',
    length rs = length ps
    /\ terminate_program (A := A) (table_of ps junk) elapsed s = Exited 0 s'
    /\ quiet (st_trace s')
       = quiet (st_trace s)
         ++ [EPrint OTerminating; EPrint (ODate t)]
         ++ termination_blocks 0 (zip ps rs)
         ++ [EPrint (OExiting (CInt.of_double elapsed))]
    /\ (handler_registered s = false ->
        st_trace s'
        = st_trace s
          ++ [EPrint OTerminating; EPrint (ODate t)]
          ++ termination_blocks 0 (zip ps rs)
          ++ [EPrint (OExiting (CInt.of_double elapsed))]).
Proof.
  intros Hno. unfold terminate_program.
  destruct (print_runs OTerminating s ltac:(discriminate))
    as (s1 & H1 & R1 & _).
  destruct (display_date_runs s1) as (t & s2 & H2 & R2).
  destruct (terminate_loop_runs ps junk O s2 Hno) as (rs & s3 & Hlen & H3 & R3).
  destruct (print_runs (OExiting (CInt.of_double elapsed)) s3
              ltac:(discriminate)) as (s4 & H4 & R4 & _).
  exists rs, t, s4. split; [exact Hlen |].
  rewrite (bind_Ret _ _ _ _ _ H1), (bind_Ret _ _ _ _ _ H2),
    (bind_Ret _ _ _ _ _ H3), (bind_Ret _ _ _ _ _ H4).
  split; [reflexivity |].
  assert (R : runs s s4
                ([EPrint OTerminating; EPrint (ODate t)]
                   ++ termination_blocks 0 (zip ps rs)
                   ++ [EPrint (OExiting (CInt.of_double elapsed))])).
  { change [EPrint OTerminating; EPrint (ODate t)]
      with ([EPrint OTerminating] ++ [EPrint (ODate t)]).
    rewrite <- app_assoc. eauto using runs_trans. }
  split; [now apply runs_quiet | now apply runs_exact].
Qed.

(** ** A pass over the table *)

Lemma load_cases (a : table) i s :
  (exists v, a !! i = Some (Some v) /\ load a i s = Ret v s)
  \/ load a i s = Fault s.
Proof.
  unfold load. destruct (a !! i) as [[v |] |]; eauto.
Qed.

Lemma store_cases (a : table) i v s :
  ((i < length a)%nat /\ store a i v s = Ret (<[i := Some v]> a) s)
  \/ store a i v s = Fault s.
Proof.
  unfold store. destruct (Nat.ltb_spec i (length a)); auto.
Qed.

Lemma int_divide_cases a b s :
  int_divide a b s = Ret (Z.quot a b) s \/ int_divide a b s = Fault s.
Proof.
  unfold int_divide. destruct (b =? 0); auto. destruct (_ && _); auto.
Qed.

(** One process of a pass: it is reported, or a sampler, the counter array
    or the division faults. *)
Lemma poll_process_runs pid index counters full done s :
  (exists o c' s',
      poll_process pid index counters full done s
      = Ret (c', if is_gone o then done else 0) s'
      /\ runs s s' (report_block index pid o))
  \/ (exists s', poll_process pid index counters full done s = Fault s').
Proof.
  unfold poll_process.
  destruct (waitpid_runs pid s) as (r & s1 & Hw & R1).
  rewrite (bind_Ret _ _ _ _ _ Hw).
  destruct (Z.eqb_spec r 0) as [-> | Hr].
  - destruct (get_cpu_usage_runs pid s1) as [(cpu & s2 & Hc & R2) | (s2 & Hc)];
      [rewrite (bind_Ret _ _ _ _ _ Hc) | rewrite (bind_Fault _ _ _ _ Hc); eauto].
    destruct (load_cases counters index s2) as [(previous & _ & Hl) | Hl];
      [rewrite (bind_Ret _ _ _ _ _ Hl) | rewrite (bind_Fault _ _ _ _ Hl); eauto].
    destruct (get_mem_usage_runs pid s2) as [(mem & s3 & Hm & R3) | (s3 & Hm)];
      [rewrite (bind_Ret _ _ _ _ _ Hm) | rewrite (bind_Fault _ _ _ _ Hm); eauto].
    destruct (int_divide_cases (CInt.mul (CInt.sub cpu previous) 100) full s3)
      as [Hd | Hd];
      [rewrite (bind_Ret _ _ _ _ _ Hd) | rewrite (bind_Fault _ _ _ _ Hd); eauto].
    destruct (store_cases counters index cpu s3) as [(_ & Hs) | Hs];
      [rewrite (bind_Ret _ _ _ _ _ Hs) | rewrite (bind_Fault _ _ _ _ Hs); eauto].
    unfold display_proc_state.
    set (p := Z.quot (CInt.mul (CInt.sub cpu previous) 100) full).
    destruct (print_runs (ORunning (Z.of_nat index) p mem) s3
                ltac:(discriminate)) as (s4 & Hp & R4 & _).
    rewrite (bind_Ret _ _ _ _ _ Hp).
    left. exists (Running p mem), (<[index := Some cpu]> counters), s4.
    split; [reflexivity |].
    change (report_block index pid (Running p mem))
      with ([EWaitpid pid 0] ++ [] ++ [] ++ [EPrint (ORunning (Z.of_nat index) p mem)]).
    eauto using runs_trans.
  - destruct (print_runs (OExited (Z.of_nat index)) s1 ltac:(discriminate))
      as (s2 & Hp & R2 & _).
    rewrite (bind_Ret _ _ _ _ _ Hp).
    left. exists (Gone r), counters, s2. split; [reflexivity |].
    change (report_block index pid (Gone r))
      with ([EWaitpid pid r] ++ [EPrint (OExited (Z.of_nat index))]).
    eauto using runs_trans.
Qed.

(** A pass that returns has walked a table that ends in [-1], reporting
    each of its processes once, in index order; [done] survives when every
    one of them is gone. *)
Lemma pass_loop_runs rest : forall index counters full done s,
  (exists ps junk outcomes c' s',
      rest = table_of ps junk /\ ~ In (-1) ps
      /\ length outcomes = length ps
      /\ pass_loop rest index counters full done s
         = Ret (c', if forallb is_gone outcomes then done else 0) s'
      /\ runs s s' (report_blocks index (zip ps outcomes)))
  \/ (exists s', pass_loop rest index counters full done s = Fault s').
Proof.
  induction rest as [| cell rest IH]; intros index counters full done s.
  { right. eexists; reflexivity. }
  destruct cell as [pid |]; [| right; eexists; reflexivity].
  cbn [pass_loop]. destruct (Z.eqb_spec pid (-1)) as [-> | Hpid].
  { left. exists [], rest, [], counters, s. repeat split; auto.
    apply runs_refl. }
  destruct (poll_process_runs pid index counters full done s)
    as [(o & c1 & s1 & Hp & R1) | (s1 & Hp)];
    [rewrite (bind_Ret _ _ _ _ _ Hp) | rewrite (bind_Fault _ _ _ _ Hp); eauto].
  destruct (IH (S index) c1 full (if is_gone o then done else 0) s1)
    as [(ps & junk & outcomes & c' & s' & -> & Hno & Hlen & Hl & R2)
       | (s' & Hl)]; [| right; eauto].
  left. exists (pid :: ps), junk, (o :: outcomes), c', s'.
  split; [reflexivity |]. split; [intros [F | F]; auto |].
  split; [simpl; lia |]. split.
  - rewrite Hl. f_equal. f_equal. simpl.
    destruct (is_gone o), (forallb is_gone outcomes); reflexivity.
  - exact (runs_trans _ _ _ _ _ R1 R2).
Qed.

Lemma report_blocks_calm index : forall polls,
  Forall (fun e => calm e = true) (report_blocks index polls).
Proof.
  intros polls. revert index.
  induction polls as [| [pid o] polls IH]; intros index; [constructor |].
  simpl. apply Forall_app. split; [| apply IH].
  destruct o; repeat constructor.
Qed.

(** ** Ways an interval can end *)

Lemma terminate_loop_cases rest : forall index s,
  (exists s' X, terminate_loop rest index s = Ret tt s' /\ runs s s' X)
  \/ (exists s', terminate_loop rest index s = Fault s').
Proof.
  induction rest as [| cell rest IH]; intros index s.
  { right. eexists; reflexivity. }
  destruct cell as [pid |]; [| right; eexists; reflexivity].
  cbn [terminate_loop]. destruct (pid =? -1).
  { left. exists s, []. split; [reflexivity | apply runs_refl]. }
  destruct (waitpid_runs pid s) as (r & s1 & Hw & R1).
  rewrite (bind_Ret _ _ _ _ _ Hw).
  assert (exists s2 X,
      (if r =? 0
       then bind (print (OTerminated (Z.of_nat index))) (fun _ => kill_ pid)
       else print (OExited (Z.of_nat index))) s1 = Ret tt s2
      /\ runs s1 s2 X) as (s2 & X & Hb & R2).
  { destruct (r =? 0).
    - destruct (print_runs (OTerminated (Z.of_nat index)) s1
                  ltac:(discriminate)) as (sa & Ha & Ra & _).
      destruct (kill_runs pid sa) as (sb & Hb & Rb).
      exists sb. rewrite (bind_Ret _ _ _ _ _ Ha). eauto using runs_trans.
    - destruct (print_runs (OExited (Z.of_nat index)) s1
                  ltac:(discriminate)) as (sa & Ha & Ra & _). eauto. }
  rewrite (bind_Ret _ _ _ _ _ Hb).
  destruct (IH (S index) s2) as [(s3 & Y & Ht & R3) | (s3 & Ht)].
  - left. exists s3. eauto using runs_trans.
  - right. eauto.
Qed.

(** [terminate_program] ends the program with code [0], its last line the
    elapsed time and its first the banner, unless the table is not one. *)
Lemma terminate_program_cases {A} pids elapsed s :
  (exists s' X secs,
      terminate_program (A := A) pids elapsed s = Exited 0 s'
      /\ runs s s' (EPrint OTerminating :: X ++ [EPrint (OExiting secs)]))
  \/ (exists s', terminate_program (A := A) pids elapsed s = Fault s').
Proof.
  unfold terminate_program.
  destruct (print_runs OTerminating s ltac:(discriminate))
    as (s1 & H1 & R1 & _).
  destruct (display_date_runs s1) as (t & s2 & H2 & R2).
  rewrite (bind_Ret _ _ _ _ _ H1), (bind_Ret _ _ _ _ _ H2).
  destruct (terminate_loop_cases pids O s2) as [(s3 & X & H3 & R3) | (s3 & H3)];
    [rewrite (bind_Ret _ _ _ _ _ H3) | rewrite (bind_Fault _ _ _ _ H3); eauto].
  destruct (print_runs (OExiting (CInt.of_double elapsed)) s3
              ltac:(discriminate)) as (s4 & H4 & R4 & _).
  rewrite (bind_Ret _ _ _ _ _ H4).
  left. exists s4, (EPrint (ODate t) :: X), (CInt.of_double elapsed).
  split; [reflexivity |].
  change (EPrint OTerminating
            :: (EPrint (ODate t) :: X) ++ [EPrint (OExiting (CInt.of_double elapsed))])
    with ([EPrint OTerminating] ++ [EPrint (ODate t)] ++ X
            ++ [EPrint (OExiting (CInt.of_double elapsed))]).
  eauto using runs_trans.
Qed.

Lemma wait_loop_cases polls : forall pids t current_time s,
  match wait_loop polls pids t current_time s with
  | Ret _ s' => runs s s' []
  | Exited code s' => code = 0 /\ exists X, runs s s' X /\ ended_by_handler X
  | Exec _ => False
  | Fault _ | Spin _ => True
  end.
Proof.
  induction polls as [| polls IH]; intros pids t current_time s; [exact I |].
  cbn [wait_loop]. destruct (current_time - t <? 5); [| apply runs_refl].
  destruct (time_runs s) as (now & s1 & Ht & R1).
  rewrite (bind_Ret _ _ _ _ _ Ht).
  rewrite (bind_Ret (check_timer now) _ s1 _ s1 eq_refl).
  destruct (stop_condition s1 now =? 1).
  - rewrite (bind_congr
               (bind (get START_TIME)
                  (fun start => terminate_program pids (now - start)))
               (terminate_program pids (now - START_TIME s1)) _ s1 eq_refl).
    rewrite terminate_program_ends.
    destruct (terminate_program_cases (A := unit) pids
                (now - START_TIME s1) s1)
      as [(s2 & X & secs & -> & R2) | (s2 & ->)]; [| exact I].
    split; [reflexivity |].
    eexists. split; [exact (runs_trans _ _ _ _ _ R1 R2) |].
    split; [now left |]. exists secs. simpl.
    change (EPrint OTerminating :: X ++ [EPrint (OExiting secs)])
      with ((EPrint OTerminating :: X) ++ [EPrint (OExiting secs)]).
    apply last_snoc.
  - rewrite (bind_Ret _ _ s1 tt s1 eq_refl).
    specialize (IH pids t now s1).
    destruct (wait_loop polls pids t now s1); auto.
    + exact (runs_trans _ _ _ _ _ R1 IH).
    + destruct IH as (-> & X & R2 & E). split; [reflexivity |].
      exists X. split; [exact (runs_trans _ _ _ _ _ R1 R2) | exact E].
Qed.

(** The banner of a report (macD.c:877-879). *)
Lemma banner_runs s :
  exists t s1,
    bind (print ODots)
      (fun _ => bind (print ONormalReport) (fun _ => display_date)) s
    = Ret tt s1
    /\ runs s s1 [EPrint ODots; EPrint ONormalReport; EPrint (ODate t)].
Proof.
  destruct (print_runs ODots s ltac:(discriminate)) as (s1 & H1 & R1 & _).
  destruct (print_runs ONormalReport s1 ltac:(discriminate))
    as (s2 & H2 & R2 & _).
  destruct (display_date_runs s2) as (t & s3 & H3 & R3).
  exists t, s3. rewrite (bind_Ret _ _ _ _ _ H1), (bind_Ret _ _ _ _ _ H2).
  split; [exact H3 |].
  change [EPrint ODots; EPrint ONormalReport; EPrint (ODate t)]
    with ([EPrint ODots] ++ [EPrint ONormalReport] ++ [EPrint (ODate t)]).
  eauto using runs_trans.
Qed.

Lemma interval_unfold polls pids counters full s s1 :
  bind (print ODots)
    (fun _ => bind (print ONormalReport) (fun _ => display_date)) s
  = Ret tt s1 ->
  interval polls pids counters full s
  = bind (pass_loop pids 0 counters full 1)
      (fun r =>
         let '(counters, done) := r in
         bind (if done =? 1
               then bind time_ (fun current_time =>
                      bind (get START_TIME) (fun start =>
                        bind (print (OExitingDots
                                       (CInt.of_double (current_time - start))))
                          (fun _ => exit_ 0)))
               else ret tt)
           (fun _ => bind (print ODots) (fun _ =>
              bind time_ (fun t =>
                bind (wait_loop polls pids t t) (fun _ => ret counters))))) s1.
Proof.
  intros H. unfold interval. unfold bind in H |- *.
  destruct (print ODots s) as [[] sa | | | |]; try discriminate.
  destruct (print ONormalReport sa) as [[] sb | | | |]; try discriminate.
  destruct (display_date sb) as [[] sc | | | |]; try discriminate.
  injection H as ->. reflexivity.
Qed.

(** When the pass leaves [done] at [1] the interval ends the program at
    once, whatever the stop condition is. *)
Lemma interval_all_gone polls pids counters full s s1 c' s2 :
  bind (print ODots)
    (fun _ => bind (print ONormalReport) (fun _ => display_date)) s
  = Ret tt s1 ->
  pass_loop pids 0 counters full 1 s1 = Ret (c', 1) s2 ->
  exists now s3 s4,
    time_ s2 = Ret now s3
    /\ interval polls pids counters full s = Exited 0 s4
    /\ print (OExitingDots (CInt.of_double (now - START_TIME s3))) s3
       = Ret tt s4.
Proof.
  intros Hb Hp. rewrite (interval_unfold _ _ _ _ _ _ Hb).
  rewrite (bind_Ret _ _ _ _ _ Hp). cbv iota beta.
  change (1 =? 1) with true. cbv iota.
  destruct (time_runs s2) as (now & s3 & Ht & _).
  exists now, s3. eexists. split; [exact Ht |].
  split; [| reflexivity].
  erewrite bind_Exited; [reflexivity |].
  rewrite (bind_Ret _ _ _ _ _ Ht).
  rewrite (bind_Ret (get START_TIME) _ s3 _ s3 eq_refl).
  reflexivity.
Qed.

Lemma interval_cases polls pids counters full s :
  match interval polls pids counters full s with
  | Ret _ s' => exists X, runs s s' X /\ Forall (fun e => calm e = true) X
  | Exited code s' =>
      code = 0
      /\ exists X, runs s s' X
           /\ ((Forall (fun e => calm e = true) X /\ ended_all_exited X)
               \/ ended_by_handler X)
  | Exec _ => False
  | Fault _ | Spin _ => True
  end.
Proof.
  destruct (banner_runs s) as (t0 & s1 & Hb & R1).
  rewrite (interval_unfold _ _ _ _ _ _ Hb).
  destruct (pass_loop_runs pids O counters full 1 s1)
    as [(ps & junk & outcomes & c' & s2 & -> & Hno & Hlen & Hp & R2)
       | (s2 & Hp)];
    [rewrite (bind_Ret _ _ _ _ _ Hp) | now rewrite (bind_Fault _ _ _ _ Hp)].
  cbv iota beta.
  assert (C12 : Forall (fun e => calm e = true)
                  ([EPrint ODots; EPrint ONormalReport; EPrint (ODate t0)]
                     ++ report_blocks 0 (zip ps outcomes))).
  { apply Forall_app. split; [repeat constructor | apply report_blocks_calm]. }
  pose proof (runs_trans _ _ _ _ _ R1 R2) as R12.
  destruct (forallb is_gone outcomes).
  - change (1 =? 1) with true. cbv iota.
    destruct (time_runs s2) as (now & s3 & Ht & R3).
    destruct (print_runs (OExitingDots (CInt.of_double (now - START_TIME s3)))
                s3 ltac:(discriminate)) as (s4 & H4 & R4 & _).
    erewrite bind_Exited; cycle 1.
    { rewrite (bind_Ret _ _ _ _ _ Ht).
      rewrite (bind_Ret (get START_TIME) _ s3 _ s3 eq_refl).
      rewrite (bind_Ret _ _ _ _ _ H4). reflexivity. }
    split; [reflexivity |].
    eexists. split; [exact (runs_trans _ _ _ _ _ R12 (runs_trans _ _ _ _ _ R3 R4)) |].
    left. split.
    + apply Forall_app. split; [exact C12 | repeat constructor].
    + eexists. apply last_app_Some. left. reflexivity.
  - change (0 =? 1) with false. cbv iota.
    rewrite (bind_Ret (ret tt) _ s2 tt s2 eq_refl).
    destruct (print_runs ODots s2 ltac:(discriminate)) as (s3 & H3 & R3 & _).
    rewrite (bind_Ret _ _ _ _ _ H3).
    destruct (time_runs s3) as (t & s4 & Ht & R4).
    rewrite (bind_Ret _ _ _ _ _ Ht).
    pose proof (runs_trans _ _ _ _ _ R12 (runs_trans _ _ _ _ _ R3 R4)) as R.
    pose proof (wait_loop_cases polls (table_of ps junk) t t s4) as W.
    unfold bind at 1.
    destruct (wait_loop polls (table_of ps junk) t t s4) as [[] s5 | | | |];
      auto.
    + eexists. split; [exact (runs_trans _ _ _ _ _ R W) |].
      rewrite !app_nil_r. apply Forall_app. split; [exact C12 |].
      repeat constructor.
    + destruct W as (-> & X & RW & (Hin & secs & Hlast)).
      split; [reflexivity |].
      eexists. split; [exact (runs_trans _ _ _ _ _ R RW) |].
      right. split.
      * apply in_or_app. now right.
      * exists secs. apply last_app_Some. now left.
Qed.

Lemma report_loop_cases intervals polls pids full : forall counters s code s',
  report_loop intervals polls pids counters full s = Exited code s' ->
  code = 0
  /\ exists X, runs s s' X
       /\ ((ended_all_exited X /\ Forall (fun e => calm e = true) X)
           \/ ended_by_handler X).
Proof.
  induction intervals as [| intervals IH]; intros counters s code s' H;
    [discriminate |].
  cbn [report_loop] in H. unfold bind in H.
  pose proof (interval_cases polls pids counters full s) as C.
  destruct (interval polls pids counters full s) as [c1 s1 | c s1 | | |];
    try discriminate.
  - destruct C as (X1 & R1 & C1).
    destruct (IH c1 s1 code s' H) as (-> & X2 & R2 & E). split; [reflexivity |].
    exists (X1 ++ X2). split; [exact (runs_trans _ _ _ _ _ R1 R2) |].
    destruct E as [((secs & Hl) & C2) | (Hin & secs & Hl)].
    + left. split; [| now apply Forall_app].
      exists secs. apply last_app_Some. now left.
    + right. split; [apply in_or_app; now right |].
      exists secs. apply last_app_Some. now left.
  - injection H as -> ->. destruct C as (-> & X & R & E).
    split; [reflexivity |]. exists X. split; [exact R |]. tauto.
Qed.

(** C3.  A pass leaves [done] at [1] exactly when none of the processes it
    polled is alive.  When it does, the interval prints the elapsed time and
    exits with code [0] at once: the test comes before the waiting loop, the
    only place where the stop condition is looked at, so it wins whatever the
    stop flag and the deadline say, and the Termination Handler is not
    entered.  A run of the loop that ends this way has printed no
    "Terminated" line and no "Terminating" banner and has killed nobody;
    every other exit of the loop is the Termination Handler's. *)
Theorem all_exited_takes_priority polls pids full :
  (forall counters s1 c' d s2,
      pass_loop pids 0 counters full 1 s1 = Ret (c', d) s2 ->
      exists ps junk outcomes,
        pids = table_of ps junk /\ length outcomes = length ps
        /\ runs s1 s2 (report_blocks 0 (zip ps outcomes))
        /\ (d = 1 <-> forallb is_gone outcomes = true))
  /\ (forall counters s s1 c' s2,
        bind (print ODots)
          (fun _ => bind (print ONormalReport) (fun _ => display_date)) s
        = Ret tt s1 ->
        pass_loop pids 0 counters full 1 s1 = Ret (c', 1) s2 ->
        exists now s3 s4,
          time_ s2 = Ret now s3
          /\ interval polls pids counters full s = Exited 0 s4
          /\ st_trace s4
             = st_trace s3
               ++ [EPrint (OExitingDots (CInt.of_double (now - START_TIME s)))])
  /\ (forall intervals counters s code s',
        report_loop intervals polls pids counters full s = Exited code s' ->
        code = 0
        /\ exists X, runs s s' X
             /\ ((ended_all_exited X /\ Forall (fun e => calm e = true) X)
                 \/ ended_by_handler X)).
Proof.
  split; [| split].
  - intros counters s1 c' d s2 H.
    destruct (pass_loop_runs pids O counters full 1 s1)
      as [(ps & junk & outcomes & c1 & s' & -> & _ & Hlen & Hp & R) | (s' & Hp)];
      rewrite Hp in H; [| discriminate].
    injection H as -> <- ->. exists ps, junk, outcomes.
    split; [reflexivity |]. split; [exact Hlen |]. split; [exact R |].
    destruct (forallb is_gone outcomes); split; intros E;
      try reflexivity; discriminate E.
  - intros counters s s1 c' s2 Hb Hp.
    destruct (interval_all_gone polls pids counters full s s1 c' s2 Hb Hp)
      as (now & s3 & s4 & Ht & Hi & Hpr).
    exists now, s3, s4. repeat split; auto.
    assert (START_TIME s3 = START_TIME s) as <-.
    { destruct (banner_runs s) as (t & sb & Hb' & (_ & _ & S1 & _)).
      rewrite Hb in Hb'. injection Hb' as <-.
      destruct (pass_loop_runs pids O counters full 1 s1)
        as [(? & ? & ? & ? & sp & _ & _ & _ & Hp' & (_ & _ & S2 & _)) | (? & Hp')];
        rewrite Hp in Hp'; [| discriminate].
      injection Hp' as _ _ <-.
      destruct (time_runs s2) as (? & st & Ht' & (_ & _ & S3 & _)).
      rewrite Ht in Ht'. injection Ht' as _ <-. congruence. }
    unfold print, log in Hpr. injection Hpr as <-. reflexivity.
  - intros intervals counters s code s'. apply report_loop_cases.
Qed.

End Supervision.

(** ** Launching *)

Section Launch.

Context {os : OS}.

Lemma copy_loop_runs count : forall i (temp dst : table) s,
  (forall j, (i <= j < i + count)%nat -> exists v, temp !! j = Some (Some v)) ->
  (i + count <= length dst)%nat ->
  exists dst',
    copy_loop count i temp dst s = Ret dst' s
    /\ length dst' = length dst
    /\ (forall j, (i <= j < i + count)%nat -> dst' !! j = temp !! j)
    /\ (forall j, ~ (i <= j < i + count)%nat -> dst' !! j = dst !! j).
Proof.
  induction count as [| count IH]; intros i temp dst s Hinit Hlen.
  - exists dst. repeat split; auto. intros j Hj. lia.
  - cbn [copy_loop].
    destruct (Hinit i ltac:(lia)) as (v & Hv).
    rewrite (bind_Ret _ _ _ _ _ (load_Some _ _ _ _ Hv)).
    rewrite (bind_Ret _ _ _ _ _ (store_in_range dst i v s ltac:(lia))).
    destruct (IH (S i) temp (<[i := Some v]> dst) s) as (dst' & Hc & Hl & Hin & Hout).
    { intros j Hj. apply Hinit. lia. }
    { rewrite length_insert. lia. }
    exists dst'. split; [exact Hc |]. rewrite Hl, length_insert.
    split; [reflexivity |]. split.
    + intros j Hj. destruct (Nat.eq_dec j i) as [-> | Hne].
      * rewrite Hout by lia. rewrite list_lookup_insert_eq by lia. now rewrite Hv.
      * apply Hin. lia.
    + intros j Hj. rewrite Hout by lia.
      apply list_lookup_insert_ne. lia.
Qed.

(** Growing the array (macD.c:469-478) keeps the pids. *)
Lemma grow_runs (pids : table) index len_pids ps s :
  length pids = len_pids -> (index <= len_pids)%nat ->
  take index pids = Some <$> ps -> length ps = index ->
  exists pids',
    copy_loop index 0 pids (malloc_ints (len_pids + MAX_PROCESSES)) s
    = Ret pids' s
    /\ length pids' = (len_pids + MAX_PROCESSES)%nat
    /\ take index pids' = Some <$> ps.
Proof.
  intros Hlen Hi Ht Hps.
  assert (Hcell : forall j, (j < index)%nat ->
                    pids !! j = Some (Some (default 0 (ps !! j)))).
  { intros j Hj. rewrite <- (lookup_take_lt pids index j) by lia.
    rewrite Ht, list_lookup_fmap.
    destruct (ps !! j) eqn:E; [reflexivity |].
    apply lookup_ge_None in E. lia. }
  destruct (copy_loop_runs index 0 pids
              (malloc_ints (len_pids + MAX_PROCESSES)) s)
    as (pids' & Hc & Hl & Hin & _).
  { intros j Hj. eexists. apply Hcell. lia. }
  { unfold malloc_ints. rewrite length_replicate. lia. }
  exists pids'. split; [exact Hc |].
  unfold malloc_ints in Hl. rewrite length_replicate in Hl.
  split; [exact Hl |].
  apply list_eq. intros j. destruct (Nat.lt_ge_cases j index).
  - rewrite lookup_take_lt by lia. rewrite Hin by lia.
    rewrite <- Ht. now rewrite lookup_take_lt by lia.
  - rewrite lookup_take_ge by lia. symmetry. apply lookup_ge_None.
    rewrite length_fmap. lia.
Qed.

(** The three ways [fork] can answer. *)

Lemma create_process_failed line out_pid s s1 :
  fork_ line s = Ret (-1) s1 ->
  create_process line out_pid s = Exited 1 s1.
Proof.
  intros H. unfold create_process. now rewrite (bind_Ret _ _ _ _ _ H).
Qed.

Lemma create_process_child line out_pid s s1 :
  fork_ line s = Ret 0 s1 ->
  create_process line out_pid s
  = match get_args line with
    | [] => Fault s1
    | args =>
        match sys_execvp args (st_world s1) with
        | None => Exec s1
        | Some errno => Exited errno s1
        end
    end.
Proof.
  intros H. unfold create_process. rewrite (bind_Ret _ _ _ _ _ H).
  change (0 =? -1) with false. change (0 =? 0) with true. cbv iota.
  destruct (get_args line); reflexivity.
Qed.

Lemma create_process_parent line out_pid s pid s1 s2 r s3 :
  fork_ line s = Ret pid s1 -> pid <> -1 -> pid <> 0 ->
  usleep_ 100000 s1 = Ret tt s2 ->
  waitpid_ pid s2 = Ret r s3 ->
  create_process line out_pid s
  = Ret (if negb (out_pid =? -1) && (r =? 0) then pid else out_pid) s3.
Proof.
  intros Hf H1 H0 Hu Hw. unfold create_process.
  rewrite (bind_Ret _ _ _ _ _ Hf).
  destruct (Z.eqb_spec pid (-1)); [lia |].
  destruct (Z.eqb_spec pid 0); [lia |].
  rewrite (bind_Ret _ _ _ _ _ Hu), (bind_Ret _ _ _ _ _ Hw).
  destruct (_ && _); reflexivity.
Qed.

(** What [create_process] can do, with the events it leaves. *)
Lemma create_process_cases line s :
  match create_process line (-2) s with
  | Ret out s' =>
      exists pid r,
        runs s s' [EFork line pid; EUsleep 100000; EWaitpid pid r]
        /\ pid <> -1 /\ pid <> 0
        /\ out = (if r =? 0 then pid else -2)
  | Exited code s' =>
      exists pid, runs s s' [EFork line pid]
                  /\ ((pid = -1 /\ code = 1) \/ pid = 0)
  | Exec s' | Fault s' => runs s s' [EFork line 0]
  | Spin _ => False
  end.
Proof.
  destruct (fork_runs line s) as (s1 & Hf & R1).
  remember (fst (sys_fork line (st_world s))) as pid eqn:Epid. clear Epid.
  destruct (Z.eq_dec pid (-1)) as [-> | Hn1].
  { rewrite (create_process_failed _ _ _ _ Hf).
    exists (-1). split; [exact R1 | left; auto]. }
  destruct (Z.eq_dec pid 0) as [-> | Hn0].
  { rewrite (create_process_child _ _ _ _ Hf).
    destruct (get_args line); [exact R1 |].
    destruct (sys_execvp _ _); [| exact R1].
    exists 0. split; [exact R1 | right; reflexivity]. }
  destruct (usleep_runs 100000 s1) as (s2 & Hu & R2).
  destruct (waitpid_runs pid s2) as (r & s3 & Hw & R3).
  rewrite (create_process_parent _ _ _ _ _ _ _ _ Hf Hn1 Hn0 Hu Hw).
  exists pid, r. split; [| split; [exact Hn1 | split; [exact Hn0 | reflexivity]]].
  exact (runs_trans _ _ _ _ _ R1 (runs_trans _ _ _ _ _ R2 R3)).
Qed.

Lemma started_app a b : started (a ++ b) = started a ++ started b.
Proof.
  induction a as [| [| |] a IH]; simpl; auto. now rewrite IH.
Qed.

(** The rest of a turn of the loop once the launch has left [out] in
    [*out_pid]. *)

Lemma read_turn_not_started line pids index n len_pids ps s out s1 :
  table_ok pids index len_pids ps ->
  (if negb (Libc.empty line) then create_process line (-2) else ret (-2)) s
  = Ret out s1 ->
  out < 0 ->
  exists s2,
    print (if Libc.empty line then OBadEmpty (Z.of_nat n)
           else OBad (Z.of_nat n) (path_of line)) s1 = Ret tt s2
    /\ read_turn line pids index n len_pids s
       = Ret (pids, index, len_pids) s2.
Proof.
  intros (Hlen & Hroom & _) Hl Hout. unfold read_turn.
  rewrite (bind_Ret _ _ _ _ _ Hl).
  destruct (Z.leb_spec 0 out); [lia |].
  eexists. split; [reflexivity |].
  unfold bind at 1. unfold bind at 1.
  destruct (Libc.empty line); unfold print, log, ret;
    destruct (Nat.leb_spec (len_pids - 1) index); try lia; reflexivity.
Qed.

Lemma read_turn_started line pids index n len_pids ps s out s1 :
  table_ok pids index len_pids ps ->
  (if negb (Libc.empty line) then create_process line (-2) else ret (-2)) s
  = Ret out s1 ->
  0 <= out ->
  exists pids' len_pids' s2,
    print (OStarted (Z.of_nat n) (path_of line) out) s1 = Ret tt s2
    /\ table_ok pids' (S index) len_pids' (ps ++ [out])
    /\ read_turn line pids index n len_pids s
       = Ret (pids', S index, len_pids') s2.
Proof.
  intros (Hlen & Hroom & Ht & Hps) Hl Hout. unfold read_turn.
  rewrite (bind_Ret _ _ _ _ _ Hl).
  destruct (Z.leb_spec 0 out); [| lia].
  assert (Ht' : take (S index) (<[index := Some out]> pids)
                = Some <$> (ps ++ [out])).
  { rewrite fmap_app, <- Ht. simpl.
    rewrite (take_S_r _ _ (Some out))
      by (apply list_lookup_insert_eq; lia).
    f_equal. apply take_insert_ge. lia. }
  destruct (print_runs (OStarted (Z.of_nat n) (path_of line) out) s1
              ltac:(discriminate)) as (s2 & Hp & _).
  assert (Hblock :
    bind (store pids index out)
      (fun pids0 =>
         bind (print (OStarted (Z.of_nat n) (fst <$> Libc.strtok line) out))
           (fun _ => ret (pids0, S index))) s1
    = Ret (<[index := Some out]> pids, S index) s2).
  { rewrite (bind_Ret _ _ _ _ _ (store_in_range pids index out s1 ltac:(lia))).
    unfold path_of in Hp. now rewrite (bind_Ret _ _ _ _ _ Hp). }
  rewrite (bind_Ret _ _ _ _ _ Hblock). cbv beta iota.
  destruct (Nat.leb_spec (len_pids - 1) (S index)).
  - destruct (grow_runs (<[index := Some out]> pids) (S index) len_pids
                (ps ++ [out]) s2) as (pids' & Hc & Hl' & Ht'').
    { now rewrite length_insert. }
    { lia. }
    { exact Ht'. }
    { rewrite length_app. simpl. lia. }
    exists pids', (len_pids + MAX_PROCESSES)%nat, s2.
    split; [exact Hp |]. split.
    + unfold table_ok, MAX_PROCESSES in *.
      rewrite length_app. simpl. repeat split; auto; lia.
    + assert (Hg :
        bind (copy_loop (S index) 0 (<[index := Some out]> pids)
                (malloc_ints (len_pids + MAX_PROCESSES)))
          (fun pids0 => ret (pids0, (len_pids + MAX_PROCESSES)%nat)) s2
        = Ret (pids', (len_pids + MAX_PROCESSES)%nat) s2)
        by now rewrite (bind_Ret _ _ _ _ _ Hc).
      now rewrite (bind_Ret _ _ _ _ _ Hg).
  - exists (<[index := Some out]> pids), len_pids, s2.
    split; [exact Hp |]. split.
    + unfold table_ok. rewrite length_app, length_insert. simpl.
      repeat split; auto; lia.
    + reflexivity.
Qed.

(** A turn that returns has given its line one launch, under its line
    number, and has put the pid, if the line started, behind the pids in
    the array. *)
Lemma read_turn_runs line pids index n len_pids ps s r s' :
  table_ok pids index len_pids ps ->
  read_turn line pids index n len_pids s = Ret r s' ->
  exists l pids' len_pids',
    r = (pids', (index + length (started [l]))%nat, len_pids')
    /\ runs s s' (launch_block n line l)
    /\ table_ok pids' (index + length (started [l])) len_pids'
         (ps ++ started [l])
    /\ Forall (fun pid => 0 < pid) (started [l])
    /\ (l = NotLaunched <-> Libc.empty line = true).
Proof.
  intros Hok H.
  assert (exists out s1 l,
    (if negb (Libc.empty line) then create_process line (-2) else ret (-2)) s
    = Ret out s1
    /\ runs s s1 (match l with
                  | NotLaunched => []
                  | Failed pid r | Started pid as r =>
                      removelast (launch_block n line l)
                  end)
    /\ match l with
       | NotLaunched => Libc.empty line = true /\ out < 0
       | Failed _ _ => Libc.empty line = false /\ out < 0
       | Started pid => Libc.empty line = false /\ out = pid /\ 0 < pid
       end) as (out & s1 & l & Hl & R1 & Hcase).
  { destruct (Libc.empty line) eqn:He; cbn [negb].
    - exists (-2), s, NotLaunched.
      split; [reflexivity | split; [apply runs_refl | split; [reflexivity | lia]]].
    - pose proof (create_process_cases line s) as C.
      unfold read_turn in H. rewrite He in H. cbn [negb] in H.
      unfold bind at 1 in H.
      destruct (create_process line (-2) s) as [out s1 | | | |];
        try discriminate H.
      destruct C as (pid & r0 & R & Hn1 & Hn0 & ->). clear H.
      destruct (Z.eq_dec r0 0) as [Er | Hr].
      + subst r0. change (0 =? 0) with true. cbv iota.
        destruct (Z.ltb_spec 0 pid).
        * exists pid, s1, (Started pid).
          split; [reflexivity | split; [exact R |]]. repeat split; lia.
        * exists pid, s1, (Failed pid 0).
          split; [reflexivity | split; [exact R | split; [reflexivity | lia]]].
      + rewrite (proj2 (Z.eqb_neq r0 0) Hr).
        exists (-2), s1, (Failed pid r0).
        split; [reflexivity | split; [exact R | split; [reflexivity | lia]]]. }
  destruct l as [| pid r0 | pid].
  - destruct Hcase as (He & Hout).
    destruct (read_turn_not_started line pids index n len_pids ps s
                out s1 Hok Hl Hout) as (s2 & Hp & Hstep).
    rewrite Hstep in H. injection H as <- <-. rewrite He in Hp.
    destruct (print_runs (OBadEmpty (Z.of_nat n)) s1 ltac:(discriminate))
      as (s2' & Hp' & R2 & _).
    rewrite Hp in Hp'. injection Hp' as <-.
    exists NotLaunched, pids, len_pids. cbn [started length].
    rewrite Nat.add_0_r, app_nil_r.
    split; [reflexivity |]. split; [exact (runs_trans _ _ _ _ _ R1 R2) |].
    split; [exact Hok |]. split; [constructor |]. tauto.
  - destruct Hcase as (He & Hout).
    destruct (read_turn_not_started line pids index n len_pids ps s
                out s1 Hok Hl Hout) as (s2 & Hp & Hstep).
    rewrite Hstep in H. injection H as <- <-. rewrite He in Hp.
    destruct (print_runs (OBad (Z.of_nat n) (path_of line)) s1
                ltac:(discriminate)) as (s2' & Hp' & R2 & _).
    rewrite Hp in Hp'. injection Hp' as <-.
    exists (Failed pid r0), pids, len_pids. cbn [started length].
    rewrite Nat.add_0_r, app_nil_r.
    split; [reflexivity |]. split; [exact (runs_trans _ _ _ _ _ R1 R2) |].
    split; [exact Hok |]. split; [constructor |].
    split; [discriminate | congruence].
  - destruct Hcase as (He & -> & Hpos1).
    destruct (read_turn_started line pids index n len_pids ps s
                pid s1 Hok Hl ltac:(lia))
      as (pids1 & len1 & s2 & Hp & Hok1 & Hstep).
    rewrite Hstep in H. injection H as <- <-.
    destruct (print_runs (OStarted (Z.of_nat n) (path_of line) pid) s1
                ltac:(discriminate)) as (s2' & Hp' & R2 & _).
    rewrite Hp in Hp'. injection Hp' as <-.
    exists (Started pid), pids1, len1. cbn [started length].
    replace (index + 1)%nat with (S index) by lia.
    split; [reflexivity |]. split; [exact (runs_trans _ _ _ _ _ R1 R2) |].
    split; [exact Hok1 |]. split; [now constructor |].
    split; [discriminate | congruence].
Qed.

(** One turn of the loop and the reading of the next line. *)
Lemma read_loop_step turns d fptr line pids index n len_pids s
    pids1 index1 len1 s1 fptr1 next fptr2 :
  read_turn line pids index n len_pids s = Ret (pids1, index1, len1) s1 ->
  (if Libc.empty line then Some fptr
   else child_effect line (st_world s) fptr) = Some fptr1 ->
  next_line d fptr1 = Some (next, fptr2) ->
  read_loop (S turns) d fptr (Some line) pids index n len_pids s
  = read_loop turns d fptr2 next pids1 index1 (S n) len1 s1.
Proof.
  intros Ht Hc Hn. cbn [read_loop].
  rewrite (bind_Ret (get st_world) _ s _ s eq_refl).
  rewrite (bind_Ret _ _ _ _ _ Ht). cbv beta iota.
  assert (E : (if Libc.empty line then ret fptr
               else defined (child_effect line (st_world s) fptr)) s1
              = Ret fptr1 s1).
  { destruct (Libc.empty line); [now injection Hc as -> |].
    now rewrite Hc. }
  rewrite (bind_Ret _ _ _ _ _ E).
  assert (E2 : defined (next_line d fptr1) s1 = Ret (next, fptr2) s1)
    by now rewrite Hn.
  rewrite (bind_Ret _ _ _ _ _ E2). reflexivity.
Qed.

(** A loop that returns has given every line it was handed one launch,
    numbered in the order of the turns, and has put the pids of the started
    ones, in that order, behind the pids it found in the array. *)
Lemma read_loop_runs turns :
  forall d fptr line pids index n len_pids ps s pids' index' s',
  table_ok pids index len_pids ps ->
  read_loop turns d fptr line pids index n len_pids s = Ret (pids', index') s' ->
  exists handed launches len_pids',
    head handed = line
    /\ length launches = length handed
    /\ runs s s' (launch_blocks n (zip handed launches))
    /\ table_ok pids' index' len_pids' (ps ++ started launches)
    /\ Forall (fun pid => 0 < pid) (started launches).
Proof.
  induction turns as [| turns IH];
    intros d fptr line pids index n len_pids ps s pids' index' s' Hok H.
  { destruct line as [line |]; [discriminate H |].
    injection H as <- <- <-. exists [], [], len_pids.
    rewrite app_nil_r. repeat split; auto; try apply Hok. apply runs_refl. }
  destruct line as [line |].
  2:{ injection H as <- <- <-. exists [], [], len_pids.
      rewrite app_nil_r. repeat split; auto; try apply Hok. apply runs_refl. }
  cbn [read_loop] in H.
  rewrite (bind_Ret (get st_world) _ s _ s eq_refl) in H.
  unfold bind at 1 in H.
  destruct (read_turn line pids index n len_pids s) as [r s1 | | | |] eqn:Ht;
    try discriminate H.
  destruct (read_turn_runs _ _ _ _ _ _ _ _ _ Hok Ht)
    as (l & pids1 & len1 & -> & R1 & Hok1 & Hpos1 & _).
  cbv beta iota in H. unfold bind at 1 in H.
  destruct ((if Libc.empty line then ret fptr
             else defined (child_effect line (st_world s) fptr)) s1)
    as [fptr1 s1' | | | |] eqn:Hc; try discriminate H.
  assert (s1' = s1) as ->.
  { destruct (Libc.empty line); [now injection Hc |].
    destruct (child_effect _ _ _); [now injection Hc | discriminate Hc]. }
  unfold bind at 1 in H.
  destruct (next_line d fptr1) as [[next fptr2] |]; [| discriminate H].
  cbn [defined ret] in H.
  destruct (IH _ _ _ _ _ _ _ _ _ _ _ _ Hok1 H)
    as (handed & ls & len' & Hh & Hlen & R2 & Hok' & Hpos).
  exists (line :: handed), (l :: ls), len'.
  split; [reflexivity |]. split; [simpl; lia |]. split; [| split].
  - exact (runs_trans _ _ _ _ _ R1 R2).
  - change (started (l :: ls)) with (started ([l] ++ ls)).
    rewrite started_app, app_assoc. exact Hok'.
  - change (started (l :: ls)) with (started ([l] ++ ls)).
    rewrite started_app. apply Forall_app. split; assumption.
Qed.

Lemma table_ok_fresh : table_ok (malloc_ints MAX_PROCESSES) 0 MAX_PROCESSES [].
Proof.
  unfold table_ok, malloc_ints, MAX_PROCESSES. rewrite length_replicate.
  repeat split; auto. lia.
Qed.

(** Writing the final [-1] makes the array a process table. *)
Lemma table_ok_close pids index len_pids ps s :
  table_ok pids index len_pids ps ->
  exists junk, store pids index (-1) s = Ret (table_of ps junk) s.
Proof.
  intros (Hlen & Hroom & Ht & Hps).
  exists (drop (S index) pids).
  rewrite store_in_range by lia. f_equal.
  unfold table_of. rewrite <- Ht. apply insert_take_drop. lia.
Qed.

Lemma read_file_unfold turns file_path d s line0 fptr0 timer line1 :
  next_line d opened = Some (line0, fptr0) ->
  read_timer line0 = Some (timer, line1) ->
  read_file turns file_path (Some d) s
  = bind (print OStartingReport)
      (fun _ => bind display_date
         (fun _ => bind (set_TARGET_TIME timer)
            (fun _ =>
               bind (if negb (timer =? -1) then defined (next_line d fptr0)
                     else ret (line1, fptr0))
                 (fun r => let '(line, fptr) := r in
                    bind (read_loop turns d fptr line
                            (malloc_ints MAX_PROCESSES) 0 0 MAX_PROCESSES)
                      (fun r => let '(pids, index) := r in
                         bind (store pids index (-1))
                           (fun pids => ret (Some pids))))))) s.
Proof.
  intros Hn Ht. unfold read_file, bind.
  destruct (print OStartingReport s) as [[] s1 | | | |]; try reflexivity.
  destruct (display_date s1) as [[] s2 | | | |]; try reflexivity.
  rewrite Hn. cbn [defined ret]. rewrite Ht. reflexivity.
Qed.

(** A [read_file] that returns a table has given each line it handed to
    the launcher one launch, numbering them from [0] in the order of the
    turns, and the table holds the pids of those that started, in that
    order, and nothing else.  The first line handed over is the first line
    of the file as [read_timer] left it, or the second when the first is a
    time limit. *)
Lemma read_file_runs turns file_path d s tbl s' :
  read_file turns file_path (Some d) s = Ret (Some tbl) s' ->
  exists line0 fptr0 timer line1 handed launches junk t,
    next_line d opened = Some (line0, fptr0)
    /\ read_timer line0 = Some (timer, line1)
    /\ TARGET_TIME s' = timer
    /\ (if timer =? -1 then head handed = line1
        else exists fptr1, next_line d fptr0 = Some (head handed, fptr1))
    /\ length launches = length handed
    /\ tbl = table_of (started launches) junk
    /\ Forall (fun pid => 0 < pid) (started launches)
    /\ traces s s'
         ([EPrint OStartingReport; EPrint (ODate t)]
            ++ launch_blocks 0 (zip handed launches)).
Proof.
  intros H.
  destruct (next_line d opened) as [[line0 fptr0] |] eqn:Hn.
  2:{ unfold read_file in H. rewrite Hn in H. unfold bind, defined, fault in H.
      destruct (print OStartingReport s) as [[] s1 | | | |]; try discriminate.
      destruct (display_date s1) as [[] s2 | | | |]; discriminate. }
  destruct (read_timer line0) as [[timer line1] |] eqn:Ht.
  2:{ unfold read_file in H. rewrite Hn in H. unfold bind, defined, fault in H.
      destruct (print OStartingReport s) as [[] s1 | | | |]; try discriminate.
      destruct (display_date s1) as [[] s2 | | | |]; try discriminate.
      cbn [ret] in H. rewrite Ht in H. discriminate. }
  rewrite (read_file_unfold _ _ _ _ _ _ _ _ Hn Ht) in H.
  destruct (print_runs OStartingReport s ltac:(discriminate))
    as (s1 & H1 & R1 & _).
  destruct (display_date_runs s1) as (t & s2 & H2 & R2).
  destruct (set_TARGET_TIME_traces timer s2) as (s3 & H3 & T3 & Htt).
  rewrite (bind_Ret _ _ _ _ _ H1), (bind_Ret _ _ _ _ _ H2),
    (bind_Ret _ _ _ _ _ H3) in H.
  unfold bind at 1 in H.
  destruct ((if negb (timer =? -1) then defined (next_line d fptr0)
             else ret (line1, fptr0)) s3) as [[line fptr] s3' | | | |] eqn:Hsel;
    try discriminate H.
  assert (s3' = s3
          /\ (if timer =? -1 then line = line1
              else exists fptr1, next_line d fptr0 = Some (line, fptr1)))
    as (-> & Hline).
  { destruct (timer =? -1); cbn [negb] in Hsel.
    - injection Hsel as <- _ <-. auto.
    - destruct (next_line d fptr0) as [[l f] |]; [| discriminate Hsel].
      injection Hsel as <- <- <-. eauto. }
  unfold bind at 1 in H.
  destruct (read_loop turns d fptr line (malloc_ints MAX_PROCESSES) 0 0
              MAX_PROCESSES s3) as [[pids index] s4 | | | |] eqn:Hl;
    try discriminate.
  destruct (read_loop_runs _ _ _ _ _ _ _ _ _ _ _ _ _ table_ok_fresh Hl)
    as (handed & launches & len' & Hh & Hlen & R4 & Hok & Hpos).
  destruct (table_ok_close pids index len' _ s4 Hok) as (junk & Hs).
  rewrite (bind_Ret _ _ _ _ _ Hs) in H. injection H as <- <-.
  exists line0, fptr0, timer, line1, handed, launches, junk, t.
  split; [reflexivity |]. split; [exact Ht |]. split.
  { destruct R4 as (_ & -> & _). exact Htt. }
  split.
  { destruct (timer =? -1); [congruence |].
    destruct Hline as (f1 & Hf1). exists f1. now rewrite Hh. }
  split; [exact Hlen |]. split; [reflexivity |]. split; [exact Hpos |].
  exact (traces_trans _ _ _ _ _ (runs_traces _ _ _ R1)
           (traces_trans _ _ _ _ _ (runs_traces _ _ _ R2)
              (traces_trans _ _ _ _ _ T3 (runs_traces _ _ _ R4)))).
Qed.

(** ** Where a started process stands in the table *)

Lemma started_length l :
  (length (started l) <= length l)%nat
  /\ (length (started l) = length l <-> forallb is_started l = true).
Proof.
  induction l as [| [| |] l (IH1 & IH2)]; simpl; split; try lia;
    try (split; [lia | discriminate]); try tauto.
  rewrite <- IH2. lia.
Qed.

Lemma started_position launches k pid :
  launches !! k = Some (Started pid) ->
  started launches !! length (started (take k launches)) = Some pid
  /\ (length (started (take k launches)) <= k)%nat
  /\ (length (started (take k launches)) = k
      <-> forallb is_started (take k launches) = true).
Proof.
  intros H. pose proof (lookup_lt_Some _ _ _ H) as Hk.
  pose proof (started_length (take k launches)) as (L1 & L2).
  rewrite length_take_le in L1, L2 by lia.
  split; [| split; assumption].
  assert (E : started launches
              = started (take k launches)
                  ++ pid :: started (drop (S k) launches)).
  { rewrite <- (take_drop_middle launches k (Started pid) H) at 1.
    now rewrite started_app. }
  rewrite E. now apply list_lookup_middle.
Qed.

Lemma table_of_inj ps : forall ps' junk junk',
  table_of ps junk = table_of ps' junk' ->
  ~ In (-1) ps -> ~ In (-1) ps' -> ps = ps'.
Proof.
  unfold table_of.
  induction ps as [| p ps IH]; intros [| p' ps'] junk junk' H Hn Hn';
    simpl in *; try reflexivity;
    injection H as Hp Ht.
  - exfalso. apply Hn'. left. congruence.
  - exfalso. apply Hn. left. congruence.
  - subst p'. f_equal. apply (IH ps' junk junk' Ht); tauto.
Qed.

(** C2, as the code has it.  The index printed at launch is the 0-based
    number of the turn of the reading loop, that is, the count of the lines
    handed to the launcher before, whether the launch succeeds or fails.
    Only the pids of the launches that started enter the process table, in
    that order; a failed launch takes no slot and is never polled.  The
    index printed for a process in every periodic report and at termination
    is its position in that table, so it is the same for the whole run; it
    is the number of earlier launches that started, at most the index
    printed at launch and equal to it exactly when every earlier launch
    started. *)
Theorem display_indices :
  (forall turns file_path d s tbl s',
      read_file turns file_path (Some d) s = Ret (Some tbl) s' ->
      exists handed launches junk t,
        length launches = length handed
        /\ tbl = table_of (started launches) junk
        /\ ~ In (-1) (started launches)
        /\ quiet (st_trace s')
           = quiet (st_trace s)
             ++ [EPrint OStartingReport; EPrint (ODate t)]
             ++ launch_blocks 0 (zip handed launches)
        /\ (handler_registered s = false ->
            st_trace s'
            = st_trace s
              ++ [EPrint OStartingReport; EPrint (ODate t)]
              ++ launch_blocks 0 (zip handed launches)))
  /\ (forall ps junk counters full done s c' d' s',
        ~ In (-1) ps ->
        pass_loop (table_of ps junk) 0 counters full done s = Ret (c', d') s' ->
        exists outcomes,
          length outcomes = length ps
          /\ runs s s' (report_blocks 0 (zip ps outcomes)))
  /\ (forall ps junk s,
        ~ In (-1) ps ->
        exists rs s',
          length rs = length ps
          /\ terminate_loop (table_of ps junk) 0 s = Ret tt s'
          /\ runs s s' (termination_blocks 0 (zip ps rs)))
  /\ (forall launches k pid,
        launches !! k = Some (Started pid) ->
        started launches !! length (started (take k launches)) = Some pid
        /\ (length (started (take k launches)) <= k)%nat
        /\ (length (started (take k launches)) = k
            <-> forallb is_started (take k launches) = true)).
Proof.
  split; [| split; [| split]].
  - intros turns file_path d s tbl s' H.
    destruct (read_file_runs _ _ _ _ _ _ H)
      as (_ & _ & _ & _ & handed & launches & junk & t & _ & _ & _ & _
          & Hlen & -> & Hpos & T).
    exists handed, launches, junk, t.
    split; [exact Hlen |]. split; [reflexivity |].
    split; [| split; [now apply traces_quiet | now apply traces_exact]].
    intros F. rewrite List.Forall_forall in Hpos. apply Hpos in F. lia.
  - intros ps junk counters full done s c' d' s' Hno H.
    destruct (pass_loop_runs (table_of ps junk) O counters full done s)
      as [(ps' & junk' & outcomes & c1 & s1 & E & Hno' & Hlen & Hp & R)
         | (s1 & Hp)]; rewrite Hp in H; [| discriminate].
    injection H as _ _ <-.
    pose proof (table_of_inj _ _ _ _ E Hno Hno') as <-.
    exists outcomes. auto.
  - intros ps junk s Hno. now apply terminate_loop_runs.
  - apply started_position.
Qed.

End Launch.


(** ** The path of a /proc file *)

Lemma log2_int i : 0 < i <= CInt.INT_MAX -> Z.log2 i < 31.
Proof.
  intros H. apply Z.log2_lt_pow2; [lia |].
  unfold CInt.INT_MAX in H. change (2 ^ 31) with 2147483648. lia.
Qed.

Lemma count_digits_length fuel : forall i d,
  0 <= i <= CInt.INT_MAX -> i < 2 ^ Z.of_nat fuel ->
  0 <= d -> d + Z.of_nat fuel <= CInt.INT_MAX ->
  count_digits fuel i d = d + Z.of_nat (length (digits_loop fuel i)).
Proof.
  induction fuel as [| fuel IH]; intros i d Hi Hf Hd Hmax; [simpl; lia |].
  destruct (Z.eq_dec i 0) as [-> | Hne]; [simpl; lia |].
  rewrite digits_loop_step by lia. cbn [count_digits length].
  destruct (Z.leb_spec 1 i); [| lia].
  rewrite div_small by lia.
  unfold CInt.add. rewrite wrap_small by int_range.
  assert (0 <= i / 10 < 2 ^ Z.of_nat fuel) by (apply tenth_bound; lia).
  assert (i / 10 <= i) by (apply Z.div_le_upper_bound; lia).
  rewrite IH by lia. lia.
Qed.

Lemma digits_loop_no_nul fuel : forall i,
  0 <= i <= CInt.INT_MAX ->
  Forall (fun c => Ascii.eqb c NUL = false) (digits_loop fuel i).
Proof.
  induction fuel as [| fuel IH]; intros i Hi; [constructor |].
  destruct (Z.eq_dec i 0) as [-> | Hne]; [constructor |].
  rewrite digits_loop_step by lia.
  pose proof (Z.mod_pos_bound i 10 ltac:(lia)).
  destruct (digit_char (i mod 10) ltac:(lia)) as (_ & Hn & _).
  constructor; [exact Hn |]. apply IH.
  assert (i / 10 <= i) by (apply Z.div_le_upper_bound; lia).
  split; [apply Z.div_pos; lia | lia].
Qed.

Lemma strlen_no_nul (str : cstring) :
  Forall (fun c => Ascii.eqb c NUL = false) str ->
  Libc.strlen str = length str.
Proof.
  induction 1 as [| c str Hc _ IH]; [reflexivity |].
  simpl. now rewrite Hc, IH.
Qed.

(** The buffer of [int_digits] is exactly [get_num_digits] long
    and holds no NUL. *)
Lemma int_digits_length pid :
  0 < pid <= CInt.INT_MAX ->
  get_num_digits pid = Z.of_nat (length (int_digits pid))
  /\ Libc.strlen (int_digits pid)
     = length (int_digits pid).
Proof.
  intros Hp. rewrite int_digits_pos by lia.
  rewrite length_rev. split.
  - unfold get_num_digits.
    destruct (Z.ltb_spec pid 0); [lia |].
    destruct (Z.eqb_spec pid 0); [lia |].
    rewrite count_digits_length; [lia | lia | | lia |].
    + apply digit_fuel_enough. lia.
    + pose proof (log2_int pid Hp). pose proof (Z.log2_nonneg pid).
      unfold digit_fuel. rewrite Nat2Z.inj_succ, Z2Nat.id by lia. int_range.
  - rewrite <- length_rev. apply strlen_no_nul.
    apply Forall_rev. apply digits_loop_no_nul. lia.
Qed.

(** The array [convert_int_to_string] returns for a positive [int] holds
    its digits and nothing else. *)
Lemma convert_int_to_string_digits pid :
  0 < pid <= CInt.INT_MAX ->
  convert_int_to_string pid = Some <$> int_digits pid.
Proof.
  intros Hp. destruct (int_digits_length pid Hp) as (Hn & _).
  unfold convert_int_to_string. destruct (Z.eqb_spec pid 0); [lia |].
  rewrite Hn, Nat2Z.id. rewrite drop_ge by (rewrite length_replicate; lia).
  apply app_nil_r.
Qed.

Lemma strncat_reads_written (l : cstring) :
  Forall (fun c => Ascii.eqb c NUL = false) l ->
  Libc.strncat_reads (length l) (Some <$> l) = Some l.
Proof.
  induction 1 as [| c l Hc _ IH]; [reflexivity |].
  cbn [length fmap list_fmap Libc.strncat_reads]. rewrite Hc.
  change (list_fmap ascii (option ascii) Some l) with (Some <$> l).
  now rewrite IH.
Qed.

Lemma int_digits_no_nul pid :
  0 < pid <= CInt.INT_MAX ->
  Forall (fun c => Ascii.eqb c NUL = false) (int_digits pid).
Proof.
  intros Hp. rewrite int_digits_pos by lia.
  apply Forall_rev. apply digits_loop_no_nul. lia.
Qed.

(** The paths the samplers build for a pid that is a positive [int]. *)
Lemma proc_path_stat pid :
  0 < pid <= CInt.INT_MAX ->
  proc_path pid (lit "/stat") 5
  = Some (lit "/proc/" ++ int_digits pid ++ lit "/stat")
  /\ proc_path pid (lit "/statm") 6
     = Some (lit "/proc/" ++ int_digits pid ++ lit "/statm").
Proof.
  intros Hp. destruct (int_digits_length pid Hp) as (Hn & Hs).
  unfold proc_path, Libc.strncat_buffer.
  rewrite (convert_int_to_string_digits pid Hp), Hn, Nat2Z.id.
  rewrite (strncat_reads_written _ (int_digits_no_nul pid Hp)).
  unfold Libc.strncat. cbn [Libc.strlen lit list_ascii_of_string].
  rewrite <- !app_assoc. split; reflexivity.
Qed.

(** X2.  For a pid that is a positive [int] the array
    [convert_int_to_string] returns holds the digits of the pid and is
    exactly [get_num_digits pid] bytes long (the count its [strncat] is
    given): there is no terminating NUL.  The samplers build the paths
    /proc/[pid]/stat and /proc/[pid]/statm from it.  Each path with its
    terminating NUL fills the [malloc]ed buffer exactly: 12 and 13 bytes
    besides the digits. *)
Theorem sampler_paths pid :
  0 < pid <= CInt.INT_MAX ->
  convert_int_to_string pid = Some <$> int_digits pid
  /\ proc_path pid (lit "/stat") 5
     = Some (lit "/proc/" ++ int_digits pid ++ lit "/stat")
  /\ proc_path pid (lit "/statm") 6
     = Some (lit "/proc/" ++ int_digits pid ++ lit "/statm")
  /\ get_num_digits pid = Z.of_nat (length (convert_int_to_string pid))
  /\ Z.of_nat (length (lit "/proc/" ++ int_digits pid ++ lit "/stat")) + 1
     = 12 + get_num_digits pid
  /\ Z.of_nat (length (lit "/proc/" ++ int_digits pid ++ lit "/statm")) + 1
     = 13 + get_num_digits pid.
Proof.
  intros Hp. destruct (proc_path_stat pid Hp) as (H1 & H2).
  destruct (int_digits_length pid Hp) as (Hn & _).
  rewrite (convert_int_to_string_digits pid Hp), length_fmap.
  rewrite Hn. rewrite !length_app. cbn [lit list_ascii_of_string length].
  repeat split; auto; lia.
Qed.

Section Sampling.

Context {os : OS}.


(** Before the handler is registered the calls of the launcher change the
    world as the host says and nothing else does. *)

Lemma interrupts_off s :
  handler_registered s = false -> interrupts s = Ret tt s.
Proof. intros H. unfold interrupts. now rewrite H. Qed.

Lemma fork_off line s :
  handler_registered s = false ->
  exists s',
    fork_ line s = Ret (fst (sys_fork line (st_world s))) s'
    /\ runs s s' [EFork line (fst (sys_fork line (st_world s)))]
    /\ st_world s' = snd (sys_fork line (st_world s)).
Proof.
  intros H. destruct (fork_runs line s) as (s' & Hf & R).
  exists s'. split; [exact Hf |]. split; [exact R |].
  unfold fork_ in Hf. destruct (sys_fork line (st_world s)) as [pid w].
  unfold bind, log in Hf. rewrite interrupts_off in Hf by exact H.
  injection Hf as <-. reflexivity.
Qed.

Lemma usleep_off usec s :
  handler_registered s = false ->
  exists s',
    usleep_ usec s = Ret tt s' /\ runs s s' [EUsleep usec]
    /\ st_world s' = sys_usleep usec (st_world s).
Proof.
  intros H. destruct (usleep_runs usec s) as (s' & Hu & R).
  exists s'. split; [exact Hu |]. split; [exact R |].
  unfold usleep_, bind, log in Hu. rewrite interrupts_off in Hu by exact H.
  injection Hu as <-. reflexivity.
Qed.

Lemma waitpid_off pid s :
  handler_registered s = false ->
  exists s',
    waitpid_ pid s = Ret (fst (sys_waitpid pid (st_world s))) s'
    /\ runs s s' [EWaitpid pid (fst (sys_waitpid pid (st_world s)))]
    /\ st_world s' = snd (sys_waitpid pid (st_world s)).
Proof.
  intros H. destruct (waitpid_runs pid s) as (r & s' & Hw & R).
  unfold waitpid_ in Hw |- *.
  destruct (sys_waitpid pid (st_world s)) as [r' w]. simpl fst. simpl snd.
  unfold bind, log in Hw |- *. rewrite interrupts_off in Hw |- * by exact H.
  injection Hw as <- <-. eexists. split; [reflexivity |]. split; [exact R |].
  reflexivity.
Qed.

End Sampling.

(** ** Command lines *)

Lemma count_loop_spaces s : forall count,
  0 <= count -> count + Z.of_nat (length s) <= CInt.INT_MAX ->
  count_loop s count = count + Z.of_nat (spaces s).
Proof.
  induction s as [| c s IH]; intros count H0 H; cbn [count_loop].
  - unfold spaces. simpl. lia.
  - cbn [length] in H. unfold spaces. cbn [List.filter].
    destruct (Ascii.eqb c SPACE).
    + unfold CInt.add. rewrite wrap_small by int_range.
      rewrite IH by lia. unfold spaces. cbn [length]. lia.
    + rewrite IH by lia. reflexivity.
Qed.

Lemma spaces_le s : (spaces s <= length s)%nat.
Proof. unfold spaces. apply List.filter_length_le. Qed.

Lemma get_num_args_spaces line :
  ~ In NUL line -> Z.of_nat (length line) < CInt.INT_MAX ->
  get_num_args line = Z.of_nat (spaces line) + 1.
Proof.
  intros Hn Hl. unfold get_num_args.
  rewrite strlen_no_nul.
  2:{ apply List.Forall_forall. intros c Hc.
      destruct (Ascii.eqb_spec c NUL) as [-> |]; [contradiction | reflexivity]. }
  rewrite firstn_all. rewrite count_loop_spaces by lia.
  pose proof (spaces_le line). unfold CInt.add.
  rewrite wrap_small by int_range. lia.
Qed.

(** A token ends at the first space or at the end of the string. *)
Lemma scan_token_split s :
  let (tok, rest) := Libc.scan_token s in
  ~ In SPACE tok
  /\ ((s = tok /\ rest = []) \/ s = tok ++ SPACE :: rest).
Proof.
  induction s as [| c s IH]; cbn [Libc.scan_token].
  - split; [intros [] | left; split; reflexivity].
  - destruct (Ascii.eqb_spec c SPACE) as [-> | Hc].
    + split; [intros [] | right; reflexivity].
    + destruct (Libc.scan_token s) as [tok rest]. destruct IH as (Hn & IH).
      split.
      * intros [E | Hin]; [congruence | contradiction].
      * destruct IH as [[-> ->] | ->]; [left; split; reflexivity | right; reflexivity].
Qed.

Lemma skip_delims_spec s :
  (spaces (Libc.skip_delims s) <= spaces s)%nat
  /\ match Libc.skip_delims s with
     | [] => True
     | c :: _ => c <> SPACE
     end.
Proof.
  induction s as [| c s IH]; cbn [Libc.skip_delims].
  - split; [lia | exact I].
  - unfold spaces in *. cbn [List.filter].
    destruct (Ascii.eqb_spec c SPACE) as [-> | Hc].
    + cbn [length]. destruct IH as (IH & H). split; [lia | exact H].
    + cbn [List.filter]. destruct (Ascii.eqb_spec c SPACE); [contradiction |].
      split; [lia | exact Hc].
Qed.

Lemma spaces_app a b : spaces (a ++ b) = (spaces a + spaces b)%nat.
Proof. unfold spaces. rewrite List.filter_app, length_app. reflexivity. Qed.

Lemma spaces_none tok : ~ In SPACE tok -> spaces tok = O.
Proof.
  induction tok as [| c t IH]; intros H; [reflexivity |].
  unfold spaces in *. cbn [List.filter].
  destruct (Ascii.eqb_spec c SPACE) as [-> | Hc].
  - exfalso. apply H. left. reflexivity.
  - apply IH. intros Hin. apply H. right. exact Hin.
Qed.

(** What [strtok] returns: a non-empty token without a space, and a rest
    that has lost at least the space that ended the token. *)
Lemma strtok_spec s tok rest :
  Libc.strtok s = Some (tok, rest) ->
  tok <> [] /\ ~ In SPACE tok
  /\ (rest = [] \/ (spaces rest < spaces s)%nat).
Proof.
  unfold Libc.strtok. pose proof (skip_delims_spec s) as (Hle & Hc).
  destruct (Libc.skip_delims s) as [| c l] eqn:E; [discriminate |].
  pose proof (scan_token_split (c :: l)) as H.
  destruct (Libc.scan_token (c :: l)) as [tok' rest'].
  intros [= -> ->]. destruct H as (Hn & H).
  split.
  - intros ->. destruct H as [[H _] | H]; [discriminate |].
    injection H as -> _. contradiction.
  - split; [exact Hn |].
    destruct H as [[_ ->] | H]; [left; reflexivity | right].
    rewrite H in Hle. rewrite spaces_app in Hle.
    unfold spaces in Hle at 2. cbn [List.filter] in Hle.
    rewrite Ascii.eqb_refl in Hle. cbn [length] in Hle.
    fold (spaces rest) in Hle. lia.
Qed.

Lemma get_args_loop_fits fuel : forall s,
  (length (get_args_loop fuel (Libc.strtok s)) <= spaces s + 1)%nat
  /\ Forall (fun tok => tok <> [] /\ ~ In SPACE tok)
       (get_args_loop fuel (Libc.strtok s)).
Proof.
  induction fuel as [| fuel IH]; intros s; cbn [get_args_loop].
  - split; [simpl; lia | constructor].
  - destruct (Libc.strtok s) as [[tok rest] |] eqn:E.
    + destruct (strtok_spec _ _ _ E) as (H1 & H2 & H3).
      destruct (IH rest) as (IHl & IHf). split.
      * cbn [length]. destruct H3 as [-> | H3]; [| lia].
        destruct fuel; cbn; lia.
      * constructor; [split; assumption | exact IHf].
    + split; [simpl; lia | constructor].
Qed.

(** X3.  The tokens [get_args] stores never outnumber the cells of the
    array it allocates, [get_num_args line] of them (one more than the line
    has spaces); every token is non-empty and holds no space. *)
Theorem get_args_fits line :
  ~ In NUL line -> Z.of_nat (length line) < CInt.INT_MAX ->
  Z.of_nat (length (get_args line)) <= get_num_args line
  /\ Forall (fun tok => tok <> [] /\ ~ In SPACE tok) (get_args line).
Proof.
  intros Hn Hl. rewrite (get_num_args_spaces line Hn Hl). unfold get_args.
  destruct (get_args_loop_fits (S (length line)) line) as (H1 & H2).
  split; [lia | exact H2].
Qed.

Lemma scan_token_word (w rest : cstring) :
  ~ In SPACE w -> Libc.scan_token (w ++ SPACE :: rest) = (w, rest).
Proof.
  induction w as [| c w IH]; intros H; cbn [app Libc.scan_token].
  - rewrite Ascii.eqb_refl. reflexivity.
  - destruct (Ascii.eqb_spec c SPACE) as [-> | Hc].
    + exfalso. apply H. left. reflexivity.
    + rewrite IH; [reflexivity |]. intros Hin. apply H. right. exact Hin.
Qed.

Lemma scan_token_last (w : cstring) :
  ~ In SPACE w -> Libc.scan_token w = (w, []).
Proof.
  induction w as [| c w IH]; intros H; cbn [Libc.scan_token]; [reflexivity |].
  destruct (Ascii.eqb_spec c SPACE) as [-> | Hc].
  - exfalso. apply H. left. reflexivity.
  - rewrite IH; [reflexivity |]. intros Hin. apply H. right. exact Hin.
Qed.

Lemma strtok_word (w s : cstring) :
  w <> [] -> ~ In SPACE w ->
  Libc.strtok (w ++ s) = Some (Libc.scan_token (w ++ s)).
Proof.
  intros Hne Hs. destruct w as [| c w]; [contradiction |].
  unfold Libc.strtok. cbn [app Libc.skip_delims].
  destruct (Ascii.eqb_spec c SPACE) as [-> | Hc]; [| reflexivity].
  exfalso. apply Hs. left. reflexivity.
Qed.

Lemma get_args_loop_words words : forall fuel,
  Forall (fun w => w <> [] /\ ~ In SPACE w) words ->
  (length words < fuel)%nat ->
  get_args_loop fuel (Libc.strtok (command_line words)) = words.
Proof.
  induction words as [| w ws IH]; intros fuel Hw Hf.
  - destruct fuel; reflexivity.
  - destruct fuel as [| fuel]; [cbn [length] in Hf; lia |].
    apply Forall_cons in Hw as ((Hne & Hs) & Hws).
    cbn [command_line]. destruct ws as [| w' ws].
    + rewrite <- (app_nil_r w) at 1. rewrite strtok_word by assumption.
      rewrite app_nil_r, scan_token_last by assumption.
      cbn [get_args_loop]. destruct fuel; reflexivity.
    + rewrite strtok_word by assumption.
      rewrite scan_token_word by assumption.
      cbn [get_args_loop]. f_equal. apply IH; [exact Hws |].
      cbn [length] in *. lia.
Qed.

Lemma command_line_length words :
  Forall (fun w : cstring => w <> []) words ->
  (length words <= length (command_line words))%nat.
Proof.
  induction words as [| w ws IH]; intros H; [simpl; lia |].
  apply Forall_cons in H as (Hne & Hws). specialize (IH Hws).
  cbn [command_line]. destruct ws as [| w' ws].
  - destruct w; [contradiction | cbn [length]; lia].
  - rewrite length_app. cbn [length] in *. lia.
Qed.

Lemma command_line_spaces words :
  Forall (fun w => ~ In SPACE w) words -> words <> [] ->
  S (spaces (command_line words)) = length words.
Proof.
  induction words as [| w ws IH]; intros H Hne; [contradiction |].
  apply Forall_cons in H as (Hs & Hws).
  cbn [command_line]. destruct ws as [| w' ws].
  - rewrite spaces_none by assumption. reflexivity.
  - rewrite spaces_app, spaces_none by assumption.
    change (SPACE :: command_line (w' :: ws))
      with ([SPACE] ++ command_line (w' :: ws)).
    rewrite spaces_app. change (spaces [SPACE]) with 1%nat.
    specialize (IH Hws ltac:(discriminate)). cbn [length] in *. lia.
Qed.

Lemma command_line_no_nul words :
  Forall (fun w => ~ In NUL w) words -> ~ In NUL (command_line words).
Proof.
  induction words as [| w ws IH]; intros H; [intros [] |].
  apply Forall_cons in H as (Hs & Hws). specialize (IH Hws).
  cbn [command_line]. destruct ws as [| w' ws]; [exact Hs |].
  intros Hin. apply in_app_or in Hin as [Hin | [E | Hin]].
  - contradiction.
  - discriminate E.
  - contradiction.
Qed.

(** X4.  A command line of words separated by single spaces is split
    into just those words, and they fill the array exactly: [get_num_args]
    is the number of words, so no cell is left for a NULL pointer after the
    last one. *)
Theorem get_args_words words :
  Forall (fun w => w <> [] /\ ~ In SPACE w /\ ~ In NUL w) words ->
  words <> [] ->
  Z.of_nat (length (command_line words)) < CInt.INT_MAX ->
  get_args (command_line words) = words
  /\ get_num_args (command_line words) = Z.of_nat (length words).
Proof.
  intros Hw Hne Hl.
  assert (H1 : Forall (fun w : cstring => w <> [] /\ ~ In SPACE w) words)
    by (eapply Forall_impl; [exact Hw |]; simpl; tauto).
  assert (H2 : Forall (fun w : cstring => w <> []) words)
    by (eapply Forall_impl; [exact Hw |]; simpl; tauto).
  assert (H3 : Forall (fun w : cstring => ~ In SPACE w) words)
    by (eapply Forall_impl; [exact Hw |]; simpl; tauto).
  assert (H4 : Forall (fun w : cstring => ~ In NUL w) words)
    by (eapply Forall_impl; [exact Hw |]; simpl; tauto).
  split.
  - unfold get_args. apply get_args_loop_words; [exact H1 |].
    pose proof (command_line_length words H2). lia.
  - rewrite get_num_args_spaces; [| apply command_line_no_nul; exact H4 | exact Hl].
    rewrite <- (command_line_spaces words H3 Hne). lia.
Qed.

(** ** Lines of the input file *)

Lemma line_size_0 : line_size 0 = (PATH_MAX + MAX_ARG_LENGTH)%nat.
Proof. unfold line_size. lia. Qed.

Lemma line_size_S ext :
  line_size (S ext) = (line_size ext + MAX_ARG_LENGTH)%nat
  /\ (PATH_MAX + MAX_ARG_LENGTH * S ext - 1)%nat = (line_size ext - 1)%nat
  /\ (0 < line_size ext)%nat.
Proof. unfold line_size, MAX_ARG_LENGTH, PATH_MAX. lia. Qed.

Lemma not_in_cons {A} (x y : A) l : ~ In x (y :: l) -> x <> y /\ ~ In x l.
Proof.
  intros H. split; [intros -> | intros Hin]; apply H; [left | right]; auto.
Qed.

Lemma insert_fresh (cells : buffer) m c :
  <[length cells := Some c]> (cells ++ replicate (S m) None)
  = (cells ++ [Some c]) ++ replicate m None.
Proof.
  rewrite insert_app_r_alt by lia. rewrite Nat.sub_diag.
  cbn [replicate]. rewrite <- app_assoc. reflexivity.
Qed.

(** One turn of the loop for a byte that is no newline. *)
Lemma line_loop_step f c line index ext :
  c <> NEWLINE -> (index < length line)%nat ->
  line_loop f c line index ext
  = match
      (if (line_size ext <=? S index)%nat then
         match Libc.strncpy (PATH_MAX + MAX_ARG_LENGTH * S ext - 1) 0
                 (malloc_chars (line_size (S ext)))
                 (<[index := Some c]> line) with
         | Some line' => Some (line', S ext)
         | None => None
         end
       else Some (<[index := Some c]> line, ext))
    with
    | None => None
    | Some (line', ext') => feed f line' (S index) ext'
    end.
Proof.
  intros Hc Hi.
  destruct f; cbn [line_loop feed];
    (destruct (Ascii.eqb_spec c NEWLINE); [contradiction |]);
    rewrite (proj2 (Nat.ltb_lt _ _) Hi); reflexivity.
Qed.

(** While there is room the bytes of the line go into the buffer one after
    the other. *)
Lemma feed_short chars : forall (cells : buffer) m ext t,
  ~ In NEWLINE chars ->
  (length cells + m = line_size ext)%nat -> (length chars < m)%nat ->
  feed (chars ++ t) (cells ++ replicate m None) (length cells) ext
  = feed t ((cells ++ (Some <$> chars)) ++ replicate (m - length chars) None)
      (length cells + length chars) ext.
Proof.
  induction chars as [| c l IH]; intros cells m ext t Hnl Hsize Hm.
  - cbn [app fmap list_fmap length]. rewrite app_nil_r, Nat.sub_0_r, Nat.add_0_r.
    reflexivity.
  - apply not_in_cons in Hnl as (Hc & Hl). cbn [length] in Hm.
    destruct m as [| m]; [lia |].
    change (feed ((c :: l) ++ t) (cells ++ replicate (S m) None) (length cells) ext)
      with (line_loop (l ++ t) c (cells ++ replicate (S m) None) (length cells) ext).
    rewrite line_loop_step;
      [| congruence | rewrite length_app, length_replicate; lia].
    rewrite (proj2 (Nat.leb_gt _ _)) by lia.
    rewrite insert_fresh.
    replace (S (length cells)) with (length (cells ++ [Some c]))
      by (rewrite length_app; cbn [length]; lia).
    rewrite IH; [| exact Hl | rewrite length_app; cbn [length]; lia | lia].
    rewrite length_app. cbn [length fmap list_fmap].
    rewrite <- (app_assoc cells [Some c]). cbn [app].
    replace (S m - S (length l))%nat with (m - length l)%nat by lia.
    replace (length cells + 1 + length l)%nat
      with (length cells + S (length l))%nat by lia.
    reflexivity.
Qed.

Lemma strncpy_copy n : forall i (dest src : buffer),
  (forall j, (i <= j < i + n)%nat ->
     exists c, src !! j = Some (Some c) /\ c <> NUL) ->
  (i + n <= length dest)%nat ->
  exists dest',
    Libc.strncpy n i dest src = Some dest'
    /\ length dest' = length dest
    /\ (forall j, (i <= j < i + n)%nat -> dest' !! j = src !! j)
    /\ (forall j, ~ (i <= j < i + n)%nat -> dest' !! j = dest !! j).
Proof.
  induction n as [| n IH]; intros i dest src Hsrc Hlen.
  - exists dest. repeat split; auto. intros j Hj. lia.
  - cbn [Libc.strncpy].
    destruct (Hsrc i ltac:(lia)) as (c & Hc & Hnul). rewrite Hc.
    rewrite (proj2 (Nat.leb_le _ _)) by lia.
    destruct (Ascii.eqb_spec c NUL); [contradiction |].
    destruct (IH (S i) (<[i := Some c]> dest) src) as (dest' & Hs & Hl & Hin & Hout).
    { intros j Hj. apply Hsrc. lia. }
    { rewrite length_insert. lia. }
    exists dest'. split; [exact Hs |]. rewrite Hl, length_insert.
    split; [reflexivity |]. split.
    + intros j Hj. destruct (Nat.eq_dec j i) as [-> | Hne].
      * rewrite Hout by lia. rewrite list_lookup_insert_eq by lia. now rewrite Hc.
      * apply Hin. lia.
    + intros j Hj. rewrite Hout by lia. apply list_lookup_insert_ne. lia.
Qed.

Lemma lookup_written (pre : cstring) (tail : buffer) j :
  (j < length pre)%nat -> ~ In NUL pre ->
  exists c, ((Some <$> pre) ++ tail) !! j = Some (Some c) /\ c <> NUL.
Proof.
  intros Hj Hn. destruct (pre !! j) as [c |] eqn:E.
  - exists c. split.
    + rewrite lookup_app_l by (rewrite length_fmap; lia).
      rewrite list_lookup_fmap, E. reflexivity.
    + intros ->. apply Hn. apply list_elem_of_In.
      eapply list_elem_of_lookup_2. exact E.
  - apply lookup_ge_None in E. lia.
Qed.

(** Copying the written bytes of a buffer into a fresh one. *)
Lemma strncpy_fresh (pre : cstring) (tail : buffer) N :
  ~ In NUL pre -> (length pre <= N)%nat ->
  Libc.strncpy (length pre) 0 (malloc_chars N) ((Some <$> pre) ++ tail)
  = Some ((Some <$> pre) ++ replicate (N - length pre) None).
Proof.
  intros Hn HN.
  destruct (strncpy_copy (length pre) 0 (malloc_chars N) ((Some <$> pre) ++ tail))
    as (dest' & Hs & Hl & Hin & Hout).
  { intros j Hj. apply lookup_written; [lia | exact Hn]. }
  { unfold malloc_chars. rewrite length_replicate. lia. }
  rewrite Hs. f_equal. unfold malloc_chars in *. rewrite length_replicate in Hl.
  apply list_eq. intros j. destruct (Nat.lt_ge_cases j (length pre)).
  - rewrite Hin by lia. rewrite !lookup_app_l by (rewrite length_fmap; lia).
    reflexivity.
  - rewrite Hout by lia. rewrite lookup_app_r by (rewrite length_fmap; lia).
    rewrite length_fmap. destruct (Nat.lt_ge_cases j N).
    + rewrite !lookup_replicate_2 by lia. reflexivity.
    + rewrite !(proj2 (lookup_ge_None _ _)); [reflexivity | |];
        rewrite length_replicate; lia.
Qed.

(** A copy that meets a byte never written stops there. *)
Lemma strncpy_unwritten n : forall i (dest src : buffer) p,
  (i <= p < i + n)%nat -> src !! p = Some None ->
  (forall j, (i <= j < p)%nat -> exists c, src !! j = Some (Some c) /\ c <> NUL) ->
  Libc.strncpy n i dest src = None.
Proof.
  induction n as [| n IH]; intros i dest src p Hp Hnone Hsrc; [lia |].
  cbn [Libc.strncpy]. destruct (Nat.eq_dec i p) as [-> | Hne].
  - rewrite Hnone. reflexivity.
  - destruct (Hsrc i ltac:(lia)) as (c & Hc & Hnul). rewrite Hc.
    destruct (i + S n <=? length dest)%nat; [| reflexivity].
    destruct (Ascii.eqb_spec c NUL); [contradiction |].
    apply (IH (S i) _ src p); [lia | exact Hnone |].
    intros j Hj. apply Hsrc. lia.
Qed.

(** The byte that fills the buffer makes it grow, and is not copied. *)
Lemma feed_grow (pre chars : cstring) x t ext :
  ~ In NEWLINE (chars ++ [x]) -> ~ In NUL (pre ++ chars) ->
  (length pre + length chars + 1 = line_size ext)%nat ->
  feed ((chars ++ [x]) ++ t)
    ((Some <$> pre) ++ replicate (S (length chars)) None) (length pre) ext
  = feed t
      (((Some <$> pre ++ chars) ++ [None]) ++ replicate MAX_ARG_LENGTH None)
      (line_size ext) (S ext).
Proof.
  intros Hnl Hnul Hsize.
  assert (Hnl1 : ~ In NEWLINE chars /\ x <> NEWLINE).
  { split; [intros H | intros ->]; apply Hnl, in_or_app; [left | right; left]; auto. }
  destruct Hnl1 as (Hnl1 & Hx).
  rewrite <- app_assoc.
  replace (length pre) with (length (Some <$> pre)) by apply length_fmap.
  rewrite feed_short; [| exact Hnl1 | rewrite length_fmap; lia | lia].
  replace (S (length chars) - length chars)%nat with 1%nat by lia.
  rewrite <- fmap_app.
  replace (length (Some <$> pre) + length chars)%nat
    with (length (Some <$> pre ++ chars))
    by (rewrite !length_fmap, length_app; reflexivity).
  change (feed ([x] ++ t) ?l ?i ?e) with (line_loop t x l i e).
  rewrite line_loop_step;
    [| exact Hx | rewrite length_app, length_replicate; lia].
  rewrite (proj2 (Nat.leb_le _ _))
    by (rewrite length_fmap, length_app; lia).
  rewrite insert_fresh. cbn [replicate]. rewrite app_nil_r.
  destruct (line_size_S ext) as (HS & Hcount & _). rewrite Hcount.
  replace (line_size ext - 1)%nat with (length (pre ++ chars))
    by (rewrite length_app; lia).
  rewrite strncpy_fresh; [| exact Hnul | rewrite length_app, HS; lia].
  rewrite length_fmap.
  replace (S (length (pre ++ chars))) with (line_size ext)
    by (rewrite length_app; lia).
  replace (line_size (S ext) - length (pre ++ chars))%nat
    with (S MAX_ARG_LENGTH) by (rewrite length_app, HS; lia).
  cbn [replicate]. rewrite <- app_assoc. reflexivity.
Qed.

(** The second time the buffer grows the copy reads the byte that the first
    copy left out. *)
Lemma feed_grow_again (pre chars : cstring) x t ext :
  ~ In NEWLINE (chars ++ [x]) -> ~ In NUL pre ->
  (length pre + 1 + length chars + 1 = line_size ext)%nat ->
  feed ((chars ++ [x]) ++ t)
    (((Some <$> pre) ++ [None]) ++ replicate (S (length chars)) None)
    (length pre + 1) ext
  = None.
Proof.
  intros Hnl Hnul Hsize.
  assert (Hnl1 : ~ In NEWLINE chars /\ x <> NEWLINE).
  { split; [intros H | intros ->]; apply Hnl, in_or_app; [left | right; left]; auto. }
  destruct Hnl1 as (Hnl1 & Hx).
  rewrite <- app_assoc.
  replace (length pre + 1)%nat with (length ((Some <$> pre) ++ [None : option ascii]))
    by (rewrite length_app, length_fmap; reflexivity).
  rewrite feed_short;
    [| exact Hnl1 | rewrite length_app, length_fmap; cbn [length]; lia | lia].
  replace (S (length chars) - length chars)%nat with 1%nat by lia.
  change (feed ([x] ++ t) ?l ?i ?e) with (line_loop t x l i e).
  set (cells := ((Some <$> pre) ++ [None]) ++ (Some <$> chars)).
  assert (Hcells : (length cells = length pre + 1 + length chars)%nat).
  { unfold cells. rewrite !length_app, !length_fmap. reflexivity. }
  replace (length ((Some <$> pre) ++ [None]) + length chars)%nat with (length cells)
    by (rewrite Hcells, length_app, length_fmap; reflexivity).
  rewrite line_loop_step;
    [| exact Hx | rewrite length_app, length_replicate; lia].
  rewrite (proj2 (Nat.leb_le _ _)) by lia.
  destruct (line_size_S ext) as (HS & Hcount & _). rewrite Hcount.
  rewrite (strncpy_unwritten _ 0 _ _ (length pre)); [reflexivity | lia | |].
  - rewrite insert_fresh. unfold cells.
    rewrite <- !app_assoc. rewrite lookup_app_r by (rewrite length_fmap; lia).
    rewrite length_fmap, Nat.sub_diag. reflexivity.
  - intros j Hj. rewrite insert_fresh. unfold cells. rewrite <- !app_assoc.
    apply lookup_written; [lia | exact Hnul].
Qed.

Lemma feed_end (line : buffer) index ext rest :
  feed [] line index ext = Some (line, index, [])
  /\ feed (NEWLINE :: rest) line index ext = Some (line, index, rest).
Proof.
  split; [reflexivity |]. cbn [feed]. destruct rest; reflexivity.
Qed.

Lemma c_str_written (l : cstring) (tail : buffer) :
  ~ In NUL l -> c_str ((Some <$> l) ++ Some NUL :: tail) = Some l.
Proof.
  induction l as [| c l IH]; intros Hn; [reflexivity |].
  apply not_in_cons in Hn as (Hc & Hl).
  cbn [fmap list_fmap app c_str].
  destruct (Ascii.eqb_spec c NUL); [congruence |].
  change (c_str (list_fmap _ _ Some l ++ Some NUL :: tail))
    with (c_str ((Some <$> l) ++ Some NUL :: tail)).
  rewrite (IH Hl). reflexivity.
Qed.

Lemma c_str_unwritten (l : cstring) (tail : buffer) :
  ~ In NUL l -> c_str ((Some <$> l) ++ None :: tail) = None.
Proof.
  induction l as [| c l IH]; intros Hn; [reflexivity |].
  apply not_in_cons in Hn as (Hc & Hl).
  cbn [fmap list_fmap app c_str].
  destruct (Ascii.eqb_spec c NUL); [congruence |].
  change (c_str (list_fmap _ _ Some l ++ None :: tail))
    with (c_str ((Some <$> l) ++ None :: tail)).
  rewrite (IH Hl). reflexivity.
Qed.

(** What [read_next_line] makes of a line that fits the first buffer:
    [t] is what follows the line in the stream. *)
Lemma read_next_line_fits (l : cstring) (t : list ascii) :
  ~ In NEWLINE l -> (length l < PATH_MAX + MAX_ARG_LENGTH)%nat ->
  l ++ t <> [] ->
  (t = [] \/ exists rest, t = NEWLINE :: rest) ->
  read_next_line (l ++ t)
  = Some (Some ((Some <$> l) ++ Some NUL
                  :: replicate (PATH_MAX + MAX_ARG_LENGTH - S (length l)) None),
          tail t).
Proof.
  intros Hnl Hlen Hne Ht.
  assert (E : read_next_line (l ++ t)
              = match feed (l ++ t) (malloc_chars (PATH_MAX + MAX_ARG_LENGTH)) 0 0 with
                | Some (line, index, f') =>
                    if (index <? length line)%nat
                    then Some (Some (<[index := Some NUL]> line), f')
                    else None
                | None => None
                end).
  { destruct (l ++ t) eqn:E; [contradiction | reflexivity]. }
  rewrite E. clear E.
  pose proof (feed_short l [] (PATH_MAX + MAX_ARG_LENGTH) 0 t Hnl) as F.
  cbn [app length] in F. unfold malloc_chars.
  rewrite F; [| rewrite line_size_0; reflexivity | exact Hlen]. clear F.
  assert (F : feed t ((Some <$> l)
                        ++ replicate (PATH_MAX + MAX_ARG_LENGTH - length l) None)
                (0 + length l) 0
              = Some ((Some <$> l)
                        ++ replicate (PATH_MAX + MAX_ARG_LENGTH - length l) None,
                      length l, tail t)).
  { destruct Ht as [-> | (rest & ->)]; [reflexivity |].
    apply feed_end. }
  rewrite F. clear F.
  rewrite (proj2 (Nat.ltb_lt _ _))
    by (rewrite length_app, length_fmap, length_replicate; lia).
  replace (PATH_MAX + MAX_ARG_LENGTH - length l)%nat
    with (S (PATH_MAX + MAX_ARG_LENGTH - S (length l))) by lia.
  replace (length l) with (length (Some <$> l)) at 1 by apply length_fmap.
  rewrite insert_fresh. rewrite <- app_assoc. reflexivity.
Qed.

(** X5.  A line of fewer than [PATH_MAX + MAX_ARG_LENGTH] characters is
    returned as it stands in the file, without its newline, and the stream
    is left behind that newline; the last line needs no newline.  At the end
    of the file the result is NULL. *)
Theorem read_next_line_short l rest :
  ~ In NEWLINE l -> ~ In NUL l ->
  (length l < PATH_MAX + MAX_ARG_LENGTH)%nat ->
  (exists line,
      read_next_line (l ++ NEWLINE :: rest) = Some (Some line, rest)
      /\ c_str line = Some l)
  /\ (l <> [] ->
      exists line,
        read_next_line l = Some (Some line, []) /\ c_str line = Some l)
  /\ read_next_line [] = Some (None, []).
Proof.
  intros Hnl Hnul Hlen. split; [| split; [| reflexivity]].
  - eexists. split.
    + apply (read_next_line_fits l (NEWLINE :: rest) Hnl Hlen).
      * destruct l; discriminate.
      * right. eexists. reflexivity.
    + apply c_str_written. exact Hnul.
  - intros Hne. eexists. split.
    + rewrite <- (app_nil_r l) at 1.
      apply (read_next_line_fits l [] Hnl Hlen).
      * rewrite app_nil_r. exact Hne.
      * left. reflexivity.
    + apply c_str_written. exact Hnul.
Qed.

Lemma read_next_line_feed (c : ascii) (f : list ascii) :
  read_next_line (c :: f)
  = match feed (c :: f) (malloc_chars (PATH_MAX + MAX_ARG_LENGTH)) 0 0 with
    | Some (line, index, f') =>
        if (index <? length line)%nat
        then Some (Some (<[index := Some NUL]> line), f')
        else None
    | None => None
    end.
Proof. reflexivity. Qed.

(** A list with more than [n] elements, cut at its element [n]. *)
Lemma cut_at {A} (l : list A) n :
  (n < length l)%nat ->
  exists a x b, l = a ++ x :: b /\ length a = n.
Proof.
  intros H. destruct (drop n l) as [| x b] eqn:E.
  - apply (f_equal length) in E. rewrite length_drop in E. cbn in E. lia.
  - exists (take n l), x, b. split.
    + rewrite <- E. symmetry. apply take_drop.
    + rewrite length_take. lia.
Qed.

(** X6.  The line buffer grows with a copy of one byte too few ([strncpy]
    is given the old size less one): in a line of [PATH_MAX +
    MAX_ARG_LENGTH] characters or more the character at index [PATH_MAX +
    MAX_ARG_LENGTH - 1] is lost, the buffer holding a byte that was never
    written in its place.  When the buffer grows a second time (a line of
    [PATH_MAX + 2 * MAX_ARG_LENGTH] characters or more) the copy reads that
    byte. *)
Theorem read_next_line_long l rest :
  ~ In NEWLINE l -> ~ In NUL l ->
  (PATH_MAX + MAX_ARG_LENGTH <= length l)%nat ->
  ((length l < PATH_MAX + 2 * MAX_ARG_LENGTH)%nat ->
   exists a x b line,
     l = a ++ x :: b
     /\ length a = (PATH_MAX + MAX_ARG_LENGTH - 1)%nat
     /\ read_next_line (l ++ NEWLINE :: rest) = Some (Some line, rest)
     /\ line = (Some <$> a) ++ None :: (Some <$> b)
                 ++ Some NUL :: replicate (MAX_ARG_LENGTH - S (length b)) None
     /\ c_str line = None)
  /\ ((PATH_MAX + 2 * MAX_ARG_LENGTH <= length l)%nat ->
      read_next_line (l ++ NEWLINE :: rest) = None).
Proof.
  intros Hnl Hnul Hlen.
  destruct (cut_at l (PATH_MAX + MAX_ARG_LENGTH - 1)) as (a & x & b & -> & Ha).
  { unfold PATH_MAX, MAX_ARG_LENGTH in *. lia. }
  assert (Hsz : (0 < PATH_MAX + MAX_ARG_LENGTH)%nat)
    by (unfold PATH_MAX, MAX_ARG_LENGTH; lia).
  rewrite length_app in Hlen |- *. cbn [length] in Hlen |- *.
  assert (Hnl_a : ~ In NEWLINE (a ++ [x])).
  { intros H. apply Hnl. apply in_app_or in H as [H | [-> | []]];
      apply in_or_app; [left | right; left]; auto. }
  assert (Hnl_b : ~ In NEWLINE b).
  { intros H. apply Hnl. apply in_or_app. right. right. exact H. }
  assert (Hnul_a : ~ In NUL a).
  { intros H. apply Hnul. apply in_or_app. left. exact H. }
  assert (Hstart : forall t,
            feed ((a ++ x :: b) ++ t) (malloc_chars (PATH_MAX + MAX_ARG_LENGTH)) 0 0
            = feed (b ++ t)
                (((Some <$> a) ++ [None]) ++ replicate MAX_ARG_LENGTH None)
                (line_size 0) 1).
  { intros t.
    replace ((a ++ x :: b) ++ t) with ((a ++ [x]) ++ (b ++ t))
      by (rewrite <- !app_assoc; reflexivity).
    replace (malloc_chars (PATH_MAX + MAX_ARG_LENGTH))
      with ((Some <$> ([] : cstring)) ++ replicate (S (length a)) (None : option ascii))
      by (unfold malloc_chars; cbn [fmap list_fmap app]; f_equal; lia).
    change 0%nat with (length ([] : cstring)) at 1.
    rewrite feed_grow;
      [reflexivity | exact Hnl_a | exact Hnul_a
       | rewrite line_size_0; cbn [length]; lia]. }
  split.
  - intros Hshort. exists a, x, b. eexists.
    split; [reflexivity |]. split; [exact Ha |].
    assert (R : read_next_line ((a ++ x :: b) ++ NEWLINE :: rest)
                = Some (Some ((Some <$> a) ++ None :: (Some <$> b)
                                ++ Some NUL
                                :: replicate (MAX_ARG_LENGTH - S (length b)) None),
                        rest)).
    { destruct ((a ++ x :: b) ++ NEWLINE :: rest) as [| c f] eqn:El.
      { destruct a; discriminate El. }
      rewrite read_next_line_feed. rewrite <- El, Hstart.
      replace (line_size 0)
        with (length ((Some <$> a) ++ [None : option ascii]))
        by (rewrite length_app, length_fmap, line_size_0; cbn [length]; lia).
      rewrite feed_short;
        [| exact Hnl_b
         | rewrite length_app, length_fmap; cbn [length];
           unfold line_size; lia
         | lia].
      rewrite (proj2 (feed_end _ _ _ rest)).
      rewrite (proj2 (Nat.ltb_lt _ _))
        by (rewrite !length_app, !length_fmap, length_replicate; cbn [length]; lia).
      replace (MAX_ARG_LENGTH - length b)%nat
        with (S (MAX_ARG_LENGTH - S (length b))) by lia.
      replace (length ((Some <$> a) ++ [None]) + length b)%nat
        with (length (((Some <$> a) ++ [None]) ++ (Some <$> b)))
        by (rewrite !length_app, !length_fmap; reflexivity).
      rewrite insert_fresh. rewrite <- !app_assoc. reflexivity. }
    split; [exact R |]. split; [reflexivity |].
    apply c_str_unwritten. exact Hnul_a.
  - intros Hlong.
    destruct (cut_at b (MAX_ARG_LENGTH - 1)) as (b1 & y & b2 & -> & Hb1).
    { unfold MAX_ARG_LENGTH in *. lia. }
    destruct ((a ++ x :: b1 ++ y :: b2) ++ NEWLINE :: rest) as [| c f] eqn:El.
    { destruct a; discriminate El. }
    rewrite read_next_line_feed. rewrite <- El, Hstart.
    replace ((b1 ++ y :: b2) ++ NEWLINE :: rest)
      with ((b1 ++ [y]) ++ (b2 ++ NEWLINE :: rest))
      by (rewrite <- !app_assoc; reflexivity).
    replace MAX_ARG_LENGTH with (S (length b1)) at 1
      by (unfold MAX_ARG_LENGTH in *; lia).
    replace (line_size 0) with (length a + 1)%nat
      by (rewrite line_size_0; lia).
    rewrite feed_grow_again; [reflexivity | | exact Hnul_a |].
    + intros H. apply Hnl_b. apply in_app_or in H as [H | [-> | []]];
        apply in_or_app; [left | right; left]; auto.
    + unfold line_size, MAX_ARG_LENGTH in *. lia.
Qed.

Lemma strings_cons b bufs s ss :
  c_str b = Some s -> strings bufs = Some ss ->
  strings (b :: bufs) = Some (s :: ss).
Proof. intros H1 H2. cbn [strings]. rewrite H1, H2. reflexivity. Qed.

Lemma read_lines_text ls : forall final fuel,
  Forall (fun l => ~ In NEWLINE l /\ ~ In NUL l
                   /\ (length l < PATH_MAX + MAX_ARG_LENGTH)%nat) (ls ++ [final]) ->
  (length (text ls ++ final) < fuel)%nat ->
  exists bufs,
    read_lines fuel (text ls ++ final) = Some bufs
    /\ strings bufs
       = Some (ls ++ match final with [] => [] | _ => [final] end).
Proof.
  induction ls as [| l ls IH]; intros final fuel Hok Hfuel.
  - cbn [text app] in *. apply Forall_cons in Hok as ((Hnl & Hnul & Hlen) & _).
    destruct fuel as [| fuel]; [lia |].
    destruct final as [| c final'].
    + exists []. split; reflexivity.
    + assert (R := read_next_line_fits (c :: final') [] Hnl Hlen).
      rewrite app_nil_r in R.
      destruct fuel as [| fuel]; [cbn [length] in Hfuel; lia |].
      cbn [read_lines]. rewrite R; [| discriminate | left; reflexivity].
      cbn [tail read_next_line]. eexists. split; [reflexivity |].
      apply strings_cons; [apply c_str_written; exact Hnul | reflexivity].
  - cbn [text app] in *. apply Forall_cons in Hok as ((Hnl & Hnul & Hlen) & Hok).
    destruct fuel as [| fuel]; [lia |]. cbn [read_lines].
    rewrite <- app_assoc. cbn [app].
    rewrite (read_next_line_fits l (NEWLINE :: text ls ++ final) Hnl Hlen);
      [| destruct l; discriminate | right; eexists; reflexivity].
    cbn [tail].
    destruct (IH final fuel Hok) as (bufs & Hr & Hs).
    { rewrite <- app_assoc, length_app in Hfuel. cbn [app length] in Hfuel. lia. }
    rewrite Hr. eexists. split; [reflexivity |].
    apply strings_cons; [apply c_str_written; exact Hnul | exact Hs].
Qed.

(** X7.  Successive calls of [read_next_line] on a stream that nothing else
    moves give back the lines of a text file: each line of a file of
    newline-terminated lines, and a last line without newline if there is
    one, is handed over once, in order, an empty line as the empty string,
    and the call after the last line returns NULL. *)
Theorem file_lines_text ls final :
  Forall (fun l => ~ In NEWLINE l /\ ~ In NUL l
                   /\ (length l < PATH_MAX + MAX_ARG_LENGTH)%nat) (ls ++ [final]) ->
  file_lines (text ls ++ final)
  = Some (ls ++ match final with [] => [] | _ => [final] end).
Proof.
  intros Hok. unfold file_lines.
  destruct (read_lines_text ls final (S (length (text ls ++ final))) Hok)
    as (bufs & -> & Hs); [lia |]. exact Hs.
Qed.

(** ** The stream of the input file *)

(** [fread] hands out the first of the pending bytes and leaves the
    others pending. *)
Lemma fread_pending d fptr :
  fst (fread d fptr) = head (pending d fptr)
  /\ pending d (snd (fread d fptr)) = tail (pending d fptr).
Proof.
  unfold fread, pending. destruct fptr as [u off]. cbn [unread offset].
  destruct u as [| c rest]; [| split; reflexivity].
  cbn [app]. destruct (Pos.to_nat (d_blksize d)) as [| n] eqn:En; [lia |].
  destruct (drop off (d_bytes d)) as [| c l] eqn:El.
  - cbn. rewrite ?El. split; reflexivity.
  - cbn [take fst snd unread offset head tail]. split; [reflexivity |].
    assert (Hl : l = drop (S off) (d_bytes d)).
    { replace (S off) with (off + 1)%nat by lia. rewrite <- drop_drop, El.
      reflexivity. }
    replace (off + S (length (take n l)))%nat
      with (S off + length (take n l))%nat by lia.
    rewrite <- drop_drop, <- Hl. rewrite length_take.
    destruct (Nat.le_gt_cases n (length l)).
    + rewrite Nat.min_l by lia. apply take_drop.
    + rewrite Nat.min_r by lia. rewrite take_ge by lia.
      rewrite drop_all. apply app_nil_r.
Qed.

Lemma freads_pending n : forall d fptr,
  pending d (freads n d fptr) = drop n (pending d fptr).
Proof.
  induction n as [| n IH]; intros d fptr; [reflexivity |].
  cbn [freads]. rewrite IH, (proj2 (fread_pending d fptr)).
  destruct (pending d fptr); cbn [tail]; [now rewrite !drop_nil | reflexivity].
Qed.

Lemma pending_opened d : pending d opened = d_bytes d.
Proof. reflexivity. Qed.

(** A line shorter than the line buffer, read from the [FILE]. *)
Lemma next_line_short d fptr (l : cstring) (t : list ascii) :
  pending d fptr = l ++ t ->
  ~ In NEWLINE l -> ~ In NUL l ->
  (length l < PATH_MAX + MAX_ARG_LENGTH)%nat ->
  l ++ t <> [] ->
  (t = [] \/ exists rest, t = NEWLINE :: rest) ->
  exists fptr',
    next_line d fptr = Some (Some l, fptr') /\ pending d fptr' = tail t.
Proof.
  intros Hp Hnl Hnul Hlen Hne Ht. unfold next_line. rewrite Hp.
  rewrite (read_next_line_fits l t Hnl Hlen Hne Ht).
  rewrite (c_str_written l _ Hnul).
  eexists. split; [reflexivity |].
  rewrite freads_pending, Hp.
  destruct Ht as [-> | (rest & ->)].
  - rewrite app_nil_r. cbn [tail length]. rewrite Nat.sub_0_r. apply drop_all.
  - cbn [tail]. rewrite length_app. cbn [length].
    replace (length l + S (length rest) - length rest)%nat
      with (length (l ++ [NEWLINE])) by (rewrite length_app; simpl; lia).
    replace (l ++ NEWLINE :: rest) with ((l ++ [NEWLINE]) ++ rest)
      by (rewrite <- app_assoc; reflexivity).
    apply drop_app_length.
Qed.

Lemma next_line_end d fptr :
  pending d fptr = [] -> next_line d fptr = Some (None, fptr).
Proof.
  intros Hp. unfold next_line. rewrite Hp. reflexivity.
Qed.

Lemma in_step_opened d : in_step d opened.
Proof. split; [simpl; lia | reflexivity]. Qed.

Lemma in_step_fread d fptr : in_step d fptr -> in_step d (snd (fread d fptr)).
Proof.
  intros (Hle & Hu). unfold fread. destruct fptr as [u off].
  cbn [unread offset] in *. destruct u as [| c rest].
  - clear Hu.
    destruct (take (Pos.to_nat (d_blksize d)) (drop off (d_bytes d)))
      as [| c rest] eqn:Et; [split; [simpl; lia | reflexivity] |].
    cbn [snd]. unfold in_step. cbn [unread offset]. split; [lia |].
    replace (off + S (length rest) - length rest)%nat with (S off) by lia.
    assert (Hd : drop off (d_bytes d) = c :: drop (S off) (d_bytes d)).
    { destruct (drop off (d_bytes d)) as [| c' l] eqn:El;
        [now rewrite take_nil in Et |].
      destruct (Pos.to_nat (d_blksize d)); [discriminate Et |].
      injection Et as -> _. f_equal.
      replace (S off) with (off + 1)%nat by lia. now rewrite <- drop_drop, El. }
    rewrite Hd in Et. destruct (Pos.to_nat (d_blksize d)) as [| n];
      [discriminate Et |].
    injection Et as Et. subst rest. rewrite length_take.
    destruct (Nat.le_gt_cases n (length (drop (S off) (d_bytes d)))).
    + now rewrite Nat.min_l by lia.
    + rewrite Nat.min_r by lia. now rewrite !take_ge by lia.
  - cbn [snd]. unfold in_step. cbn [unread offset length] in *.
    split; [lia |].
    replace (off - length rest)%nat with (off - S (length rest) + 1)%nat by lia.
    rewrite <- drop_drop.
    destruct (drop (off - S (length rest)) (d_bytes d)) as [| c' X];
      [discriminate Hu |].
    cbn [take] in Hu. injection Hu as _ Hu. exact Hu.
Qed.

Lemma in_step_freads n : forall d fptr,
  in_step d fptr -> in_step d (freads n d fptr).
Proof.
  induction n as [| n IH]; intros d fptr H; [exact H |].
  cbn [freads]. apply IH, in_step_fread, H.
Qed.

(** When a child of [fork] has called [exit], the parent is handed the
    bytes in its buffer and then the same bytes once more, from the
    file. *)
Lemma child_exit_pending d fptr :
  in_step d fptr ->
  pending d (child_exit fptr) = unread fptr ++ pending d fptr.
Proof.
  intros (Hle & Hu). unfold child_exit, pending.
  rewrite (proj2 (Nat.leb_le _ _) Hle). cbn [unread offset]. f_equal.
  rewrite Hu at 2.
  rewrite <- (take_drop (length (unread fptr))
                (drop (offset fptr - length (unread fptr)) (d_bytes d))) at 1.
  f_equal. rewrite drop_drop. f_equal. lia.
Qed.

(** ** The date line *)

Lemma get_month_inj a b :
  0 <= tm_mon a <= 11 -> 0 <= tm_mon b <= 11 ->
  get_month a = get_month b -> tm_mon a = tm_mon b.
Proof.
  unfold get_month. intros Ha Hb.
  assert (Ea : tm_mon a = 0 \/ tm_mon a = 1 \/ tm_mon a = 2 \/ tm_mon a = 3
               \/ tm_mon a = 4 \/ tm_mon a = 5 \/ tm_mon a = 6 \/ tm_mon a = 7
               \/ tm_mon a = 8 \/ tm_mon a = 9 \/ tm_mon a = 10 \/ tm_mon a = 11)
    by lia.
  assert (Eb : tm_mon b = 0 \/ tm_mon b = 1 \/ tm_mon b = 2 \/ tm_mon b = 3
               \/ tm_mon b = 4 \/ tm_mon b = 5 \/ tm_mon b = 6 \/ tm_mon b = 7
               \/ tm_mon b = 8 \/ tm_mon b = 9 \/ tm_mon b = 10 \/ tm_mon b = 11)
    by lia.
  repeat (destruct Ea as [-> | Ea]); try rewrite Ea;
    repeat (destruct Eb as [-> | Eb]); try rewrite Eb;
    intros H; try reflexivity; discriminate H.
Qed.

Lemma get_day_of_week_inj a b :
  0 <= tm_wday a <= 6 -> 0 <= tm_wday b <= 6 ->
  get_day_of_week a = get_day_of_week b -> tm_wday a = tm_wday b.
Proof.
  unfold get_day_of_week. intros Ha Hb.
  assert (Ea : tm_wday a = 0 \/ tm_wday a = 1 \/ tm_wday a = 2 \/ tm_wday a = 3
               \/ tm_wday a = 4 \/ tm_wday a = 5 \/ tm_wday a = 6) by lia.
  assert (Eb : tm_wday b = 0 \/ tm_wday b = 1 \/ tm_wday b = 2 \/ tm_wday b = 3
               \/ tm_wday b = 4 \/ tm_wday b = 5 \/ tm_wday b = 6) by lia.
  repeat (destruct Ea as [-> | Ea]); try rewrite Ea;
    repeat (destruct Eb as [-> | Eb]); try rewrite Eb;
    intros H; try reflexivity; discriminate H.
Qed.

(** The hour and the half of the day that are printed. *)
Lemma date_fields_clock t :
  0 <= tm_hour t <= 23 ->
  exists wkday month date year hour min sec xm,
    date_fields t = (wkday, month, date, year, hour, min, sec, xm)
    /\ 1 <= hour <= 12
    /\ xm = (if 12 <=? tm_hour t then lit "PM" else lit "AM")
    /\ tm_hour t = hour mod 12 + (if 12 <=? tm_hour t then 12 else 0).
Proof.
  intros Hh. unfold date_fields.
  destruct (Z.leb_spec 12 (tm_hour t)) as [Hpm | Ham].
  - unfold CInt.sub. rewrite wrap_small by int_range.
    destruct (Z.eqb_spec (tm_hour t - 12) 0) as [E | E];
      do 8 eexists; (split; [reflexivity |]);
      (split; [lia |]); (split; [reflexivity |]).
    + change (12 mod 12) with 0. lia.
    + rewrite Z.mod_small by lia. lia.
  - destruct (Z.eqb_spec (tm_hour t) 0) as [E | E];
      do 8 eexists; (split; [reflexivity |]);
      (split; [lia |]); (split; [reflexivity |]).
    + change (12 mod 12) with 0. lia.
    + rewrite Z.mod_small by lia. lia.
Qed.

Lemma date_fields_inj a b :
  calendar a -> calendar b ->
  date_fields a = date_fields b -> a = b.
Proof.
  intros (Hma & Hwa & Hha & Hya) (Hmb & Hwb & Hhb & Hyb) E.
  destruct (date_fields_clock a Hha)
    as (w1 & m1 & d1 & y1 & h1 & n1 & s1 & x1 & Ea & H1 & X1 & C1).
  destruct (date_fields_clock b Hhb)
    as (w2 & m2 & d2 & y2 & h2 & n2 & s2 & x2 & Eb & H2 & X2 & C2).
  assert (Ew : get_day_of_week a = get_day_of_week b
               /\ get_month a = get_month b
               /\ tm_mday a = tm_mday b
               /\ CInt.add 1900 (tm_year a) = CInt.add 1900 (tm_year b)
               /\ tm_min a = tm_min b /\ tm_sec a = tm_sec b).
  { unfold date_fields in E.
    destruct (12 <=? tm_hour a), (12 <=? tm_hour b);
      injection E; intros; repeat split; assumption. }
  destruct Ew as (Ew & Em & Ed & Ey & En & Es).
  rewrite Ea, Eb in E. injection E as -> -> -> -> -> -> -> Ex.
  assert (Eh : tm_hour a = tm_hour b).
  { rewrite C1, C2. rewrite X1, X2 in Ex.
    destruct (12 <=? tm_hour a), (12 <=? tm_hour b);
      try reflexivity; discriminate Ex. }
  unfold CInt.add in Ey. rewrite !wrap_small in Ey by assumption.
  apply get_month_inj in Em; [| assumption | assumption].
  apply get_day_of_week_inj in Ew; [| assumption | assumption].
  destruct a, b. cbn in *. subst. f_equal. lia.
Qed.

(** X8.  The hour printed is on the 12-hour clock: between 1 and 12, PM
    from noon on, midnight and noon both printed as 12.  The fields printed
    determine the broken-down time: two calendar times with the same date
    line agree in every field that is read. *)
Theorem date_fields_decode :
  (forall t,
      0 <= tm_hour t <= 23 ->
      exists wkday month date year hour min sec xm,
        date_fields t = (wkday, month, date, year, hour, min, sec, xm)
        /\ 1 <= hour <= 12
        /\ xm = (if 12 <=? tm_hour t then lit "PM" else lit "AM")
        /\ tm_hour t = hour mod 12 + (if 12 <=? tm_hour t then 12 else 0))
  /\ (forall a b,
        calendar a -> calendar b -> date_fields a = date_fields b -> a = b).
Proof.
  split; [exact date_fields_clock | exact date_fields_inj].
Qed.

(** ** Counting digits *)

Lemma count_digits_spec fuel : forall i d,
  0 < i <= CInt.INT_MAX -> i < 2 ^ Z.of_nat fuel ->
  0 <= d -> d + Z.of_nat fuel <= CInt.INT_MAX ->
  exists k, count_digits fuel i d = d + k
            /\ 1 <= k <= Z.of_nat fuel /\ 10 ^ (k - 1) <= i < 10 ^ k.
Proof.
  induction fuel as [| fuel IH]; intros i d Hi Hf Hd Hd'.
  - change (2 ^ Z.of_nat 0) with 1 in Hf. lia.
  - cbn [count_digits]. destruct (Z.leb_spec 1 i) as [_ | ?]; [| lia].
    rewrite div_small by lia.
    unfold CInt.add. rewrite wrap_small by int_range.
    destruct (Z.eq_dec (i / 10) 0) as [E | E].
    + rewrite E. exists 1. split.
      * destruct fuel; cbn [count_digits]; reflexivity.
      * assert (i < 10) by (apply Z.div_small_iff in E; lia).
        change (10 ^ (1 - 1)) with 1. change (10 ^ 1) with 10. lia.
    + assert (Hq : 0 < i / 10 <= CInt.INT_MAX).
      { pose proof (Z.div_mod i 10 ltac:(lia)).
        pose proof (Z.mod_pos_bound i 10 ltac:(lia)).
        assert (0 <= i / 10) by (apply Z.div_pos; lia).
        unfold CInt.INT_MAX in *. clear IH Hf. lia. }
      destruct (IH (i / 10) (d + 1) Hq) as (k & Hk & Hk1 & Hlo & Hhi).
      { apply tenth_bound. lia. }
      { lia. }
      { lia. }
      exists (k + 1). split; [rewrite Hk; lia |]. split; [lia |].
      replace (k + 1 - 1) with (k - 1 + 1) by lia.
      rewrite !Z.pow_add_r by lia. change (10 ^ 1) with 10.
      pose proof (Z.div_mod i 10 ltac:(lia)).
      pose proof (Z.mod_pos_bound i 10 ltac:(lia)). lia.
Qed.

(** X9.  [get_num_digits] is the number of decimal digits of the absolute
    value: 1 for zero and otherwise the [d] with 10^(d-1) <= |i| < 10^d,
    which is at most 10 for an [int]. *)
Theorem get_num_digits_spec i :
  - CInt.INT_MAX <= i <= CInt.INT_MAX ->
  1 <= get_num_digits i <= 10
  /\ (i = 0 -> get_num_digits i = 1)
  /\ (i <> 0 ->
      10 ^ (get_num_digits i - 1) <= Z.abs i < 10 ^ get_num_digits i).
Proof.
  intros Hi. unfold get_num_digits.
  assert (E : (if i <? 0 then CInt.mul i (-1) else i) = Z.abs i).
  { destruct (Z.ltb_spec i 0).
    - unfold CInt.mul. rewrite wrap_small by int_range. lia.
    - lia. }
  rewrite E. destruct (Z.eqb_spec (Z.abs i) 0) as [E0 | E0].
  - split; [lia |]. split; [reflexivity | lia].
  - assert (Ha : 0 < Z.abs i <= CInt.INT_MAX) by lia.
    destruct (count_digits_spec (digit_fuel (Z.abs i)) (Z.abs i) 0 Ha)
      as (k & -> & Hk & Hlo & Hhi).
    { apply digit_fuel_enough. lia. }
    { lia. }
    { pose proof (log2_int (Z.abs i) Ha). unfold digit_fuel, CInt.INT_MAX.
      pose proof (Z.log2_nonneg (Z.abs i)). lia. }
    cbn [Z.add]. assert (k <= 10).
    { destruct (Z.le_gt_cases k 10) as [| Hgt]; [assumption |].
      assert (10 ^ 10 <= 10 ^ (k - 1)) by (apply Z.pow_le_mono_r; lia).
      change (10 ^ 10) with 10000000000 in *. unfold CInt.INT_MAX in *. lia. }
    split; [lia |]. split; [lia |]. intros _. split; assumption.
Qed.

(** ** The stat file *)

Lemma read_until_space_space (s rest : list ascii) :
  ~ In SPACE s -> read_until_space (s ++ SPACE :: rest) = (1, rest).
Proof.
  induction s as [| c s IH]; intros H; cbn [app read_until_space].
  - rewrite Ascii.eqb_refl. reflexivity.
  - destruct (Ascii.eqb_spec c SPACE) as [-> | Hc].
    + exfalso. apply H. left. reflexivity.
    + apply IH. intros Hin. apply H. right. exact Hin.
Qed.

Lemma skip_segments_fields before : forall f,
  Forall (fun s => ~ In SPACE s) before ->
  skip_segments (length before) (Stat.fields before ++ f) = Some f.
Proof.
  induction before as [| s before IH]; intros f H; [reflexivity |].
  apply Forall_cons in H as (Hs & H).
  cbn [length Stat.fields skip_segments]. rewrite <- app_assoc. cbn [app].
  rewrite read_until_space_space by exact Hs.
  change (1 =? 0) with false. cbv iota. apply IH. exact H.
Qed.

Lemma numeral_no_space n : 0 <= n ->
  forall c, In c (Statm.numeral n) -> Ascii.eqb c SPACE = false.
Proof. intros Hn. exact (proj2 (numeral_shape n Hn)). Qed.

Lemma atoi_numeral_alone n :
  0 <= n <= CInt.INT_MAX -> Libc.atoi (Statm.numeral n) = n.
Proof.
  intros Hn. rewrite <- (app_nil_r (Statm.numeral n)).
  apply atoi_numeral; [exact Hn | reflexivity].
Qed.

(** What the sampler makes of a stat file. *)
Lemma cpu_of_stat_file before utime stime after :
  length before = 13%nat -> Forall (fun s => ~ In SPACE s) before ->
  0 <= utime -> 0 <= stime -> utime + stime <= CInt.INT_MAX ->
  cpu_of_stat (Stat.file before utime stime after) = utime + stime.
Proof.
  intros Hlen Hb Hu Hk Hsum. unfold cpu_of_stat, Stat.file.
  rewrite <- Hlen. rewrite skip_segments_fields by exact Hb.
  rewrite get_next_segment_space by (apply numeral_no_space; exact Hu).
  rewrite get_next_segment_space by (apply numeral_no_space; exact Hk).
  rewrite !atoi_numeral_alone by lia.
  unfold CInt.add. apply wrap_small. int_range.
Qed.

Lemma read_until_space_none (f : list ascii) :
  spaces f = O -> read_until_space f = (0, []).
Proof.
  induction f as [| c f IH]; intros H; [reflexivity |].
  cbn [read_until_space]. unfold spaces in *. cbn [List.filter] in H.
  destruct (Ascii.eqb c SPACE); [discriminate H | exact (IH H)].
Qed.

Lemma read_until_space_some (f : list ascii) :
  spaces f <> O ->
  exists f', read_until_space f = (1, f') /\ S (spaces f') = spaces f.
Proof.
  induction f as [| c f IH]; intros H; [contradiction |].
  cbn [read_until_space]. unfold spaces in *. cbn [List.filter] in *.
  destruct (Ascii.eqb c SPACE).
  - exists f. split; reflexivity.
  - exact (IH H).
Qed.

(** A file with fewer spaces than segments to skip is not long enough. *)
Lemma skip_segments_short n : forall f,
  (spaces f < n)%nat -> skip_segments n f = None.
Proof.
  induction n as [| n IH]; intros f H; [lia |].
  cbn [skip_segments]. destruct (Nat.eq_dec (spaces f) O) as [E | E].
  - rewrite (read_until_space_none f E). reflexivity.
  - destruct (read_until_space_some f E) as (f' & -> & Hs).
    change (1 =? 0) with false. cbv iota. apply IH. lia.
Qed.

Section Cpu.

Context {os : OS}.

(** X10.  When the stat file of a process can be opened and has 13 fields
    before the two times, the CPU sampler returns the user time plus the
    kernel time.  Fields are told apart by spaces alone. *)
Theorem cpu_usage_is_utime_plus_stime pid before utime stime after s :
  0 < pid <= CInt.INT_MAX ->
  sys_fopen (lit "/proc/" ++ int_digits pid ++ lit "/stat")
    (st_world s) = Some (Stat.file before utime stime after) ->
  length before = 13%nat -> Forall (fun s => ~ In SPACE s) before ->
  0 <= utime -> 0 <= stime -> utime + stime <= CInt.INT_MAX ->
  exists s', get_cpu_usage pid s = Ret (utime + stime) s' /\ runs s s' [].
Proof.
  intros Hp Hf Hlen Hb Hu Hk Hsum. unfold get_cpu_usage.
  destruct (proc_path_stat pid Hp) as (-> & _).
  rewrite (bind_Ret (defined (Some _)) _ s _ s eq_refl).
  destruct (Z.eqb_spec pid 0); [lia |].
  rewrite (bind_Ret (ret tt) _ s tt s eq_refl).
  destruct (fopen_runs (lit "/proc/" ++ int_digits pid ++ lit "/stat") s)
    as (s' & Ho & R).
  rewrite (bind_Ret _ _ _ _ _ Ho), Hf.
  rewrite (cpu_of_stat_file before utime stime after Hlen Hb Hu Hk Hsum).
  exists s'. split; [reflexivity | exact R].
Qed.

(** X11.  A stat file with fewer than 13 spaces is not long enough: the
    sampler returns [-1], as it does for a process that does not exist. *)
Theorem cpu_usage_of_short_file pid content s :
  0 < pid <= CInt.INT_MAX ->
  sys_fopen (lit "/proc/" ++ int_digits pid ++ lit "/stat")
    (st_world s) = Some content ->
  (spaces content < 13)%nat ->
  exists s', get_cpu_usage pid s = Ret (-1) s' /\ runs s s' [].
Proof.
  intros Hp Hf Hshort. unfold get_cpu_usage.
  destruct (proc_path_stat pid Hp) as (-> & _).
  rewrite (bind_Ret (defined (Some _)) _ s _ s eq_refl).
  destruct (Z.eqb_spec pid 0); [lia |].
  rewrite (bind_Ret (ret tt) _ s tt s eq_refl).
  destruct (fopen_runs (lit "/proc/" ++ int_digits pid ++ lit "/stat") s)
    as (s' & Ho & R).
  rewrite (bind_Ret _ _ _ _ _ Ho), Hf.
  unfold cpu_of_stat. rewrite (skip_segments_short 13 content Hshort).
  exists s'. split; [reflexivity | exact R].
Qed.

End Cpu.

(** X12.  [get_next_segment] and [read_until_space] stop at the same
    place: both leave the stream right behind the first space, or at its end
    when there is none.  The segment is what came before and holds no space;
    [read_until_space] returns 1 exactly when a space was found. *)
Theorem segment_readers f :
  let (segment, rest) := get_next_segment f in
  let (r, rest') := read_until_space f in
  rest' = rest /\ ~ In SPACE segment
  /\ ((r = 1 /\ f = segment ++ SPACE :: rest)
      \/ (r = 0 /\ f = segment /\ rest = [])).
Proof.
  induction f as [| c f IH]; cbn [get_next_segment read_until_space].
  - split; [reflexivity |]. split; [intros [] |]. right. auto.
  - destruct (Ascii.eqb_spec c SPACE) as [-> | Hc].
    + split; [reflexivity |]. split; [intros [] |]. left. auto.
    + destruct (get_next_segment f) as [segment rest].
      destruct (read_until_space f) as [r rest'].
      destruct IH as (-> & Hs & IH). split; [reflexivity |]. split.
      * intros [E | Hin]; [congruence | contradiction].
      * destruct IH as [(-> & ->) | (-> & -> & ->)]; [left | right]; auto.
Qed.


(** ** The segment buffer *)

Lemma copy_chars_written count : forall i (temp dst : buffer),
  (forall j, (i <= j < i + count)%nat -> exists c, temp !! j = Some (Some c)) ->
  (i + count <= length dst)%nat ->
  exists dst',
    copy_chars count i temp dst = Some dst'
    /\ length dst' = length dst
    /\ (forall j, (i <= j < i + count)%nat -> dst' !! j = temp !! j)
    /\ (forall j, ~ (i <= j < i + count)%nat -> dst' !! j = dst !! j).
Proof.
  induction count as [| count IH]; intros i temp dst Hinit Hlen.
  - exists dst. repeat split; auto. intros j Hj. lia.
  - cbn [copy_chars].
    destruct (Hinit i ltac:(lia)) as (c & Hc). rewrite Hc.
    rewrite (proj2 (Nat.ltb_lt _ _)) by lia.
    destruct (IH (S i) temp (<[i := Some c]> dst)) as (dst' & Hs & Hl & Hin & Hout).
    { intros j Hj. apply Hinit. lia. }
    { rewrite length_insert. lia. }
    exists dst'. split; [exact Hs |]. rewrite Hl, length_insert.
    split; [reflexivity |]. split.
    + intros j Hj. destruct (Nat.eq_dec j i) as [-> | Hne].
      * rewrite Hout by lia. rewrite list_lookup_insert_eq by lia. now rewrite Hc.
      * apply Hin. lia.
    + intros j Hj. rewrite Hout by lia. apply list_lookup_insert_ne. lia.
Qed.

(** Growing a full segment keeps its characters. *)
Lemma copy_chars_full (pre : cstring) N :
  (length pre <= N)%nat ->
  copy_chars (length pre) 0 (Some <$> pre) (malloc_chars N)
  = Some ((Some <$> pre) ++ replicate (N - length pre) None).
Proof.
  intros HN.
  destruct (copy_chars_written (length pre) 0 (Some <$> pre) (malloc_chars N))
    as (dst' & Hs & Hl & Hin & Hout).
  { intros j Hj. destruct (pre !! j) as [c |] eqn:E.
    - exists c. rewrite list_lookup_fmap, E. reflexivity.
    - apply lookup_ge_None in E. lia. }
  { unfold malloc_chars. rewrite length_replicate. lia. }
  rewrite Hs. f_equal. unfold malloc_chars in *. rewrite length_replicate in Hl.
  apply list_eq. intros j. destruct (Nat.lt_ge_cases j (length pre)).
  - rewrite Hin by lia. rewrite lookup_app_l by (rewrite length_fmap; lia).
    reflexivity.
  - rewrite Hout by lia. rewrite lookup_app_r by (rewrite length_fmap; lia).
    rewrite length_fmap. destruct (Nat.lt_ge_cases j N).
    + rewrite !lookup_replicate_2 by lia. reflexivity.
    + rewrite !(proj2 (lookup_ge_None _ _)); [reflexivity | |];
        rewrite length_replicate; lia.
Qed.

Lemma insert_written (pre : cstring) m c :
  <[length pre := Some c]> ((Some <$> pre) ++ replicate (S m) None)
  = (Some <$> pre ++ [c]) ++ replicate m None.
Proof.
  replace (length pre) with (length (Some <$> pre)) by apply length_fmap.
  rewrite insert_fresh. rewrite fmap_app. reflexivity.
Qed.

(** One turn of the loop for a byte that is no space: the byte is in the
    buffer and a cell is free behind it. *)
Lemma segment_loop_step f c (pre : cstring) m :
  Ascii.eqb c SPACE = false ->
  exists m1,
    segment_loop f c ((Some <$> pre) ++ replicate (S m) None)
      (length pre + S m) (length pre)
    = feed_segment f ((Some <$> pre ++ [c]) ++ replicate (S m1) None)
        (length (pre ++ [c]) + S m1) (length (pre ++ [c])).
Proof.
  intros Hc.
  assert (E : segment_loop f c ((Some <$> pre) ++ replicate (S m) None)
                (length pre + S m) (length pre)
              = match
                  (if (length pre + S m <=? S (length pre))%nat then
                     match copy_chars (S (length pre)) 0
                             ((Some <$> pre ++ [c]) ++ replicate m None)
                             (malloc_chars (length pre + S m + MAX_SEGMENT_LENGTH))
                     with
                     | Some segment =>
                         Some (segment,
                               (length pre + S m + MAX_SEGMENT_LENGTH)%nat)
                     | None => None
                     end
                   else Some ((Some <$> pre ++ [c]) ++ replicate m None,
                              (length pre + S m)%nat))
                with
                | None => None
                | Some (segment, seg_size) =>
                    feed_segment f segment seg_size (S (length pre))
                end).
  { destruct f; cbn [segment_loop feed_segment]; rewrite Hc;
      rewrite (proj2 (Nat.ltb_lt _ _))
        by (rewrite length_app, length_fmap, length_replicate; lia);
      cbn [negb]; rewrite insert_written; reflexivity. }
  rewrite E. clear E.
  assert (Hl : length (pre ++ [c]) = S (length pre))
    by (rewrite length_app; cbn [length]; lia).
  destruct (Nat.leb_spec (length pre + S m) (S (length pre))).
  - assert (m = O) as -> by lia. simpl (replicate 0 _). rewrite app_nil_r.
    rewrite <- Hl. rewrite copy_chars_full by lia.
    replace (length pre + 1 + MAX_SEGMENT_LENGTH - length (pre ++ [c]))%nat
      with (S (MAX_SEGMENT_LENGTH - 1))
      by (rewrite Hl; unfold MAX_SEGMENT_LENGTH; lia).
    replace (length pre + 1 + MAX_SEGMENT_LENGTH)%nat
      with (length (pre ++ [c]) + S (MAX_SEGMENT_LENGTH - 1))%nat
      by (rewrite Hl; unfold MAX_SEGMENT_LENGTH; lia).
    exists (MAX_SEGMENT_LENGTH - 1)%nat. reflexivity.
  - destruct m as [| m]; [lia |]. exists m. rewrite Hl. f_equal. lia.
Qed.

(** The loop with its buffer reads what the loop without it reads, and the
    buffer holds it, with room for the final NUL. *)
Lemma feed_segment_segment t : forall (pre : cstring) m,
  exists m',
    feed_segment t ((Some <$> pre) ++ replicate (S m) None)
      (length pre + S m) (length pre)
    = Some ((Some <$> pre ++ fst (get_next_segment t))
              ++ replicate (S m') None,
            (length pre + length (fst (get_next_segment t)))%nat,
            snd (get_next_segment t)).
Proof.
  induction t as [| c f IH]; intros pre m.
  - exists m. cbn [feed_segment get_next_segment fst snd length].
    rewrite app_nil_r, Nat.add_0_r. reflexivity.
  - cbn [feed_segment get_next_segment].
    destruct (Ascii.eqb c SPACE) eqn:Hc.
    + exists m. destruct f; cbn [segment_loop]; rewrite Hc;
        cbn [fst snd length]; rewrite app_nil_r, Nat.add_0_r; reflexivity.
    + destruct (segment_loop_step f c pre m Hc) as (m1 & ->).
      destruct (IH (pre ++ [c]) m1) as (m' & ->). exists m'.
      destruct (get_next_segment f) as [seg f']. cbn [fst snd length].
      rewrite <- app_assoc. cbn [app]. f_equal. f_equal. f_equal.
      rewrite length_app. cbn [length]. lia.
Qed.

(** X25.  The buffer of [get_next_segment], which grows by
    [MAX_SEGMENT_LENGTH] bytes whenever it is full, holds the whole segment
    however long it is, followed by the NUL: the characters up to the next
    space or the end of the stream, which is left right behind that
    space. *)
Theorem segment_buffer_holds_segment (fptr : list ascii) :
  exists junk,
    get_next_segment_buffer fptr
    = Some ((Some <$> fst (get_next_segment fptr)) ++ Some NUL :: junk,
            snd (get_next_segment fptr)).
Proof.
  unfold get_next_segment_buffer.
  destruct (feed_segment_segment fptr [] (MAX_SEGMENT_LENGTH - 1)) as (m' & H).
  cbn [fmap list_fmap app length Nat.add] in H.
  change (malloc_chars MAX_SEGMENT_LENGTH)
    with (replicate (S (MAX_SEGMENT_LENGTH - 1)) (None : option ascii)).
  change (match fptr with
          | [] => Some (replicate (S (MAX_SEGMENT_LENGTH - 1)) None, O, [])
          | c :: f =>
              segment_loop f c (replicate (S (MAX_SEGMENT_LENGTH - 1)) None)
                MAX_SEGMENT_LENGTH 0
          end)
    with (feed_segment fptr (replicate (S (MAX_SEGMENT_LENGTH - 1)) None)
            (S (MAX_SEGMENT_LENGTH - 1)) 0).
  rewrite H.
  rewrite (proj2 (Nat.ltb_lt _ _))
    by (rewrite length_app, length_fmap, length_replicate; lia).
  exists (replicate m' None).
  replace (length (fst (get_next_segment fptr)))
    with (length (Some <$> fst (get_next_segment fptr)))
    by apply length_fmap.
  rewrite insert_fresh. rewrite <- app_assoc. reflexivity.
Qed.

(** ** Time limits *)

Lemma digit_switch c d :
  Libc.digit c = Some d ->
  switch_digit c = d /\ 0 <= d <= 9 /\ Ascii.eqb c NUL = false.
Proof.
  destruct c as [[] [] [] [] [] [] [] []]; intros H; try discriminate H;
    injection H as <-; vm_compute; repeat split; congruence.
Qed.

Lemma digits_value_ge s : forall acc,
  0 <= acc -> acc <= Libc.digits_value s acc.
Proof.
  induction s as [| c s IH]; intros acc Ha; cbn [Libc.digits_value]; [lia |].
  destruct (Libc.digit c) as [d |] eqn:E; [| lia].
  destruct (digit_switch c d E) as (_ & Hd & _).
  specialize (IH (acc * 10 + d) ltac:(lia)). lia.
Qed.

Lemma convert_loop_value s : forall total,
  0 <= total ->
  Forall (fun c => Libc.digit c <> None) s ->
  Libc.digits_value s total <= CInt.INT_MAX ->
  convert_loop s total = Libc.digits_value s total.
Proof.
  induction s as [| c s IH]; intros total Ht Hs Hmax; [reflexivity |].
  apply Forall_cons in Hs as (Hc & Hs).
  cbn [convert_loop Libc.digits_value] in *.
  destruct (Libc.digit c) as [d |] eqn:E; [| contradiction].
  destruct (digit_switch c d E) as (-> & Hd & ->).
  destruct (Z.eqb_spec d (-1)); [lia |].
  pose proof (digits_value_ge s (total * 10 + d) ltac:(lia)).
  unfold CInt.add, CInt.mul. rewrite (wrap_small (total * 10)) by int_range.
  rewrite wrap_small by int_range. apply IH; [lia | exact Hs | exact Hmax].
Qed.

(** X16.  On a string of decimal digits whose value fits an [int],
    [convert_str_to_int] returns that value, leading zeros or not: the
    number [atoi] reads. *)
Theorem convert_str_to_int_value str :
  Forall (fun c => Libc.digit c <> None) str ->
  Libc.digits_value str 0 <= CInt.INT_MAX ->
  convert_str_to_int str = Libc.digits_value str 0
  /\ convert_str_to_int str = Libc.atoi str.
Proof.
  intros Hs Hmax. unfold convert_str_to_int.
  rewrite convert_loop_value by (try lia; assumption).
  split; [reflexivity |].
  pose proof (digits_value_ge str 0 ltac:(lia)) as H0.
  destruct str as [| c s]; [reflexivity |].
  apply Forall_cons in Hs as (Hc & _).
  destruct (Libc.digit c) as [d |] eqn:E; [| contradiction].
  rewrite (atoi_digits c d s E).
  unfold CInt.of_long. rewrite Z.min_r by int_range.
  rewrite Z.max_r by int_range. symmetry. apply wrap_small. int_range.
Qed.


Lemma skip_delims_spaces a (s : cstring) :
  Libc.skip_delims (replicate a SPACE ++ s) = Libc.skip_delims s.
Proof.
  induction a as [| a IH]; [reflexivity |].
  cbn [replicate app Libc.skip_delims]. rewrite Ascii.eqb_refl. exact IH.
Qed.

Lemma strtok_spaces a (s : cstring) :
  Libc.strtok (replicate a SPACE ++ s) = Libc.strtok s.
Proof. unfold Libc.strtok. rewrite skip_delims_spaces. reflexivity. Qed.

Lemma strtok_buffer_spaces a (s : cstring) :
  Libc.strtok_buffer (replicate a SPACE ++ s)
  = replicate a SPACE ++ Libc.strtok_buffer s.
Proof.
  induction a as [| a IH]; [reflexivity |].
  cbn [replicate app Libc.strtok_buffer]. rewrite Ascii.eqb_refl, IH.
  reflexivity.
Qed.

Lemma strtok_buffer_word (w s : cstring) :
  w <> [] -> ~ In SPACE w ->
  Libc.strtok_buffer (w ++ s) = fst (Libc.scan_token (w ++ s)).
Proof.
  intros Hne Hs. destruct w as [| c w]; [contradiction |].
  cbn [app Libc.strtok_buffer].
  destruct (Ascii.eqb_spec c SPACE) as [-> | Hc]; [| reflexivity].
  exfalso. apply Hs. left. reflexivity.
Qed.

Lemma streq_refl (s : cstring) : Libc.streq s s = true.
Proof.
  induction s as [| c s IH]; [reflexivity |].
  cbn [Libc.streq]. rewrite Ascii.eqb_refl. exact IH.
Qed.

Lemma digits_loop_no_space fuel : forall i,
  0 <= i <= CInt.INT_MAX -> ~ In SPACE (digits_loop fuel i).
Proof.
  induction fuel as [| fuel IH]; intros i Hi; [intros [] |].
  destruct (Z.eq_dec i 0) as [-> | Hne]; [intros [] |].
  rewrite digits_loop_step by lia.
  pose proof (Z.mod_pos_bound i 10 ltac:(lia)).
  destruct (digit_char (i mod 10) ltac:(lia)) as (_ & _ & _ & Hs).
  intros [E | Hin].
  - rewrite E, Ascii.eqb_refl in Hs. discriminate Hs.
  - revert Hin. apply IH.
    assert (i / 10 <= i) by (apply Z.div_le_upper_bound; lia).
    split; [apply Z.div_pos; lia | lia].
Qed.

(** The decimal string of an [int]: not empty, no space in it, and read
    back by [convert_str_to_int]. *)
Lemma int_digits_token i :
  0 <= i <= CInt.INT_MAX ->
  int_digits i <> []
  /\ ~ In SPACE (int_digits i)
  /\ convert_str_to_int (int_digits i) = i.
Proof.
  intros Hi. destruct (Z.eq_dec i 0) as [-> | Hne].
  - split; [discriminate |]. split; [| reflexivity].
    intros [E | []]. discriminate E.
  - rewrite int_digits_pos by lia.
    assert (Hf := digit_fuel_enough i ltac:(lia)).
    split; [| split].
    + destruct (digit_fuel i) as [| fuel] eqn:Ef.
      { change (2 ^ Z.of_nat 0) with 1 in Hf. lia. }
      rewrite digits_loop_step by lia. cbn [rev]. intros E.
      apply app_eq_nil in E as (_ & E). discriminate E.
    + intros Hin. apply in_rev in Hin. revert Hin.
      apply digits_loop_no_space. lia.
    + unfold convert_str_to_int. rewrite <- (app_nil_r (rev _)).
      rewrite convert_loop_digits; [reflexivity | lia | exact Hf].
Qed.

Lemma timelimit_word : lit "timelimit" <> [] /\ ~ In SPACE (lit "timelimit").
Proof.
  split; [discriminate |]. cbn.
  intros H. repeat (destruct H as [H | H]; [discriminate H |]). exact H.
Qed.

(** A time limit: the word, spaces, the number. *)
Lemma read_timer_accepts n a b (tail : cstring) :
  0 <= n <= CInt.INT_MAX ->
  tail = [] \/ (exists tail', tail = SPACE :: tail') ->
  read_timer
    (Some (replicate a SPACE ++ lit "timelimit" ++ replicate (S b) SPACE
             ++ int_digits n ++ tail))
  = Some (n, Some (replicate a SPACE ++ lit "timelimit")).
Proof.
  destruct timelimit_word as (Hne & Hsp).
  intros Hn Htail.
  destruct (int_digits_token n Hn) as (Hd & Hds & Hback).
  unfold read_timer.
  assert (He : Libc.empty
                 (replicate a SPACE ++ lit "timelimit" ++ replicate (S b) SPACE
                    ++ int_digits n ++ tail) = false)
    by (destruct a; reflexivity).
  rewrite He. rewrite strtok_spaces, strtok_buffer_spaces.
  rewrite strtok_word, strtok_buffer_word by assumption.
  cbn [replicate app]. rewrite scan_token_word by exact Hsp.
  rewrite streq_refl. rewrite strtok_spaces.
  rewrite strtok_word by assumption.
  destruct Htail as [-> | (tail' & ->)].
  - rewrite app_nil_r, scan_token_last by exact Hds. rewrite Hback. reflexivity.
  - rewrite scan_token_word by exact Hds. rewrite Hback. reflexivity.
Qed.

(** X13.  [read_timer] accepts the word timelimit, spaces and a decimal
    number, and returns the number; spaces may come first, and what follows
    a further space is ignored.  The word alone and any other first word
    give [-1].  A line of spaces only hands [strcmp] the NULL token.  The
    empty line and the NULL line give [-1]. *)
Theorem read_timer_time_limit :
  (forall n a b (tail : cstring),
      0 <= n <= CInt.INT_MAX ->
      tail = [] \/ (exists tail', tail = SPACE :: tail') ->
      read_timer
        (Some (replicate a SPACE ++ lit "timelimit" ++ replicate (S b) SPACE
                 ++ int_digits n ++ tail))
      = Some (n, Some (replicate a SPACE ++ lit "timelimit")))
  /\ (forall a, read_timer (Some (replicate a SPACE ++ lit "timelimit"))
                = Some (-1, Some (replicate a SPACE ++ lit "timelimit")))
  /\ (forall l token rest,
        Libc.strtok l = Some (token, rest) ->
        Libc.streq token (lit "timelimit") = false ->
        exists line, read_timer (Some l) = Some (-1, line))
  /\ (forall a, read_timer (Some (replicate (S a) SPACE)) = None)
  /\ read_timer (Some []) = Some (-1, Some [])
  /\ read_timer None = Some (-1, None).
Proof.
  split; [| split; [| split; [| split; [| split]]]].
  - exact read_timer_accepts.
  - intros a. unfold read_timer.
    assert (He : Libc.empty (replicate a SPACE ++ lit "timelimit") = false)
      by (destruct a; reflexivity).
    rewrite He. rewrite strtok_spaces, strtok_buffer_spaces.
    reflexivity.
  - intros l token rest Ht Hs. unfold read_timer.
    destruct (Libc.empty l); [eexists; reflexivity |].
    rewrite Ht, Hs. eexists. reflexivity.
  - intros a. unfold read_timer.
    change (Libc.empty (replicate (S a) SPACE)) with false. cbv iota.
    rewrite <- (app_nil_r (replicate (S a) SPACE)).
    rewrite strtok_spaces. reflexivity.
  - reflexivity.
  - reflexivity.
Qed.

Lemma replicate_absent (x y : ascii) n : x <> y -> ~ In x (replicate n y).
Proof.
  intros Hne H. apply list_elem_of_In in H.
  apply elem_of_replicate in H as (E & _). contradiction.
Qed.

Lemma digit_char_decimal d :
  0 <= d <= 9 -> In (ascii_of_nat (Z.to_nat (48 + d))) (lit "0123456789").
Proof.
  intros H.
  assert (d = 0 \/ d = 1 \/ d = 2 \/ d = 3 \/ d = 4 \/ d = 5 \/ d = 6
          \/ d = 7 \/ d = 8 \/ d = 9) as Hd by lia.
  repeat (destruct Hd as [-> | Hd]; [vm_compute; tauto |]).
  subst d. vm_compute. tauto.
Qed.

Lemma digits_loop_length_le fuel : forall i,
  (length (digits_loop fuel i) <= fuel)%nat.
Proof.
  induction fuel as [| fuel IH]; intros i; [simpl; lia |].
  cbn [digits_loop]. destruct (0 <? i); [| simpl; lia].
  cbn [length]. specialize (IH (CInt.div (CInt.sub i (CInt.rem i 10)) 10)).
  lia.
Qed.

Lemma digits_loop_decimal fuel : forall i,
  0 <= i <= CInt.INT_MAX ->
  Forall (fun c => In c (lit "0123456789")) (digits_loop fuel i).
Proof.
  induction fuel as [| fuel IH]; intros i Hi; [constructor |].
  destruct (Z.eq_dec i 0) as [-> | Hne]; [constructor |].
  rewrite digits_loop_step by lia.
  pose proof (Z.mod_pos_bound i 10 ltac:(lia)).
  constructor; [apply digit_char_decimal; lia |]. apply IH.
  assert (i / 10 <= i) by (apply Z.div_le_upper_bound; lia).
  split; [apply Z.div_pos; lia | lia].
Qed.

(** The digits of a non-negative [int] are decimal digits. *)
Lemma int_digits_decimal i :
  0 <= i <= CInt.INT_MAX ->
  Forall (fun c => In c (lit "0123456789")) (int_digits i).
Proof.
  intros Hi. destruct (Z.eq_dec i 0) as [-> | Hne].
  - constructor; [vm_compute; tauto | constructor].
  - rewrite int_digits_pos by lia.
    apply Forall_rev. apply digits_loop_decimal. lia.
Qed.

Lemma decimal_plain (l : cstring) c :
  Forall (fun c => In c (lit "0123456789")) l ->
  ~ In c (lit "0123456789") -> ~ In c l.
Proof.
  intros Hl Hc Hin. rewrite List.Forall_forall in Hl. exact (Hc (Hl c Hin)).
Qed.

Ltac not_decimal :=
  cbn; intros H; repeat (destruct H as [H | H]; [discriminate H |]); exact H.

(** The line [timelimit n]: no newline, no NUL, short. *)
Lemma timelimit_line_plain n :
  0 <= n <= CInt.INT_MAX ->
  ~ In NEWLINE (lit "timelimit " ++ int_digits n)
  /\ ~ In NUL (lit "timelimit " ++ int_digits n)
  /\ (length (lit "timelimit " ++ int_digits n)
      < PATH_MAX + MAX_ARG_LENGTH)%nat.
Proof.
  intros Hn. pose proof (int_digits_decimal n Hn) as Hd.
  split; [| split].
  - intros H. apply in_app_or in H as [H | H].
    + revert H. not_decimal.
    + revert H. apply (decimal_plain _ _ Hd). not_decimal.
  - intros H. apply in_app_or in H as [H | H].
    + revert H. not_decimal.
    + revert H. apply (decimal_plain _ _ Hd). not_decimal.
  - rewrite length_app. cbn [lit list_ascii_of_string length].
    destruct (Z.eq_dec n 0) as [-> | Hne]; [vm_compute; lia |].
    rewrite int_digits_pos by lia. rewrite length_rev.
    pose proof (digits_loop_length_le (digit_fuel n) n).
    pose proof (log2_int n ltac:(lia)). pose proof (Z.log2_nonneg n).
    unfold digit_fuel, PATH_MAX, MAX_ARG_LENGTH in *. lia.
Qed.

Section TimeLimit.

Context {os : OS}.

(** X14.  A first line [timelimit n] sets the time limit to [n] and is not
    the first line launched: launch number 0 is that of the line behind
    it, and nothing is launched if nothing follows. *)
Theorem time_limit_line turns n rest blk file_path s tbl s' :
  0 <= n <= CInt.INT_MAX ->
  read_file turns file_path
    (Some {| d_bytes := lit "timelimit " ++ int_digits n ++ NEWLINE :: rest;
             d_blksize := blk |}) s
  = Ret (Some tbl) s' ->
  TARGET_TIME s' = n
  /\ exists handed launches junk t,
       length launches = length handed
       /\ tbl = table_of (started launches) junk
       /\ traces s s'
            ([EPrint OStartingReport; EPrint (ODate t)]
               ++ launch_blocks 0 (zip handed launches))
       /\ (rest = [] -> handed = [])
       /\ (forall l t',
             rest = l ++ t' -> l ++ t' <> [] ->
             t' = [] \/ (exists r, t' = NEWLINE :: r) ->
             ~ In NEWLINE l -> ~ In NUL l ->
             (length l < PATH_MAX + MAX_ARG_LENGTH)%nat ->
             head handed = Some l).
Proof.
  intros Hn H.
  set (d := {| d_bytes := lit "timelimit " ++ int_digits n ++ NEWLINE :: rest;
               d_blksize := blk |}) in *.
  destruct (timelimit_line_plain n Hn) as (Hnl & Hnul & Hlen).
  destruct (next_line_short d opened (lit "timelimit " ++ int_digits n)
              (NEWLINE :: rest)) as (fptr' & Hline & Hrest); auto.
  { right. eexists. reflexivity. }
  cbn [tail] in Hrest.
  assert (Ht : read_timer (Some (lit "timelimit " ++ int_digits n))
               = Some (n, Some (lit "timelimit"))).
  { replace (lit "timelimit " ++ int_digits n)
      with (replicate 0 SPACE ++ lit "timelimit" ++ replicate 1 SPACE
              ++ int_digits n ++ [])
      by (rewrite app_nil_r; reflexivity).
    apply (read_timer_accepts n O O [] Hn). left. reflexivity. }
  destruct (read_file_runs _ _ _ _ _ _ H)
    as (line0 & fptr0 & timer & line1 & handed & launches & junk & t
        & Hn0 & Ht0 & Htarget & Hhead & Hl & Htbl & _ & T).
  rewrite Hline in Hn0. injection Hn0 as <- <-.
  change (read_timer (Some (lit "timelimit " ++ int_digits n))
          = Some (timer, line1)) in Ht0.
  rewrite Ht in Ht0. injection Ht0 as <- <-.
  split; [exact Htarget |].
  exists handed, launches, junk, t.
  split; [exact Hl |]. split; [exact Htbl |]. split; [exact T |].
  destruct (Z.eqb_spec n (-1)); [lia |].
  destruct Hhead as (fptr1 & Hnext). split.
  - intros ->. rewrite (next_line_end d fptr' Hrest) in Hnext.
    injection Hnext as Hh _. now destruct handed.
  - intros l t' -> Hne Ht' Hnl' Hnul' Hlen'.
    destruct (next_line_short d fptr' l t' Hrest Hnl' Hnul' Hlen' Hne Ht')
      as (fptr2 & E & _).
    rewrite E in Hnext. now injection Hnext as <- _.
Qed.

End TimeLimit.

Section Blank.

Context {os : OS}.

Lemma read_timer_blank a :
  read_timer (Some (replicate (S a) SPACE)) = None.
Proof.
  unfold read_timer. change (Libc.empty (replicate (S a) SPACE)) with false.
  cbv iota. unfold Libc.strtok.
  assert (E : forall n, Libc.skip_delims (replicate n SPACE) = []).
  { induction n as [| n IH]; [reflexivity |].
    cbn [replicate Libc.skip_delims]. rewrite Ascii.eqb_refl. exact IH. }
  rewrite E. reflexivity.
Qed.

(** X15.  A file whose first line consists of spaces only ends the
    program in [read_timer], where the NULL token reaches [strcmp]: this
    happens after the banner and before any process is created. *)
Theorem blank_first_line_faults turns file_path a t blk s :
  (S a < PATH_MAX + MAX_ARG_LENGTH)%nat ->
  t = [] \/ (exists rest, t = NEWLINE :: rest) ->
  exists date s',
    read_file turns file_path
      (Some {| d_bytes := replicate (S a) SPACE ++ t; d_blksize := blk |}) s
    = Fault s'
    /\ runs s s' [EPrint OStartingReport; EPrint (ODate date)].
Proof.
  intros Ha Ht. unfold read_file.
  destruct (print_runs OStartingReport s ltac:(discriminate))
    as (s1 & H1 & R1 & _).
  destruct (display_date_runs s1) as (date & s2 & H2 & R2).
  rewrite (bind_Ret _ _ _ _ _ H1), (bind_Ret _ _ _ _ _ H2).
  destruct (next_line_short
              {| d_bytes := replicate (S a) SPACE ++ t; d_blksize := blk |}
              opened (replicate (S a) SPACE) t) as (fptr' & -> & _); auto.
  { apply replicate_absent. discriminate. }
  { apply replicate_absent. discriminate. }
  { now rewrite length_replicate. }
  rewrite (bind_Ret (defined (Some _)) _ s2 _ s2 eq_refl). cbv beta iota.
  rewrite read_timer_blank. exists date, s2. split; [reflexivity |].
  exact (runs_trans _ _ _ _ _ R1 R2).
Qed.

End Blank.

(** ** Supervision without faults *)

Lemma get_next_segment_shorter (f : list ascii) :
  (length (snd (get_next_segment f)) <= pred (length f))%nat.
Proof.
  induction f as [| c f IH]; [reflexivity |].
  cbn [get_next_segment]. destruct (Ascii.eqb c SPACE); [reflexivity |].
  destruct (get_next_segment f) as [seg f']. cbn [snd length pred] in *. lia.
Qed.

(** The summing loop ends before its fuel does. *)
Lemma sum_loop_total fuel : forall segment f sum,
  (length f + 2 <= fuel)%nat \/ (segment = [] /\ fuel <> O) ->
  exists v, sum_loop fuel segment f sum = Some v.
Proof.
  induction fuel as [| fuel IH]; intros segment f sum H.
  { destruct H as [H | (_ & H)]; [lia | contradiction]. }
  cbn [sum_loop]. destruct (Libc.strlen segment =? 0)%nat eqn:E;
    [eexists; reflexivity |].
  destruct H as [H | (-> & _)]; [| discriminate E].
  pose proof (get_next_segment_shorter f) as Hs.
  destruct (get_next_segment f) as [segment' f'] eqn:Eg. cbn [snd] in Hs.
  apply IH. destruct f as [| c f0].
  - right. cbn in Eg. injection Eg as <- <-. split; [reflexivity | lia].
  - left. cbn [length pred] in *. lia.
Qed.

Lemma mem_of_statm_total content : exists v, mem_of_statm content = Some v.
Proof.
  unfold mem_of_statm.
  pose proof (get_next_segment_shorter content) as Hs.
  destruct (get_next_segment content) as [segment f] eqn:Eg. cbn [snd] in Hs.
  destruct (sum_loop_total (S (length content)) segment f 0) as (v & ->);
    [| eexists; reflexivity].
  destruct content as [| c content].
  - right. cbn in Eg. injection Eg as <- <-. split; [reflexivity | lia].
  - left. cbn [length pred] in *. lia.
Qed.

Section Monad.

Context {os : OS}.

(** A sequence that returns: both parts did. *)
Lemma bind_inv {A B} (m : M A) (k : A -> M B) s b s' :
  bind m k s = Ret b s' ->
  exists a s1, m s = Ret a s1 /\ k a s1 = Ret b s'.
Proof.
  unfold bind. destruct (m s) as [a s1 | | | |]; try discriminate.
  intros H. exists a, s1. split; [reflexivity | exact H].
Qed.

Lemma len_loop_table ps : forall junk len s,
  ~ In (-1) ps ->
  len_loop (table_of ps junk) len s = Ret (len + length ps)%nat s.
Proof.
  induction ps as [| pid ps IH]; intros junk len s Hno.
  - cbn. rewrite Nat.add_0_r. reflexivity.
  - unfold table_of. cbn [fmap list_fmap app len_loop].
    destruct (Z.eqb_spec pid (-1)) as [-> | _];
      [exfalso; apply Hno; left; reflexivity |].
    change (len_loop (table_of ps junk) (S len) s
            = Ret (len + length (pid :: ps))%nat s).
    rewrite IH by (intros F; apply Hno; right; exact F).
    cbn [length]. f_equal. lia.
Qed.

Lemma len_loop_no_end tbl : forall len s,
  ~ In (Some (-1)) tbl -> len_loop tbl len s = Fault s.
Proof.
  induction tbl as [| cell tbl IH]; intros len s Hno; [reflexivity |].
  destruct cell as [pid |]; [| reflexivity].
  cbn [len_loop]. destruct (Z.eqb_spec pid (-1)) as [-> | _].
  - exfalso. apply Hno. left. reflexivity.
  - apply IH. intros F. apply Hno. right. exact F.
Qed.

(** X17.  [len_pids] counts the pids before the [-1] that ends the table,
    whatever follows it in the allocation.  On an array that holds no [-1]
    it reads on past the cells that were written. *)
Theorem len_pids_spec :
  (forall ps junk s,
      ~ In (-1) ps -> len_pids (table_of ps junk) s = Ret (length ps) s)
  /\ (forall tbl s, ~ In (Some (-1)) tbl -> len_pids tbl s = Fault s).
Proof.
  split.
  - intros ps junk s Hno. unfold len_pids.
    rewrite len_loop_table by exact Hno. reflexivity.
  - intros tbl s Hno. apply len_loop_no_end. exact Hno.
Qed.

End Monad.

Section Safety.

Context {os : OS}.

(** The processes of the table, the rest of its allocation, the divisor
    of the percentage, and the children not waited for. *)
Variable ps : list Z.
Variable junk : table.
Variable full : Z.
Variable live : Z -> world -> Prop.

Hypothesis pids_positive : Forall (fun pid => 0 < pid <= CInt.INT_MAX) ps.
Hypothesis full_pos : 0 < full.
Hypothesis tracks : procfs_tracks live.

Lemma positive_no_end : ~ In (-1) ps.
Proof.
  intros H. rewrite List.Forall_forall in pids_positive.
  apply pids_positive in H. lia.
Qed.

Lemma positive_pid pid : In pid ps -> 0 < pid <= CInt.INT_MAX.
Proof.
  intros H. rewrite List.Forall_forall in pids_positive.
  exact (pids_positive pid H).
Qed.

Lemma keeps_refl s : keeps live s s.
Proof. intros p H. exact H. Qed.

Lemma keeps_trans s s1 s2 :
  keeps live s s1 -> keeps live s1 s2 -> keeps live s s2.
Proof. intros H1 H2 p H. exact (H2 p (H1 p H)). Qed.

Lemma interrupts_keeps s :
  exists s', interrupts s = Ret tt s' /\ keeps live s s'.
Proof.
  destruct tracks as (_ & Hsig & _).
  unfold interrupts. destruct (handler_registered s).
  - pose proof (fun p => Hsig p (st_world s)) as K.
    destruct (sys_sigint (st_world s)) as [[] w]; cbn [snd] in K;
      eexists; (split; [reflexivity |]); intros p Hp; apply K; exact Hp.
  - exists s. split; [reflexivity | apply keeps_refl].
Qed.

Lemma print_keeps o s s' : print o s = Ret tt s' -> keeps live s s'.
Proof. unfold print, log. intros [= <-] p Hp. exact Hp. Qed.

(** A file of a child not waited for is opened. *)
Lemma fopen_live path s :
  exists s', fopen_ path s = Ret (sys_fopen path (st_world s)) s'
             /\ runs s s' [] /\ keeps live s s'.
Proof.
  destruct (fopen_runs path s) as (s' & H & R).
  exists s'. split; [exact H |]. split; [exact R |].
  unfold fopen_ in H. destruct (interrupts_keeps s) as (s1 & Hi & K).
  rewrite (bind_Ret _ _ _ _ _ Hi) in H. injection H as <-. exact K.
Qed.

Lemma get_cpu_usage_safe pid s :
  In pid ps -> live pid (st_world s) ->
  exists v s', get_cpu_usage pid s = Ret v s' /\ runs s s' []
               /\ keeps live s s'.
Proof.
  intros Hin Hl. pose proof (positive_pid pid Hin) as Hp.
  destruct tracks as (_ & _ & Hfiles). destruct (Hfiles pid _ Hl) as (Hf & _).
  unfold get_cpu_usage.
  destruct (proc_path_stat pid Hp) as (-> & _).
  rewrite (bind_Ret (defined (Some _)) _ s _ s eq_refl).
  destruct (Z.eqb_spec pid 0) as [-> | _]; [lia |].
  rewrite (bind_Ret (ret tt) _ s tt s eq_refl).
  destruct (fopen_live (lit "/proc/" ++ int_digits pid ++ lit "/stat") s)
    as (s' & Ho & R & K).
  rewrite (bind_Ret _ _ _ _ _ Ho).
  destruct (sys_fopen _ (st_world s)); [| contradiction].
  eexists _, s'. split; [reflexivity |]. split; assumption.
Qed.

Lemma get_mem_usage_safe pid s :
  In pid ps -> live pid (st_world s) ->
  exists v s', get_mem_usage pid s = Ret v s' /\ runs s s' []
               /\ keeps live s s'.
Proof.
  intros Hin Hl. pose proof (positive_pid pid Hin) as Hp.
  destruct tracks as (_ & _ & Hfiles). destruct (Hfiles pid _ Hl) as (_ & Hf).
  unfold get_mem_usage.
  destruct (proc_path_stat pid Hp) as (_ & ->).
  rewrite (bind_Ret (defined (Some _)) _ s _ s eq_refl).
  destruct (Z.eqb_spec pid 0) as [-> | _]; [lia |].
  rewrite (bind_Ret (ret tt) _ s tt s eq_refl).
  destruct (fopen_live (lit "/proc/" ++ int_digits pid ++ lit "/statm") s)
    as (s' & Ho & R & K).
  rewrite (bind_Ret _ _ _ _ _ Ho).
  destruct (sys_fopen _ (st_world s)) as [content |]; [| contradiction].
  destruct (mem_of_statm_total content) as (v & ->).
  eexists _, s'. split; [reflexivity |]. split; assumption.
Qed.

(** A child for which the wait answers [0] has not been waited for. *)
Lemma waitpid_live pid s :
  0 < pid ->
  exists r s', waitpid_ pid s = Ret r s' /\ runs s s' [EWaitpid pid r]
               /\ (r = 0 -> live pid (st_world s')).
Proof.
  intros Hpid. destruct (waitpid_runs pid s) as (r & s' & H & R).
  exists r, s'. split; [exact H |]. split; [exact R |].
  intros ->. destruct tracks as (Hw & _ & _).
  unfold waitpid_ in H. specialize (Hw pid (st_world s) Hpid).
  destruct (sys_waitpid pid (st_world s)) as [r0 w]. cbn [fst snd] in Hw.
  apply bind_inv in H as ([] & s1 & Hlog & H).
  apply bind_inv in H as ([] & s2 & Hi & [= -> <-]).
  destruct (interrupts_keeps s1) as (s2' & Hi' & K).
  rewrite Hi in Hi'. injection Hi' as <-.
  apply K. unfold log in Hlog. injection Hlog as <-. cbn. apply Hw.
  reflexivity.
Qed.

Lemma written_lookup (counters : table) index :
  written counters -> (index < length counters)%nat ->
  exists v, counters !! index = Some (Some v).
Proof.
  intros Hw Hi. destruct (lookup_lt_is_Some_2 counters index Hi) as (c & Hc).
  pose proof (proj1 (Forall_lookup _ _) Hw index c Hc) as Hn.
  destruct c as [v |]; [exists v; exact Hc | contradiction].
Qed.

Lemma written_insert (counters : table) index v :
  written counters -> written (<[index := Some v]> counters).
Proof.
  intros Hw. destruct (Nat.lt_ge_cases index (length counters)).
  - apply Forall_insert; [exact Hw | discriminate].
  - rewrite list_insert_ge by lia. exact Hw.
Qed.

(** One process of a pass is reported and the counters stay ready. *)
Lemma poll_process_safe pid index counters done s :
  In pid ps -> (index < length counters)%nat -> written counters ->
  exists o c' s',
    poll_process pid index counters full done s
    = Ret (c', if is_gone o then done else 0) s'
    /\ runs s s' (report_block index pid o)
    /\ length c' = length counters /\ written c'.
Proof.
  intros Hin Hi Hw. unfold poll_process.
  destruct (waitpid_live pid s (proj1 (positive_pid pid Hin)))
    as (r & s1 & Hwait & R1 & Hlive).
  rewrite (bind_Ret _ _ _ _ _ Hwait).
  destruct (Z.eqb_spec r 0) as [-> | Hr].
  - specialize (Hlive eq_refl).
    destruct (get_cpu_usage_safe pid s1 Hin Hlive) as (cpu & s2 & Hc & R2 & K2).
    rewrite (bind_Ret _ _ _ _ _ Hc).
    destruct (written_lookup counters index Hw Hi) as (previous & Hp).
    rewrite (bind_Ret _ _ _ _ _ (load_Some _ _ _ s2 Hp)).
    destruct (get_mem_usage_safe pid s2 Hin (K2 _ Hlive))
      as (mem & s3 & Hm & R3 & _).
    rewrite (bind_Ret _ _ _ _ _ Hm).
    rewrite (bind_Ret _ _ _ _ _
               (int_divide_ok (CInt.mul (CInt.sub cpu previous) 100) full s3
                  ltac:(lia) ltac:(right; lia))).
    rewrite (bind_Ret _ _ _ _ _ (store_in_range counters index cpu s3 Hi)).
    unfold display_proc_state.
    set (p := Z.quot (CInt.mul (CInt.sub cpu previous) 100) full).
    destruct (print_runs (ORunning (Z.of_nat index) p mem) s3
                ltac:(discriminate)) as (s4 & Hpr & R4 & _).
    rewrite (bind_Ret _ _ _ _ _ Hpr).
    exists (Running p mem), (<[index := Some cpu]> counters), s4.
    split; [reflexivity |]. split.
    + change (report_block index pid (Running p mem))
        with ([EWaitpid pid 0] ++ [] ++ []
                ++ [EPrint (ORunning (Z.of_nat index) p mem)]).
      eauto using runs_trans.
    + split; [apply length_insert | apply written_insert; exact Hw].
  - destruct (print_runs (OExited (Z.of_nat index)) s1 ltac:(discriminate))
      as (s2 & Hp & R2 & _).
    rewrite (bind_Ret _ _ _ _ _ Hp).
    exists (Gone r), counters, s2. split; [reflexivity |]. split.
    + change (report_block index pid (Gone r))
        with ([EWaitpid pid r] ++ [EPrint (OExited (Z.of_nat index))]).
      eauto using runs_trans.
    + split; [reflexivity | exact Hw].
Qed.

(** A pass over the table returns. *)
Lemma pass_loop_safe ps' : forall index counters done s,
  (forall pid, In pid ps' -> In pid ps) ->
  length counters = (index + length ps')%nat -> written counters ->
  exists outcomes c' s',
    length outcomes = length ps'
    /\ pass_loop (table_of ps' junk) index counters full done s
       = Ret (c', if forallb is_gone outcomes then done else 0) s'
    /\ runs s s' (report_blocks index (zip ps' outcomes))
    /\ length c' = length counters /\ written c'.
Proof.
  induction ps' as [| pid ps' IH]; intros index counters done s Hsub Hlen Hw.
  - exists [], counters, s. repeat split; auto. apply runs_refl.
  - assert (Hin : In pid ps) by (apply Hsub; left; reflexivity).
    unfold table_of. cbn [fmap list_fmap app pass_loop].
    destruct (Z.eqb_spec pid (-1)) as [-> | _];
      [destruct (positive_no_end Hin) |].
    cbn [length] in Hlen.
    destruct (poll_process_safe pid index counters done s Hin ltac:(lia) Hw)
      as (o & c1 & s1 & Hp & R1 & Hl1 & Hw1).
    rewrite (bind_Ret _ _ _ _ _ Hp). cbv iota beta.
    destruct (IH (S index) c1 (if is_gone o then done else 0) s1)
      as (outcomes & c' & s' & Hlo & Hl & R2 & Hl2 & Hw2).
    { intros q Hq. apply Hsub. right. exact Hq. }
    { lia. }
    { exact Hw1. }
    exists (o :: outcomes), c', s'.
    split; [cbn [length]; lia |]. split.
    + change (pass_loop (table_of ps' junk) (S index) c1 full
                (if is_gone o then done else 0) s1
              = Ret (c', if forallb is_gone (o :: outcomes) then done else 0) s').
      rewrite Hl. f_equal. f_equal. cbn [forallb].
      destruct (is_gone o), (forallb is_gone outcomes); reflexivity.
    + split; [exact (runs_trans _ _ _ _ _ R1 R2) |].
      split; [lia | exact Hw2].
Qed.

Lemma table_of_lookup i pid :
  ps !! i = Some pid -> table_of ps junk !! i = Some (Some pid).
Proof.
  intros H. unfold table_of.
  rewrite lookup_app_l by (rewrite length_fmap; eapply lookup_lt_Some; exact H).
  rewrite list_lookup_fmap, H. reflexivity.
Qed.

(** The first readings: one counter a process, none negative. *)
Lemma init_loop_safe count : forall i counters s,
  (i + count = length ps)%nat -> length counters = length ps ->
  Forall (fun pid => live pid (st_world s)) ps ->
  (forall j, (j < i)%nat -> exists v, counters !! j = Some (Some v) /\ 0 <= v) ->
  exists c' s',
    init_loop count i (table_of ps junk) counters s = Ret c' s'
    /\ runs s s' [] /\ length c' = length ps
    /\ (forall j, (j < length ps)%nat ->
          exists v, c' !! j = Some (Some v) /\ 0 <= v).
Proof.
  induction count as [| count IH]; intros i counters s Hi Hlen Hlive Hinv.
  - exists counters, s. split; [reflexivity |]. split; [apply runs_refl |].
    split; [exact Hlen |]. intros j Hj. apply Hinv. lia.
  - cbn [init_loop].
    destruct (lookup_lt_is_Some_2 ps i ltac:(lia)) as (pid & Hpid).
    rewrite (bind_Ret _ _ _ _ _ (load_Some _ _ _ s (table_of_lookup i pid Hpid))).
    assert (Hin : In pid ps)
      by (apply list_elem_of_In; eapply list_elem_of_lookup_2; exact Hpid).
    destruct (get_cpu_usage_safe pid s Hin
                (proj1 (List.Forall_forall _ _) Hlive pid Hin))
      as (cpu & s1 & Hc & R1 & K1).
    rewrite (bind_Ret _ _ _ _ _ Hc).
    rewrite (bind_Ret _ _ _ _ _ (store_in_range counters i cpu s1 ltac:(lia))).
    set (c1 := if cpu <? 0 then <[i := Some 0]> (<[i := Some cpu]> counters)
               else <[i := Some cpu]> counters).
    assert (Hs : (if cpu <? 0 then store (<[i := Some cpu]> counters) i 0
                  else ret (<[i := Some cpu]> counters)) s1 = Ret c1 s1).
    { unfold c1. destruct (cpu <? 0); [| reflexivity].
      apply store_in_range. rewrite length_insert. lia. }
    rewrite (bind_Ret _ _ _ _ _ Hs).
    assert (Hl1 : length c1 = length ps)
      by (unfold c1; destruct (cpu <? 0); rewrite ?length_insert; exact Hlen).
    destruct (IH (S i) c1 s1) as (c' & s' & Hr & R2 & Hl' & Hall);
      [lia | exact Hl1 | | |].
    { eapply List.Forall_impl; [| exact Hlive]. intros p Hp. exact (K1 p Hp). }
    { intros j Hj. destruct (Nat.eq_dec j i) as [-> | Hne].
      - unfold c1. destruct (Z.ltb_spec cpu 0).
        + exists 0. rewrite list_lookup_insert_eq by (rewrite length_insert; lia).
          split; [reflexivity | lia].
        + exists cpu. rewrite list_lookup_insert_eq by lia.
          split; [reflexivity | lia].
      - destruct (Hinv j ltac:(lia)) as (v & Hv & Hv0). exists v.
        split; [| exact Hv0]. unfold c1.
        destruct (cpu <? 0); rewrite ?list_lookup_insert_ne by lia; exact Hv. }
    exists c', s'. split; [exact Hr |].
    split; [exact (runs_trans _ _ _ _ _ R1 R2) |]. split; assumption.
Qed.

Lemma initialize_cpu_counters_safe s :
  Forall (fun pid => live pid (st_world s)) ps ->
  exists counters s',
    initialize_cpu_counters (table_of ps junk) (length ps) s = Ret counters s'
    /\ runs s s' [] /\ length counters = length ps
    /\ Forall (fun c => exists v, c = Some v /\ 0 <= v) counters.
Proof.
  intros Hlive. unfold initialize_cpu_counters.
  destruct (init_loop_safe (length ps) 0 (malloc_ints (length ps)) s)
    as (c' & s' & Hr & R & Hl & Hall).
  { lia. }
  { unfold malloc_ints. apply length_replicate. }
  { exact Hlive. }
  { intros j Hj. lia. }
  exists c', s'. split; [exact Hr |]. split; [exact R |]. split; [exact Hl |].
  apply Forall_lookup. intros j c Hc.
  destruct (Hall j) as (v & Hv & Hv0).
  { rewrite <- Hl. eapply lookup_lt_Some. exact Hc. }
  rewrite Hv in Hc. injection Hc as <-. exists v. split; [reflexivity | exact Hv0].
Qed.

(** The Termination Handler ends the program with code [0]. *)
Lemma terminate_program_exits {A} elapsed s :
  exists s', terminate_program (A := A) (table_of ps junk) elapsed s = Exited 0 s'.
Proof.
  unfold terminate_program.
  destruct (print_runs OTerminating s ltac:(discriminate))
    as (s1 & H1 & _).
  destruct (display_date_runs s1) as (t & s2 & H2 & _).
  destruct (terminate_loop_runs ps junk O s2 positive_no_end)
    as (rs & s3 & _ & H3 & _).
  destruct (print_runs (OExiting (CInt.of_double elapsed)) s3
              ltac:(discriminate)) as (s4 & H4 & _).
  exists s4.
  rewrite (bind_Ret _ _ _ _ _ H1), (bind_Ret _ _ _ _ _ H2),
    (bind_Ret _ _ _ _ _ H3), (bind_Ret _ _ _ _ _ H4).
  reflexivity.
Qed.

Lemma wait_loop_safe polls : forall t current_time s,
  match wait_loop polls (table_of ps junk) t current_time s with
  | Ret _ _ | Spin _ => True
  | Exited code _ => code = 0
  | Exec _ | Fault _ => False
  end.
Proof.
  induction polls as [| polls IH]; intros t current_time s; [exact I |].
  cbn [wait_loop]. destruct (current_time - t <? 5); [| exact I].
  destruct (time_runs s) as (now & s1 & Ht & _).
  rewrite (bind_Ret _ _ _ _ _ Ht).
  rewrite (bind_Ret (check_timer now) _ s1 _ s1 eq_refl).
  destruct (stop_condition s1 now =? 1).
  - rewrite (bind_congr
               (bind (get START_TIME)
                  (fun start => terminate_program (table_of ps junk) (now - start)))
               (terminate_program (table_of ps junk) (now - START_TIME s1))
               _ s1 eq_refl).
    rewrite terminate_program_ends.
    destruct (terminate_program_exits (A := unit) (now - START_TIME s1) s1)
      as (s2 & ->). reflexivity.
  - rewrite (bind_Ret _ _ s1 tt s1 eq_refl). apply IH.
Qed.

(** One turn of the supervision loop: the counters stay ready, or the
    program ends with code [0]. *)
Lemma interval_safe polls counters s :
  length counters = length ps -> written counters ->
  match interval polls (table_of ps junk) counters full s with
  | Ret c' _ => length c' = length ps /\ written c'
  | Exited code _ => code = 0
  | Spin _ => True
  | Exec _ | Fault _ => False
  end.
Proof.
  intros Hlen Hw.
  destruct (banner_runs s) as (t0 & s1 & Hb & _).
  rewrite (interval_unfold _ _ _ _ _ _ Hb).
  destruct (pass_loop_safe ps O counters 1 s1 ltac:(auto) ltac:(lia) Hw)
    as (outcomes & c' & s2 & _ & Hp & _ & Hl & Hw').
  rewrite (bind_Ret _ _ _ _ _ Hp). cbv iota beta.
  destruct (forallb is_gone outcomes).
  - change (1 =? 1) with true. cbv iota.
    destruct (time_runs s2) as (now & s3 & Ht & _).
    destruct (print_runs (OExitingDots (CInt.of_double (now - START_TIME s3)))
                s3 ltac:(discriminate)) as (s4 & H4 & _).
    erewrite bind_Exited; [reflexivity |].
    rewrite (bind_Ret _ _ _ _ _ Ht).
    rewrite (bind_Ret (get START_TIME) _ s3 _ s3 eq_refl).
    rewrite (bind_Ret _ _ _ _ _ H4). reflexivity.
  - change (0 =? 1) with false. cbv iota.
    rewrite (bind_Ret (ret tt) _ s2 tt s2 eq_refl).
    destruct (print_runs ODots s2 ltac:(discriminate)) as (s3 & H3 & _).
    rewrite (bind_Ret _ _ _ _ _ H3).
    destruct (time_runs s3) as (t & s4 & Ht & _).
    rewrite (bind_Ret _ _ _ _ _ Ht).
    pose proof (wait_loop_safe polls t t s4) as W.
    unfold bind at 1.
    destruct (wait_loop polls (table_of ps junk) t t s4) as [[] s5 | | | |];
      auto.
    cbn. split; [lia | exact Hw'].
Qed.

Lemma report_loop_safe intervals polls : forall counters s,
  length counters = length ps -> written counters ->
  match report_loop intervals polls (table_of ps junk) counters full s with
  | Exited code _ => code = 0
  | Spin _ => True
  | Ret _ _ | Exec _ | Fault _ => False
  end.
Proof.
  induction intervals as [| intervals IH]; intros counters s Hlen Hw; [exact I |].
  cbn [report_loop]. pose proof (interval_safe polls counters s Hlen Hw) as H.
  unfold bind.
  destruct (interval polls (table_of ps junk) counters full s)
    as [c' s1 | | | |]; auto.
  destruct H as (Hl & Hw'). apply IH; assumption.
Qed.

End Safety.

Section Supervisor.

Context {os : OS}.

(** X18.  The first readings: on a host where the /proc files of a child
    that has not been waited for can be opened, for a table of such
    children with positive pids, [initialize_cpu_counters] returns one
    counter for every process of the table, each written and none
    negative. *)
Theorem initial_counters (live : Z -> world -> Prop) ps junk s :
  Forall (fun pid => 0 < pid <= CInt.INT_MAX) ps ->
  procfs_tracks live ->
  Forall (fun pid => live pid (st_world s)) ps ->
  exists counters s',
    initialize_cpu_counters (table_of ps junk) (length ps) s = Ret counters s'
    /\ runs s s' [] /\ length counters = length ps
    /\ Forall (fun c => exists v, c = Some v /\ 0 <= v) counters.
Proof.
  intros Hp Ht Hl. exact (initialize_cpu_counters_safe ps junk live Hp Ht s Hl).
Qed.

(** Supervision on a process table ends, if it ends, by [exit(0)]. *)
Lemma periodic_reports_safe (live : Z -> world -> Prop) intervals polls ps
    junk s :
  Forall (fun pid => 0 < pid <= CInt.INT_MAX) ps ->
  procfs_tracks live ->
  Forall (fun pid => live pid (st_world s)) ps ->
  (forall w, 0 < 5 * sys_clk_tck w <= CInt.INT_MAX) ->
  match periodic_reports intervals polls (table_of ps junk) s with
  | Exited code _ => code = 0
  | Spin _ => True
  | Ret _ _ | Exec _ | Fault _ => False
  end.
Proof.
  intros Hp Ht Hl Hclk. unfold periodic_reports.
  rewrite (bind_Ret _ _ _ _ _
             (len_loop_table ps junk O s (positive_no_end ps Hp))).
  cbn [Nat.add].
  destruct (initialize_cpu_counters_safe ps junk live Hp Ht s Hl)
    as (counters & s1 & Hi & _ & Hlen & Hall).
  rewrite (bind_Ret _ _ _ _ _ Hi).
  rewrite (bind_Ret (get (fun s => sys_clk_tck (st_world s))) _ s1 _ s1 eq_refl).
  apply (report_loop_safe ps junk (CInt.of_long (5 * sys_clk_tck (st_world s1)))
           live Hp).
  - unfold CInt.of_long. rewrite wrap_small; [apply Hclk |].
    specialize (Hclk (st_world s1)). int_range.
  - exact Ht.
  - exact Hlen.
  - eapply Forall_impl; [exact Hall |]. intros c (v & -> & _). discriminate.
Qed.

(** X20.  Supervision does not go wrong.  On a host where the /proc files
    of a child that has not been waited for can be opened and the clock
    tick rate is positive, for a table of such children with positive pids,
    [periodic_reports] never reads or writes outside its arrays, never
    divides by zero and never returns: it ends, if it ends, by
    [exit(0)]. *)
Theorem supervision_is_safe (live : Z -> world -> Prop) intervals polls ps
    junk s :
  Forall (fun pid => 0 < pid <= CInt.INT_MAX) ps ->
  procfs_tracks live ->
  Forall (fun pid => live pid (st_world s)) ps ->
  (forall w, 0 < 5 * sys_clk_tck w <= CInt.INT_MAX) ->
  match periodic_reports intervals polls (table_of ps junk) s with
  | Exited code _ => code = 0
  | Spin _ => True
  | Ret _ _ | Exec _ | Fault _ => False
  end.
Proof.
  intros Hp Ht Hl Hclk.
  exact (periodic_reports_safe live intervals polls ps junk s Hp Ht Hl Hclk).
Qed.

(** X19.  With no process in the table the supervision prints one report
    header and the elapsed time and exits with code 0 in the first turn of
    its loop: no wait, no sampler, no look at the stop condition. *)
Theorem no_process_exits_at_once intervals polls junk s :
  exists t now s',
    periodic_reports (S intervals) polls (table_of [] junk) s = Exited 0 s'
    /\ runs s s'
         [EPrint ODots; EPrint ONormalReport; EPrint (ODate t);
          EPrint (OExitingDots (CInt.of_double (now - START_TIME s)))].
Proof.
  unfold periodic_reports.
  rewrite (bind_Ret _ _ _ _ _ (len_loop_table [] junk O s ltac:(intros []))).
  cbn [Nat.add length].
  rewrite (bind_Ret (initialize_cpu_counters (table_of [] junk) 0) _ s [] s eq_refl).
  rewrite (bind_Ret (get (fun s => sys_clk_tck (st_world s))) _ s _ s eq_refl).
  cbn [report_loop].
  destruct (banner_runs s) as (t & s1 & Hb & R1).
  destruct (interval_all_gone polls (table_of [] junk) []
              (CInt.of_long (5 * sys_clk_tck (st_world s))) s s1 [] s1 Hb eq_refl)
    as (now & s3 & s4 & Ht & Hi & Hp).
  exists t, now, s4. rewrite (bind_Exited _ _ _ _ _ Hi).
  split; [reflexivity |].
  destruct (time_runs s1) as (now' & s3' & Ht' & R3).
  rewrite Ht in Ht'. injection Ht' as <- <-.
  destruct (print_runs (OExitingDots (CInt.of_double (now - START_TIME s3)))
              s3 ltac:(discriminate)) as (s4' & Hp' & R4 & _).
  rewrite Hp in Hp'. injection Hp' as <-.
  assert (E : START_TIME s3 = START_TIME s).
  { destruct R1 as (_ & _ & E1 & _). destruct R3 as (_ & _ & E3 & _).
    congruence. }
  rewrite <- E.
  change [EPrint ODots; EPrint ONormalReport; EPrint (ODate t);
          EPrint (OExitingDots (CInt.of_double (now - START_TIME s3)))]
    with ([EPrint ODots; EPrint ONormalReport; EPrint (ODate t)] ++ []
            ++ [EPrint (OExitingDots (CInt.of_double (now - START_TIME s3)))]).
  exact (runs_trans _ _ _ _ _ R1 (runs_trans _ _ _ _ _ R3 R4)).
Qed.

End Supervisor.

(** ** Stop requests *)

Section Stop.

Context {os : OS}.

Variable ps : list Z.
Variable junk : table.
Variable full : Z.
Variable live : Z -> world -> Prop.

Hypothesis pids_positive : Forall (fun pid => 0 < pid <= CInt.INT_MAX) ps.
Hypothesis full_pos : 0 < full.
Hypothesis tracks : procfs_tracks live.

Lemma stop_requested s now : KILL_STATE s = 1 -> stop_condition s now = 1.
Proof.
  intros H. unfold stop_condition. rewrite H.
  destruct (_ && _); reflexivity.
Qed.

(** With the stop flag set the first poll of the waiting loop hands over
    to the Termination Handler. *)
Lemma wait_loop_stops polls t s :
  KILL_STATE s = 1 ->
  exists s', wait_loop (S polls) (table_of ps junk) t t s = Exited 0 s'.
Proof.
  intros Hk. cbn [wait_loop]. rewrite Z.sub_diag. change (0 <? 5) with true.
  cbv iota.
  destruct (time_runs s) as (now & s1 & Ht & R1).
  rewrite (bind_Ret _ _ _ _ _ Ht).
  rewrite (bind_Ret (check_timer now) _ s1 _ s1 eq_refl).
  destruct R1 as (_ & _ & _ & _ & Hk1 & _).
  rewrite (stop_requested s1 now (Hk1 Hk)). change (1 =? 1) with true. cbv iota.
  rewrite (bind_congr
             (bind (get START_TIME)
                (fun start => terminate_program (table_of ps junk) (now - start)))
             (terminate_program (table_of ps junk) (now - START_TIME s1))
             _ s1 eq_refl).
  rewrite terminate_program_ends.
  exact (terminate_program_exits ps junk pids_positive (now - START_TIME s1) s1).
Qed.

(** With the stop flag set a turn of the supervision loop is the last. *)
Lemma interval_stops polls counters s :
  length counters = length ps -> written counters ->
  KILL_STATE s = 1 ->
  exists s', interval (S polls) (table_of ps junk) counters full s = Exited 0 s'.
Proof.
  intros Hlen Hw Hk.
  destruct (banner_runs s) as (t0 & s1 & Hb & R1).
  rewrite (interval_unfold _ _ _ _ _ _ Hb).
  destruct (pass_loop_safe ps junk full live pids_positive full_pos tracks
              ps O counters 1 s1 ltac:(auto) ltac:(lia) Hw)
    as (outcomes & c' & s2 & _ & Hp & R2 & _).
  rewrite (bind_Ret _ _ _ _ _ Hp). cbv iota beta.
  destruct (forallb is_gone outcomes).
  - change (1 =? 1) with true. cbv iota.
    destruct (time_runs s2) as (now & s3 & Ht & _).
    destruct (print_runs (OExitingDots (CInt.of_double (now - START_TIME s3)))
                s3 ltac:(discriminate)) as (s4 & H4 & _).
    exists s4. erewrite bind_Exited; [reflexivity |].
    rewrite (bind_Ret _ _ _ _ _ Ht).
    rewrite (bind_Ret (get START_TIME) _ s3 _ s3 eq_refl).
    rewrite (bind_Ret _ _ _ _ _ H4). reflexivity.
  - change (0 =? 1) with false. cbv iota.
    rewrite (bind_Ret (ret tt) _ s2 tt s2 eq_refl).
    destruct (print_runs ODots s2 ltac:(discriminate)) as (s3 & H3 & R3 & _).
    rewrite (bind_Ret _ _ _ _ _ H3).
    destruct (time_runs s3) as (t & s4 & Ht & R4).
    rewrite (bind_Ret _ _ _ _ _ Ht).
    assert (Hk4 : KILL_STATE s4 = 1).
    { destruct R1 as (_ & _ & _ & _ & K1 & _).
      destruct R2 as (_ & _ & _ & _ & K2 & _).
      destruct R3 as (_ & _ & _ & _ & K3 & _).
      destruct R4 as (_ & _ & _ & _ & K4 & _). auto. }
    destruct (wait_loop_stops polls t s4 Hk4) as (s5 & Hwl).
    exists s5. apply bind_Exited. exact Hwl.
Qed.

End Stop.

Section Interrupt.

Context {os : OS}.

(** X24.  A stop request ends the supervision in the turn it is seen.  On
    a host where the /proc files of a child that has not been waited for
    can be opened, for a table of positive pids, once [KILL_STATE] is 1 (the
    interrupt handler has run), a turn of the loop of [periodic_reports] is
    the last one: the program leaves it by [exit(0)], through the
    Termination Handler at the first poll of the waiting loop, or because
    every child had exited.  The same holds for [periodic_reports] entered
    with the flag set. *)
Theorem stop_request_ends_supervision (live : Z -> world -> Prop) ps junk :
  Forall (fun pid => 0 < pid <= CInt.INT_MAX) ps ->
  procfs_tracks live ->
  (forall polls counters full s,
      0 < full -> length counters = length ps -> written counters ->
      KILL_STATE s = 1 ->
      exists s',
        interval (S polls) (table_of ps junk) counters full s = Exited 0 s')
  /\ (forall intervals polls s,
        (forall w, 0 < 5 * sys_clk_tck w <= CInt.INT_MAX) ->
        Forall (fun pid => live pid (st_world s)) ps ->
        KILL_STATE s = 1 ->
        exists s',
          periodic_reports (S intervals) (S polls) (table_of ps junk) s
          = Exited 0 s').
Proof.
  intros Hp Ht. split.
  - intros polls counters full s Hfull Hlen Hw Hk.
    exact (interval_stops ps junk full live Hp Hfull Ht polls counters s
             Hlen Hw Hk).
  - intros intervals polls s Hclk Hlive Hk. unfold periodic_reports.
    rewrite (bind_Ret _ _ _ _ _
               (len_loop_table ps junk O s (positive_no_end ps Hp))).
    cbn [Nat.add].
    destruct (initialize_cpu_counters_safe ps junk live Hp Ht s Hlive)
      as (counters & s1 & Hi & R & Hl & Hall).
    rewrite (bind_Ret _ _ _ _ _ Hi).
    rewrite (bind_Ret (get (fun s => sys_clk_tck (st_world s))) _ s1 _ s1 eq_refl).
    cbn [report_loop].
    destruct (interval_stops ps junk
                (CInt.of_long (5 * sys_clk_tck (st_world s1)))
                live Hp) with (polls := polls) (counters := counters) (s := s1)
      as (s' & Hint).
    + unfold CInt.of_long. rewrite wrap_small; [apply Hclk |].
      specialize (Hclk (st_world s1)). int_range.
    + exact Ht.
    + exact Hl.
    + eapply Forall_impl; [exact Hall |]. intros c (v & -> & _). discriminate.
    + destruct R as (_ & _ & _ & _ & K & _). auto.
    + exists s'. apply bind_Exited. exact Hint.
Qed.

End Interrupt.

(** ** The whole program *)

(** The lines of a text file come off its stream one by one. *)
Lemma next_line_text d fptr L :
  pending d fptr = text L -> Forall plain L ->
  exists fptr',
    next_line d fptr = Some (head L, fptr') /\ pending d fptr' = text (tail L).
Proof.
  intros Hp Hl. destruct L as [| l L].
  - exists fptr. split; [apply next_line_end; exact Hp | exact Hp].
  - inversion Hl as [| ? ? (Hnl & Hnul & Hlen) _]; subst.
    cbn [text] in Hp.
    destruct (next_line_short d fptr l (NEWLINE :: text L) Hp Hnl Hnul Hlen)
      as (fptr' & E & Hrest).
    + destruct l; discriminate.
    + right. eexists. reflexivity.
    + exists fptr'. split; [exact E | exact Hrest].
Qed.

Section AllStart.

Context {os : OS}.

(** X1.  When every line is a command whose program is found and whose
    launch succeeds, the loop of [read_file], reading a text file of plain
    lines, reports every line as started and the table gains exactly one
    pid a line, however many lines there are: the array grows by
    [MAX_PROCESSES] cells whenever a single free cell is left. *)
Theorem read_loop_all_start (Inv : world -> Prop) d lines :
  forall turns fptr pids index n len_pids ps s,
    handler_registered s = false ->
    table_ok pids index len_pids ps ->
    Forall (fun line => Libc.empty line = false) lines ->
    pending d fptr = text (tail lines) ->
    Forall plain (tail lines) ->
    (length lines <= turns)%nat ->
    Inv (st_world s) ->
    (forall line w, In line lines -> Inv w -> launches Inv line w) ->
    exists pids' len_pids' s' ls,
      read_loop turns d fptr (head lines) pids index n len_pids s
      = Ret (pids', (index + length lines)%nat) s'
      /\ table_ok pids' (index + length lines) len_pids' (ps ++ started ls)
      /\ length (started ls) = length lines
      /\ forallb is_started ls = true
      /\ st_trace s' = st_trace s ++ launch_blocks n (zip lines ls)
      /\ Inv (st_world s').
Proof.
  induction lines as [| line lines IH];
    intros turns fptr pids index n len_pids ps s Hoff Hok Hne Hpend Hplain
      Hturns Hinv Hall.
  { exists pids, len_pids, s, []. rewrite Nat.add_0_r, !app_nil_r.
    destruct turns; repeat split; auto; apply Hok. }
  destruct turns as [| turns]; [cbn [length] in Hturns; lia |].
  cbn [length] in Hturns. cbn [head tail] in *.
  inversion Hne as [| ? ? He Hne']; subst.
  pose proof (Hall line (st_world s) ltac:(now left) Hinv) as Hok1.
  unfold launches in Hok1.
  destruct (fork_off line s Hoff) as (s1 & Hf & R1 & W1).
  assert (Hc : forall w1, snd (sys_fork line (st_world s)) = w1 ->
               get_args line <> [] ->
               sys_execvp (get_args line) w1 = None ->
               child_effect line (st_world s) fptr = Some fptr).
  { intros w1 E. unfold child_effect. rewrite E.
    destruct (get_args line); intros Hargs Hexec; [contradiction |].
    now rewrite Hexec. }
  destruct (sys_fork line (st_world s)) as [pid w1]. simpl fst in *. simpl snd in *.
  specialize (Hc w1 eq_refl).
  assert (Hoff1 : handler_registered s1 = false)
    by (destruct R1 as (_ & _ & _ & -> & _); exact Hoff).
  destruct (usleep_off 100000 s1 Hoff1) as (s2 & Hu & R2 & W2).
  assert (Hoff2 : handler_registered s2 = false)
    by (destruct R2 as (_ & _ & _ & -> & _); exact Hoff1).
  destruct (waitpid_off pid s2 Hoff2) as (s3 & Hw & R3 & W3).
  rewrite W2, W1 in Hw, R3, W3.
  destruct (sys_waitpid pid (sys_usleep 100000 w1)) as [r w3].
  simpl fst in *. simpl snd in *.
  destruct Hok1 as (Hargs & Hexec & Hpid & -> & Hinv3).
  assert (Hoff3 : handler_registered s3 = false)
    by (destruct R3 as (_ & _ & _ & -> & _); exact Hoff2).
  assert (Hl : (if negb (Libc.empty line) then create_process line (-2)
                else ret (-2)) s = Ret pid s3).
  { rewrite He. cbn [negb].
    now rewrite (create_process_parent _ _ _ _ _ _ _ _ Hf
                   ltac:(lia) ltac:(lia) Hu Hw). }
  destruct (read_turn_started line pids index n len_pids ps s pid s3
              Hok Hl ltac:(lia)) as (pids1 & len1 & s4 & Hp & Hok4 & Hturn).
  destruct (print_runs (OStarted (Z.of_nat n) (path_of line) pid) s3
              ltac:(discriminate)) as (s4' & Hp' & R4 & W4 & _).
  rewrite Hp in Hp'. injection Hp' as <-.
  assert (Hoff4 : handler_registered s4 = false)
    by (destruct R4 as (_ & _ & _ & -> & _); exact Hoff3).
  specialize (Hc Hargs Hexec).
  assert (Hc' : (if Libc.empty line then Some fptr
                 else child_effect line (st_world s) fptr) = Some fptr)
    by now rewrite He.
  destruct (next_line_text d fptr lines Hpend Hplain) as (fptr2 & Hn & Hpend2).
  rewrite (read_loop_step turns d fptr line pids index n len_pids s
             pids1 (S index) len1 s4 fptr (head lines) fptr2 Hturn Hc' Hn).
  destruct (IH turns fptr2 pids1 (S index) (S n) len1 (ps ++ [pid]) s4
              Hoff4 Hok4 Hne' Hpend2)
    as (pids' & len' & s' & ls & Hr & Hok' & Hlen & Hstarted & Ht & Hinv').
  { destruct lines; [constructor | now inversion Hplain]. }
  { lia. }
  { rewrite W4, W3. exact Hinv3. }
  { intros l w Hin. apply Hall. now right. }
  exists pids', len', s', (Started pid :: ls).
  rewrite Hr. cbn [length]. rewrite Nat.add_succ_r.
  split; [reflexivity |]. rewrite <- app_assoc in Hok'.
  split; [exact Hok' |]. split; [simpl; lia |]. split; [exact Hstarted |].
  split; [| exact Hinv'].
  rewrite Ht.
  rewrite (runs_exact _ _ _
             (runs_trans _ _ _ _ _ R1
                (runs_trans _ _ _ _ _ R2 (runs_trans _ _ _ _ _ R3 R4))) Hoff).
  rewrite <- app_assoc. reflexivity.
Qed.

End AllStart.

Section Steady.

Context {os : OS}.

Variable P : world -> Prop.
Hypothesis steady_P : steady P.

Lemma interrupts_steady s a s' :
  interrupts s = Ret a s' -> P (st_world s) -> P (st_world s').
Proof.
  destruct steady_P as (_ & _ & Hsig).
  unfold interrupts. destruct (handler_registered s).
  - pose proof (Hsig (st_world s)) as K.
    destruct (sys_sigint (st_world s)) as [[] w]; cbn [snd] in K;
      intros [= _ <-]; exact K.
  - now intros [= _ <-].
Qed.

Lemma usleep_steady usec s s' :
  usleep_ usec s = Ret tt s' -> P (st_world s) -> P (st_world s').
Proof.
  destruct steady_P as (Hu & _).
  unfold usleep_. intros H Hp. apply bind_inv in H as ([] & s1 & Hlog & Hi).
  unfold log in Hlog. injection Hlog as <-.
  apply (interrupts_steady _ _ _ Hi). cbn. apply Hu. exact Hp.
Qed.

Lemma time_steady s t s' :
  time_ s = Ret t s' -> P (st_world s) -> P (st_world s').
Proof.
  destruct steady_P as (_ & Ht & _).
  unfold time_. pose proof (Ht (st_world s)) as K.
  destruct (sys_time (st_world s)) as [t0 w]. cbn [snd] in K.
  intros H Hp. apply bind_inv in H as ([] & s1 & Hi & [= _ <-]).
  apply (interrupts_steady _ _ _ Hi). cbn. apply K. exact Hp.
Qed.

Lemma print_steady o s s' :
  print o s = Ret tt s' -> P (st_world s) -> P (st_world s').
Proof. unfold print, log. now intros [= <-]. Qed.

Lemma display_date_steady s s' :
  display_date s = Ret tt s' -> P (st_world s) -> P (st_world s').
Proof.
  unfold display_date. intros H Hp. apply bind_inv in H as (t & s1 & Ht & Hpr).
  exact (print_steady _ _ _ Hpr (time_steady _ _ _ Ht Hp)).
Qed.

End Steady.

Section Parent.

Context {os : OS}.

(** The children not waited for, and the room the host has for more. *)
Variable live : Z -> world -> Prop.
Variable room : nat -> world -> Prop.

Hypothesis tracks : procfs_tracks live.
Hypothesis launching : launch_tracks live room.

Lemma live_steady p : steady (live p).
Proof. destruct launching as (H & _). exact (H p). Qed.

Lemma room_steady n : steady (room n).
Proof. destruct launching as (_ & H & _). exact (H n). Qed.

(** In the parent [fork] gives the pid of a new child. *)
Lemma fork_parent n line s pid s' :
  fork_ line s = Ret pid s' ->
  room (S n) (st_world s) ->
  0 < pid <= CInt.INT_MAX
  /\ room n (st_world s')
  /\ keeps live s s'
  /\ (forall p, live p (st_world s) -> pid <> p).
Proof.
  destruct launching as (_ & _ & _ & Hfork & Hfresh & _).
  intros H Hroom. unfold fork_ in H.
  pose proof (Hfork n line (st_world s) Hroom) as (Hpid & Hroom').
  pose proof (fun p => Hfresh n p line (st_world s) Hroom) as F.
  destruct (sys_fork line (st_world s)) as [pid0 w]. cbn [fst snd] in *.
  apply bind_inv in H as ([] & s1 & Hlog & H).
  apply bind_inv in H as ([] & s2 & Hi & [= -> <-]).
  unfold log in Hlog. injection Hlog as <-.
  split; [exact Hpid |]. split; [| split].
  - exact (interrupts_steady _ (room_steady n) _ _ _ Hi Hroom').
  - intros p Hp. apply (interrupts_steady _ (live_steady p) _ _ _ Hi).
    cbn. apply F. exact Hp.
  - intros p Hp. apply F. exact Hp.
Qed.

Lemma waitpid_parent q s r s' :
  waitpid_ q s = Ret r s' ->
  (forall n, room n (st_world s) -> room n (st_world s'))
  /\ (forall p, live p (st_world s) -> q <> p -> live p (st_world s')).
Proof.
  destruct launching as (_ & _ & _ & _ & _ & Hr & Hk).
  unfold waitpid_. pose proof (fun p => Hk p q (st_world s)) as K.
  pose proof (fun n => Hr n q (st_world s)) as Kr.
  destruct (sys_waitpid q (st_world s)) as [r0 w]. cbn [snd] in K, Kr.
  intros H. apply bind_inv in H as ([] & s1 & Hlog & H).
  apply bind_inv in H as ([] & s2 & Hi & [= _ <-]).
  unfold log in Hlog. injection Hlog as <-. split.
  - intros n Hn. apply (interrupts_steady _ (room_steady n) _ _ _ Hi).
    cbn. apply Kr. exact Hn.
  - intros p Hp Hne. apply (interrupts_steady _ (live_steady p) _ _ _ Hi).
    cbn. apply K; assumption.
Qed.

(** In the parent a turn of the loop returns; the children in the table
    have not been waited for. *)
Lemma read_turn_parent m line pids index n len_pids ps s :
  table_ok pids index len_pids ps ->
  Forall (fun pid => live pid (st_world s)) ps ->
  room (S m) (st_world s) ->
  exists l pids' len_pids' s',
    read_turn line pids index n len_pids s
    = Ret (pids', (index + length (started [l]))%nat, len_pids') s'
    /\ room m (st_world s')
    /\ runs s s' (launch_block n line l)
    /\ table_ok pids' (index + length (started [l])) len_pids'
         (ps ++ started [l])
    /\ Forall (fun pid => live pid (st_world s')) (ps ++ started [l])
    /\ Forall (fun pid => 0 < pid <= CInt.INT_MAX) (started [l])
    /\ (l = NotLaunched <-> Libc.empty line = true).
Proof.
  intros Hok Hlive Hroom.
  assert (exists out s1,
    (if negb (Libc.empty line) then create_process line (-2) else ret (-2)) s
    = Ret out s1
    /\ (out < 0 \/ 0 < out <= CInt.INT_MAX)
    /\ room m (st_world s1)
    /\ Forall (fun pid => live pid (st_world s1)) ps
    /\ (0 <= out -> live out (st_world s1)))
    as (out & s1 & Hl & Hout & Hroom1 & Hlive1 & Hnew).
  { destruct (Libc.empty line); cbn [negb].
    - exists (-2), s. split; [reflexivity |]. split; [lia |].
      split; [| split; [exact Hlive | lia]].
      destruct launching as (_ & _ & Hmono & _). exact (Hmono _ _ Hroom).
    - destruct (fork_runs line s) as (s1 & Hf & _).
      destruct (fork_parent m _ _ _ _ Hf Hroom) as (Hpid & Hr1 & K1 & Hfresh).
      set (pid := fst (sys_fork line (st_world s))) in *.
      destruct (usleep_runs 100000 s1) as (s2 & Hu & _).
      pose proof (fun p => usleep_steady _ (live_steady p) _ _ _ Hu) as K2.
      pose proof (usleep_steady _ (room_steady m) _ _ _ Hu Hr1) as Hr2.
      destruct (waitpid_live live tracks pid s2 ltac:(lia))
        as (r & s3 & Hw & _ & Hr).
      destruct (waitpid_parent _ _ _ _ Hw) as (Kr3 & K3).
      rewrite (create_process_parent _ _ _ _ _ _ _ _ Hf
                 ltac:(lia) ltac:(lia) Hu Hw).
      eexists _, s3. split; [reflexivity |].
      change (-2 =? -1) with false. cbn [negb andb].
      split; [destruct (r =? 0); lia |]. split; [exact (Kr3 _ Hr2) |]. split.
      + eapply List.Forall_impl; [| exact Hlive]. intros p Hp.
        apply K3; [exact (K2 p (K1 p Hp)) |]. exact (Hfresh p Hp).
      + destruct (Z.eqb_spec r 0) as [-> | _]; [intros _; exact (Hr eq_refl) |].
        lia. }
  pose proof Hl as Hl'.
  destruct Hout as [Hneg | Hpos].
  - destruct (read_turn_not_started line pids index n len_pids ps s out s1
                Hok Hl Hneg) as (s2 & Hp & Hstep).
    destruct (read_turn_runs _ _ _ _ _ _ _ _ _ Hok Hstep)
      as (l & pids' & len' & E & R & Hok' & _ & Hl0).
    assert (Hs : started [l] = []).
    { injection E as _ E _. destruct l; [reflexivity | reflexivity |].
      cbn in E. lia. }
    assert (Hstep' : read_turn line pids index n len_pids s
                     = Ret (pids', (index + length (started [l]))%nat, len') s2)
      by (rewrite Hstep; f_equal; exact E).
    exists l, pids', len', s2. rewrite Hs in *.
    split; [exact Hstep' |].
    split; [exact (print_steady _ _ _ _ Hp Hroom1) |].
    split; [exact R |]. split; [exact Hok' |].
    rewrite app_nil_r.
    split; [| split; [constructor | exact Hl0]].
    eapply List.Forall_impl; [| exact Hlive1]. intros p Hp0.
    apply (print_keeps live _ _ _ Hp). exact Hp0.
  - destruct (read_turn_started line pids index n len_pids ps s out s1
                Hok Hl ltac:(lia)) as (pids1 & len1 & s2 & Hp & Hok1 & Hstep).
    destruct (read_turn_runs _ _ _ _ _ _ _ _ _ Hok Hstep)
      as (l & pids' & len' & E & R & Hok' & _ & Hl0).
    assert (Hs : started [l] = [out]).
    { injection E as E1 E2 E3. subst pids' len'.
      destruct Hok1 as (_ & _ & Ht1 & _). destruct Hok' as (_ & _ & Ht' & _).
      destruct l as [| | pid]; cbn [started length] in *; try lia.
      replace (index + 1)%nat with (S index) in Ht' by lia.
      rewrite Ht1 in Ht'. apply (inj (fmap Some)) in Ht'.
      apply app_inv_head in Ht'. now injection Ht' as ->. }
    assert (Hstep' : read_turn line pids index n len_pids s
                     = Ret (pids', (index + length (started [l]))%nat, len') s2)
      by (rewrite Hstep; f_equal; exact E).
    exists l, pids', len', s2. rewrite Hs in *.
    split; [exact Hstep' |].
    split; [exact (print_steady _ _ _ _ Hp Hroom1) |].
    split; [exact R |]. split; [exact Hok' |].
    split; [| split; [constructor; [exact Hpos | constructor] | exact Hl0]].
    apply Forall_app. split.
    + eapply List.Forall_impl; [| exact Hlive1]. intros p Hp0.
      apply (print_keeps live _ _ _ Hp). exact Hp0.
    + constructor; [| constructor].
      apply (print_keeps live _ _ _ Hp). apply Hnew. lia.
Qed.

Lemma found_effect line w fptr :
  found line ->
  (if Libc.empty line then Some fptr else child_effect line w fptr)
  = Some fptr.
Proof.
  intros [-> | (Hargs & Hexec)]; [reflexivity |].
  destruct (Libc.empty line); [reflexivity |].
  unfold child_effect. destruct (get_args line) as [| a args];
    [contradiction |]. now rewrite Hexec.
Qed.

(** In the parent, when every program is found, the loop launches the
    lines of the file one after the other; it returns unless the turns run
    out. *)
Lemma read_loop_parent d L :
  forall turns fptr pids index n len_pids ps s,
  table_ok pids index len_pids ps ->
  Forall (fun pid => live pid (st_world s)) ps ->
  room (length L) (st_world s) ->
  pending d fptr = text (tail L) -> Forall plain (tail L) ->
  Forall found L ->
  match read_loop turns d fptr (head L) pids index n len_pids s with
  | Ret (pids', index') s' =>
      exists launches len_pids',
        length launches = length L
        /\ runs s s' (launch_blocks n (zip L launches))
        /\ table_ok pids' index' len_pids' (ps ++ started launches)
        /\ Forall (fun pid => live pid (st_world s')) (ps ++ started launches)
        /\ Forall (fun pid => 0 < pid <= CInt.INT_MAX) (started launches)
  | Spin _ => (turns < length L)%nat
  | Exited _ _ | Exec _ | Fault _ => False
  end.
Proof.
  induction L as [| line L IH];
    intros turns fptr pids index n len_pids ps s Hok Hlive Hroom Hp Hplain
      Hfound.
  { destruct turns; cbn [head read_loop ret]; exists [], len_pids;
      rewrite app_nil_r; repeat split; auto; try apply Hok; apply runs_refl. }
  destruct turns as [| turns]; [cbn; lia |].
  cbn [head tail] in *.
  inversion Hfound as [| ? ? Hf Hfound']; subst.
  destruct (read_turn_parent (length L) line pids index n len_pids ps s Hok
              Hlive Hroom)
    as (l & pids1 & len1 & s1 & Ht & Hroom1 & R1 & Hok1 & Hlive1 & Hpos1 & _).
  destruct (next_line_text d fptr L Hp Hplain) as (fptr' & Hn & Hp').
  rewrite (read_loop_step turns d fptr line pids index n len_pids s
             _ _ _ _ fptr (head L) fptr' Ht
             (found_effect line (st_world s) fptr Hf) Hn).
  assert (Hplain' : Forall plain (tail L))
    by (destruct L; [constructor | now inversion Hplain]).
  specialize (IH turns fptr' pids1 (index + length (started [l]))%nat (S n)
                len1 (ps ++ started [l]) s1 Hok1 Hlive1 Hroom1 Hp' Hplain'
                Hfound').
  destruct (read_loop turns d fptr' (head L) pids1
              (index + length (started [l])) (S n) len1 s1)
    as [[pids' index'] s' | | | |]; try exact IH; [| cbn [length]; lia].
  destruct IH as (ls & len' & Hlen & R2 & Hok' & Hlive' & Hpos').
  exists (l :: ls), len'. cbn [length zip zip_with launch_blocks].
  change (started (l :: ls)) with (started ([l] ++ ls)).
  rewrite started_app, app_assoc.
  split; [lia |]. split; [exact (runs_trans _ _ _ _ _ R1 R2) |].
  split; [exact Hok' |]. split; [exact Hlive' |].
  rewrite <- app_assoc in Hlive'. apply Forall_app. split; assumption.
Qed.

(** In the parent, when every program is found, [read_file] launches
    every command line of a text file once, in order; it returns unless the
    turns run out, and the children in the table it returns have not been
    waited for. *)
Lemma read_file_parent turns file_path lines blk s :
  Forall plain lines ->
  read_timer (head lines) <> None ->
  Forall found (command_lines lines) ->
  room (length (command_lines lines)) (st_world s) ->
  match read_file turns file_path
          (Some {| d_bytes := text lines; d_blksize := blk |}) s with
  | Ret r s' =>
      exists launches junk t,
        r = Some (table_of (started launches) junk)
        /\ length launches = length (command_lines lines)
        /\ traces s s'
             ([EPrint OStartingReport; EPrint (ODate t)]
                ++ launch_blocks 0 (zip (command_lines lines) launches))
        /\ Forall (fun pid => live pid (st_world s')) (started launches)
        /\ Forall (fun pid => 0 < pid <= CInt.INT_MAX) (started launches)
  | Spin _ => (turns < length (command_lines lines))%nat
  | Exited _ _ | Exec _ | Fault _ => False
  end.
Proof.
  intros Hplain Htimer Hfound Hroom.
  set (d := {| d_bytes := text lines; d_blksize := blk |}).
  destruct (next_line_text d opened lines eq_refl Hplain)
    as (fptr0 & Hn0 & Hp0).
  destruct (read_timer (head lines)) as [[timer line1] |] eqn:Ht;
    [| contradiction].
  rewrite (read_file_unfold _ _ _ _ _ _ _ _ Hn0 Ht).
  destruct (print_runs OStartingReport s ltac:(discriminate))
    as (s1 & H1 & R1 & _).
  destruct (display_date_runs s1) as (t & s2 & H2 & R2).
  destruct (set_TARGET_TIME_traces timer s2) as (s3 & H3 & T3 & _).
  rewrite (bind_Ret _ _ _ _ _ H1), (bind_Ret _ _ _ _ _ H2),
    (bind_Ret _ _ _ _ _ H3).
  assert (Hplain1 : Forall plain (tail lines))
    by (destruct lines; [constructor | now inversion Hplain]).
  assert (exists fptr,
    (if negb (timer =? -1) then defined (next_line d fptr0)
     else ret (line1, fptr0)) s3
    = Ret (head (command_lines lines), fptr) s3
    /\ pending d fptr = text (tail (command_lines lines))
    /\ Forall plain (tail (command_lines lines)))
    as (fptr & Hsel & Hp & Hplain').
  { unfold command_lines. rewrite Ht.
    destruct (timer =? -1); cbn [negb].
    - exists fptr0. destruct line1 as [l |].
      + cbn [head tail]. split; [reflexivity |]. split; assumption.
      + assert (lines = []) as ->.
        { destruct lines as [| l0 ?]; [reflexivity |]. cbn [head] in Ht.
          unfold read_timer in Ht. destruct (Libc.empty l0); [discriminate Ht |].
          destruct (Libc.strtok l0) as [[? ?] |]; discriminate Ht. }
        cbn [head tail]. split; [reflexivity |]. split; [exact Hp0 | constructor].
    - destruct (next_line_text d fptr0 (tail lines) Hp0 Hplain1)
        as (fptr1 & Hn1 & Hp1).
      exists fptr1. rewrite Hn1. split; [reflexivity |]. split; [exact Hp1 |].
      destruct (tail lines); [constructor | now inversion Hplain1]. }
  rewrite (bind_Ret _ _ _ _ _ Hsel). cbv beta iota.
  assert (Hroom3 : room (length (command_lines lines)) (st_world s3)).
  { assert (W3 : st_world s3 = st_world s2)
      by (unfold set_TARGET_TIME in H3; now injection H3 as <-).
    rewrite W3.
    apply (display_date_steady _ (room_steady _) _ _ H2).
    apply (print_steady _ _ _ _ H1). exact Hroom. }
  pose proof (read_loop_parent d (command_lines lines) turns fptr
                (malloc_ints MAX_PROCESSES) 0 0 MAX_PROCESSES [] s3
                table_ok_fresh ltac:(constructor) Hroom3 Hp Hplain' Hfound)
    as L.
  unfold bind at 1.
  destruct (read_loop turns d fptr (head (command_lines lines))
              (malloc_ints MAX_PROCESSES) 0 0 MAX_PROCESSES s3)
    as [[pids index] s4 | | | |]; try exact L.
  destruct L as (launches & len' & Hlen & R4 & Hok & Hlive & Hpos).
  destruct (table_ok_close pids index len' _ s4 Hok) as (junk & Hs).
  rewrite (bind_Ret _ _ _ _ _ Hs). cbn [ret app] in *.
  exists launches, junk, t. split; [reflexivity |]. split; [exact Hlen |].
  split; [| split; assumption].
  exact (traces_trans _ _ _ _ _ (runs_traces _ _ _ R1)
           (traces_trans _ _ _ _ _ (runs_traces _ _ _ R2)
              (traces_trans _ _ _ _ _ T3 (runs_traces _ _ _ R4)))).
Qed.

End Parent.

Section Main.

Context {os : OS}.

(** X21.  In the parent, when the host has room for a child a command
    line and every program named in the file is found, [read_file]
    launches every command line of a text file of plain lines once, in
    order, given turns enough: the table it returns holds the pids of the
    lines that started, all positive, and these children have not been
    waited for. *)
Theorem read_file_returns (live : Z -> world -> Prop)
    (room : nat -> world -> Prop) turns file_path lines blk s :
  procfs_tracks live -> launch_tracks live room ->
  Forall plain lines ->
  read_timer (head lines) <> None ->
  Forall found (command_lines lines) ->
  room (length (command_lines lines)) (st_world s) ->
  (length (command_lines lines) <= turns)%nat ->
  exists launches junk t s',
    read_file turns file_path
      (Some {| d_bytes := text lines; d_blksize := blk |}) s
    = Ret (Some (table_of (started launches) junk)) s'
    /\ length launches = length (command_lines lines)
    /\ Forall (fun pid => 0 < pid <= CInt.INT_MAX) (started launches)
    /\ Forall (fun pid => live pid (st_world s')) (started launches)
    /\ traces s s'
         ([EPrint OStartingReport; EPrint (ODate t)]
            ++ launch_blocks 0 (zip (command_lines lines) launches)).
Proof.
  intros Ht Hl Hplain Htimer Hfound Hroom Hturns.
  pose proof (read_file_parent live room Ht Hl turns file_path lines blk s
                Hplain Htimer Hfound Hroom) as R.
  destruct (read_file turns file_path _ s) as [r s' | | | |];
    try contradiction; [| lia].
  destruct R as (launches & junk & t & -> & Hlen & T & Hlive & Hpos).
  exists launches, junk, t, s'. auto.
Qed.


(** [report_loop] leaves only by [exit]. *)
Lemma report_loop_no_return intervals polls pids full : forall counters s v s',
  report_loop intervals polls pids counters full s <> Ret v s'.
Proof.
  induction intervals as [| intervals IH]; intros counters s v s' H;
    [discriminate H |].
  cbn [report_loop] in H. apply bind_inv in H as (c' & s1 & _ & H).
  exact (IH _ _ _ _ H).
Qed.

Lemma read_file_some turns file_path d s r s' :
  read_file turns file_path (Some d) s = Ret r s' -> exists tbl, r = Some tbl.
Proof.
  unfold read_file. intros H.
  apply bind_inv in H as (? & ? & _ & H).
  apply bind_inv in H as (? & ? & _ & H).
  apply bind_inv in H as ([line0 fptr0] & ? & _ & H).
  apply bind_inv in H as ([timer line] & ? & _ & H).
  apply bind_inv in H as (? & ? & _ & H).
  apply bind_inv in H as ([line1 fptr1] & ? & _ & H).
  apply bind_inv in H as ([pids index] & ? & _ & H).
  apply bind_inv in H as (tbl & ? & _ & H).
  injection H as <- _. exists tbl. reflexivity.
Qed.

(** X23.  [main] returns only when the input file cannot be opened: it
    then returns 1, having printed the not-found message and done nothing
    else.  With a file it leaves by [exit] alone. *)
Theorem main_returns_only_without_file turns intervals polls file_path :
  (forall s,
      exists s',
        main turns intervals polls file_path None s = Ret 1 s'
        /\ st_trace s' = st_trace s ++ [EPrint (ONotFound file_path)]
        /\ st_world s' = st_world s)
  /\ (forall file s v s',
        main turns intervals polls file_path file s = Ret v s' ->
        file = None /\ v = 1).
Proof.
  split.
  - intros s. eexists. split; [reflexivity |]. split; reflexivity.
  - intros file s v s' H. destruct file as [d |].
    + exfalso. unfold main in H.
      apply bind_inv in H as (? & s0 & _ & H).
      apply bind_inv in H as (r & s1 & Hr & H).
      destruct (read_file_some _ _ _ _ _ _ Hr) as (tbl & ->).
      apply bind_inv in H as (? & ? & _ & H).
      apply bind_inv in H as (? & ? & _ & H).
      apply bind_inv in H as (? & ? & _ & H).
      apply bind_inv in H as (? & ? & H & _).
      unfold periodic_reports in H.
      apply bind_inv in H as (? & ? & _ & H).
      apply bind_inv in H as (? & ? & _ & H).
      apply bind_inv in H as (? & ? & _ & H).
      exact (report_loop_no_return _ _ _ _ _ _ _ _ H).
    + split; [reflexivity |]. cbn in H. injection H as <- _. reflexivity.
Qed.

End Main.


(** ** The dates of the reports *)

Lemma spaced_weaken dates : forall lo lo',
  lo' <= lo -> spaced lo dates -> spaced lo' dates.
Proof.
  destruct dates as [| d rest]; intros lo lo' H; [auto |].
  cbn [spaced]. intros (Hd & Hr). split; [lia | exact Hr].
Qed.

Lemma report_dates_skip X : forall Y,
  no_report X -> report_dates (X ++ Y) = report_dates Y.
Proof.
  induction X as [| e X IH]; intros Y H; [reflexivity |].
  assert (He : e <> EPrint ONormalReport) by (intros ->; apply H; left; reflexivity).
  assert (HX : no_report X) by (intros F; apply H; right; exact F).
  cbn [app report_dates].
  destruct e as [| | | | o]; try (apply IH; exact HX).
  destruct o; try (apply IH; exact HX). contradiction.
Qed.

Lemma report_blocks_no_report index : forall polls,
  no_report (report_blocks index polls).
Proof.
  intros polls. revert index.
  induction polls as [| [pid o] polls IH]; intros index H; [exact H |].
  cbn [report_blocks] in H. apply in_app_or in H as [H | H].
  - destruct o; cbn in H; repeat (destruct H as [H | H]; [discriminate H |]);
      exact H.
  - exact (IH _ H).
Qed.

Lemma termination_blocks_no_report index : forall polls,
  no_report (termination_blocks index polls).
Proof.
  intros polls. revert index.
  induction polls as [| [pid r] polls IH]; intros index H; [exact H |].
  cbn [termination_blocks] in H. apply in_app_or in H as [H | H].
  - unfold termination_block in H. destruct (r =? 0); cbn in H;
      repeat (destruct H as [H | H]; [discriminate H |]); exact H.
  - exact (IH _ H).
Qed.

Section Clock.

Context {os : OS}.

(** The clock that [time(NULL)] reads; it is never set back. *)
Variable clock : world -> Z.

Hypothesis time_reads :
  forall w, fst (sys_time w) = clock w /\ clock w <= clock (snd (sys_time w)).
Hypothesis waitpid_keeps :
  forall pid w, clock w <= clock (snd (sys_waitpid pid w)).
Hypothesis sigint_keeps :
  forall w, clock w <= clock (snd (sys_sigint w)).

Lemma interrupts_later s a s' : interrupts s = Ret a s' -> later clock s s'.
Proof.
  unfold interrupts, later. destruct (handler_registered s).
  - pose proof (sigint_keeps (st_world s)) as K.
    destruct (sys_sigint (st_world s)) as [[] w]; cbn [snd] in K;
      intros [= _ <-]; exact K.
  - intros [= _ <-]. lia.
Qed.

Lemma time_clock s t s' :
  time_ s = Ret t s' -> t = clock (st_world s) /\ later clock s s'.
Proof.
  unfold time_. pose proof (time_reads (st_world s)) as (Ht & K).
  destruct (sys_time (st_world s)) as [t0 w]. cbn [fst snd] in Ht, K.
  intros H. apply bind_inv in H as ([] & s1 & Hi & [= <- <-]).
  apply interrupts_later in Hi. unfold later in *. cbn in Hi.
  split; [exact Ht | lia].
Qed.

Lemma waitpid_later pid s r s' :
  waitpid_ pid s = Ret r s' -> later clock s s'.
Proof.
  unfold waitpid_. pose proof (waitpid_keeps pid (st_world s)) as K.
  destruct (sys_waitpid pid (st_world s)) as [r0 w]. cbn [snd] in K.
  intros H. apply bind_inv in H as ([] & s1 & Hl & H).
  apply bind_inv in H as ([] & s2 & Hi & [= <- <-]).
  apply interrupts_later in Hi. unfold log in Hl. injection Hl as <-.
  unfold later in *. cbn in Hi. lia.
Qed.

Lemma fopen_later path s r s' :
  fopen_ path s = Ret r s' -> later clock s s'.
Proof.
  unfold fopen_. intros H. apply bind_inv in H as ([] & s1 & Hi & [= _ <-]).
  exact (interrupts_later _ _ _ Hi).
Qed.

Lemma print_later o s a s' : print o s = Ret a s' -> later clock s s'.
Proof. unfold print, log, later. intros [= _ <-]. cbn. lia. Qed.

Lemma later_trans s s1 s2 :
  later clock s s1 -> later clock s1 s2 -> later clock s s2.
Proof. unfold later. lia. Qed.

Lemma later_refl s : later clock s s.
Proof. unfold later. lia. Qed.

Lemma get_cpu_usage_later pid s v s' :
  get_cpu_usage pid s = Ret v s' -> later clock s s'.
Proof.
  unfold get_cpu_usage. intros H.
  apply bind_inv in H as (path & sp & Hpath & H).
  assert (sp = s) as ->
    by (unfold defined in Hpath; destruct (proc_path pid _ _);
        [now injection Hpath | discriminate Hpath]).
  apply bind_inv in H as (? & s0 & H0 & H).
  assert (s0 = s) as -> by (destruct (pid =? 0); [discriminate H0 | now injection H0]).
  apply bind_inv in H as (fptr & s1 & Ho & H).
  apply fopen_later in Ho. destruct fptr.
  - injection H; intros; subst. exact Ho.
  - apply bind_inv in H as (? & s2 & Hc & [= _ <-]).
    unfold fclose_null in Hc. destruct fclose_null_returns; [| discriminate Hc].
    injection Hc; intros; subst. exact Ho.
Qed.

Lemma get_mem_usage_later pid s v s' :
  get_mem_usage pid s = Ret v s' -> later clock s s'.
Proof.
  unfold get_mem_usage. intros H.
  apply bind_inv in H as (path & sp & Hpath & H).
  assert (sp = s) as ->
    by (unfold defined in Hpath; destruct (proc_path pid _ _);
        [now injection Hpath | discriminate Hpath]).
  apply bind_inv in H as (? & s0 & H0 & H).
  assert (s0 = s) as -> by (destruct (pid =? 0); [discriminate H0 | now injection H0]).
  apply bind_inv in H as (fptr & s1 & Ho & H).
  apply fopen_later in Ho. destruct fptr as [content |].
  - unfold defined in H. destruct (mem_of_statm content); [| discriminate H].
    injection H; intros; subst. exact Ho.
  - apply bind_inv in H as (? & s2 & Hc & [= _ <-]).
    unfold fclose_null in Hc. destruct fclose_null_returns; [| discriminate Hc].
    injection Hc; intros; subst. exact Ho.
Qed.

Lemma load_state (a : table) i s v s' : load a i s = Ret v s' -> s' = s.
Proof.
  unfold load. destruct (a !! i) as [[w |] |]; try discriminate.
  now intros [= _ <-].
Qed.

Lemma store_state (a : table) i v s a' s' : store a i v s = Ret a' s' -> s' = s.
Proof.
  unfold store. destruct (i <? length a)%nat; [| discriminate].
  now intros [= _ <-].
Qed.

Lemma int_divide_state a b s v s' : int_divide a b s = Ret v s' -> s' = s.
Proof.
  unfold int_divide. destruct (b =? 0); [discriminate |].
  destruct (_ && _); [discriminate |]. now intros [= _ <-].
Qed.

Lemma poll_process_later pid index counters full done s r s' :
  poll_process pid index counters full done s = Ret r s' -> later clock s s'.
Proof.
  unfold poll_process. intros H.
  apply bind_inv in H as (res & s1 & Hw & H). apply waitpid_later in Hw.
  destruct (res =? 0).
  - apply bind_inv in H as (cpu & s2 & Hc & H). apply get_cpu_usage_later in Hc.
    apply bind_inv in H as (prev & s3 & Hl & H). apply load_state in Hl as ->.
    apply bind_inv in H as (mem & s4 & Hm & H). apply get_mem_usage_later in Hm.
    apply bind_inv in H as (pc & s5 & Hd & H). apply int_divide_state in Hd as ->.
    apply bind_inv in H as (c1 & s6 & Hs & H). apply store_state in Hs as ->.
    apply bind_inv in H as (? & s7 & Hp & [= _ <-]).
    unfold display_proc_state in Hp. apply print_later in Hp.
    eauto using later_trans.
  - apply bind_inv in H as (? & s2 & Hp & [= _ <-]). apply print_later in Hp.
    eauto using later_trans.
Qed.

Lemma pass_loop_later rest : forall index counters full done s r s',
  pass_loop rest index counters full done s = Ret r s' -> later clock s s'.
Proof.
  induction rest as [| cell rest IH]; intros index counters full done s r s' H;
    [discriminate H |].
  destruct cell as [pid |]; [| discriminate H]. cbn [pass_loop] in H.
  destruct (pid =? -1).
  - injection H as _ <-. apply later_refl.
  - apply bind_inv in H as ([c1 d1] & s1 & Hp & H).
    apply poll_process_later in Hp. apply IH in H. eauto using later_trans.
Qed.

(** The Termination Handler on a process table: it exits, and no report
    begins among its events. *)
Lemma terminate_program_events {A} ps junk elapsed s :
  ~ In (-1) ps ->
  exists s' X,
    terminate_program (A := A) (table_of ps junk) elapsed s = Exited 0 s'
    /\ runs s s' X /\ no_report X.
Proof.
  intros Hno. unfold terminate_program.
  destruct (print_runs OTerminating s ltac:(discriminate))
    as (s1 & H1 & R1 & _).
  destruct (display_date_runs s1) as (t & s2 & H2 & R2).
  destruct (terminate_loop_runs ps junk O s2 Hno) as (rs & s3 & _ & H3 & R3).
  destruct (print_runs (OExiting (CInt.of_double elapsed)) s3
              ltac:(discriminate)) as (s4 & H4 & R4 & _).
  rewrite (bind_Ret _ _ _ _ _ H1), (bind_Ret _ _ _ _ _ H2),
    (bind_Ret _ _ _ _ _ H3), (bind_Ret _ _ _ _ _ H4).
  eexists s4, _. split; [reflexivity |]. split.
  - exact (runs_trans _ _ _ _ _ R1
             (runs_trans _ _ _ _ _ R2 (runs_trans _ _ _ _ _ R3 R4))).
  - intros H. cbn [app] in H. destruct H as [H | [H | H]]; try discriminate H.
    apply in_app_or in H as [H | [H | []]]; [| discriminate H].
    exact (termination_blocks_no_report _ _ H).
Qed.

(** The waiting loop returns only when five seconds have passed on the
    clock; otherwise the program ends in it. *)
Lemma wait_loop_clock ps junk polls : forall t current_time s,
  ~ In (-1) ps ->
  current_time <= clock (st_world s) ->
  match wait_loop polls (table_of ps junk) t current_time s with
  | Ret _ s' => runs s s' [] /\ t + 5 <= clock (st_world s')
  | Exited _ s' => exists X, runs s s' X /\ no_report X
  | Exec _ | Fault _ | Spin _ => True
  end.
Proof.
  induction polls as [| polls IH]; intros t current_time s Hno Hct; [exact I |].
  cbn [wait_loop]. destruct (Z.ltb_spec (current_time - t) 5) as [Hlt | Hge].
  2:{ split; [apply runs_refl | lia]. }
  destruct (time_runs s) as (now & s1 & Ht & R1).
  destruct (time_clock _ _ _ Ht) as (Hnow & L1).
  rewrite (bind_Ret _ _ _ _ _ Ht).
  rewrite (bind_Ret (check_timer now) _ s1 _ s1 eq_refl).
  destruct (stop_condition s1 now =? 1).
  - rewrite (bind_congr
               (bind (get START_TIME)
                  (fun start => terminate_program (table_of ps junk) (now - start)))
               (terminate_program (table_of ps junk) (now - START_TIME s1))
               _ s1 eq_refl).
    rewrite terminate_program_ends.
    destruct (terminate_program_events (A := unit) ps junk
                (now - START_TIME s1) s1 Hno) as (s2 & X & -> & R2 & Hx).
    exists X. split; [exact (runs_trans _ _ _ _ _ R1 R2) | exact Hx].
  - rewrite (bind_Ret _ _ s1 tt s1 eq_refl).
    specialize (IH t now s1 Hno ltac:(unfold later in L1; lia)).
    destruct (wait_loop polls (table_of ps junk) t now s1); auto.
    + destruct IH as (R2 & Hc). split; [| exact Hc].
      exact (runs_trans _ _ _ _ _ R1 R2).
    + destruct IH as (X & R2 & Hx). exists X.
      split; [exact (runs_trans _ _ _ _ _ R1 R2) | exact Hx].
Qed.

(** The banner of a report carries the reading of the clock. *)
Lemma banner_clock s :
  exists s1,
    bind (print ODots)
      (fun _ => bind (print ONormalReport) (fun _ => display_date)) s
    = Ret tt s1
    /\ runs s s1 [EPrint ODots; EPrint ONormalReport;
                  EPrint (ODate (clock (st_world s)))]
    /\ later clock s s1.
Proof.
  destruct (print_runs ODots s ltac:(discriminate)) as (s1 & H1 & R1 & W1 & _).
  destruct (print_runs ONormalReport s1 ltac:(discriminate))
    as (s2 & H2 & R2 & W2 & _).
  unfold display_date.
  destruct (time_runs s2) as (t & s3 & Ht & R3).
  destruct (time_clock _ _ _ Ht) as (-> & L3).
  destruct (print_runs (ODate (clock (st_world s2))) s3 ltac:(discriminate))
    as (s4 & H4 & R4 & W4 & _).
  exists s4. rewrite (bind_Ret _ _ _ _ _ H1), (bind_Ret _ _ _ _ _ H2).
  rewrite (bind_Ret _ _ _ _ _ Ht). split; [exact H4 |].
  assert (Ew : st_world s2 = st_world s) by congruence.
  rewrite <- Ew. split.
  - change [EPrint ODots; EPrint ONormalReport;
            EPrint (ODate (clock (st_world s2)))]
      with ([EPrint ODots] ++ [EPrint ONormalReport] ++ []
              ++ [EPrint (ODate (clock (st_world s2)))]).
    eauto using runs_trans.
  - unfold later in *. rewrite W4, <- Ew. exact L3.
Qed.

(** One turn of the loop: its report is dated by the clock, and when the
    turn returns five seconds have passed since. *)
Lemma interval_report polls pids counters full s :
  match interval polls pids counters full s with
  | Ret _ s' =>
      exists Y,
        runs s s' ([EPrint ODots; EPrint ONormalReport;
                    EPrint (ODate (clock (st_world s)))] ++ Y)
        /\ no_report Y
        /\ clock (st_world s) + 5 <= clock (st_world s')
  | Exited _ s' =>
      exists Y,
        runs s s' ([EPrint ODots; EPrint ONormalReport;
                    EPrint (ODate (clock (st_world s)))] ++ Y)
        /\ no_report Y
  | Exec _ | Fault _ | Spin _ => True
  end.
Proof.
  destruct (banner_clock s) as (s1 & Hb & R1 & L1).
  rewrite (interval_unfold _ _ _ _ _ _ Hb).
  destruct (pass_loop_runs pids O counters full 1 s1)
    as [(ps & junk & outcomes & c' & s2 & -> & Hno & Hlen & Hp & R2)
       | (s2 & Hp)];
    [rewrite (bind_Ret _ _ _ _ _ Hp) | now rewrite (bind_Fault _ _ _ _ Hp)].
  pose proof (pass_loop_later _ _ _ _ _ _ _ _ Hp) as L2.
  cbv iota beta.
  pose proof (report_blocks_no_report 0 (zip ps outcomes)) as N2.
  destruct (forallb is_gone outcomes).
  - change (1 =? 1) with true. cbv iota.
    destruct (time_runs s2) as (now & s3 & Ht & R3).
    destruct (print_runs (OExitingDots (CInt.of_double (now - START_TIME s3)))
                s3 ltac:(discriminate)) as (s4 & H4 & R4 & _).
    erewrite bind_Exited; cycle 1.
    { rewrite (bind_Ret _ _ _ _ _ Ht).
      rewrite (bind_Ret (get START_TIME) _ s3 _ s3 eq_refl).
      rewrite (bind_Ret _ _ _ _ _ H4). reflexivity. }
    eexists. split.
    + exact (runs_trans _ _ _ _ _ R1
               (runs_trans _ _ _ _ _ R2 (runs_trans _ _ _ _ _ R3 R4))).
    + intros H. apply in_app_or in H as [H | [H | []]]; [| discriminate H].
      exact (N2 H).
  - change (0 =? 1) with false. cbv iota.
    rewrite (bind_Ret (ret tt) _ s2 tt s2 eq_refl).
    destruct (print_runs ODots s2 ltac:(discriminate)) as (s3 & H3 & R3 & W3 & _).
    rewrite (bind_Ret _ _ _ _ _ H3).
    destruct (time_runs s3) as (t & s4 & Ht & R4).
    destruct (time_clock _ _ _ Ht) as (Et & L4).
    rewrite (bind_Ret _ _ _ _ _ Ht).
    pose proof (wait_loop_clock ps junk polls t t s4 Hno
                  ltac:(unfold later in L4; lia)) as W.
    assert (Hclock : clock (st_world s) <= t).
    { unfold later in *. rewrite Et, W3. lia. }
    unfold bind at 1.
    destruct (wait_loop polls (table_of ps junk) t t s4) as [[] s5 | | | |];
      auto.
    + destruct W as (R5 & Hc). eexists. split; [| split].
      * exact (runs_trans _ _ _ _ _ R1
                 (runs_trans _ _ _ _ _ R2
                    (runs_trans _ _ _ _ _ R3 (runs_trans _ _ _ _ _ R4 R5)))).
      * intros H. apply in_app_or in H as [H | [H | H]];
          [exact (N2 H) | discriminate H | exact H].
      * cbn. lia.
    + destruct W as (X & R5 & Hx). eexists. split.
      * exact (runs_trans _ _ _ _ _ R1
                 (runs_trans _ _ _ _ _ R2
                    (runs_trans _ _ _ _ _ R3 (runs_trans _ _ _ _ _ R4 R5)))).
      * intros H. apply in_app_or in H as [H | [H | H]];
          [exact (N2 H) | discriminate H |].
        cbn [app] in H. exact (Hx H).
Qed.

Lemma report_dates_banner t Y Z :
  no_report Y ->
  report_dates (([EPrint ODots; EPrint ONormalReport; EPrint (ODate t)] ++ Y) ++ Z)
  = t :: report_dates Z.
Proof.
  intros H. cbn [app report_dates]. f_equal. apply report_dates_skip. exact H.
Qed.

(** The reports of a run of the loop that ends by [exit]. *)
Lemma report_loop_spaced intervals polls pids full : forall counters s code s',
  report_loop intervals polls pids counters full s = Exited code s' ->
  exists X, runs s s' X /\ spaced (clock (st_world s)) (report_dates X).
Proof.
  induction intervals as [| intervals IH]; intros counters s code s' H;
    [discriminate H |].
  cbn [report_loop] in H. unfold bind in H.
  pose proof (interval_report polls pids counters full s) as C.
  destruct (interval polls pids counters full s) as [c' s1 | c1 s1 | | |];
    try discriminate H.
  - destruct C as (Y & R1 & Hy & Hc).
    destruct (IH c' s1 code s' H) as (X & R2 & Hs).
    eexists. split; [exact (runs_trans _ _ _ _ _ R1 R2) |].
    rewrite report_dates_banner by exact Hy. cbn [spaced].
    split; [lia |]. eapply spaced_weaken; [| exact Hs]. lia.
  - injection H as -> ->. destruct C as (Y & R1 & Hy).
    eexists. split; [exact R1 |].
    rewrite <- (app_nil_r (_ ++ Y)). rewrite report_dates_banner by exact Hy.
    cbn. lia.
Qed.

Lemma init_loop_later count : forall i pids counters s c' s',
  init_loop count i pids counters s = Ret c' s' -> later clock s s'.
Proof.
  induction count as [| count IH]; intros i pids counters s c' s' H.
  - injection H as _ <-. apply later_refl.
  - cbn [init_loop] in H.
    apply bind_inv in H as (pid & s1 & Hl & H). apply load_state in Hl as ->.
    apply bind_inv in H as (cpu & s2 & Hc & H). apply get_cpu_usage_later in Hc.
    apply bind_inv in H as (c1 & s3 & Hs & H). apply store_state in Hs as ->.
    apply bind_inv in H as (c2 & s4 & Hs & H).
    assert (s4 = s2) as ->.
    { destruct (cpu <? 0); [exact (store_state _ _ _ _ _ _ Hs) |].
      now injection Hs. }
    apply IH in H. eauto using later_trans.
Qed.

Lemma len_loop_state rest : forall len s n s',
  len_loop rest len s = Ret n s' -> s' = s.
Proof.
  induction rest as [| cell rest IH]; intros len s n s' H; [discriminate H |].
  destruct cell as [pid |]; [| discriminate H]. cbn [len_loop] in H.
  destruct (pid =? -1); [now injection H | exact (IH _ _ _ _ H)].
Qed.

Lemma init_loop_quiet count : forall i pids counters s c' s',
  init_loop count i pids counters s = Ret c' s' -> runs s s' [].
Proof.
  induction count as [| count IH]; intros i pids counters s c' s' H.
  - injection H as _ <-. apply runs_refl.
  - cbn [init_loop] in H.
    apply bind_inv in H as (pid & s1 & Hl & H). apply load_state in Hl as ->.
    apply bind_inv in H as (cpu & s2 & Hc & H).
    apply bind_inv in H as (c1 & s3 & Hs & H). apply store_state in Hs as ->.
    apply bind_inv in H as (c2 & s4 & Hs & H).
    assert (s4 = s2) as ->.
    { destruct (cpu <? 0); [exact (store_state _ _ _ _ _ _ Hs) |].
      now injection Hs. }
    apply IH in H.
    destruct (get_cpu_usage_runs pid s) as [(v & s0 & E & R) | (s0 & E)];
      rewrite E in Hc; [| discriminate Hc].
    injection Hc as _ <-. exact (runs_trans _ _ _ _ _ R H).
Qed.

Lemma bind_exits {A B} (m : M A) (k : A -> M B) s code s' :
  bind m k s = Exited code s' ->
  m s = Exited code s'
  \/ exists a s1, m s = Ret a s1 /\ k a s1 = Exited code s'.
Proof.
  unfold bind. destruct (m s) as [a s1 | c s1 | | |]; try discriminate.
  - intros H. right. exists a, s1. split; [reflexivity | exact H].
  - intros [= -> ->]. left. reflexivity.
Qed.

Lemma len_loop_no_exit rest : forall len s code s',
  len_loop rest len s <> Exited code s'.
Proof.
  induction rest as [| cell rest IH]; intros len s code s'; [discriminate |].
  destruct cell as [pid |]; [| discriminate]. cbn [len_loop].
  destruct (pid =? -1); [discriminate | apply IH].
Qed.

Lemma load_no_exit (a : table) i s code s' : load a i s <> Exited code s'.
Proof. unfold load. destruct (a !! i) as [[w |] |]; discriminate. Qed.

Lemma store_no_exit (a : table) i v s code s' :
  store a i v s <> Exited code s'.
Proof. unfold store. destruct (i <? length a)%nat; discriminate. Qed.

Lemma get_cpu_usage_no_exit pid s code s' :
  get_cpu_usage pid s <> Exited code s'.
Proof.
  destruct (get_cpu_usage_runs pid s) as [(v & s0 & E & _) | (s0 & E)];
    rewrite E; discriminate.
Qed.

Lemma init_loop_no_exit count : forall i pids counters s code s',
  init_loop count i pids counters s <> Exited code s'.
Proof.
  induction count as [| count IH]; intros i pids counters s code s' H;
    [discriminate H |].
  cbn [init_loop] in H.
  apply bind_exits in H as [H | (pid & s1 & _ & H)];
    [exact (load_no_exit _ _ _ _ _ H) |].
  apply bind_exits in H as [H | (cpu & s2 & _ & H)];
    [exact (get_cpu_usage_no_exit _ _ _ _ H) |].
  apply bind_exits in H as [H | (c1 & s3 & _ & H)];
    [exact (store_no_exit _ _ _ _ _ _ H) |].
  apply bind_exits in H as [H | (c2 & s4 & _ & H)]; [| exact (IH _ _ _ _ _ _ H)].
  destruct (cpu <? 0); [exact (store_no_exit _ _ _ _ _ _ H) | discriminate H].
Qed.

(** X26.  Reports are at least five seconds apart.  On a host whose
    [time(NULL)] reads a clock that is never set back, in every run of
    [periodic_reports] that ends by [exit] each "Normal report" carries a
    date at least five seconds after the date of the report before it, and
    the first is not dated before the call. *)
Theorem reports_are_five_seconds_apart intervals polls pids s :
  match periodic_reports intervals polls pids s with
  | Exited _ s' =>
      exists X, runs s s' X /\ spaced (clock (st_world s)) (report_dates X)
  | Ret _ _ | Exec _ | Fault _ | Spin _ => True
  end.
Proof.
  destruct (periodic_reports intervals polls pids s) as [| code s' | | |] eqn:H;
    try exact I.
  unfold periodic_reports in H. unfold bind in H at 1.
  destruct (len_pids pids s) as [n s0 | c0 s0 | | |] eqn:Hn;
    try discriminate H; [| destruct (len_loop_no_exit _ _ _ _ _ Hn)].
  apply len_loop_state in Hn as ->.
  unfold bind in H at 1.
  destruct (initialize_cpu_counters pids n s) as [counters s1 | c1 s1 | | |]
    eqn:Hi; try discriminate H; [| destruct (init_loop_no_exit _ _ _ _ _ _ _ Hi)].
  unfold initialize_cpu_counters in Hi.
  pose proof (init_loop_later _ _ _ _ _ _ _ Hi) as L.
  pose proof (init_loop_quiet _ _ _ _ _ _ _ Hi) as R.
  rewrite (bind_Ret (get (fun s => sys_clk_tck (st_world s))) _ s1 _ s1 eq_refl)
    in H.
  apply report_loop_spaced in H as (X & R' & Hs).
  exists X. split; [exact (runs_trans _ _ _ _ _ R R') |].
  eapply spaced_weaken; [| exact Hs]. exact L.
Qed.

End Clock.

(** ** The round trip on the array returned *)

(** On an array whose bytes were all written, the parser reads on to the
    first NUL, and behind the end when there is none. *)
Lemma convert_loop_buffer_written (str : cstring) : forall tail total,
  Forall (fun c => Ascii.eqb c NUL = false) str ->
  Forall (fun c => In c (lit "0123456789")) str ->
  convert_loop_buffer ((Some <$> str) ++ tail) total
  = convert_loop_buffer tail (convert_loop str total).
Proof.
  induction str as [| c str IH]; intros tail total Hnul Hdec.
  { destruct tail; reflexivity. }
  inversion Hnul as [| ? ? Hc Hnul']; subst.
  inversion Hdec as [| ? ? Hd Hdec']; subst.
  cbn [fmap list_fmap app convert_loop_buffer convert_loop]. rewrite Hc.
  assert (Hs : (switch_digit c =? -1) = false).
  { apply Z.eqb_neq. cbn in Hd.
    repeat (destruct Hd as [<- | Hd]; [discriminate |]). destruct Hd. }
  rewrite Hs. apply IH; assumption.
Qed.

(** C10, as the code has it.  [convert_int_to_string] returns, for [i > 0],
    an array of exactly [get_num_digits(i)] bytes that holds the decimal
    digits of [i] and no NUL.  [convert_str_to_int] reads such an array up
    to a NUL: given the array as returned it reads the byte behind its end.
    The digits themselves are right: terminated by a NUL they parse back to
    [i], and ["0"], a string literal, parses to 0.  Parsing yields [-1] for
    every C string that contains a character other than a decimal digit. *)
Theorem round_trip_reads_behind_the_digits :
  (forall i, 0 < i <= CInt.INT_MAX ->
      convert_int_to_string i = Some <$> int_digits i
      /\ Z.of_nat (length (convert_int_to_string i)) = get_num_digits i
      /\ ~ In (Some NUL) (convert_int_to_string i)
      /\ convert_str_to_int_buffer (convert_int_to_string i) = None
      /\ convert_str_to_int_buffer (convert_int_to_string i ++ [Some NUL])
         = Some i)
  /\ convert_str_to_int_buffer (convert_int_to_string 0) = Some 0
  /\ (forall str c, In c str -> ~ In c (lit "0123456789") -> ~ In NUL str ->
        convert_str_to_int str = -1).
Proof.
  split; [| split; [reflexivity |]].
  - intros i Hi.
    pose proof (convert_int_to_string_digits i Hi) as E.
    pose proof (int_digits_no_nul i Hi) as Hnul.
    pose proof (int_digits_decimal i ltac:(lia)) as Hdec.
    destruct (int_digits_length i Hi) as (Hlen & _).
    assert (Hrt : convert_loop (int_digits i) 0 = i).
    { rewrite int_digits_pos by lia.
      rewrite <- (app_nil_r (rev _)).
      rewrite convert_loop_digits; [reflexivity | lia |].
      apply digit_fuel_enough. lia. }
    rewrite E. split; [reflexivity |].
    split; [rewrite length_fmap; lia |]. split; [| split].
    + intros F. apply in_map_iff in F as (c & Hc & Hin).
      injection Hc as ->. rewrite List.Forall_forall in Hnul.
      specialize (Hnul _ Hin). discriminate Hnul.
    + unfold convert_str_to_int_buffer.
      rewrite <- (app_nil_r (Some <$> _)).
      now rewrite convert_loop_buffer_written.
    + unfold convert_str_to_int_buffer.
      rewrite convert_loop_buffer_written by assumption.
      cbn. now rewrite Hrt.
  - intros str c Hin Hc Hnul. unfold convert_str_to_int.
    now apply (convert_loop_non_digit str c).
Qed.


(** ** The CPU percentage from report to report *)

Section Percent.

Context {os : OS}.

(** What a poll that returns has done. *)
Lemma poll_process_inv pid index counters full done s c' d' s' :
  poll_process pid index counters full done s = Ret (c', d') s' ->
  (exists r s1,
      waitpid_ pid s = Ret r s1 /\ r <> 0 /\ c' = counters /\ d' = done
      /\ print (OExited (Z.of_nat index)) s1 = Ret tt s')
  \/ (exists s1 s2 s3 cpu mem previous,
        waitpid_ pid s = Ret 0 s1
        /\ get_cpu_usage pid s1 = Ret cpu s2
        /\ counters !! index = Some (Some previous)
        /\ get_mem_usage pid s2 = Ret mem s3
        /\ c' = <[index := Some cpu]> counters /\ d' = 0
        /\ print (ORunning (Z.of_nat index)
                    (Z.quot (CInt.mul (CInt.sub cpu previous) 100) full) mem)
             s3 = Ret tt s').
Proof.
  unfold poll_process. intros H.
  apply bind_inv in H as (r & s1 & Hw & H).
  destruct (Z.eqb_spec r 0) as [-> | Hr].
  - right. apply bind_inv in H as (cpu & s2 & Hc & H).
    apply bind_inv in H as (previous & s3 & Hl & H).
    assert (s3 = s2 /\ counters !! index = Some (Some previous)) as (-> & Hl').
    { unfold load in Hl. destruct (counters !! index) as [[v |] |];
        try discriminate Hl. now injection Hl as -> ->. }
    apply bind_inv in H as (mem & s4 & Hm & H).
    apply bind_inv in H as (pc & s5 & Hd & H).
    assert (s5 = s4 /\ pc = Z.quot (CInt.mul (CInt.sub cpu previous) 100) full)
      as (-> & ->).
    { destruct (int_divide_cases (CInt.mul (CInt.sub cpu previous) 100) full s4)
        as [E | E]; rewrite E in Hd; [| discriminate Hd].
      now injection Hd as <- <-. }
    apply bind_inv in H as (c1 & s6 & Hs & H).
    assert (s6 = s4 /\ c1 = <[index := Some cpu]> counters) as (-> & ->).
    { destruct (store_cases counters index cpu s4) as [(_ & E) | E];
        rewrite E in Hs; [| discriminate Hs]. now injection Hs as <- <-. }
    apply bind_inv in H as ([] & s7 & Hp & H). injection H as <- <- <-.
    exists s1, s2, s4, cpu, mem, previous. auto 10.
  - left. apply bind_inv in H as ([] & s2 & Hp & H). injection H as <- <- <-.
    exists r, s1. auto.
Qed.

(** A pass that returns has polled every process of the table once, each
    against its own stored ticks. *)
Lemma pass_loop_accounts ps :
  forall junk index counters full done s c' d' s',
    ~ In (-1) ps ->
    pass_loop (table_of ps junk) index counters full done s = Ret (c', d') s' ->
    exists outcomes,
      length outcomes = length ps
      /\ runs s s' (report_blocks index (zip ps outcomes))
      /\ d' = (if forallb is_gone outcomes then done else 0)
      /\ length c' = length counters
      /\ (forall j, (j < index)%nat -> c' !! j = counters !! j)
      /\ (forall k pid o,
            ps !! k = Some pid -> outcomes !! k = Some o ->
            accounted pid (index + k) counters c' full o).
Proof.
  induction ps as [| pid ps IH];
    intros junk index counters full done s c' d' s' Hno H.
  { cbn in H. injection H as <- <- <-. exists [].
    repeat split; auto; try apply runs_refl. intros k pid o Hk. discriminate Hk. }
  change (table_of (pid :: ps) junk) with (Some pid :: table_of ps junk) in H.
  cbn [pass_loop] in H.
  destruct (Z.eqb_spec pid (-1)) as [-> | Hpid];
    [exfalso; apply Hno; now left |].
  apply bind_inv in H as ([c1 d1] & s1 & Hp & H).
  assert (Hno' : ~ In (-1) ps) by (intros F; apply Hno; now right).
  destruct (IH junk (S index) c1 full d1 s1 c' d' s' Hno' H)
    as (outcomes & Hlen & R & Hd & Hlc & Hold & Hacc).
  destruct (poll_process_inv _ _ _ _ _ _ _ _ _ Hp)
    as [(r & s0 & Hw & Hr & -> & -> & Hpr)
       | (s0 & s2 & s3 & cpu & mem & previous & Hw & Hc & Hl & Hm & -> & -> & Hpr)].
  - exists (Gone r :: outcomes).
    split; [simpl; lia |]. split; [| split; [exact Hd |]].
    { destruct (waitpid_runs pid s) as (r' & s0' & Hw' & R0).
      rewrite Hw in Hw'. injection Hw' as <- <-.
      destruct (print_runs (OExited (Z.of_nat index)) s0 ltac:(discriminate))
        as (s1' & Hpr' & R1 & _).
      rewrite Hpr in Hpr'. injection Hpr' as <-.
      cbn [zip zip_with report_blocks report_block].
      change (runs s s' (([EWaitpid pid r] ++ [EPrint (OExited (Z.of_nat index))])
                           ++ report_blocks (S index) (zip ps outcomes))).
      eauto using runs_trans. }
    split; [exact Hlc |]. split; [intros j Hj; apply Hold; lia |].
    intros [| k] pid' o Hk Ho.
    + injection Hk as <-. injection Ho as <-. rewrite Nat.add_0_r.
      split; [exact Hr | apply Hold; lia].
    + replace (index + S k)%nat with (S index + k)%nat by lia.
      exact (Hacc k pid' o Hk Ho).
  - set (p := Z.quot (CInt.mul (CInt.sub cpu previous) 100) full) in *.
    assert (Hi : (index < length counters)%nat)
      by (apply lookup_lt_Some in Hl; exact Hl).
    exists (Running p mem :: outcomes).
    split; [simpl; lia |].
    split; [| split; [rewrite Hd; cbn; now destruct (forallb _ _) |]].
    { destruct (waitpid_runs pid s) as (r' & s0' & Hw' & R0).
      rewrite Hw in Hw'. injection Hw' as <- <-.
      assert (R1 : runs s0 s2 []).
      { destruct (get_cpu_usage_runs pid s0) as [(v & t & E & R1) | (t & E)];
          rewrite E in Hc; [| discriminate Hc]. now injection Hc as <- <-. }
      assert (R2 : runs s2 s3 []).
      { destruct (get_mem_usage_runs pid s2) as [(v & t & E & R2) | (t & E)];
          rewrite E in Hm; [| discriminate Hm]. now injection Hm as <- <-. }
      destruct (print_runs (ORunning (Z.of_nat index) p mem) s3
                  ltac:(discriminate)) as (s1' & Hpr' & R3 & _).
      rewrite Hpr in Hpr'. injection Hpr' as <-.
      cbn [zip zip_with report_blocks report_block].
      change (runs s s'
                (([EWaitpid pid 0] ++ [] ++ []
                    ++ [EPrint (ORunning (Z.of_nat index) p mem)])
                   ++ report_blocks (S index) (zip ps outcomes))).
      eauto 6 using runs_trans. }
    split; [rewrite Hlc; apply length_insert |].
    split.
    { intros j Hj. rewrite Hold by lia.
      apply list_lookup_insert_ne. lia. }
    intros [| k] pid' o Hk Ho.
    + injection Hk as <-. injection Ho as <-. rewrite Nat.add_0_r.
      exists previous, cpu, s, s0, s2, s3.
      repeat split; auto. rewrite Hold by lia.
      now apply list_lookup_insert_eq.
    + replace (index + S k)%nat with (S index + k)%nat by lia.
      specialize (Hacc k pid' o Hk Ho). unfold accounted in *.
      rewrite list_lookup_insert_ne in Hacc by lia. exact Hacc.
Qed.

(** What [interval] returns is what its pass left. *)
Lemma interval_counters polls pids counters full s c' s' :
  interval polls pids counters full s = Ret c' s' ->
  exists t s0 s1,
    runs s s0 [EPrint ODots; EPrint ONormalReport; EPrint (ODate t)]
    /\ pass_loop pids 0 counters full 1 s0 = Ret (c', 0) s1.
Proof.
  unfold interval. intros H.
  destruct (print_runs ODots s ltac:(discriminate)) as (sa & Ha & Ra & _).
  rewrite (bind_Ret _ _ _ _ _ Ha) in H.
  destruct (print_runs ONormalReport sa ltac:(discriminate))
    as (sb & Hb & Rb & _).
  rewrite (bind_Ret _ _ _ _ _ Hb) in H.
  destruct (display_date_runs sb) as (t & s0 & Hc & Rc).
  rewrite (bind_Ret _ _ _ _ _ Hc) in H.
  apply bind_inv in H as ([c1 d1] & s1 & Hp & H).
  exists t, s0, s1. split.
  { change [EPrint ODots; EPrint ONormalReport; EPrint (ODate t)]
      with ([EPrint ODots] ++ [EPrint ONormalReport] ++ [EPrint (ODate t)]).
    eauto using runs_trans. }
  apply bind_inv in H as ([] & s2 & Hd & H).
  destruct (Z.eqb_spec d1 1) as [-> | Hd1].
  { exfalso. apply bind_inv in Hd as (ct & s3 & _ & Hd).
    apply bind_inv in Hd as (st & s4 & _ & Hd).
    apply bind_inv in Hd as ([] & s5 & _ & Hd). discriminate Hd. }
  apply bind_inv in H as ([] & s3 & _ & H).
  apply bind_inv in H as (t1 & s4 & _ & H).
  apply bind_inv in H as ([] & s5 & _ & H). injection H as <- _.
  assert (d1 = 0) as ->; [| exact Hp].
  destruct (pass_loop_runs pids 0 counters full 1 s0)
    as [(ps & junk & outcomes & c2 & s2' & _ & _ & _ & E & _) | (s2' & E)];
    rewrite E in Hp; [| discriminate Hp].
  injection Hp as _ Hd' _. destruct (forallb is_gone outcomes); congruence.
Qed.

(** C1.  The CPU percentage, from report to report.  [periodic_reports]
    divides by 5 * clockTicksPerSecond, the tick rate being the one the host
    reports, and starts from the counters of [initialize_cpu_counters].  In
    every pass each tracked process is polled once, against its own stored
    ticks: for one whose liveness check answers [0] the line printed
    carries (currentTicks - previousTicks) * 100 / (5 *
    clockTicksPerSecond), computed on [int]s with a division that truncates,
    and currentTicks become its stored ticks; one that is gone keeps its
    stored ticks.  Where the product does not overflow the percentage is
    the exact integer quotient, and nothing clamps it to [0, 100]: twice the
    interval's ticks give 200 or more, a falling counter gives a negative
    value.  The counters a pass leaves are those the next interval starts
    from. *)
Theorem cpu_percent_formula :
  (forall s s1 s2 s3 pid index (counters : table) done clk cpu mem previous,
      waitpid_ pid s = Ret 0 s1 ->
      get_cpu_usage pid s1 = Ret cpu s2 ->
      get_mem_usage pid s2 = Ret mem s3 ->
      counters !! index = Some (Some previous) ->
      0 < 5 * clk <= CInt.INT_MAX ->
      exists s4 cpu_percent,
        poll_process pid index counters (CInt.of_long (5 * clk)) done s
        = Ret (<[index := Some cpu]> counters, 0) s4
        /\ st_trace s4
           = st_trace s3
             ++ [EPrint (ORunning (Z.of_nat index) cpu_percent mem)]
        /\ cpu_percent
           = Z.quot (CInt.mul (CInt.sub cpu previous) 100) (5 * clk)
        /\ (CInt.in_int ((cpu - previous) * 100) ->
            cpu_percent = Z.quot ((cpu - previous) * 100) (5 * clk)
            /\ (2 * (5 * clk) <= cpu - previous -> 200 <= cpu_percent)
            /\ (cpu - previous <= - (5 * clk) -> cpu_percent <= -100)))
  /\ (forall ps junk counters full s c' d' s',
        ~ In (-1) ps ->
        pass_loop (table_of ps junk) 0 counters full 1 s = Ret (c', d') s' ->
        exists outcomes,
          length outcomes = length ps
          /\ runs s s' (report_blocks 0 (zip ps outcomes))
          /\ length c' = length counters
          /\ (forall k pid o,
                ps !! k = Some pid -> outcomes !! k = Some o ->
                accounted pid k counters c' full o))
  /\ (forall polls pids counters full s c' s',
        interval polls pids counters full s = Ret c' s' ->
        exists t s0 s1,
          runs s s0 [EPrint ODots; EPrint ONormalReport; EPrint (ODate t)]
          /\ pass_loop pids 0 counters full 1 s0 = Ret (c', 0) s1)
  /\ (forall intervals polls pids counters full s c' s',
        interval polls pids counters full s = Ret c' s' ->
        report_loop (S intervals) polls pids counters full s
        = report_loop intervals polls pids c' full s')
  /\ (forall intervals polls ps junk s c0 s1,
        ~ In (-1) ps ->
        initialize_cpu_counters (table_of ps junk) (length ps) s = Ret c0 s1 ->
        0 < 5 * sys_clk_tck (st_world s1) <= CInt.INT_MAX ->
        periodic_reports intervals polls (table_of ps junk) s
        = report_loop intervals polls (table_of ps junk) c0
            (5 * sys_clk_tck (st_world s1)) s1).
Proof.
  split; [| split; [| split; [| split]]].
  - intros s s1 s2 s3 pid index counters done clk cpu mem previous.
    apply poll_process_percent.
  - intros ps junk counters full s c' d' s' Hno H.
    destruct (pass_loop_accounts ps junk O counters full 1 s c' d' s' Hno H)
      as (outcomes & Hlen & R & _ & Hlc & _ & Hacc).
    exists outcomes. auto.
  - apply interval_counters.
  - intros intervals polls pids counters full s c' s' H.
    cbn [report_loop]. exact (bind_Ret _ _ _ _ _ H).
  - intros intervals polls ps junk s c0 s1 Hno Hi Hclk.
    unfold periodic_reports, len_pids.
    rewrite (bind_Ret _ _ _ _ _ (len_loop_table ps junk O s Hno)).
    rewrite (bind_Ret _ _ _ _ _ Hi).
    rewrite (bind_Ret (get (fun s => sys_clk_tck (st_world s))) _ s1 _ s1
               eq_refl).
    unfold CInt.of_long. rewrite wrap_small by int_range. reflexivity.
Qed.

End Percent.

(** ** A process without its /proc files *)

(** C5, as the code has it.  When the file of a process cannot be opened,
    both samplers call [fclose(NULL)] before their [return -1]
    (macD.c:655, 709).  Where that call crashes, as it does in glibc, no
    sentinel comes back: the sampler ends the program, in the middle of the
    report or, at start-up, before the first one, and the supervision loop
    does not go on to the other children. *)
Theorem missing_proc_entry_ends_the_program {os : OS} :
  fclose_null_returns = false ->
  (forall pid s,
      0 < pid <= CInt.INT_MAX ->
      sys_fopen (lit "/proc/" ++ int_digits pid ++ lit "/stat") (st_world s)
      = None ->
      exists s', get_cpu_usage pid s = Fault s' /\ runs s s' [])
  /\ (forall pid s,
        0 < pid <= CInt.INT_MAX ->
        sys_fopen (lit "/proc/" ++ int_digits pid ++ lit "/statm") (st_world s)
        = None ->
        exists s', get_mem_usage pid s = Fault s' /\ runs s s' [])
  /\ (forall pid rest index counters full done s s1,
        0 < pid <= CInt.INT_MAX ->
        waitpid_ pid s = Ret 0 s1 ->
        sys_fopen (lit "/proc/" ++ int_digits pid ++ lit "/stat") (st_world s1)
        = None ->
        exists s',
          pass_loop (Some pid :: rest) index counters full done s = Fault s'
          /\ runs s1 s' [])
  /\ (forall pid count i (pids counters : table) s,
        0 < pid <= CInt.INT_MAX ->
        pids !! i = Some (Some pid) ->
        sys_fopen (lit "/proc/" ++ int_digits pid ++ lit "/stat") (st_world s)
        = None ->
        exists s',
          init_loop (S count) i pids counters s = Fault s' /\ runs s s' []).
Proof.
  intros Hcrash.
  assert (Hcpu : forall pid s,
    0 < pid <= CInt.INT_MAX ->
    sys_fopen (lit "/proc/" ++ int_digits pid ++ lit "/stat") (st_world s)
    = None ->
    exists s', get_cpu_usage pid s = Fault s' /\ runs s s' []).
  { intros pid s Hp Hno. unfold get_cpu_usage.
    destruct (proc_path_stat pid Hp) as (-> & _).
    rewrite (bind_Ret (defined (Some _)) _ s _ s eq_refl).
    destruct (Z.eqb_spec pid 0); [lia |].
    rewrite (bind_Ret (ret tt) _ s _ s eq_refl).
    destruct (fopen_runs (lit "/proc/" ++ int_digits pid ++ lit "/stat") s)
      as (s1 & Ho & R).
    rewrite (bind_Ret _ _ _ _ _ Ho), Hno.
    exists s1. split; [| exact R].
    unfold fclose_null. now rewrite Hcrash. }
  split; [exact Hcpu |]. split; [| split].
  - intros pid s Hp Hno. unfold get_mem_usage.
    destruct (proc_path_stat pid Hp) as (_ & ->).
    rewrite (bind_Ret (defined (Some _)) _ s _ s eq_refl).
    destruct (Z.eqb_spec pid 0); [lia |].
    rewrite (bind_Ret (ret tt) _ s _ s eq_refl).
    destruct (fopen_runs (lit "/proc/" ++ int_digits pid ++ lit "/statm") s)
      as (s1 & Ho & R).
    rewrite (bind_Ret _ _ _ _ _ Ho), Hno.
    exists s1. split; [| exact R].
    unfold fclose_null. now rewrite Hcrash.
  - intros pid rest index counters full done s s1 Hp Hw Hno.
    destruct (Hcpu pid s1 Hp Hno) as (s' & Hc & R).
    exists s'. split; [| exact R].
    cbn [pass_loop]. destruct (Z.eqb_spec pid (-1)); [lia |].
    apply bind_Fault. unfold poll_process.
    rewrite (bind_Ret _ _ _ _ _ Hw). cbn [Z.eqb].
    now apply bind_Fault.
  - intros pid count i pids counters s Hp Hl Hno.
    destruct (Hcpu pid s Hp Hno) as (s' & Hc & R).
    exists s'. split; [| exact R].
    cbn [init_loop]. rewrite (bind_Ret _ _ _ _ _ (load_Some _ _ _ _ Hl)).
    now apply bind_Fault.
Qed.

(** ** Reading on after a failed launch *)

Section Reread.

Context {os : OS}.

(** In the parent, with a child whose pid is positive, a turn of the loop
    returns and leaves a table. *)
Lemma read_turn_returns line pids index n len_pids ps s :
  table_ok pids index len_pids ps ->
  0 < fst (sys_fork line (st_world s)) ->
  exists pids' index' len_pids' ps' s',
    read_turn line pids index n len_pids s = Ret (pids', index', len_pids') s'
    /\ table_ok pids' index' len_pids' ps'.
Proof.
  intros Hok Hpid.
  assert (exists out s1,
    (if negb (Libc.empty line) then create_process line (-2) else ret (-2)) s
    = Ret out s1) as (out & s1 & Hl).
  { destruct (Libc.empty line); cbn [negb]; [eexists _, _; reflexivity |].
    destruct (fork_runs line s) as (s1 & Hf & _).
    destruct (usleep_runs 100000 s1) as (s2 & Hu & _).
    destruct (waitpid_runs (fst (sys_fork line (st_world s))) s2)
      as (r & s3 & Hw & _).
    rewrite (create_process_parent _ _ _ _ _ _ _ _ Hf
               ltac:(lia) ltac:(lia) Hu Hw).
    eexists _, _; reflexivity. }
  destruct (Z.lt_ge_cases out 0) as [Hneg | Hpos].
  - destruct (read_turn_not_started line pids index n len_pids ps s out s1
                Hok Hl Hneg) as (s2 & _ & Hstep).
    exists pids, index, len_pids, ps, s2. split; [exact Hstep | exact Hok].
  - destruct (read_turn_started line pids index n len_pids ps s out s1
                Hok Hl Hpos) as (pids1 & len1 & s2 & _ & Hok1 & Hstep).
    exists pids1, (S index), len1, (ps ++ [out]), s2.
    split; [exact Hstep | exact Hok1].
Qed.

End Reread.

(** On the simulated host the file [bad], [bad], [yes] is read for ever:
    the child of each [bad] moves the stream back over what the parent has
    buffered, and the child of [yes], which is found, leaves it alone. *)
Lemma forever_spins turns :
  forall pids index n len_pids ps s,
    table_ok pids index len_pids ps ->
    ending_of (read_loop (os := Sim.linux) turns bad_bad_yes at_first_bad
                 (Some (lit "bad")) pids index n len_pids s) = StillRunning
    /\ ending_of (read_loop (os := Sim.linux) turns bad_bad_yes at_second_bad
                    (Some (lit "bad")) pids index n len_pids s) = StillRunning
    /\ ending_of (read_loop (os := Sim.linux) turns bad_bad_yes at_yes
                    (Some (lit "yes")) pids index n len_pids s) = StillRunning.
Proof.
  induction turns as [| turns IH]; intros pids index n len_pids ps s Hok;
    [repeat split |].
  assert (Hturn : forall line,
    exists pids' index' len_pids' ps' s',
      read_turn (os := Sim.linux) line pids index n len_pids s
      = Ret (pids', index', len_pids') s'
      /\ table_ok pids' index' len_pids' ps').
  { intros line. apply (read_turn_returns (os := Sim.linux) line _ _ _ _ ps);
      [exact Hok |]. cbn. lia. }
  split; [| split].
  - destruct (Hturn (lit "bad")) as (p1 & i1 & l1 & ps1 & s1 & Ht & Hok1).
    rewrite (read_loop_step (os := Sim.linux) turns bad_bad_yes at_first_bad
               (lit "bad") pids index n len_pids s p1 i1 l1 s1 (child_exit at_first_bad)
               (Some (lit "bad")) at_second_bad Ht eq_refl eq_refl).
    exact (proj1 (proj2 (IH _ _ _ _ _ s1 Hok1))).
  - destruct (Hturn (lit "bad")) as (p1 & i1 & l1 & ps1 & s1 & Ht & Hok1).
    rewrite (read_loop_step (os := Sim.linux) turns bad_bad_yes at_second_bad
               (lit "bad") pids index n len_pids s p1 i1 l1 s1 (child_exit at_second_bad)
               (Some (lit "yes")) at_yes Ht eq_refl eq_refl).
    exact (proj2 (proj2 (IH _ _ _ _ _ s1 Hok1))).
  - destruct (Hturn (lit "yes")) as (p1 & i1 & l1 & ps1 & s1 & Ht & Hok1).
    rewrite (read_loop_step (os := Sim.linux) turns bad_bad_yes at_yes
               (lit "yes") pids index n len_pids s p1 i1 l1 s1 at_yes
               (Some (lit "bad")) at_first_bad Ht eq_refl eq_refl).
    exact (proj1 (IH _ _ _ _ _ s1 Hok1)).
Qed.

Lemma bind_spins {os : OS} {A B} (m : M A) (k : A -> M B) s :
  ending_of (m s) = StillRunning -> ending_of (bind m k s) = StillRunning.
Proof. unfold bind. destruct (m s); try discriminate. reflexivity. Qed.

Lemma forever_read_file turns file_path s :
  ending_of (read_file (os := Sim.linux) turns file_path (Some bad_bad_yes) s)
  = StillRunning.
Proof.
  rewrite (read_file_unfold (os := Sim.linux) turns file_path bad_bad_yes s
             (Some (lit "bad")) at_first_bad (-1) (Some (lit "bad"))
             eq_refl eq_refl).
  destruct (print_runs (os := Sim.linux) OStartingReport s ltac:(discriminate))
    as (s1 & H1 & _).
  destruct (display_date_runs (os := Sim.linux) s1) as (t & s2 & H2 & _).
  rewrite (bind_Ret _ _ _ _ _ H1), (bind_Ret _ _ _ _ _ H2).
  rewrite (bind_Ret (set_TARGET_TIME (-1)) _ s2 _ _ eq_refl).
  change (negb (-1 =? -1)) with false. cbv iota.
  rewrite (bind_Ret (ret (Some (lit "bad"), at_first_bad)) _ _ _ _ eq_refl).
  cbv beta iota. apply bind_spins.
  exact (proj1 (forever_spins turns _ _ _ _ _ _ table_ok_fresh)).
Qed.

(** C7, as the code has it.  What a failed launch does in its own turn of
    the loop is as claimed: an empty line is not launched (no [fork]) and is
    reported as "badprogram" with no path; when the child of a line has ended
    by the non-blocking wait that follows the 100 ms grace period, that line
    alone is reported as failed, and the table stays as it was; in the child
    a failing [execvp] ends the child with [errno] as its exit code; a
    failing [fork] ends the whole program with exit code [1].  But the
    failure is not isolated.  The child leaves by [exit], which moves the
    input stream it shares with the parent back over what the parent has
    buffered: the parent is handed these bytes once more, and the loop goes
    on with lines it has read before.  On the simulated host the file [bad],
    [bad], [yes] is read without end. *)
Theorem failed_exec_rereads_the_file :
  (forall (os : OS) line pids index n len_pids ps s,
      table_ok pids index len_pids ps ->
      Libc.empty line = true ->
      exists s1,
        st_trace s1 = st_trace s ++ [EPrint (OBadEmpty (Z.of_nat n))]
        /\ st_world s1 = st_world s
        /\ read_turn line pids index n len_pids s
           = Ret (pids, index, len_pids) s1)
  /\ (forall (os : OS) line pids index n len_pids ps s pid s1 s2 r s3,
        table_ok pids index len_pids ps ->
        Libc.empty line = false ->
        fork_ line s = Ret pid s1 -> pid <> -1 -> pid <> 0 ->
        usleep_ 100000 s1 = Ret tt s2 ->
        waitpid_ pid s2 = Ret r s3 -> r <> 0 ->
        exists s4,
          st_trace s4
          = st_trace s3 ++ [EPrint (OBad (Z.of_nat n) (path_of line))]
          /\ st_world s4 = st_world s3
          /\ read_turn line pids index n len_pids s
             = Ret (pids, index, len_pids) s4)
  /\ (forall (os : OS) line pids index n len_pids s s1,
        Libc.empty line = false ->
        fork_ line s = Ret 0 s1 ->
        read_turn line pids index n len_pids s
        = match get_args line with
          | [] => Fault s1
          | args =>
              match sys_execvp args (st_world s1) with
              | None => Exec s1
              | Some errno => Exited errno s1
              end
          end)
  /\ (forall (os : OS) line pids index n len_pids s s1,
        Libc.empty line = false ->
        fork_ line s = Ret (-1) s1 ->
        read_turn line pids index n len_pids s = Exited 1 s1)
  /\ (forall (os : OS) d fptr line w errno,
        in_step d fptr ->
        get_args line <> [] ->
        sys_execvp (get_args line) (snd (sys_fork line w)) = Some errno ->
        child_effect line w fptr = Some (child_exit fptr)
        /\ pending d (child_exit fptr) = unread fptr ++ pending d fptr)
  /\ (forall (os : OS) turns d fptr line pids index n len_pids s
             pids1 index1 len1 s1 errno next fptr2,
        Libc.empty line = false ->
        get_args line <> [] ->
        sys_execvp (get_args line) (snd (sys_fork line (st_world s)))
        = Some errno ->
        read_turn line pids index n len_pids s = Ret (pids1, index1, len1) s1 ->
        next_line d (child_exit fptr) = Some (next, fptr2) ->
        read_loop (S turns) d fptr (Some line) pids index n len_pids s
        = read_loop turns d fptr2 next pids1 index1 (S n) len1 s1)
  /\ (forall turns intervals polls s,
        ending_of
          (main (os := Sim.linux) turns intervals polls (lit "procs.txt")
             (Some (Sim.file_of ["bad"; "bad"; "yes"]%string)) s)
        = StillRunning).
Proof.
  split; [| split; [| split; [| split; [| split; [| split]]]]].
  - intros os line pids index n len_pids ps s Hok He.
    destruct (read_turn_not_started line pids index n len_pids ps s
                (-2) s Hok) as (s1 & Hp & Hstep);
      [now rewrite He | lia |].
    rewrite He in Hp. exists s1.
    unfold print, log in Hp. injection Hp as <-. auto.
  - intros os line pids index n len_pids ps s pid s1 s2 r s3
      Hok He Hf Hn1 Hn0 Hu Hw Hr.
    destruct (read_turn_not_started line pids index n len_pids ps s
                (-2) s3 Hok) as (s4 & Hp & Hstep).
    { rewrite He. cbn [negb].
      rewrite (create_process_parent _ _ _ _ _ _ _ _ Hf Hn1 Hn0 Hu Hw).
      now rewrite (proj2 (Z.eqb_neq r 0) Hr). }
    { lia. }
    rewrite He in Hp. exists s4.
    unfold print, log in Hp. injection Hp as <-. auto.
  - intros os line pids index n len_pids s s1 He Hf.
    unfold read_turn. rewrite He. cbn [negb]. unfold bind at 1.
    rewrite (create_process_child _ _ _ _ Hf).
    destruct (get_args line); [reflexivity |].
    destruct (sys_execvp _ _); reflexivity.
  - intros os line pids index n len_pids s s1 He Hf.
    unfold read_turn. rewrite He. cbn [negb].
    apply bind_Exited. now apply create_process_failed.
  - intros os d fptr line w errno Hstep Hargs Hexec. split.
    + unfold child_effect. destruct (get_args line); [contradiction |].
      now rewrite Hexec.
    + now apply child_exit_pending.
  - intros os turns d fptr line pids index n len_pids s pids1 index1 len1 s1
      errno next fptr2 He Hargs Hexec Ht Hn.
    apply (read_loop_step turns d fptr line pids index n len_pids s
             pids1 index1 len1 s1 (child_exit fptr) next fptr2 Ht); [| exact Hn].
    rewrite He. unfold child_effect.
    destruct (get_args line); [contradiction |]. now rewrite Hexec.
  - intros turns intervals polls s. unfold main.
    rewrite (bind_Ret (set_START_TIME 0) _ s _ _ eq_refl).
    apply bind_spins. apply forever_read_file.
Qed.

(** * The theorems at work *)

(** ** The simulated host is a host *)

(** A wait that answers [0] has found a child not waited for and has
    changed nothing. *)
Lemma reap_running pid now cs :
  0 < pid ->
  fst (Sim.reap pid now cs) = 0 ->
  snd (Sim.reap pid now cs) = cs
  /\ exists c, In c cs /\ Sim.c_pid c = pid /\ Sim.c_reaped c = false.
Proof.
  intros Hpid. induction cs as [| c cs IH]; [discriminate |].
  cbn [Sim.reap]. destruct (Z.eqb_spec (Sim.c_pid c) pid) as [E | Hne].
  - destruct (Sim.c_reaped c) eqn:Hr; [discriminate |].
    destruct (Sim.dead now c); cbn [fst snd]; [lia |].
    intros _. split; [reflexivity |]. exists c. split; [now left | auto].
  - destruct (Sim.reap pid now cs) as [r cs'] eqn:Er. cbn [fst snd] in *.
    intros Hr. destruct (IH Hr) as (-> & c' & Hin & Hc).
    split; [reflexivity |]. exists c'. split; [now right | exact Hc].
Qed.

(** A wait leaves the other children as they are, and every pid. *)
Lemma reap_other q now cs c :
  In c cs -> Sim.c_pid c <> q -> In c (snd (Sim.reap q now cs)).
Proof.
  induction cs as [| c0 cs IH]; intros Hin Hne; [destruct Hin |].
  cbn [Sim.reap]. destruct (Z.eqb_spec (Sim.c_pid c0) q) as [E | Hq].
  - destruct Hin as [-> | Hin]; [contradiction |].
    destruct (Sim.c_reaped c0); [now right |].
    destruct (Sim.dead now c0); now right.
  - destruct (Sim.reap q now cs) as [r cs'] eqn:Er. cbn [snd] in *.
    destruct Hin as [-> | Hin]; [now left | right; now apply IH].
Qed.

Lemma reap_pids q now cs :
  map Sim.c_pid (snd (Sim.reap q now cs)) = map Sim.c_pid cs.
Proof.
  induction cs as [| c cs IH]; [reflexivity |].
  cbn [Sim.reap]. destruct (Z.eqb_spec (Sim.c_pid c) q) as [E | Hq].
  - destruct (Sim.c_reaped c); [reflexivity |].
    destruct (Sim.dead now c); [| reflexivity]. cbn. now rewrite E.
  - destruct (Sim.reap q now cs) as [r cs'] eqn:Er. cbn [snd] in *.
    cbn. now rewrite IH.
Qed.

(** The /proc files of a child not waited for are there. *)
Lemma lookup_proc_unreaped pid now cs part :
  part = lit "/stat" \/ part = lit "/statm" ->
  (exists c, In c cs /\ Sim.c_pid c = pid /\ Sim.c_reaped c = false) ->
  Sim.lookup_proc (lit "/proc/" ++ int_digits pid ++ part) now cs <> None.
Proof.
  intros Hpart (c & Hin & Hpid & Hr).
  induction cs as [| c0 cs IH]; [destruct Hin |].
  cbn [Sim.lookup_proc].
  destruct Hin as [-> | Hin].
  - rewrite Hr, Hpid.
    destruct Hpart as [-> | ->].
    + change (lit "/proc/" ++ int_digits pid ++ lit "/stat")
        with ((lit "/proc/" ++ int_digits pid) ++ lit "/stat") at 1.
      rewrite <- !app_assoc. rewrite streq_refl. discriminate.
    + destruct (Libc.streq _ _); [discriminate |].
      rewrite <- !app_assoc. rewrite streq_refl. discriminate.
  - destruct (Sim.c_reaped c0); [exact (IH Hin) |].
    destruct (Libc.streq _ _); [discriminate |].
    destruct (Libc.streq _ _); [discriminate |]. exact (IH Hin).
Qed.

Lemma sim_procfs_tracks lenient :
  procfs_tracks (os := Sim.host lenient true) Sim.unreaped.
Proof.
  split; [| split].
  - intros pid w Hpid. cbn [sys_waitpid Sim.host]. unfold Sim.waitpid.
    pose proof (reap_running pid (Sim.clock w) (Sim.children w) Hpid) as H.
    destruct (Sim.reap pid (Sim.clock w) (Sim.children w)) as [r cs].
    cbn [fst snd] in *. intros Hr. destruct (H Hr) as (-> & Hc). exact Hc.
  - intros pid w H. cbn [sys_sigint Sim.host]. unfold Sim.sigint.
    destruct (Sim.sigint_at w) as [t |]; [| exact H].
    destruct (t <=? Sim.clock w); exact H.
  - intros pid w H. cbn [sys_fopen Sim.host]. unfold Sim.fopen.
    split; apply lookup_proc_unreaped; auto.
Qed.

Lemma sim_steady lenient procfs (P : list Sim.child -> Prop) :
  steady (os := Sim.host lenient procfs) (fun w => P (Sim.children w)).
Proof.
  split; [| split].
  - intros usec w H. exact H.
  - intros w H. exact H.
  - intros w H. cbn [sys_sigint Sim.host]. unfold Sim.sigint.
    destruct (Sim.sigint_at w) as [t |]; [| exact H].
    destruct (t <=? Sim.clock w); exact H.
Qed.

Lemma sim_launch_tracks lenient procfs :
  launch_tracks (os := Sim.host lenient procfs) Sim.unreaped Sim.room.
Proof.
  split; [| split; [| split; [| split; [| split; [| split]]]]].
  - intros p.
    exact (sim_steady lenient procfs
             (fun cs => exists c, In c cs /\ Sim.c_pid c = p
                                  /\ Sim.c_reaped c = false)).
  - intros n.
    exact (sim_steady lenient procfs
             (fun cs => Forall (fun p => 100 <= p < 100 + Z.of_nat (length cs))
                          (map Sim.c_pid cs)
                        /\ 100 + Z.of_nat (length cs) + Z.of_nat n
                           <= CInt.INT_MAX + 1)).
  - intros n w (Hwf & Hn). split; [exact Hwf | lia].
  - intros n line w (Hwf & Hn). cbn [sys_fork Sim.host]. unfold Sim.fork.
    cbn [fst snd]. split; [lia |]. unfold Sim.room. cbn [Sim.children].
    rewrite length_app, map_app. cbn [length map Sim.c_pid]. split; [| lia].
    apply Forall_app. split.
    + eapply List.Forall_impl; [| exact Hwf]. cbn beta. intros p Hp. lia.
    + constructor; [lia | constructor].
  - intros n p line w (Hwf & Hn) (c & Hin & Hp & Hr).
    cbn [sys_fork Sim.host]. unfold Sim.fork. cbn [fst snd]. split.
    + rewrite List.Forall_forall in Hwf.
      specialize (Hwf p ltac:(rewrite <- Hp; now apply in_map)). lia.
    + exists c. cbn [Sim.children]. split; [apply in_or_app; now left | auto].
  - intros n q w (Hwf & Hn). cbn [sys_waitpid Sim.host]. unfold Sim.waitpid.
    pose proof (reap_pids q (Sim.clock w) (Sim.children w)) as E.
    destruct (Sim.reap q (Sim.clock w) (Sim.children w)) as [r cs].
    cbn [snd] in *. unfold Sim.room. cbn [Sim.children].
    assert (El : length cs = length (Sim.children w))
      by (rewrite <- (length_map Sim.c_pid cs), E; apply length_map).
    rewrite E, El. split; assumption.
  - intros p q w (c & Hin & Hp & Hr) Hne.
    cbn [sys_waitpid Sim.host]. unfold Sim.waitpid.
    pose proof (reap_other q (Sim.clock w) (Sim.children w) c Hin
                  ltac:(congruence)) as H.
    destruct (Sim.reap q (Sim.clock w) (Sim.children w)) as [r cs].
    cbn [snd] in *. exists c. auto.
Qed.

(** ** The specification at work *)

(** The number of the sample in the specification: 100 ticks before, 150
    now, 100 ticks a second.  And two reports in a row on [yes], which has
    run for 15 seconds (150 ticks) when the supervision starts: ten ticks
    later the first report shows 2 percent, and seven seconds after that
    the second shows 14, the seventy ticks since the first. *)
Lemma cpu_percent_formula_witness :
  (exists s4,
      poll_process (os := Sim.linux) 100 0 [Some 100] (CInt.of_long (5 * 100))
        1 (Sim.supervising Sim.linux Sim.busy (-1))
      = Ret ([Some 150], 0) s4
      /\ st_trace s4 = [EWaitpid 100 0; EPrint (ORunning 0 10 3)])
  /\ (exists s1,
        periodic_reports (os := Sim.linux) 2 10 (table_of [100] [])
          (initial_state (os := Sim.linux) Sim.busy)
        = report_loop (os := Sim.linux) 2 10 (table_of [100] []) [Some 150]
            500 s1)
  /\ observe (periodic_reports (os := Sim.linux) 2 10 (table_of [100] [])
                (initial_state (os := Sim.linux) Sim.busy))
     = (StillRunning,
        [EPrint ODots; EPrint ONormalReport; EPrint (ODate 1015);
         EWaitpid 100 0; EPrint (ORunning 0 2 3);
         EPrint ODots; EPrint ODots; EPrint ONormalReport;
         EPrint (ODate 1022); EWaitpid 100 0; EPrint (ORunning 0 14 3);
         EPrint ODots]).
Proof.
  split; [| split; [| vm_compute; reflexivity]].
  - destruct (proj1 (cpu_percent_formula (os := Sim.linux))
                (Sim.supervising Sim.linux Sim.busy (-1)) _ _ _
                100 O [Some 100] 1 100 150 3 100
                eq_refl eq_refl eq_refl eq_refl
                ltac:(unfold CInt.INT_MAX; lia))
      as (s4 & p & Hp & Ht & Hq & _).
    exists s4. split; [exact Hp |]. rewrite Ht, Hq. reflexivity.
  - eexists.
    apply (proj2 (proj2 (proj2 (proj2 (cpu_percent_formula (os := Sim.linux)))))
             2%nat 10%nat [100] [] (initial_state (os := Sim.linux) Sim.busy)
             [Some 150]).
    + intros [H | []]; discriminate H.
    + reflexivity.
    + cbn. unfold CInt.INT_MAX. lia.
Defined.

Lemma stop_condition_spec_witness :
  stop_condition (Sim.supervising Sim.linux Sim.busy (-1)) 1007 = 1
  /\ stop_condition (Sim.supervising Sim.linux Sim.busy (-1)) 1006 = 0
  /\ stop_condition (Sim.supervising Sim.linux Sim.busy 1) 1006 = 1.
Proof.
  split; [| split].
  - apply (proj1 (stop_condition_spec
                    (Sim.supervising Sim.linux Sim.busy (-1)) 1007)).
    left. simpl. lia.
  - pose proof (proj1 (stop_condition_spec
                         (Sim.supervising Sim.linux Sim.busy (-1)) 1006))
      as [H _].
    destruct (proj1 (proj2 (stop_condition_spec
                              (Sim.supervising Sim.linux Sim.busy (-1)) 1006)))
      as [E | E]; [| exact E].
    exfalso. apply H in E. simpl in E. lia.
  - apply (proj1 (stop_condition_spec
                    (Sim.supervising Sim.linux Sim.busy 1) 1006)).
    right. reflexivity.
Defined.

Lemma terminate_program_spec_witness :
  exists rs t s',
    length rs = 2%nat
    /\ terminate_program (os := Sim.linux) (A := unit)
         (table_of [100; 101] [None]) 15
         (Sim.supervising Sim.linux Sim.busy 1)
       = Exited 0 s'
    /\ quiet (st_trace s')
       = [EPrint OTerminating; EPrint (ODate t)]
           ++ termination_blocks 0 (zip [100; 101] rs)
           ++ [EPrint (OExiting 15)].
Proof.
  destruct (terminate_program_spec (os := Sim.linux) unit [100; 101] [None] 15
              (Sim.supervising Sim.linux Sim.busy 1))
    as (rs & t & s' & Hlen & He & Hq & _).
  - simpl. intros [H | [H | []]]; discriminate H.
  - exists rs, t, s'. auto.
Defined.

(** All children gone while the stop flag is set and the time limit has
    passed: the loop exits by itself. *)
Lemma all_exited_takes_priority_witness :
  stop_condition (Sim.supervising Sim.linux Sim.busy 1) 1016 = 1
  /\ exists s4,
       interval (os := Sim.linux) 10 (table_of [101] []) [Some 0] 500
         (Sim.supervising Sim.linux Sim.busy 1)
       = Exited 0 s4.
Proof.
  split; [reflexivity |].
  destruct (proj1 (proj2 (all_exited_takes_priority (os := Sim.linux) 10
                            (table_of [101] []) 500))
              [Some 0] (Sim.supervising Sim.linux Sim.busy 1) _ _ _
              eq_refl eq_refl)
    as (now & s3 & s4 & _ & Hi & _).
  exists s4. exact Hi.
Defined.


(** On the file [bad], [yes] the parent has [yes] and its newline in its
    buffer when [bad] fails: the child's [exit] hands them to it once
    more.  And the file [bad], [bad], [yes] is read without end. *)
Lemma failed_exec_rereads_the_file_witness :
  (let d := Sim.file_of ["bad"; "yes"]%string in
   let fptr := {| unread := lit "yes" ++ [NEWLINE]; offset := 8 |} in
   child_effect (os := Sim.linux) (lit "bad") (Sim.boot None) fptr
   = Some (child_exit fptr)
   /\ pending d fptr = lit "yes" ++ [NEWLINE]
   /\ pending d (child_exit fptr)
      = (lit "yes" ++ [NEWLINE]) ++ lit "yes" ++ [NEWLINE])
  /\ (exists s1,
        st_trace s1 = [EPrint (OBadEmpty 3)]
        /\ read_turn (os := Sim.linux) [] (malloc_ints MAX_PROCESSES) 0 3
             MAX_PROCESSES (initial_state (os := Sim.linux) (Sim.boot None))
           = Ret (malloc_ints MAX_PROCESSES, O, MAX_PROCESSES) s1)
  /\ ending_of
       (main (os := Sim.linux) 1000 1 10 (lit "procs.txt")
          (Some (Sim.file_of ["bad"; "bad"; "yes"]%string))
          (initial_state (os := Sim.linux) (Sim.boot None)))
     = StillRunning.
Proof.
  split; [| split].
  - cbv zeta.
    destruct (proj1 (proj2 (proj2 (proj2 (proj2 failed_exec_rereads_the_file))))
                Sim.linux (Sim.file_of ["bad"; "yes"]%string)
                {| unread := lit "yes" ++ [NEWLINE]; offset := 8 |}
                (lit "bad") (Sim.boot None) 2)
      as (H1 & H2).
    + split; [cbn; lia | reflexivity].
    + discriminate.
    + reflexivity.
    + split; [exact H1 |]. split; [reflexivity | exact H2].
  - destruct (proj1 failed_exec_rereads_the_file Sim.linux []
                (malloc_ints MAX_PROCESSES) O 3%nat MAX_PROCESSES []
                (initial_state (os := Sim.linux) (Sim.boot None))
                table_ok_fresh eq_refl)
      as (s1 & Ht & _ & Hr).
    exists s1. split; [exact Ht | exact Hr].
  - apply (proj2 (proj2 (proj2 (proj2 (proj2 (proj2
             failed_exec_rereads_the_file)))))).
Defined.

(** /proc has no entry for 4321: on the usual host both samplers end the
    program.  Where /proc is not mounted the first report is never begun. *)
Lemma missing_proc_entry_ends_the_program_witness :
  (exists s',
      get_cpu_usage (os := Sim.linux) 4321
        (Sim.supervising Sim.linux Sim.busy (-1)) = Fault s')
  /\ (exists s',
        get_mem_usage (os := Sim.linux) 4321
          (Sim.supervising Sim.linux Sim.busy (-1)) = Fault s')
  /\ (exists s',
        pass_loop (os := Sim.host false false) (table_of [100; 101] []) 0
          [Some 0; Some 0] 500 1
          (Sim.supervising (Sim.host false false) Sim.busy (-1))
        = Fault s')
  /\ observe (Sim.run (Sim.host false false) (Sim.boot None) 1 10
                ["yes"]%string)
     = (Faulted,
        [EPrint OStartingReport; EPrint (ODate 1000);
         EFork (lit "yes") 100; EUsleep 100000; EWaitpid 100 0;
         EPrint (OStarted 0 (Some (lit "yes")) 100)]).
Proof.
  split; [| split; [| split; [| vm_compute; reflexivity]]].
  - destruct (proj1 (missing_proc_entry_ends_the_program (os := Sim.linux)
                       eq_refl)
                4321 (Sim.supervising Sim.linux Sim.busy (-1))
                ltac:(unfold CInt.INT_MAX; lia) eq_refl) as (s' & H & _).
    exists s'. exact H.
  - destruct (proj1 (proj2 (missing_proc_entry_ends_the_program
                              (os := Sim.linux) eq_refl))
                4321 (Sim.supervising Sim.linux Sim.busy (-1))
                ltac:(unfold CInt.INT_MAX; lia) eq_refl) as (s' & H & _).
    exists s'. exact H.
  - destruct (proj1 (proj2 (proj2 (missing_proc_entry_ends_the_program
                                     (os := Sim.host false false) eq_refl)))
                100 (table_of [101] []) O [Some 0; Some 0] 500 1
                (Sim.supervising (Sim.host false false) Sim.busy (-1)) _
                ltac:(unfold CInt.INT_MAX; lia) eq_refl eq_refl)
      as (s' & H & _).
    exists s'. exact H.
Defined.

(** The array returned for 7 is the one byte ['7']: the parser reads the
    byte behind it. *)
Lemma round_trip_reads_behind_the_digits_witness :
  convert_int_to_string 7 = [Some "7"%char]
  /\ convert_str_to_int_buffer (convert_int_to_string 7) = None
  /\ convert_str_to_int_buffer (convert_int_to_string 7 ++ [Some NUL]) = Some 7
  /\ convert_str_to_int (lit "12a4") = -1.
Proof.
  destruct (proj1 round_trip_reads_behind_the_digits 7
              ltac:(unfold CInt.INT_MAX; lia)) as (_ & _ & _ & H1 & H2).
  split; [reflexivity |]. split; [exact H1 |]. split; [exact H2 |].
  apply (proj2 (proj2 round_trip_reads_behind_the_digits) (lit "12a4") "a"%char).
  - vm_compute. tauto.
  - vm_compute. intuition discriminate.
  - vm_compute. intuition discriminate.
Defined.

(** The file [bad], [yes] on the usual host.  The table [read_file] returns
    holds the pids 101 and 102, and the launches it has announced as [[1]]
    and [[2]] stand at the positions 0 and 1, under which they are
    reported. *)
Lemma display_indices_witness :
  exists handed launches junk s',
    read_file (os := Sim.linux) 100 (lit "procs.txt")
      (Some (Sim.file_of ["bad"; "yes"]%string))
      (initial_state (os := Sim.linux) (Sim.boot None))
    = Ret (Some (table_of (started launches) junk)) s'
    /\ length launches = length handed
    /\ started launches = [101; 102]
    /\ st_trace s'
       = [EPrint OStartingReport; EPrint (ODate 1000)]
           ++ launch_blocks 0 (zip handed launches)
    /\ (forall k pid,
          launches !! k = Some (Started pid) ->
          started launches !! length (started (take k launches)) = Some pid
          /\ (length (started (take k launches)) <= k)%nat)
    /\ (exists rs s2,
          length rs = 2%nat
          /\ terminate_loop (os := Sim.linux) (table_of [101; 102] []) 0 s'
             = Ret tt s2
          /\ runs s' s2 (termination_blocks 0 (zip [101; 102] rs))).
Proof.
  assert (P : match read_file (os := Sim.linux) 100 (lit "procs.txt")
                      (Some (Sim.file_of ["bad"; "yes"]%string))
                      (initial_state (os := Sim.linux) (Sim.boot None))
               with
               | Ret (Some tbl) s' => Some (tbl, st_trace s')
               | _ => None
               end
               = Some ([Some 101; Some 102; Some (-1); None; None; None; None;
                        None; None; None],
                       [EPrint OStartingReport; EPrint (ODate 1000);
                        EFork (lit "bad") 100; EUsleep 100000;
                        EWaitpid 100 100; EPrint (OBad 0 (Some (lit "bad")));
                        EFork (lit "yes") 101; EUsleep 100000; EWaitpid 101 0;
                        EPrint (OStarted 1 (Some (lit "yes")) 101);
                        EFork (lit "yes") 102; EUsleep 100000; EWaitpid 102 0;
                        EPrint (OStarted 2 (Some (lit "yes")) 102)]))
    by (vm_compute; reflexivity).
  destruct (read_file (os := Sim.linux) 100 (lit "procs.txt")
              (Some (Sim.file_of ["bad"; "yes"]%string))
              (initial_state (os := Sim.linux) (Sim.boot None)))
    as [[tbl |] s' | | | |] eqn:H; try discriminate P.
  injection P as Htbl Htrace.
  destruct (proj1 (display_indices (os := Sim.linux)) 100%nat (lit "procs.txt")
              (Sim.file_of ["bad"; "yes"]%string)
              (initial_state (os := Sim.linux) (Sim.boot None)) _ _ H)
    as (handed & launches & junk & t & Hlen & E & Hno & _ & Ht).
  specialize (Ht eq_refl). cbn [initial_state st_trace app] in Ht.
  assert (Hs : started launches = [101; 102]).
  { apply (table_of_inj _ [101; 102] junk
             [None; None; None; None; None; None; None]).
    - rewrite <- E, Htbl. reflexivity.
    - exact Hno.
    - intros [F | [F | []]]; discriminate F. }
  exists handed, launches, junk, s'.
  split; [now rewrite E |]. split; [exact Hlen |]. split; [exact Hs |].
  split.
  { rewrite Ht. rewrite Ht in Htrace. injection Htrace as -> _. reflexivity. }
  split.
  { intros k pid Hk.
    destruct (proj2 (proj2 (proj2 (display_indices (os := Sim.linux))))
                launches k pid Hk) as (H1 & H2 & _).
    split; [exact H1 | exact H2]. }
  destruct (proj1 (proj2 (proj2 (display_indices (os := Sim.linux))))
              [101; 102] [] s')
    as (rs & s2 & Hl & Hterm & R).
  { intros [F | [F | []]]; discriminate F. }
  exists rs, s2. auto.
Defined.

(** ** More of the code at work *)

Lemma sampler_paths_witness :
  convert_int_to_string 4321 = Some <$> lit "4321"
  /\ proc_path 4321 (lit "/stat") 5 = Some (lit "/proc/4321/stat")
  /\ proc_path 4321 (lit "/statm") 6 = Some (lit "/proc/4321/statm")
  /\ get_num_digits 4321 = 4.
Proof.
  destruct (sampler_paths 4321 ltac:(unfold CInt.INT_MAX; lia))
    as (H0 & H1 & H2 & H3 & _).
  split; [exact H0 |]. split; [exact H1 |]. split; [exact H2 |].
  rewrite H3. reflexivity.
Defined.

(** In the simulated host [yes] always starts. *)

Lemma reap_alive pid now cs :
  Forall (fun c => Sim.c_death c = None /\ Sim.c_reaped c = false) cs ->
  In pid (map Sim.c_pid cs) ->
  Sim.reap pid now cs = (0, cs).
Proof.
  induction 1 as [| c cs (Hd & Hr) _ IH]; intros Hin; [destruct Hin |].
  simpl. destruct (Z.eqb_spec (Sim.c_pid c) pid) as [E | Hne].
  - rewrite Hr. unfold Sim.dead. now rewrite Hd.
  - destruct Hin as [E | Hin]; [contradiction |]. now rewrite IH.
Qed.

Lemma yes_launches w :
  Sim.all_alive w -> launches (os := Sim.linux) Sim.all_alive (lit "yes") w.
Proof.
  intros Hw. unfold launches.
  cbn [sys_fork sys_waitpid sys_usleep sys_execvp Sim.linux Sim.host].
  unfold Sim.fork, Sim.waitpid. cbn [Sim.clock Sim.children Sim.sigint_at].
  assert (Ha : Forall (fun c => Sim.c_death c = None /\ Sim.c_reaped c = false)
                 (Sim.children w
                    ++ [ {| Sim.c_pid := 100 + Z.of_nat (length (Sim.children w));
                            Sim.c_start := Sim.clock w;
                            Sim.c_death :=
                              (fun n => Sim.clock w + n) <$> Sim.lifetime (lit "yes");
                            Sim.c_reaped := false |} ])).
  { apply Forall_app. split; [exact Hw |]. repeat constructor. }
  rewrite reap_alive.
  - split; [discriminate |]. split; [reflexivity |].
    split; [lia |]. split; [reflexivity | exact Ha].
  - exact Ha.
  - rewrite map_app. apply in_or_app. right. now left.
Qed.

(** A string literal holds none of the characters it does not show. *)
Ltac absent :=
  cbn; intros H; repeat (destruct H as [H | H]; [discriminate H |]); exact H.

Ltac smaller := apply Nat.ltb_lt; vm_compute; reflexivity.

Ltac plain_lines :=
  repeat (apply List.Forall_cons;
          [split; [absent | split; [absent | smaller]] |]);
  apply List.Forall_nil.

(** Twelve lines, the first at hand and eleven still in the file: the
    table outgrows its first ten cells. *)
Lemma read_loop_all_start_witness :
  exists pids' s',
    read_loop (os := Sim.linux) 12
      {| d_bytes := text (replicate 11 (lit "yes")); d_blksize := 4096 |}
      opened (Some (lit "yes"))
      (malloc_ints MAX_PROCESSES) 0 0 MAX_PROCESSES
      (initial_state (os := Sim.linux) (Sim.boot None))
    = Ret (pids', 12%nat) s'
    /\ (13 < length pids')%nat.
Proof.
  destruct (read_loop_all_start (os := Sim.linux) Sim.all_alive
              {| d_bytes := text (replicate 11 (lit "yes"));
                 d_blksize := 4096 |}
              (replicate 12 (lit "yes")) 12%nat opened
              (malloc_ints MAX_PROCESSES) O O
              MAX_PROCESSES [] (initial_state (os := Sim.linux) (Sim.boot None))
              eq_refl table_ok_fresh)
    as (pids' & len' & s' & ls & Hr & (Hlen & Hroom & _) & _).
  - repeat constructor.
  - reflexivity.
  - cbn [replicate tail]. plain_lines.
  - cbn. lia.
  - constructor.
  - intros line w Hin Hw.
    assert (line = lit "yes") as ->.
    { simpl in Hin. repeat (destruct Hin as [<- | Hin]; [reflexivity |]).
      destruct Hin. }
    now apply yes_launches.
  - exists pids', s'. split; [exact Hr |]. simpl in Hroom. lia.
Defined.

(** Two spaces in a row and one at the end: two tokens in four cells. *)
Lemma get_args_fits_witness :
  Z.of_nat (length (get_args (lit "ls  -l "))) <= get_num_args (lit "ls  -l ")
  /\ get_args (lit "ls  -l ") = [lit "ls"; lit "-l"]
  /\ get_num_args (lit "ls  -l ") = 4.
Proof.
  destruct (get_args_fits (lit "ls  -l ")) as (H & _).
  - absent.
  - vm_compute. reflexivity.
  - split; [exact H |]. split; reflexivity.
Defined.

Lemma get_args_words_witness :
  get_args (lit "sleep 100") = [lit "sleep"; lit "100"]
  /\ get_num_args (lit "sleep 100") = 2.
Proof.
  destruct (get_args_words [lit "sleep"; lit "100"]) as (H1 & H2).
  - repeat constructor; try discriminate; absent.
  - discriminate.
  - vm_compute. reflexivity.
  - split; [exact H1 | exact H2].
Defined.

Lemma read_next_line_short_witness :
  exists line,
    read_next_line (lit "sleep 3" ++ NEWLINE :: lit "yes")
    = Some (Some line, lit "yes")
    /\ c_str line = Some (lit "sleep 3").
Proof.
  destruct (read_next_line_short (lit "sleep 3") (lit "yes")) as (H & _).
  - absent.
  - absent.
  - smaller.
  - exact H.
Defined.


(** A line of [PATH_MAX + MAX_ARG_LENGTH] characters comes back damaged. *)
Lemma read_next_line_long_witness :
  exists line,
    read_next_line
      (replicate (PATH_MAX + MAX_ARG_LENGTH) "a"%char ++ NEWLINE :: [])
    = Some (Some line, [])
    /\ c_str line = None.
Proof.
  destruct (read_next_line_long
              (replicate (PATH_MAX + MAX_ARG_LENGTH) "a"%char) [])
    as (H & _).
  - apply replicate_absent. discriminate.
  - apply replicate_absent. discriminate.
  - rewrite length_replicate. lia.
  - destruct H as (a & x & b & line & _ & _ & R & _ & C).
    + rewrite length_replicate. unfold MAX_ARG_LENGTH. lia.
    + exists line. split; [exact R | exact C].
Defined.

Lemma file_lines_text_witness :
  file_lines (text [lit "timelimit 5"; []; lit "yes"] ++ lit "sleep 3")
  = Some [lit "timelimit 5"; []; lit "yes"; lit "sleep 3"].
Proof.
  apply (file_lines_text [lit "timelimit 5"; []; lit "yes"] (lit "sleep 3")).
  repeat (apply List.Forall_cons;
          [split; [absent | split; [absent | smaller]] |]).
  apply List.Forall_nil.
Defined.

(** Midnight and a quarter past three in the afternoon. *)
Lemma date_fields_decode_witness :
  (exists wkday month date year hour min sec xm,
      date_fields {| tm_sec := 9; tm_min := 7; tm_hour := 0; tm_mday := 4;
                     tm_mon := 0; tm_year := 126; tm_wday := 0 |}
      = (wkday, month, date, year, hour, min, sec, xm)
      /\ 1 <= hour <= 12 /\ xm = lit "AM" /\ 0 = hour mod 12 + 0)
  /\ date_fields {| tm_sec := 0; tm_min := 15; tm_hour := 15; tm_mday := 4;
                    tm_mon := 0; tm_year := 126; tm_wday := 0 |}
     = (lit "Sun", lit "Jan", 4, 2026, 3, 15, 0, lit "PM").
Proof.
  split; [| reflexivity].
  apply (proj1 date_fields_decode
           {| tm_sec := 9; tm_min := 7; tm_hour := 0; tm_mday := 4;
              tm_mon := 0; tm_year := 126; tm_wday := 0 |}).
  cbn. lia.
Defined.

Lemma get_num_digits_spec_witness :
  get_num_digits (-4321) = 4
  /\ 10 ^ (get_num_digits (-4321) - 1) <= Z.abs (-4321)
     < 10 ^ get_num_digits (-4321).
Proof.
  destruct (get_num_digits_spec (-4321)) as (_ & _ & H).
  - unfold CInt.INT_MAX. lia.
  - split; [reflexivity |]. apply H. discriminate.
Defined.

(** The child of the sample world that has run for 15 seconds. *)
Lemma cpu_usage_is_utime_plus_stime_witness :
  exists s',
    get_cpu_usage (os := Sim.linux) 100 (Sim.supervising Sim.linux Sim.busy (-1))
    = Ret 150 s'.
Proof.
  destruct (cpu_usage_is_utime_plus_stime (os := Sim.linux) 100
              [lit "100"; lit "(cmd)"; lit "S"; lit "1"; lit "1"; lit "1";
               lit "0"; lit "-1"; lit "0"; lit "0"; lit "0"; lit "0"; lit "0"]
              120 30 (lit "0 0 20 0 1 0 5 0 0")
              (Sim.supervising Sim.linux Sim.busy (-1)))
    as (s' & H & _).
  - unfold CInt.INT_MAX. lia.
  - vm_compute. reflexivity.
  - reflexivity.
  - repeat constructor; absent.
  - lia.
  - lia.
  - unfold CInt.INT_MAX. lia.
  - exists s'. exact H.
Defined.

Lemma cpu_usage_of_short_file_witness :
  exists s',
    get_cpu_usage (os := file_host (lit "100 (cmd) S 1 1")) 100
      (initial_state (os := file_host (lit "100 (cmd) S 1 1")) tt)
    = Ret (-1) s'.
Proof.
  destruct (cpu_usage_of_short_file (os := file_host (lit "100 (cmd) S 1 1"))
              100 (lit "100 (cmd) S 1 1")
              (initial_state (os := file_host (lit "100 (cmd) S 1 1")) tt))
    as (s' & H & _).
  - unfold CInt.INT_MAX. lia.
  - reflexivity.
  - smaller.
  - exists s'. exact H.
Defined.

Lemma read_timer_time_limit_witness :
  read_timer (Some (lit " timelimit  30 seconds"))
  = Some (30, Some (lit " timelimit")).
Proof.
  apply (proj1 read_timer_time_limit 30 1%nat 1%nat (lit " seconds")).
  - unfold CInt.INT_MAX. lia.
  - right. eexists. reflexivity.
Defined.

Lemma convert_str_to_int_value_witness :
  convert_str_to_int (lit "0075") = 75
  /\ convert_str_to_int (lit "0075") = Libc.atoi (lit "0075").
Proof.
  destruct (convert_str_to_int_value (lit "0075")) as (H1 & H2).
  - repeat constructor; discriminate.
  - vm_compute. discriminate.
  - split; [exact H1 | exact H2].
Defined.

Lemma len_pids_spec_witness :
  len_pids (os := Sim.linux) (table_of [100; 101] [None; None])
    (Sim.supervising Sim.linux Sim.busy (-1))
  = Ret 2%nat (Sim.supervising Sim.linux Sim.busy (-1)).
Proof.
  apply (proj1 (len_pids_spec (os := Sim.linux)) [100; 101] [None; None]).
  intros [H | [H | []]]; discriminate H.
Defined.

(** A first line of three spaces. *)
Lemma blank_first_line_faults_witness :
  exists date s',
    read_file (os := Sim.linux) 100 (lit "procs.txt")
      (Some {| d_bytes := lit "   " ++ NEWLINE :: lit "yes" ++ [NEWLINE];
               d_blksize := 4096 |})
      (initial_state (os := Sim.linux) (Sim.boot None))
    = Fault s'
    /\ st_trace s' = [EPrint OStartingReport; EPrint (ODate date)].
Proof.
  destruct (blank_first_line_faults (os := Sim.linux) 100 (lit "procs.txt")
              2 (NEWLINE :: lit "yes" ++ [NEWLINE]) 4096
              (initial_state (os := Sim.linux) (Sim.boot None)))
    as (date & s' & H & R).
  - unfold PATH_MAX, MAX_ARG_LENGTH. lia.
  - right. eexists. reflexivity.
  - exists date, s'. split; [exact H |].
    exact (runs_exact _ _ _ R eq_refl).
Defined.

(** A child of the simulated host that has not been waited for, found by
    looking. *)
Lemma unreaped_found pid w :
  existsb (fun c => (Sim.c_pid c =? pid) && negb (Sim.c_reaped c))
    (Sim.children w) = true ->
  Sim.unreaped pid w.
Proof.
  intros H. apply existsb_exists in H as (c & Hin & Hc).
  apply andb_prop in Hc as (Hp & Hr). exists c.
  split; [exact Hin |]. split; [now apply Z.eqb_eq |].
  now destruct (Sim.c_reaped c).
Qed.

Ltac positive_pids :=
  repeat (apply List.Forall_cons; [unfold CInt.INT_MAX; lia |]);
  apply List.Forall_nil.

Ltac unreaped_pids :=
  repeat (apply List.Forall_cons; [apply unreaped_found; reflexivity |]);
  apply List.Forall_nil.

(** The usual host, with [yes] running and [sleep 3] gone but not waited
    for: both have their /proc files. *)
Lemma initial_counters_witness :
  exists counters s',
    initialize_cpu_counters (os := Sim.linux) (table_of [100; 101] []) 2
      (Sim.supervising Sim.linux Sim.busy (-1))
    = Ret counters s'
    /\ length counters = 2%nat.
Proof.
  destruct (initial_counters (os := Sim.linux) Sim.unreaped [100; 101] []
              (Sim.supervising Sim.linux Sim.busy (-1)))
    as (counters & s' & H & _ & Hl & _).
  - positive_pids.
  - apply sim_procfs_tracks.
  - unreaped_pids.
  - exists counters, s'. split; [exact H | exact Hl].
Defined.

(** The time limit has passed: supervision ends by [exit(0)]. *)
Lemma supervision_is_safe_witness :
  match periodic_reports (os := Sim.linux) 3 4 (table_of [100; 101] [])
          (Sim.supervising Sim.linux Sim.busy (-1)) with
  | Exited code _ => code = 0
  | Spin _ => True
  | Ret _ _ | Exec _ | Fault _ => False
  end
  /\ ending_of (periodic_reports (os := Sim.linux) 3 4
                  (table_of [100; 101] [])
                  (Sim.supervising Sim.linux Sim.busy (-1)))
     = ExitedWith 0.
Proof.
  split; [| vm_compute; reflexivity].
  apply (supervision_is_safe (os := Sim.linux) Sim.unreaped).
  - positive_pids.
  - apply sim_procfs_tracks.
  - unreaped_pids.
  - intros w. cbn. unfold CInt.INT_MAX. lia.
Defined.

Ltac found_lines :=
  repeat (apply List.Forall_cons;
          [first [ left; reflexivity
                 | right; split; [discriminate | intros w; reflexivity] ] |]);
  apply List.Forall_nil.

Lemma boot_room sigint n :
  (Z.of_nat n <= 1000) -> Sim.room n (Sim.boot sigint).
Proof.
  intros H. split; [constructor |]. cbn. unfold CInt.INT_MAX. lia.
Qed.

(** A time limit, two commands and an empty line between them. *)
Lemma read_file_returns_witness :
  exists launches junk s',
    read_file (os := Sim.linux) 100 (lit "procs.txt")
      (Some (Sim.file_of ["timelimit 20"; "yes"; ""; "sleep 3"]%string))
      (initial_state (os := Sim.linux) (Sim.boot None))
    = Ret (Some (table_of (started launches) junk)) s'
    /\ length launches = 3%nat
    /\ Forall (fun pid => Sim.unreaped pid (st_world s')) (started launches).
Proof.
  destruct (read_file_returns (os := Sim.linux) Sim.unreaped Sim.room 100
              (lit "procs.txt")
              [lit "timelimit 20"; lit "yes"; []; lit "sleep 3"] 4096
              (initial_state (os := Sim.linux) (Sim.boot None)))
    as (launches & junk & t & s' & H & Hl & _ & Hu & _).
  - apply sim_procfs_tracks.
  - apply sim_launch_tracks.
  - plain_lines.
  - discriminate.
  - found_lines.
  - apply boot_room. apply Z.leb_le. vm_compute. reflexivity.
  - apply Nat.leb_le. vm_compute. reflexivity.
  - exists launches, junk, s'. split; [exact H |]. split; [exact Hl | exact Hu].
Defined.


Lemma main_returns_only_without_file_witness :
  exists s',
    main (os := Sim.linux) 1 1 1 (lit "procs.txt") None
      (initial_state (os := Sim.linux) (Sim.boot None))
    = Ret 1 s'
    /\ st_trace s' = [EPrint (ONotFound (lit "procs.txt"))].
Proof.
  destruct (proj1 (main_returns_only_without_file (os := Sim.linux) 1 1 1
                     (lit "procs.txt"))
              (initial_state (os := Sim.linux) (Sim.boot None)))
    as (s' & H & Ht & _).
  exists s'. split; [exact H | exact Ht].
Defined.

(** The file [timelimit 7], [yes]: the limit is set, [yes] is launch number
    0 and one process is in the table. *)
Lemma time_limit_line_witness :
  exists handed s',
    read_file (os := Sim.linux) 100 (lit "procs.txt")
      (Some (Sim.file_of ["timelimit 7"; "yes"]%string))
      (initial_state (os := Sim.linux) (Sim.boot None))
    = Ret (Some [Some 100; Some (-1); None; None; None; None; None; None;
                 None; None]) s'
    /\ TARGET_TIME s' = 7
    /\ head handed = Some (lit "yes").
Proof.
  assert (P : match read_file (os := Sim.linux) 100 (lit "procs.txt")
                      (Some (Sim.file_of ["timelimit 7"; "yes"]%string))
                      (initial_state (os := Sim.linux) (Sim.boot None))
                with
                | Ret (Some tbl) _ => Some tbl
                | _ => None
                end
                = Some [Some 100; Some (-1); None; None; None; None; None;
                        None; None; None]) by (vm_compute; reflexivity).
  destruct (read_file (os := Sim.linux) 100 (lit "procs.txt")
              (Some (Sim.file_of ["timelimit 7"; "yes"]%string))
              (initial_state (os := Sim.linux) (Sim.boot None)))
    as [[tbl |] s' | | | |] eqn:Hrun; try discriminate P.
  injection P as ->.
  destruct (time_limit_line (os := Sim.linux) 100 7 (lit "yes" ++ [NEWLINE])
              4096 (lit "procs.txt") _ _ _ ltac:(unfold CInt.INT_MAX; lia)
              Hrun)
    as (Ht & handed & launches & junk & t & _ & _ & _ & _ & Hh).
  exists handed, s'. split; [reflexivity |]. split; [exact Ht |].
  apply (Hh (lit "yes") [NEWLINE]).
  - reflexivity.
  - discriminate.
  - right. eexists. reflexivity.
  - absent.
  - absent.
  - smaller.
Defined.

(** The stop flag is set while [yes] still runs: the first turn ends the
    program. *)
Lemma stop_request_ends_supervision_witness :
  exists s',
    periodic_reports (os := Sim.linux) 1 1 (table_of [100; 101] [])
      (Sim.supervising Sim.linux Sim.busy 1)
    = Exited 0 s'.
Proof.
  apply (proj2 (stop_request_ends_supervision (os := Sim.linux) Sim.unreaped
                  [100; 101] [] ltac:(positive_pids)
                  (sim_procfs_tracks false)) O O).
  - intros w. cbn. unfold CInt.INT_MAX. lia.
  - unreaped_pids.
  - reflexivity.
Defined.

(** [sleep 25] is reported twice before it is found gone in the third
    report. *)
Lemma reports_are_five_seconds_apart_witness :
  match periodic_reports (os := Sim.linux) 4 10 (table_of [100; 101] [])
          (initial_state (os := Sim.linux) napping) with
  | Exited _ s' =>
      exists X,
        runs (initial_state (os := Sim.linux) napping) s' X
        /\ spaced 1015 (report_dates X)
  | Ret _ _ | Exec _ | Fault _ | Spin _ => True
  end
  /\ (let r := periodic_reports (os := Sim.linux) 4 10 (table_of [100; 101] [])
                 (initial_state (os := Sim.linux) napping) in
      ending_of r = ExitedWith 0
      /\ report_dates (st_trace (final_state r)) = [1015; 1022; 1029]).
Proof.
  split; [| vm_compute; split; reflexivity].
  apply (reports_are_five_seconds_apart (os := Sim.linux) Sim.clock).
  - intros w. cbn. split; [reflexivity | lia].
  - intros pid w. cbn. unfold Sim.waitpid.
    destruct (Sim.reap pid (Sim.clock w) (Sim.children w)). cbn. lia.
  - intros w. cbn. unfold Sim.sigint. destruct (Sim.sigint_at w) as [t |].
    + destruct (t <=? Sim.clock w); cbn; lia.
    + cbn. lia.
Defined.

(** ** Where the specification and the code part *)

(** C2 fails on the code.  The file holds [bad], which is not found, and
    [yes].  The child of [bad] leaves by [exit] and moves the stream back,
    so [yes] is read and launched twice: it is announced as [[1]] and as
    [[2]], and the two processes are reported as [[0]] and [[1]]. *)
Lemma failed_launch_shifts_indices :
  observe (Sim.run Sim.linux (Sim.boot None) 1 10 ["bad"; "yes"]%string)
  = (StillRunning,
     [EPrint OStartingReport; EPrint (ODate 1000);
      EFork (lit "bad") 100; EUsleep 100000; EWaitpid 100 100;
      EPrint (OBad 0 (Some (lit "bad")));
      EFork (lit "yes") 101; EUsleep 100000; EWaitpid 101 0;
      EPrint (OStarted 1 (Some (lit "yes")) 101);
      EFork (lit "yes") 102; EUsleep 100000; EWaitpid 102 0;
      EPrint (OStarted 2 (Some (lit "yes")) 102);
      EPrint ODots; EPrint ONormalReport; EPrint (ODate 1002);
      EWaitpid 101 0; EPrint (ORunning 0 2 3);
      EWaitpid 102 0; EPrint (ORunning 1 2 3);
      EPrint ODots]).
Proof. vm_compute. reflexivity. Qed.

(** C8 fails on the code.  The file holds the one line [sleep 100], a
    command that runs for 100 seconds.  [read_timer] tokenises the line in
    place, so the launcher is handed [sleep] alone, which exits at once: the
    line is reported as failed and the table stays empty.  Behind a time
    limit line the same command starts. *)
Lemma first_line_loses_its_arguments :
  Sim.lifetime (lit "sleep 100") = Some 100
  /\ command_lines [lit "sleep 100"] = [lit "sleep"]
  /\ observe (Sim.run Sim.linux (Sim.boot None) 1 10 ["sleep 100"]%string)
     = (ExitedWith 0,
        [EPrint OStartingReport; EPrint (ODate 1000);
         EFork (lit "sleep") 100; EUsleep 100000; EWaitpid 100 100;
         EPrint (OBad 0 (Some (lit "sleep")));
         EPrint ODots; EPrint ONormalReport; EPrint (ODate 1002);
         EPrint (OExitingDots 2)])
  /\ observe (Sim.run Sim.linux (Sim.boot None) 1 10
                ["timelimit 50"; "sleep 100"]%string)
     = (StillRunning,
        [EPrint OStartingReport; EPrint (ODate 1000);
         EFork (lit "sleep 100") 100; EUsleep 100000; EWaitpid 100 0;
         EPrint (OStarted 0 (Some (lit "sleep")) 100);
         EPrint ODots; EPrint ONormalReport; EPrint (ODate 1002);
         EWaitpid 100 0; EPrint (ORunning 0 2 3);
         EPrint ODots]).
Proof. repeat split; vm_compute; reflexivity. Qed.
